(** * Workout-tracker analytics engine: a shallow embedding and its properties

    The development follows the three services of [analytics-python/services]:
    [strength_predictor.py] (the 1RM formulas and the [StrengthPredictor]),
    [anomaly_detector.py] (the [AnomalyDetector]) and [recommender.py] (the
    [TrainingRecommender]).

    Conventions of the embedding:
    - a Python/NumPy float is a [pyfloat]: a real number, one of the two
      infinities, or NaN.  Arithmetic on finite values is exact (rounding error
      and overflow are not modelled); the non-finite cases follow IEEE 754 as
      NumPy scalars implement it (division by zero yields an infinity or NaN,
      every comparison with NaN is false);
    - a Python [int] is a [Z];
    - an operation that can raise returns a [result];
    - a [DataFrame] is a list of rows carrying their index label, together
      with the set of columns that are present. *)

From Stdlib Require Import Reals Lra Lia ZArith List String Bool.
Import ListNotations.
Open Scope R_scope.

(** ** Exceptions *)

Inductive exn : Type :=
| ValueError (msg : string)
| OverflowError (msg : string)
| KeyError (col : string).

Inductive result (A : Type) : Type :=
| Ok (a : A)
| Raise (e : exn).
Arguments Ok {A} a.
Arguments Raise {A} e.

Definition bind {A B : Type} (m : result A) (k : A -> result B) : result B :=
  match m with
  | Ok a => k a
  | Raise e => Raise e
  end.

Notation "x <- m ;; k" := (bind m (fun x => k))
  (at level 61, m at next level, right associativity).

(** ** Floating-point values *)

Inductive pyfloat : Type :=
| Fin (x : R)
| PInf
| NInf
| NaN.

Definition Rltb (x y : R) : bool := if Rlt_dec x y then true else false.
Definition Rleb (x y : R) : bool := if Rle_dec x y then true else false.
Definition Reqb (x y : R) : bool := if Req_dec_T x y then true else false.

Definition of_int (z : Z) : pyfloat := Fin (IZR z).
Definition of_nat (n : nat) : pyfloat := Fin (INR n).

Definition is_nan (a : pyfloat) : bool :=
  match a with NaN => true | _ => false end.

(** [pd.isna] / [pd.notna] on a float cell. *)
Definition isna (a : pyfloat) : bool := is_nan a.
Definition notna (a : pyfloat) : bool := negb (is_nan a).

Definition fopp (a : pyfloat) : pyfloat :=
  match a with
  | Fin x => Fin (- x)
  | PInf => NInf
  | NInf => PInf
  | NaN => NaN
  end.

Definition fadd (a b : pyfloat) : pyfloat :=
  match a, b with
  | NaN, _ | _, NaN => NaN
  | Fin x, Fin y => Fin (x + y)
  | PInf, NInf | NInf, PInf => NaN
  | PInf, _ | _, PInf => PInf
  | NInf, _ | _, NInf => NInf
  end.

Definition fsub (a b : pyfloat) : pyfloat := fadd a (fopp b).

(** The infinity with the sign of [x], NaN when [x] is zero. *)
Definition signed_inf (x : R) : pyfloat :=
  if Rltb 0 x then PInf else if Rltb x 0 then NInf else NaN.

Definition fmul (a b : pyfloat) : pyfloat :=
  match a, b with
  | NaN, _ | _, NaN => NaN
  | Fin x, Fin y => Fin (x * y)
  | Fin x, PInf | PInf, Fin x => signed_inf x
  | Fin x, NInf | NInf, Fin x => signed_inf (- x)
  | PInf, PInf | NInf, NInf => PInf
  | PInf, NInf | NInf, PInf => NInf
  end.

(** Division of NumPy scalars: a zero divisor gives an infinity (NaN for 0/0)
    and a warning, not an exception. *)
Definition fdiv (a b : pyfloat) : pyfloat :=
  match a, b with
  | NaN, _ | _, NaN => NaN
  | Fin x, Fin y => if Reqb y 0 then signed_inf x else Fin (x / y)
  | Fin _, PInf | Fin _, NInf => Fin 0
  | PInf, Fin y => if Rltb y 0 then NInf else PInf
  | NInf, Fin y => if Rltb y 0 then PInf else NInf
  | PInf, PInf | PInf, NInf | NInf, PInf | NInf, NInf => NaN
  end.

Definition flt (a b : pyfloat) : bool :=
  match a, b with
  | NaN, _ | _, NaN => false
  | Fin x, Fin y => Rltb x y
  | Fin _, PInf | NInf, Fin _ | NInf, PInf => true
  | Fin _, NInf | NInf, NInf | PInf, _ => false
  end.

Definition feq (a b : pyfloat) : bool :=
  match a, b with
  | Fin x, Fin y => Reqb x y
  | PInf, PInf | NInf, NInf => true
  | _, _ => false
  end.

Definition fle (a b : pyfloat) : bool := flt a b || feq a b.
Definition fgt (a b : pyfloat) : bool := flt b a.
Definition fge (a b : pyfloat) : bool := fle b a.

Definition fsqrt (a : pyfloat) : pyfloat :=
  match a with
  | Fin x => if Rltb x 0 then NaN else Fin (sqrt x)
  | PInf => PInf
  | NInf | NaN => NaN
  end.

Definition fsum (l : list pyfloat) : pyfloat := fold_left fadd l (Fin 0).

(** ** Python built-ins *)

(** [max(a, b)]: the first argument unless the second is strictly greater. *)
Definition pymax (a b : pyfloat) : pyfloat := if fgt b a then b else a.

(** [min(a, b)]: the first argument unless the second is strictly smaller. *)
Definition pymin (a b : pyfloat) : pyfloat := if flt b a then b else a.

(** Round-half-to-even of a real number. *)
Definition round_half_even (x : R) : Z :=
  let f := Zfloor x in
  let d := x - IZR f in
  if Rltb d (1/2) then f
  else if Rltb (1/2) d then (f + 1)%Z
  else if Z.even f then f else (f + 1)%Z.

(** [round(x)]: the nearest integer, raising on values that are not finite. *)
Definition pyround (a : pyfloat) : result Z :=
  match a with
  | Fin x => Ok (round_half_even x)
  | PInf | NInf => Raise (OverflowError "cannot convert float infinity to integer")
  | NaN => Raise (ValueError "cannot convert float NaN to integer")
  end.

(** [round(x, n)] on a float: stays a float, non-finite values pass through. *)
Definition pyround_nd (a : pyfloat) (n : nat) : pyfloat :=
  match a with
  | Fin x => Fin (IZR (round_half_even (x * 10 ^ n)) / 10 ^ n)
  | _ => a
  end.

(** [int(x)]: truncation towards zero. *)
Definition trunc (x : R) : Z := if Rltb x 0 then Zceil x else Zfloor x.

Definition pyint (a : pyfloat) : result Z :=
  match a with
  | Fin x => Ok (trunc x)
  | PInf | NInf => Raise (OverflowError "cannot convert float infinity to integer")
  | NaN => Raise (ValueError "cannot convert float NaN to integer")
  end.

(** [np.mean] of a list of values. *)
Definition np_mean (l : list pyfloat) : pyfloat :=
  fdiv (fsum l) (of_nat (List.length l)).

(** [d.get(key, default)] on a dictionary kept as an association list. *)
Fixpoint dict_get {A : Type} (d : list (string * A)) (key : string) (default : A) : A :=
  match d with
  | [] => default
  | (k, v) :: d' => if String.eqb k key then v else dict_get d' key default
  end.

(** ** One-rep-max formulas ([strength_predictor.calculate_1rm]) *)

Definition formula_epley (weight : pyfloat) (reps : Z) : pyfloat :=
  fmul weight (Fin (1 + IZR reps / 30)).

Definition formula_brzycki (weight : pyfloat) (reps : Z) : pyfloat :=
  if (reps <? 37)%Z then fmul weight (Fin (36 / IZR (37 - reps)))
  else fmul weight (Fin 2).

Definition formula_lombardi (weight : pyfloat) (reps : Z) : pyfloat :=
  fmul weight (Fin (Rpower (IZR reps) 0.10)).

Definition formula_oconner (weight : pyfloat) (reps : Z) : pyfloat :=
  fmul weight (Fin (1 + IZR reps / 40)).

Definition formula_mayhew (weight : pyfloat) (reps : Z) : pyfloat :=
  fmul weight (Fin (100 / (52.2 + 41.9 * exp (- 0.055 * IZR reps)))).

(** The dictionary [formulas] built by [calculate_1rm], in insertion order. *)
Definition formulas (weight : pyfloat) (reps : Z) : list (string * pyfloat) :=
  [ ("epley"%string, formula_epley weight reps);
    ("brzycki"%string, formula_brzycki weight reps);
    ("lombardi"%string, formula_lombardi weight reps);
    ("oconner"%string, formula_oconner weight reps);
    ("mayhew"%string, formula_mayhew weight reps) ].

Definition calculate_1rm (weight : pyfloat) (reps : Z) (formula : string) : pyfloat :=
  if (reps =? 1)%Z then weight
  else if (reps <? 1)%Z || fle weight (Fin 0) then Fin 0
  else if String.eqb formula "average" then np_mean (map snd (formulas weight reps))
  else dict_get (formulas weight reps) formula (formula_epley weight reps).

(** The average as the specification words it: the mean of four formulas,
    Mayhew left out. *)
Definition spec_average (weight : pyfloat) (reps : Z) : pyfloat :=
  np_mean [ formula_epley weight reps; formula_brzycki weight reps;
            formula_lombardi weight reps; formula_oconner weight reps ].

(** ** Calendar dates *)

(** A date is its proleptic Gregorian ordinal ([date.toordinal()]), so that a
    difference of dates is a number of days. *)
Definition is_leap (y : Z) : bool :=
  ((y mod 4 =? 0) && (negb (y mod 100 =? 0) || (y mod 400 =? 0)))%Z.

Definition days_before_year (y : Z) : Z :=
  let y' := (y - 1)%Z in (y' * 365 + y' / 4 - y' / 100 + y' / 400)%Z.

Definition days_before_month (y m : Z) : Z :=
  (nth (Z.to_nat (m - 1)) [0; 31; 59; 90; 120; 151; 181; 212; 243; 273; 304; 334] 0
   + (if (2 <? m) && is_leap y then 1 else 0))%Z.

Definition ymd (y m d : Z) : Z :=
  (days_before_year y + days_before_month y m + d)%Z.

(** ** Data frames *)

(** How the [workout_date] column is stored: as the Python objects the caller
    put there ([datetime.date] values or strings, dtype [object]) or, after
    [pd.to_datetime], as timestamps (dtype [datetime64]). *)
Inductive date_dtype : Type := ObjectDates | Datetime64.

(** One row of a sessions table.  [label] is the row's index label; a numeric
    cell that is missing holds [NaN]. *)
Record Session : Type := mkSession {
  label : Z;
  id : Z;
  workout_date : Z;
  total_volume : pyfloat;
  estimated_1rm : pyfloat;
  avg_rpe : pyfloat;
  perceived_exertion : pyfloat
}.

Record DataFrame : Type := mkDataFrame {
  rows : list Session;
  dates_as : date_dtype;
  has_total_volume : bool;
  has_estimated_1rm : bool;
  has_avg_rpe : bool;
  has_perceived_exertion : bool
}.

Definition len (df : DataFrame) : Z := Z.of_nat (List.length (rows df)).

Definition with_rows (df : DataFrame) (rs : list Session) : DataFrame :=
  mkDataFrame rs (dates_as df) (has_total_volume df) (has_estimated_1rm df)
    (has_avg_rpe df) (has_perceived_exertion df).

(** [df['workout_date'] = pd.to_datetime(df['workout_date'])]: the column is
    replaced by its conversion to timestamps. *)
Definition to_datetime_workout_date (df : DataFrame) : DataFrame :=
  mkDataFrame (rows df) Datetime64 (has_total_volume df) (has_estimated_1rm df)
    (has_avg_rpe df) (has_perceived_exertion df).

(** [df.sort_values('workout_date')]: rows in ascending date order, each
    keeping its index label.  Here rows of equal date keep their relative
    order; pandas' default sort does not promise that, so a statement that
    depends on the order of such rows assumes that no two rows share a
    date. *)
Fixpoint insert_by_date (r : Session) (l : list Session) : list Session :=
  match l with
  | [] => [r]
  | h :: t =>
      if (workout_date r <=? workout_date h)%Z then r :: h :: t
      else h :: insert_by_date r t
  end.

Definition sort_by_date (l : list Session) : list Session :=
  fold_right insert_by_date [] l.

Definition sort_values (df : DataFrame) : DataFrame :=
  with_rows df (sort_by_date (rows df)).

(** [df.head(n)] and [df.tail(n)] on a list of rows or of cells. *)
Definition head {A : Type} (n : nat) (l : list A) : list A := firstn n l.
Definition tail {A : Type} (n : nat) (l : list A) : list A :=
  skipn (List.length l - n) l.

(** ** Series statistics *)

Definition is_finite (a : pyfloat) : bool :=
  match a with Fin _ => true | _ => false end.

Definition dropna (s : list pyfloat) : list pyfloat := filter notna s.

(** [Series.mean()]: missing values are skipped; NaN when nothing is left. *)
Definition series_mean (s : list pyfloat) : pyfloat :=
  match dropna s with
  | [] => NaN
  | v => fdiv (fsum v) (of_nat (List.length v))
  end.

(** [Series.var()]: the sample variance (one degree of freedom removed) of
    the values present, NaN with fewer than two of them. *)
Definition series_var (s : list pyfloat) : pyfloat :=
  let v := dropna s in
  if (List.length v <? 2)%nat then NaN
  else
    let m := fdiv (fsum v) (of_nat (List.length v)) in
    fdiv (fsum (map (fun x => fmul (fsub x m) (fsub x m)) v))
         (of_nat (List.length v - 1)).

Definition series_std (s : list pyfloat) : pyfloat := fsqrt (series_var s).

(** [Series.diff()]. *)
Fixpoint diff_from (prev : pyfloat) (s : list pyfloat) : list pyfloat :=
  match s with
  | [] => []
  | x :: t => fsub x prev :: diff_from x t
  end.

Definition series_diff (s : list pyfloat) : list pyfloat :=
  match s with
  | [] => []
  | x :: t => NaN :: diff_from x t
  end.

(** [Series.ffill()]: a missing value takes the last value seen before it. *)
Fixpoint ffill_from (prev : pyfloat) (s : list pyfloat) : list pyfloat :=
  match s with
  | [] => []
  | x :: t => let x' := if is_nan x then prev else x in x' :: ffill_from x' t
  end.

(** [Series.pct_change()] with its default forward fill: the relative change
    from the previous value. *)
Fixpoint pct_from (prev : pyfloat) (s : list pyfloat) : list pyfloat :=
  match s with
  | [] => []
  | x :: t => fsub (fdiv x prev) (Fin 1) :: pct_from x t
  end.

Definition series_pct_change (s : list pyfloat) : list pyfloat :=
  match ffill_from NaN s with
  | [] => []
  | x :: t => NaN :: pct_from x t
  end.

(** [Series.cumsum()]: a running total that skips missing values, which stay
    missing in the result. *)
Fixpoint cumsum_from (acc : pyfloat) (s : list pyfloat) : list pyfloat :=
  match s with
  | [] => []
  | x :: t =>
      if is_nan x then NaN :: cumsum_from acc t
      else let acc' := fadd acc x in acc' :: cumsum_from acc' t
  end.

Definition series_cumsum (s : list pyfloat) : list pyfloat := cumsum_from (Fin 0) s.

(** [Series.fillna(v)]. *)
Definition fillna (v : pyfloat) (s : list pyfloat) : list pyfloat :=
  map (fun x => if is_nan x then v else x) s.

(** [Series.rolling(window, min_periods)]: at every position the statistic of
    the observations among the last [window] cells, NaN while fewer than
    [min_periods] of them are present.  Rolling windows treat an infinite cell
    as missing. *)
Definition observed (s : list pyfloat) : list pyfloat := filter is_finite s.

Definition window_at (window : nat) (s : list pyfloat) (i : nat) : list pyfloat :=
  observed (tail window (firstn (S i) s)).

Definition rolling (window min_periods : nat) (stat : list pyfloat -> pyfloat)
    (s : list pyfloat) : list pyfloat :=
  map (fun i =>
         let w := window_at window s i in
         if (List.length w <? min_periods)%nat then NaN else stat w)
      (seq 0 (List.length s)).

Definition rolling_mean (window min_periods : nat) := rolling window min_periods series_mean.
Definition rolling_std (window min_periods : nat) := rolling window min_periods series_std.

(** [df['workout_date'].diff().dt.days]: whole days since the previous row,
    missing on the first row. *)
Fixpoint gaps_from (prev : Z) (ds : list Z) : list (option Z) :=
  match ds with
  | [] => []
  | d :: t => Some (d - prev)%Z :: gaps_from d t
  end.

Definition days_gap (ds : list Z) : list (option Z) :=
  match ds with
  | [] => []
  | d :: t => None :: gaps_from d t
  end.

Definition gap_cell (g : option Z) : pyfloat :=
  match g with Some z => of_int z | None => NaN end.

(** ** The anomaly detector ([anomaly_detector.py]) *)

Inductive AnomalyType : Type :=
| PERFORMANCE_DROP | PERFORMANCE_SPIKE | VOLUME_SPIKE | VOLUME_DROP
| HIGH_FATIGUE | POSSIBLE_PR | LONG_GAP | UNUSUAL_RPE.

Inductive Severity : Type := Low | Medium | High.

(** A value of an anomaly's [details] dictionary. *)
Inductive detail : Type :=
| DNum (x : pyfloat)
| DInt (z : Z)
| DPercent (x : pyfloat)
| DList (l : list pyfloat).

(** A detected anomaly.  [anomaly_date] stands for the formatted date
    (['%Y-%m-%d'] strings order as the dates they print); the [message] text,
    a rendering of the details, is left out. *)
Record Anomaly : Type := mkAnomaly {
  anomaly_type : AnomalyType;
  anomaly_date : Z;
  severity : Severity;
  details : list (string * detail)
}.

Definition column (f : Session -> pyfloat) (df : DataFrame) : list pyfloat :=
  map f (rows df).

Definition dates (df : DataFrame) : list Z := map workout_date (rows df).

Section AnomalyDetector.

(** [self.z_threshold]. *)
Variable z_threshold : pyfloat.

Definition _calculate_z_score (value : pyfloat) (series : list pyfloat) : pyfloat :=
  let mean := series_mean series in
  let std := series_std series in
  if feq std (Fin 0) then Fin 0
  else fdiv (fsub value mean) std.

(** The body of the loop of [_detect_performance_anomalies] for one row, given
    the row's [rolling_mean] and [rolling_std]. *)
Definition performance_row (row : Session) (rolling_mean_i rolling_std_i : pyfloat)
    : list Anomaly :=
  if isna rolling_mean_i || isna rolling_std_i then []
  else if feq rolling_std_i (Fin 0) then []
  else
    let z_score := fdiv (fsub (estimated_1rm row) rolling_mean_i) rolling_std_i in
    let details :=
      [ ("actual_1rm"%string, DNum (pyround_nd (estimated_1rm row) 1));
        ("expected_1rm"%string, DNum (pyround_nd rolling_mean_i 1));
        ("z_score"%string, DNum (pyround_nd z_score 2)) ] in
    if flt z_score (fopp z_threshold) then
      [ mkAnomaly PERFORMANCE_DROP (workout_date row)
          (if flt z_score (Fin (-3)) then High else Medium) details ]
    else if fgt z_score z_threshold then
      [ mkAnomaly PERFORMANCE_SPIKE (workout_date row) Low details ]
    else [].

Definition _detect_performance_anomalies (df : DataFrame) : list Anomaly :=
  if negb (has_estimated_1rm df) || forallb isna (column estimated_1rm df) then []
  else
    let rolling_means := rolling_mean 5 2 (column estimated_1rm df) in
    let rolling_stds := rolling_std 5 2 (column estimated_1rm df) in
    flat_map (fun '(row, (m, s)) => performance_row row m s)
      (combine (rows df) (combine rolling_means rolling_stds)).

(** The body of the loop of [_detect_volume_anomalies] for one row. *)
Definition volume_row (mean_volume std_volume : pyfloat) (row : Session)
    : list Anomaly :=
  let z_score := fdiv (fsub (total_volume row) mean_volume) std_volume in
  if fgt z_score z_threshold then
    [ mkAnomaly VOLUME_SPIKE (workout_date row) Medium
        [ ("volume"%string, DNum (pyround_nd (total_volume row) 0));
          ("average_volume"%string, DNum (pyround_nd mean_volume 0));
          ("percent_above"%string,
            DNum (pyround_nd
                    (fmul (fsub (fdiv (total_volume row) mean_volume) (Fin 1)) (Fin 100)) 1)) ] ]
  else if flt z_score (fopp z_threshold) then
    [ mkAnomaly VOLUME_DROP (workout_date row) Low
        [ ("volume"%string, DNum (pyround_nd (total_volume row) 0));
          ("average_volume"%string, DNum (pyround_nd mean_volume 0));
          ("percent_below"%string,
            DNum (pyround_nd
                    (fmul (fsub (Fin 1) (fdiv (total_volume row) mean_volume)) (Fin 100)) 1)) ] ]
  else [].

Definition _detect_volume_anomalies (df : DataFrame) : list Anomaly :=
  if negb (has_total_volume df) then []
  else
    let mean_volume := series_mean (column total_volume df) in
    let std_volume := series_std (column total_volume df) in
    if feq std_volume (Fin 0) then []
    else flat_map (volume_row mean_volume std_volume) (rows df).

Definition fatigue_row (row : Session) (performance_trend : pyfloat) : list Anomaly :=
  if notna (avg_rpe row) && fge (avg_rpe row) (Fin 8.5)
     && notna performance_trend && flt performance_trend (Fin (-0.05))
  then
    [ mkAnomaly HIGH_FATIGUE (workout_date row) Medium
        [ ("rpe"%string, DNum (avg_rpe row));
          ("performance_change"%string, DPercent (fmul performance_trend (Fin 100))) ] ]
  else [].

Definition _detect_fatigue_signals (df : DataFrame) : list Anomaly :=
  (if has_avg_rpe df && has_estimated_1rm df then
     flat_map (fun '(row, t) => fatigue_row row t)
       (combine (rows df) (series_pct_change (column estimated_1rm df)))
   else [])
  ++
  (if has_perceived_exertion df then
     let recent := tail 3 (rows df) in
     if (3 <=? List.length recent)%nat
        && forallb (fun r => notna (perceived_exertion r)) recent
        && forallb (fun r => fge (perceived_exertion r) (Fin 8)) recent
     then
       [ mkAnomaly HIGH_FATIGUE (workout_date (last recent (mkSession 0 0 0 NaN NaN NaN NaN)))
           High
           [ ("recent_exertion"%string, DList (map perceived_exertion recent)) ] ]
     else []
   else []).

Definition gap_row (mean_gap std_gap : pyfloat) (row : Session) (gap : option Z)
    : list Anomaly :=
  match gap with
  | None => []
  | Some g =>
      if fgt (of_int g) (pymax (Fin 14) (fadd mean_gap (fmul (Fin 2) std_gap))) then
        [ mkAnomaly LONG_GAP (workout_date row) Low
            [ ("days_gap"%string, DInt g);
              ("average_gap"%string, DNum (pyround_nd mean_gap 1)) ] ]
      else []
  end.

Definition _detect_training_gaps (df : DataFrame) : list Anomaly :=
  let gaps := days_gap (dates df) in
  let mean_gap := series_mean (map gap_cell gaps) in
  let std_gap := series_std (map gap_cell gaps) in
  if isna mean_gap || feq std_gap (Fin 0) then []
  else flat_map (fun '(row, g) => gap_row mean_gap std_gap row g)
         (combine (rows df) gaps).

(** [anomalies.sort(key=lambda x: x['date'], reverse=True)]: most recent
    first, anomalies of one date in the order they were found. *)
Fixpoint insert_by_recency (a : Anomaly) (l : list Anomaly) : list Anomaly :=
  match l with
  | [] => [a]
  | h :: t =>
      if (anomaly_date h <=? anomaly_date a)%Z then a :: h :: t
      else h :: insert_by_recency a t
  end.

Definition sort_most_recent_first (l : list Anomaly) : list Anomaly :=
  fold_right insert_by_recency [] l.

Definition detect_anomalies (df : DataFrame) : list Anomaly :=
  if (len df <? 3)%Z then []
  else
    let df := to_datetime_workout_date (sort_values df) in
    sort_most_recent_first
      (_detect_performance_anomalies df ++ _detect_volume_anomalies df
       ++ _detect_fatigue_signals df ++ _detect_training_gaps df).

End AnomalyDetector.

(** *** Health score *)

Record Scores : Type := mkScores {
  consistency : Z;
  progress : Z;
  volume : Z;
  recovery : Z
}.

Inductive HealthScore : Type :=
| NoScore (message : string)
| Scored (score : Z) (rating : string) (breakdown : Scores)
    (recommendations : list string).

Definition consistency_score (df : DataFrame) : result Z :=
  let gaps := map gap_cell (days_gap (dates df)) in
  let avg_gap := series_mean gaps in
  let gap_variance := series_var gaps in
  let consistency :=
    if fle (Fin 2) avg_gap && fle avg_gap (Fin 4) then Fin 25
    else if flt avg_gap (Fin 2) then Fin 20
    else if fle avg_gap (Fin 7) then
      fsub (Fin 20) (fmul (fsub avg_gap (Fin 4)) (Fin 3))
    else pymax (Fin 0) (fsub (Fin 15) (fsub avg_gap (Fin 7))) in
  let consistency :=
    if fgt gap_variance (Fin 10) then
      fsub consistency (pymin (Fin 10) (fdiv gap_variance (Fin 2)))
    else consistency in
  r <- pyround consistency ;;
  Ok (Z.max 0 r).

Definition progress_score (df : DataFrame) : result Z :=
  let progress :=
    if has_estimated_1rm df && negb (forallb isna (column estimated_1rm df)) then
      let half := (List.length (rows df) / 2)%nat in
      let first_half := series_mean (head half (column estimated_1rm df)) in
      let second_half := series_mean (tail half (column estimated_1rm df)) in
      if fgt first_half (Fin 0) then
        let progress_pct :=
          fmul (fdiv (fsub second_half first_half) first_half) (Fin 100) in
        pymin (Fin 25) (pymax (Fin 0) (fadd (Fin 12.5) (fmul progress_pct (Fin 2))))
      else Fin 12.5
    else Fin 12.5 in
  pyround progress.

Definition volume_score (df : DataFrame) : result Z :=
  let volume :=
    if has_total_volume df then
      let volume_trend := series_mean (series_pct_change (column total_volume df)) in
      let volume_consistency :=
        fsub (Fin 1)
             (pymin (Fin 1) (fdiv (series_std (column total_volume df))
                                  (series_mean (column total_volume df)))) in
      let volume :=
        fadd (fadd (Fin 12.5) (fmul volume_trend (Fin 50)))
             (fmul volume_consistency (Fin 10)) in
      pymin (Fin 25) (pymax (Fin 0) volume)
    else Fin 12.5 in
  pyround volume.

(** The loop over the rows that tracks the longest run of sessions with
    [perceived_exertion >= 8]; the state is
    [(high_exertion_streak, max_streak)]. *)
Definition streak_step (st : Z * Z) (row : Session) : Z * Z :=
  let '(high_exertion_streak, max_streak) := st in
  if fge (perceived_exertion row) (Fin 8) then
    let high_exertion_streak := (high_exertion_streak + 1)%Z in
    (high_exertion_streak, Z.max max_streak high_exertion_streak)
  else (0%Z, max_streak).

Definition recovery_score (df : DataFrame) : Z :=
  let recovery :=
    if has_perceived_exertion df then
      let '(_, max_streak) := fold_left streak_step (rows df) (0%Z, 0%Z) in
      (25 - max_streak * 3)%Z
    else 25%Z in
  Z.max 0 recovery.

Definition _get_recommendations (scores : Scores) : list string :=
  let recommendations :=
    (if (consistency scores <? 15)%Z
     then ["Try to maintain more consistent training frequency"%string] else [])
    ++ (if (progress scores <? 10)%Z
        then ["Consider progressive overload - gradually increase weight or volume"%string]
        else [])
    ++ (if (recovery scores <? 15)%Z
        then ["Consider adding deload weeks or reducing intensity periodically"%string]
        else [])
    ++ (if (volume scores <? 10)%Z
        then ["Training volume may be inconsistent - try to standardize your workouts"%string]
        else []) in
  match recommendations with
  | [] => ["Keep up the great work! Your training looks well-balanced."%string]
  | _ => recommendations
  end.

Definition rating_of (total : Z) : string :=
  if (80 <=? total)%Z then "Excellent"
  else if (60 <=? total)%Z then "Good"
  else if (40 <=? total)%Z then "Fair"
  else "Needs Attention".

Definition get_health_score (df : DataFrame) : result HealthScore :=
  if (len df <? 5)%Z then
    Ok (NoScore "Need at least 5 workouts for health score")
  else
    let df := to_datetime_workout_date (sort_values df) in
    c <- consistency_score df ;;
    p <- progress_score df ;;
    v <- volume_score df ;;
    let scores := mkScores c p v (recovery_score df) in
    let total := (consistency scores + progress scores + volume scores
                  + recovery scores)%Z in
    Ok (Scored total (rating_of total) scores (_get_recommendations scores)).

(** ** The strength predictor ([strength_predictor.py]) *)

Definition vector := list pyfloat.
Definition matrix := list vector.

(** A fitted linear estimator: [coef_] and [intercept_]. *)
Record LinearModel : Type := mkLinearModel {
  coef_ : vector;
  intercept_ : pyfloat
}.

(** The two candidates of [train]: [LinearRegression()] and [Ridge(alpha=1.0)]. *)
Inductive ModelName : Type := linear | ridge.

(** scikit-learn's fitting routines, which live outside the repository:
    [fit name X y] is what [models[name].fit(X, y)] leaves in the estimator,
    [cross_val_score name X y cv] the array of fold scores for
    ['neg_mean_absolute_error'].  Either may raise. *)
Record Sklearn : Type := mkSklearn {
  fit : ModelName -> matrix -> vector -> result LinearModel;
  cross_val_score : ModelName -> matrix -> vector -> Z -> result vector
}.

Definition dot (u v : vector) : pyfloat :=
  fsum (map (fun '(a, b) => fmul a b) (combine u v)).

(** Input validation of the estimators: every entry must be finite. *)
Definition check_array (X : matrix) : result unit :=
  if forallb (forallb is_finite) X then Ok tt
  else Raise (ValueError "Input contains NaN, infinity or a value too large").

(** [model.predict(X)]. *)
Definition predict (m : LinearModel) (X : matrix) : result vector :=
  _ <- check_array X ;;
  Ok (map (fun x => fadd (dot x (coef_ m)) (intercept_ m)) X).

Definition sum_sq (v : vector) : pyfloat := fsum (map (fun a => fmul a a) v).

Definition vsub (u v : vector) : vector :=
  map (fun '(a, b) => fsub a b) (combine u v).

(** [r2_score(y, pred)], with scikit-learn's convention for a constant [y]. *)
Definition r2_score (y pred : vector) : pyfloat :=
  let numerator := sum_sq (vsub y pred) in
  let denominator := sum_sq (map (fun a => fsub a (np_mean y)) y) in
  if negb (feq denominator (Fin 0)) then fsub (Fin 1) (fdiv numerator denominator)
  else if negb (feq numerator (Fin 0)) then Fin 0
  else Fin 1.

(** [model.score(X, y)]. *)
Definition score (m : LinearModel) (X : matrix) (y : vector) : result pyfloat :=
  pred <- predict m X ;;
  Ok (r2_score y pred).

Definition fabs (a : pyfloat) : pyfloat :=
  match a with
  | Fin x => Fin (Rabs x)
  | PInf | NInf => PInf
  | NaN => NaN
  end.

Definition mean_absolute_error (y pred : vector) : pyfloat :=
  np_mean (map fabs (vsub y pred)).

Definition mean_squared_error (y pred : vector) : pyfloat :=
  np_mean (map (fun a => fmul a a) (vsub y pred)).

(** [StandardScaler]: per-column mean and population standard deviation, a
    zero deviation being replaced by 1. *)
Record StandardScaler : Type := mkStandardScaler {
  mean_ : vector;
  scale_ : vector
}.

Definition column_of (j : nat) (X : matrix) : vector :=
  map (fun x => nth j x NaN) X.

Definition np_var (v : vector) : pyfloat :=
  np_mean (map (fun a => fmul (fsub a (np_mean v)) (fsub a (np_mean v))) v).

Definition handle_zeros_in_scale (s : pyfloat) : pyfloat :=
  if feq s (Fin 0) then Fin 1 else s.

Definition n_features : nat := 5.

Definition scaler_fit (X : matrix) : StandardScaler :=
  mkStandardScaler
    (map (fun j => np_mean (column_of j X)) (seq 0 n_features))
    (map (fun j => handle_zeros_in_scale (fsqrt (np_var (column_of j X))))
         (seq 0 n_features)).

Definition scaler_transform (sc : StandardScaler) (X : matrix) : matrix :=
  map (fun x =>
         map (fun '(a, (m, s)) => fdiv (fsub a m) s)
             (combine x (combine (mean_ sc) (scale_ sc))))
      X.

(** What [prepare_data] returns: the feature matrix, the target, and the
    columns of the processed frame that [train] reads afterwards. *)
Record Prepared : Type := mkPrepared {
  X : matrix;
  y : vector;
  processed_rows : list Session;
  days_since_start : list Z;
  cumulative_volume : vector;
  days_since_last : vector
}.

Definition list_min (l : list Z) : Z :=
  match l with
  | [] => 0%Z
  | d :: t => fold_left Z.min t d
  end.

Definition list_max (l : list Z) : Z :=
  match l with
  | [] => 0%Z
  | d :: t => fold_left Z.max t d
  end.

Definition prepare_data (df : DataFrame) : result Prepared :=
  if (len df <? 2)%Z then
    Raise (ValueError "Need at least 2 data points for prediction")
  else
    let df := to_datetime_workout_date (sort_values df) in
    let start_date := list_min (dates df) in
    let days_since_start := map (fun d => (d - start_date)%Z) (dates df) in
    let session_number := map Z.of_nat (seq 1 (List.length (rows df))) in
    if negb (has_total_volume df) then Raise (KeyError "total_volume")
    else
      let cumulative_volume := series_cumsum (column total_volume df) in
      if negb (has_estimated_1rm df) then Raise (KeyError "estimated_1rm")
      else
        let rolling_avg_1rm := rolling_mean 3 1 (column estimated_1rm df) in
        let days_since_last :=
          fillna (Fin 7) (series_diff (map of_int days_since_start)) in
        let X :=
          map (fun '(a, (b, (c, (d, e)))) => [of_int a; of_int b; c; d; e])
            (combine days_since_start
               (combine session_number
                  (combine cumulative_volume
                     (combine rolling_avg_1rm days_since_last)))) in
        Ok (mkPrepared X (column estimated_1rm df) (rows df) days_since_start
              cumulative_volume days_since_last).

(** The predictor object: the fitted model and scaler, and the attributes
    [train] stores for forecasting.  [model] is [None] until [train] succeeds. *)
Record StrengthPredictor : Type := mkStrengthPredictor {
  model : option LinearModel;
  scaler : StandardScaler;
  training_data : list Session;
  last_date : Z;
  last_days : Z;
  last_session : Z;
  last_cumulative_volume : pyfloat;
  last_1rm : pyfloat;
  avg_days_between : pyfloat
}.

Record TrainingMetrics : Type := mkTrainingMetrics {
  model_type : ModelName;
  data_points : Z;
  mae : pyfloat;
  rmse : pyfloat;
  r_squared : pyfloat;
  model_scores : list (ModelName * pyfloat)
}.

Section Train.

Variable sk : Sklearn.

(** The score of one candidate: the mean cross-validation score with five or
    more samples, the in-sample R-squared otherwise. *)
Definition candidate_score (name : ModelName) (X_scaled : matrix) (y : vector)
    : result pyfloat :=
  let n := Z.of_nat (List.length X_scaled) in
  if (5 <=? n)%Z then
    cv_scores <- cross_val_score sk name X_scaled y (Z.min 5 n) ;;
    Ok (np_mean cv_scores)
  else
    m <- fit sk name X_scaled y ;;
    score m X_scaled y.

(** One iteration of the loop over [models.items()]; the state is
    [(best_score, best_model_name, scores)]. *)
Definition select_step (X_scaled : matrix) (y : vector)
    (st : pyfloat * option ModelName * list (ModelName * pyfloat))
    (name : ModelName)
    : result (pyfloat * option ModelName * list (ModelName * pyfloat)) :=
  let '(best_score, best_model_name, scores) := st in
  s <- candidate_score name X_scaled y ;;
  let scores := scores ++ [(name, s)] in
  if fgt s best_score then Ok (s, Some name, scores)
  else Ok (best_score, best_model_name, scores).

Fixpoint for_each {S A : Type} (body : S -> A -> result S) (st : S) (l : list A)
    : result S :=
  match l with
  | [] => Ok st
  | a :: t => st' <- body st a ;; for_each body st' t
  end.

(** [train]: the predictor after training, and the metrics returned.  A call
    that raises leaves no trained predictor behind. *)
Definition train (df : DataFrame) : result (StrengthPredictor * TrainingMetrics) :=
  p <- prepare_data df ;;
  let last_date := list_max (map workout_date (processed_rows p)) in
  let last_days := list_max (days_since_start p) in
  let last_session := Z.of_nat (List.length (processed_rows p)) in
  let last_cumulative_volume := last (cumulative_volume p) NaN in
  let last_1rm := last (y p) NaN in
  let avg_days_between := series_mean (days_since_last p) in
  let scaler := scaler_fit (X p) in
  let X_scaled := scaler_transform scaler (X p) in
  sel <- for_each (select_step X_scaled (y p)) (NInf, None, []) [linear; ridge] ;;
  let '(_, best_model_name, scores) := sel in
  match best_model_name with
  | None => Raise (KeyError "None")
  | Some best =>
      m <- fit sk best X_scaled (y p) ;;
      predictions <- predict m X_scaled ;;
      let mae := mean_absolute_error (y p) predictions in
      let rmse := fsqrt (mean_squared_error (y p) predictions) in
      r2 <- score m X_scaled (y p) ;;
      Ok (mkStrengthPredictor (Some m) scaler (processed_rows p) last_date last_days
            last_session last_cumulative_volume last_1rm avg_days_between,
          mkTrainingMetrics best (Z.of_nat (List.length (X p)))
            (pyround_nd mae 2) (pyround_nd rmse 2) (pyround_nd r2 3)
            (map (fun '(k, v) => (k, pyround_nd v 3)) scores))
  end.

End Train.

(** One forecast.  [date] is the ordinal of the formatted date. *)
Record Prediction : Type := mkPrediction {
  date : Z;
  session_number : Z;
  predicted_1rm : pyfloat;
  days_from_now : Z
}.

(** The variables that live across the iterations of [predict_future]'s loop:
    the list built so far and [future_rolling_avg], unbound before the first
    iteration. *)
Record ForecastLoop : Type := mkForecastLoop {
  predictions : list Prediction;
  future_rolling_avg : option pyfloat
}.

Definition first_or_nan (v : vector) : pyfloat := nth 0 v NaN.

(** The body of the loop of [predict_future] for the future session [i]. *)
Definition predict_future_step (self : StrengthPredictor) (m : LinearModel)
    (st : ForecastLoop) (i : Z) : result ForecastLoop :=
  let future_days :=
    fadd (of_int (last_days self)) (fmul (of_int i) (avg_days_between self)) in
  d <- pyint (fmul (of_int i) (avg_days_between self)) ;;
  let future_date := (last_date self + d)%Z in
  let future_session := (last_session self + i)%Z in
  let avg_volume_per_session :=
    fdiv (last_cumulative_volume self) (of_int (last_session self)) in
  let future_cumulative_volume :=
    fadd (last_cumulative_volume self) (fmul (of_int i) avg_volume_per_session) in
  (* future_rolling_avg = self.last_1rm *)
  let st := mkForecastLoop (predictions st) (Some (last_1rm self)) in
  let X_future :=
    [ [ future_days; of_int future_session; future_cumulative_volume;
        match future_rolling_avg st with Some a => a | None => NaN end;
        avg_days_between self ] ] in
  let X_future_scaled := scaler_transform (scaler self) X_future in
  p <- predict m X_future_scaled ;;
  let predicted_1rm := first_or_nan p in
  days_from_now <- pyint (fsub future_days (of_int (last_days self))) ;;
  let predictions :=
    predictions st
    ++ [ mkPrediction future_date future_session (pyround_nd predicted_1rm 1)
           days_from_now ] in
  (* future_rolling_avg = predicted_1rm *)
  Ok (mkForecastLoop predictions (Some predicted_1rm)).

(** [range(1, n + 1)]. *)
Definition range1 (n : Z) : list Z := map Z.of_nat (seq 1 (Z.to_nat n)).

Definition predict_future (self : StrengthPredictor) (days_ahead : Z)
    (sessions_ahead : option Z) : result (list Prediction) :=
  match model self with
  | None => Raise (ValueError "Model not trained. Call train() first.")
  | Some m =>
      sessions_ahead <-
        match sessions_ahead with
        | Some s => Ok s
        | None =>
            n <- pyint (fdiv (of_int days_ahead) (avg_days_between self)) ;;
            Ok (Z.max 1 n)
        end ;;
      st <- for_each (predict_future_step self m) (mkForecastLoop [] None)
              (range1 sessions_ahead) ;;
      Ok (predictions st)
  end.

(** ** The training recommender ([recommender.py]) *)

Record SetRecord : Type := mkSetRecord {
  set_workout_id : Z;
  set_exercise_id : Z;
  set_weight : pyfloat;
  set_reps : Z;
  set_type : string
}.

Record ExerciseRecord : Type := mkExerciseRecord {
  exercise_id : Z;
  exercise_name : string;
  muscle_group : string;
  is_compound : bool
}.

Record Targets : Type := mkTargets {
  t_min : Z;
  t_max : Z;
  t_optimal : Z
}.

Definition VOLUME_TARGETS : list (string * Targets) :=
  [ ("chest"%string, mkTargets 10 20 14);
    ("back"%string, mkTargets 10 20 16);
    ("shoulders"%string, mkTargets 8 16 12);
    ("legs"%string, mkTargets 12 22 16);
    ("arms"%string, mkTargets 6 14 10);
    ("core"%string, mkTargets 4 12 8) ].

Definition RECOVERY_DAYS : list (string * Z) :=
  [ ("chest"%string, 2%Z); ("back"%string, 2%Z); ("shoulders"%string, 2%Z);
    ("legs"%string, 2%Z); ("arms"%string, 1%Z); ("core"%string, 1%Z) ].

(** A point in time: the day and the seconds elapsed in it.  A timestamp made
    from a date is that day at zero seconds. *)
Record datetime : Type := mkDatetime {
  dt_day : Z;
  dt_seconds : Z
}.

Definition datetime_leb (a b : datetime) : bool :=
  ((dt_day a <? dt_day b) || ((dt_day a =? dt_day b) && (dt_seconds a <=? dt_seconds b)))%Z.

Inductive Status : Type := undertrained | optimal | overtrained.

Inductive Recommendation : Type :=
| AddSets (n : Z)
| ReduceSets (n : Z)
| VolumeIsGood.

Record MuscleAnalysis : Type := mkMuscleAnalysis {
  ma_sets : Z;
  ma_volume : pyfloat;
  ma_target_range : Z * Z;
  ma_status : Status;
  ma_recommendation : Recommendation
}.

Record BalanceScore : Type := mkBalanceScore {
  balance_score : Z;
  balance_rating : string
}.

Inductive BalanceReport : Type :=
| NoData (days : Z)
| Balance (period_days : Z) (total_workouts : Z)
    (muscle_groups : list (string * MuscleAnalysis))
    (most_trained least_trained : option string)
    (overall_balance : BalanceScore).

(** The score of one muscle group in [_calculate_balance_score]. *)
Definition muscle_score (targets : Targets) (sets : Z) : R :=
  if ((t_min targets <=? sets) && (sets <=? t_max targets))%Z then
    let distance_from_optimal := Z.abs (sets - t_optimal targets) in
    let max_distance :=
      Z.max (t_optimal targets - t_min targets) (t_max targets - t_optimal targets) in
    if (0 <? max_distance)%Z then
      100 - IZR distance_from_optimal / IZR max_distance * 30
    else 100
  else if (sets <? t_min targets)%Z then
    Rmax 0 (50 * (IZR sets / IZR (t_min targets)))
  else Rmax 0 (IZR (70 - (sets - t_max targets) * 5)).

Definition _calculate_balance_score (analysis : list (string * MuscleAnalysis))
    : BalanceScore :=
  let total_score :=
    fold_left
      (fun acc '(muscle, data) =>
         acc + muscle_score (dict_get VOLUME_TARGETS muscle (mkTargets 8 16 12))
                            (ma_sets data))
      analysis 0 in
  let max_score := (Z.of_nat (List.length analysis) * 100)%Z in
  let final_score :=
    if (0 <? max_score)%Z then round_half_even (total_score / IZR max_score * 100)
    else 0%Z in
  mkBalanceScore final_score
    (if (80 <=? final_score)%Z then "Excellent"
     else if (60 <=? final_score)%Z then "Good"
     else if (40 <=? final_score)%Z then "Fair"
     else "Needs Work").

(** The working sets of the recent workouts, joined with the muscle group of
    their exercise. *)
Definition working_sets_with_muscles (recent_workout_ids : list Z)
    (sets_df : list SetRecord) (exercises_df : list ExerciseRecord)
    : list (SetRecord * string) :=
  let recent_sets :=
    filter (fun s => existsb (Z.eqb (set_workout_id s)) recent_workout_ids) sets_df in
  let sets_with_muscles :=
    flat_map
      (fun s =>
         map (fun e => (s, muscle_group e))
             (filter (fun e => (exercise_id e =? set_exercise_id s)%Z) exercises_df))
      recent_sets in
  filter (fun '(s, _) => String.eqb (set_type s) "working") sets_with_muscles.

Definition analyze_muscle (working_sets : list (SetRecord * string))
    (muscle : string) (targets : Targets) : MuscleAnalysis :=
  let of_muscle := filter (fun '(_, g) => String.eqb g muscle) working_sets in
  let sets := Z.of_nat (List.length of_muscle) in
  let volume :=
    fsum (map (fun '(s, _) =>
                 fmul (if is_nan (set_weight s) then Fin 0 else set_weight s)
                      (of_int (set_reps s)))
              of_muscle) in
  if (sets <? t_min targets)%Z then
    mkMuscleAnalysis sets (pyround_nd volume 0) (t_min targets, t_max targets)
      undertrained (AddSets (t_min targets - sets))
  else if (t_max targets <? sets)%Z then
    mkMuscleAnalysis sets (pyround_nd volume 0) (t_min targets, t_max targets)
      overtrained (ReduceSets (sets - t_max targets))
  else
    mkMuscleAnalysis sets (pyround_nd volume 0) (t_min targets, t_max targets)
      optimal VolumeIsGood.

(** [sorted(analysis.items(), key=lambda x: x[1]['sets'], reverse=True)]. *)
Fixpoint insert_by_sets (a : string * MuscleAnalysis)
    (l : list (string * MuscleAnalysis)) : list (string * MuscleAnalysis) :=
  match l with
  | [] => [a]
  | h :: t =>
      if (ma_sets (snd h) <=? ma_sets (snd a))%Z then a :: h :: t
      else h :: insert_by_sets a t
  end.

Definition sort_by_sets_desc (l : list (string * MuscleAnalysis)) :=
  fold_right insert_by_sets [] l.

(** [analyze_training_balance]: the report, and the caller's [workouts_df] as
    the call leaves it.  The function assigns the converted dates to the
    [workout_date] column of the frame it was handed, not of a copy. *)
Definition analyze_training_balance (now : datetime) (workouts_df : DataFrame)
    (sets_df : list SetRecord) (exercises_df : list ExerciseRecord) (days : Z)
    : BalanceReport * DataFrame :=
  let cutoff_date := mkDatetime (dt_day now - days) (dt_seconds now) in
  let workouts_df := to_datetime_workout_date workouts_df in
  let recent_workouts :=
    filter (fun w => datetime_leb cutoff_date (mkDatetime (workout_date w) 0))
           (rows workouts_df) in
  match recent_workouts with
  | [] => (NoData days, workouts_df)
  | _ =>
      let working_sets :=
        working_sets_with_muscles (map id recent_workouts) sets_df exercises_df in
      let analysis :=
        map (fun '(muscle, targets) =>
               (muscle, analyze_muscle working_sets muscle targets))
            VOLUME_TARGETS in
      let sorted_muscles := sort_by_sets_desc analysis in
      (Balance days (Z.of_nat (List.length recent_workouts)) analysis
         (option_map fst (List.hd_error sorted_muscles))
         (option_map fst (List.hd_error (rev sorted_muscles)))
         (_calculate_balance_score analysis),
       workouts_df)
  end.

(** The verdict of [suggest_deload]. *)
Inductive DeloadReason : Type :=
| NotEnoughHistory
| PeriodTooShort
| ExertionIncreasing
| WorkoutsSinceBreak (workouts_since_break : Z)
| NoDeload (workouts_until_deload : Z).

Record DeloadAdvice : Type := mkDeloadAdvice {
  needs_deload : bool;
  reason : DeloadReason
}.

(** [gaps[gaps >= 7].index]: the index labels of the rows that follow a gap
    of seven days or more, in row order. *)
Definition long_breaks (rows : list Session) : list Z :=
  flat_map
    (fun '(r, g) =>
       match g with
       | Some d => if (7 <=? d)%Z then [label r] else []
       | None => []
       end)
    (combine rows (days_gap (map workout_date rows))).

Definition suggest_deload (workouts_df : DataFrame) (sets_df : list SetRecord)
    : DeloadAdvice :=
  if (len workouts_df <? 8)%Z then mkDeloadAdvice false NotEnoughHistory
  else
    let workouts_df := to_datetime_workout_date (sort_values workouts_df) in
    let recent := tail 12 (rows workouts_df) in
    let date_range :=
      (list_max (map workout_date recent) - list_min (map workout_date recent))%Z in
    if (date_range <? 21)%Z then mkDeloadAdvice false PeriodTooShort
    else
      let exertion_trend :=
        if has_perceived_exertion workouts_df
        then dropna (map perceived_exertion recent) else [] in
      let half := (List.length exertion_trend / 2)%nat in
      if has_perceived_exertion workouts_df
         && (4 <=? List.length exertion_trend)%nat
         && fgt (series_mean (tail half exertion_trend))
                (fadd (series_mean (head half exertion_trend)) (Fin 1))
      then mkDeloadAdvice true ExertionIncreasing
      else
        let workouts_since_break :=
          match rev (long_breaks (rows workouts_df)) with
          | last_break_idx :: _ => (len workouts_df - last_break_idx)%Z
          | [] => len workouts_df
          end in
        if (16 <=? workouts_since_break)%Z then
          mkDeloadAdvice true (WorkoutsSinceBreak workouts_since_break)
        else mkDeloadAdvice false (NoDeload (16 - workouts_since_break)).

(** ** Example inputs *)

(** A session as the prediction and analysis routes build it: date, volume and
    estimated 1RM, no exertion data. *)
Definition session (lbl date : Z) (volume e1rm : pyfloat) : Session :=
  mkSession lbl lbl date volume e1rm NaN NaN.

(** A frame holding [total_volume] and [estimated_1rm] columns, dates stored as
    the [datetime.date] objects the database driver returns. *)
Definition frame (rs : list Session) : DataFrame :=
  mkDataFrame rs ObjectDates true true false false.

(** A workouts frame as the recommendation routes build it: only [id],
    [workout_date] and [perceived_exertion] columns. *)
Definition workouts_frame (rs : list Session) : DataFrame :=
  mkDataFrame rs ObjectDates false false false true.

Definition one_session : DataFrame :=
  frame [ session 0 (ymd 2024 1 1) (Fin 3000) (Fin 100) ].

Definition five_sessions : DataFrame :=
  frame [ session 0 (ymd 2024 1 1) (Fin 3000) (Fin 100);
          session 1 (ymd 2024 1 4) (Fin 3100) (Fin 102);
          session 2 (ymd 2024 1 7) (Fin 3200) (Fin 104);
          session 3 (ymd 2024 1 10) (Fin 3300) (Fin 106);
          session 4 (ymd 2024 1 13) (Fin 3400) (Fin 108) ].

(** ** Notions used in the statements *)

(** The sum of a list of reals, accumulated from the left as [fsum] does. *)
Definition Rsum (l : list R) : R := fold_left Rplus l 0.

(** The sample variance of a list of reals. *)
Definition Rvar (l : list R) : R :=
  let m := Rsum l / INR (List.length l) in
  Rsum (map (fun x => (x + - m) * (x + - m)) l) / INR (List.length l - 1).

(** The two anomaly categories driven by a z-score. *)
Definition is_performance_anomaly (a : Anomaly) : bool :=
  match anomaly_type a with
  | PERFORMANCE_DROP | PERFORMANCE_SPIKE => true
  | _ => false
  end.

Definition is_volume_anomaly (a : Anomaly) : bool :=
  match anomaly_type a with
  | VOLUME_SPIKE | VOLUME_DROP => true
  | _ => false
  end.

(** Six sessions of which the last carries seven times the usual volume; the
    frame has no [estimated_1rm] column. *)
Definition spike_sessions : DataFrame :=
  mkDataFrame
    [ session 0 (ymd 2024 1 1) (Fin 1000) NaN;
      session 1 (ymd 2024 1 4) (Fin 1000) NaN;
      session 2 (ymd 2024 1 7) (Fin 1000) NaN;
      session 3 (ymd 2024 1 10) (Fin 1000) NaN;
      session 4 (ymd 2024 1 13) (Fin 1000) NaN;
      session 5 (ymd 2024 1 16) (Fin 7000) NaN ]
    ObjectDates true false false false.

Definition spike_volumes : list R := [1000; 1000; 1000; 1000; 1000; 7000].

(** The feature row [predict_future] builds for the future session [i], with
    the last training 1RM in the [rolling_avg_1rm] position. *)
Definition forecast_row (self : StrengthPredictor) (i : Z) : vector :=
  [ fadd (of_int (last_days self)) (fmul (of_int i) (avg_days_between self));
    of_int (last_session self + i);
    fadd (last_cumulative_volume self)
         (fmul (of_int i)
               (fdiv (last_cumulative_volume self) (of_int (last_session self))));
    last_1rm self;
    avg_days_between self ].

(** The forecast for the future session [i] computed from [i] alone. *)
Definition forecast_at (self : StrengthPredictor) (m : LinearModel) (i : Z)
    : result Prediction :=
  d <- pyint (fmul (of_int i) (avg_days_between self)) ;;
  p <- predict m (scaler_transform (scaler self) [forecast_row self i]) ;;
  days_from_now <-
    pyint (fsub (fadd (of_int (last_days self))
                      (fmul (of_int i) (avg_days_between self)))
                (of_int (last_days self))) ;;
  Ok (mkPrediction (last_date self + d) (last_session self + i)
        (pyround_nd (first_or_nan p) 1) days_from_now).

Fixpoint map_result {A B : Type} (f : A -> result B) (l : list A) : result (list B) :=
  match l with
  | [] => Ok []
  | a :: t => b <- f a ;; bs <- map_result f t ;; Ok (b :: bs)
  end.

(** Rows holding the given dates, labelled 0, 1, 2, ... in the order given (the
    default index of a frame built from query results). *)
Definition with_range_index (ds : list Z) : list Session :=
  map (fun '(k, d) => mkSession (Z.of_nat k) (Z.of_nat k) d NaN NaN NaN NaN)
      (combine (seq 0 (List.length ds)) ds).

(** A history of 17 sessions: one on 2024-01-01, then, after a gap of seven
    days, 16 sessions two days apart from 2024-01-08 on. *)
Definition streak_dates : list Z :=
  ymd 2024 1 1 :: map (fun k => (ymd 2024 1 8 + 2 * Z.of_nat k)%Z) (seq 0 16).

Definition streak_oldest_first : DataFrame :=
  workouts_frame (with_range_index streak_dates).

Definition streak_newest_first : DataFrame :=
  workouts_frame (with_range_index (rev streak_dates)).

(** The number of sessions from the one that follows the last gap of seven
    days or more up to the most recent one (all of them when there is no such
    gap), read off the dates in ascending order. *)
Fixpoint since_break_from (prev : Z) (ds : list Z) (count : Z) : Z :=
  match ds with
  | [] => count
  | d :: t => since_break_from d t (if (7 <=? d - prev)%Z then 1 else count + 1)%Z
  end.

Definition sessions_since_last_break (ds : list Z) : Z :=
  match ds with
  | [] => 0%Z
  | d :: t => since_break_from d t 1
  end.

(** One week of workouts as the balance route hands them over. *)
Definition week_of_workouts : DataFrame :=
  workouts_frame (with_range_index [ymd 2024 1 8; ymd 2024 1 10; ymd 2024 1 12]).

(** The three sessions of the worked forecasting example: 2024-01-01,
    2024-01-08 and 2024-01-15 with estimated 1RMs 100, 105 and 110, and any
    volumes. *)
Definition three_sessions (v1 v2 v3 : R) : DataFrame :=
  frame [ session 0 (ymd 2024 1 1) (Fin v1) (Fin 100);
          session 1 (ymd 2024 1 8) (Fin v2) (Fin 105);
          session 2 (ymd 2024 1 15) (Fin v3) (Fin 110) ].

(** The feature matrix of [three_sessions], row by row: days since start,
    session number, cumulative volume, rolling mean of the 1RM, days since the
    previous session. *)
Definition three_sessions_features (v1 v2 v3 : R) : list (list R) :=
  [ [0; 1; v1; 100; 7];
    [7; 2; v1 + v2; 102.5; 7];
    [14; 3; v1 + v2 + v3; 105; 7] ].

(** *** Least squares over the reals *)

Definition Rmean (l : list R) : R := Rsum l / INR (List.length l).

(** The population variance, as [StandardScaler] computes it. *)
Definition Rpvar (l : list R) : R :=
  Rmean (map (fun a => (a + - Rmean l) * (a + - Rmean l)) l).

(** The scale of a column: its standard deviation, or 1 when that is zero. *)
Definition Rscale (l : list R) : R :=
  if Req_dec_T (sqrt (Rpvar l)) 0 then 1 else sqrt (Rpvar l).

Definition Rcolumn (j : nat) (XR : list (list R)) : list R :=
  map (fun x => nth j x 0) XR.

Definition Rdot (u v : list R) : R :=
  Rsum (map (fun '(a, b) => a * b) (combine u v)).

Definition Rmeans (XR : list (list R)) : list R :=
  map (fun j => Rmean (Rcolumn j XR)) (seq 0 n_features).

Definition Rscales (XR : list (list R)) : list R :=
  map (fun j => Rscale (Rcolumn j XR)) (seq 0 n_features).

(** Rows standardised with the given means and scales. *)
Definition Rtransform (means scales : list R) (XR : list (list R)) : list (list R) :=
  map (fun x =>
         map (fun '(a, (m, s)) => (a + - m) / s)
             (combine x (combine means scales)))
      XR.

(** The residuals of the linear model [(w, b)] on the data [(XR, yR)]. *)
Definition residuals (XR : list (list R)) (yR w : list R) (b : R) : list R :=
  map (fun '(x, t) => t + - (Rdot x w + b)) (combine XR yR).

(** [(w, b)] minimises the sum of squared residuals: the residuals are
    orthogonal to the constant column and to every feature column (the normal
    equations). *)
Definition least_squares (XR : list (list R)) (yR w : list R) (b : R) : Prop :=
  Rsum (residuals XR yR w b) = 0 /\
  forall j : nat, (j < n_features)%nat ->
    Rdot (Rcolumn j XR) (residuals XR yR w b) = 0.

(** [w] is a combination of the rows of the centred design matrix: among the
    least-squares solutions this singles out the one of minimum norm. *)
Definition minimum_norm (XR : list (list R)) (w : list R) : Prop :=
  exists u : list R,
    List.length u = List.length XR /\
    forall j : nat, (j < n_features)%nat ->
      nth j w 0
      = Rdot u (map (fun a => a + - Rmean (Rcolumn j XR)) (Rcolumn j XR)).

(** What [LinearRegression().fit(X, y)] is documented to compute on finite
    data: finite coefficients and intercept that solve the least-squares
    problem with intercept, of minimum norm when the solution is not unique. *)
Definition linear_regression_contract (sk : Sklearn) (Xs : matrix) (ys : vector)
    : Prop :=
  exists (XR : list (list R)) (yR w : list R) (b : R),
    Xs = map (map Fin) XR /\ ys = map Fin yR /\
    List.length w = n_features /\
    fit sk linear Xs ys = Ok (mkLinearModel (map Fin w) (Fin b)) /\
    least_squares XR yR w b /\ minimum_norm XR w.

(** The standardised features and the target [train] hands to the estimators. *)
Definition training_set (df : DataFrame) : option (matrix * vector) :=
  match prepare_data df with
  | Ok p => Some (scaler_transform (scaler_fit (X p)) (X p), y p)
  | Raise _ => None
  end.

(** A strictly increasing sequence of values. *)
Fixpoint increasing (l : list pyfloat) : Prop :=
  match l with
  | a :: ((b :: _) as t) => flt a b = true /\ increasing t
  | _ => True
  end.

(** The sum of squares of the deviations of [yR] from its mean. *)
Definition total_ss (yR : list R) : R :=
  Rsum (map (fun a => a * a) (map (fun a => a + - Rmean yR) yR)).

(** What a sum of squares can be: a non-negative number, plus infinity, or NaN. *)
Definition sum_like (a : pyfloat) : Prop :=
  match a with
  | Fin x => 0 <= x
  | PInf | NaN => True
  | NInf => False
  end.

(** The least-squares solution of minimum norm for [three_sessions] when the
    second and third volumes differ: equal weights on the three collinear
    features, none on the cumulative volume and the constant column. *)
Definition three_sessions_fit : LinearModel :=
  mkLinearModel
    (map Fin [ 7 / Rscale [0; 7; 14] * (10 / 9);
               1 / Rscale [1; 2; 3] * (10 / 9);
               0;
               5 / 2 / Rscale [100; 102.5; 105] * (10 / 9);
               0 ])
    (Fin 105).

(** Estimators that return [three_sessions_fit] whatever they are given. *)
Definition three_sessions_sklearn : Sklearn :=
  mkSklearn (fun _ _ _ => Ok three_sessions_fit) (fun _ _ _ _ => Ok []).

From Stdlib Require Import Permutation Sorted.

(** ** Further notions used in the statements *)

(** The names the formulas dictionary of [calculate_1rm] knows, and the name
    of their average. *)
Definition formula_names : list string :=
  [ "epley"; "brzycki"; "lombardi"; "oconner"; "mayhew"; "average" ]%string.

(** Weights and repetition counts far from the limits of double precision:
    a weight between a billionth and a billion, at most a billion
    repetitions.  In this range no product of the formulas overflows or
    falls into the subnormal numbers, and the conversion of [reps] to a
    float is exact. *)
Definition ordinary_weight (w : R) : Prop := / 10 ^ 9 <= w <= 10 ^ 9.
Definition ordinary_reps (reps : Z) : Prop := (reps <= 10 ^ 9)%Z.

(** The deviation of a value from the mean of a list of reals. *)
Definition Rdev (l : list R) (x : R) : R := x + - (Rsum l / INR (List.length l)).

(** The severities each anomaly type is reported with. *)
Definition severity_allowed (t : AnomalyType) (s : Severity) : bool :=
  match t, s with
  | PERFORMANCE_DROP, Medium | PERFORMANCE_DROP, High => true
  | PERFORMANCE_SPIKE, Low => true
  | VOLUME_SPIKE, Medium => true
  | VOLUME_DROP, Low => true
  | HIGH_FATIGUE, Medium | HIGH_FATIGUE, High => true
  | LONG_GAP, Low => true
  | _, _ => false
  end.

(** Most recent first. *)
Definition not_older (a b : Anomaly) : Prop := (anomaly_date b <= anomaly_date a)%Z.

(** Six sessions on consecutive days, and a seventh 31 days after the sixth. *)
Definition late_return : DataFrame :=
  workouts_frame
    (with_range_index
       [ ymd 2024 1 1; ymd 2024 1 2; ymd 2024 1 3; ymd 2024 1 4; ymd 2024 1 5;
         ymd 2024 1 6; ymd 2024 2 6 ]).

Definition late_return_gaps : list R := [1; 1; 1; 1; 1; 31].

Definition late_return_anomaly : Anomaly :=
  mkAnomaly LONG_GAP (ymd 2024 2 6) Low
    [ ("days_gap"%string, DInt 31);
      ("average_gap"%string, DNum (pyround_nd (Fin 6) 1)) ].

(** Rows in ascending date order. *)
Definition date_le (a b : Session) : Prop := (workout_date a <= workout_date b)%Z.

(** The days from each date to the next. *)
Fixpoint gaps_between (prev : Z) (ds : list Z) : list Z :=
  match ds with
  | [] => []
  | d :: t => (d - prev)%Z :: gaps_between d t
  end.

Definition date_gaps (ds : list Z) : list Z :=
  match ds with
  | [] => []
  | d :: t => gaps_between d t
  end.

(** The candidate [train] keeps, given the scores of [linear] and [ridge]:
    the first one whose score exceeds every score seen before it, starting
    from minus infinity; none when no score does. *)
Definition best_of (s1 s2 : pyfloat) : option ModelName :=
  if fgt s1 NInf then (if fgt s2 s1 then Some ridge else Some linear)
  else if fgt s2 NInf then Some ridge else None.

(** Estimators that return the same fitted model and the same fold scores
    whatever they are given. *)
Definition constant_sklearn (m : LinearModel) (cv_scores : vector) : Sklearn :=
  mkSklearn (fun _ _ _ => Ok m) (fun _ _ _ _ => Ok cv_scores).

(** Every cell of a row holds a finite volume and a finite estimated 1RM. *)
Definition finite_session (r : Session) : Prop :=
  is_finite (total_volume r) = true /\ is_finite (estimated_1rm r) = true.

(** A row far from the limits of double precision and of pandas'
    timestamps: a finite volume and a finite estimated 1RM of at most a
    billion in magnitude, a date between 1900 and 2100. *)
Definition ordinary_session (r : Session) : Prop :=
  (exists v, total_volume r = Fin v /\ Rabs v <= 10 ^ 9) /\
  (exists e, estimated_1rm r = Fin e /\ Rabs e <= 10 ^ 9) /\
  (ymd 1900 1 1 <= workout_date r <= ymd 2100 12 31)%Z.

(** A table of at most a million such rows. *)
Definition ordinary_frame (df : DataFrame) : Prop :=
  (len df <= 10 ^ 6)%Z /\ Forall ordinary_session (rows df).

(** The answers of the estimators to the calls that [train] makes on [df],
    and to no other call: [fit] on the scaled features and the target returns
    a model with finite coefficients and, with five sessions or more,
    [cross_val_score] on them returns finite fold scores, at least one. *)
Definition estimators_answer (sk : Sklearn) (df : DataFrame) : Prop :=
  forall p, prepare_data df = Ok p ->
    let X_scaled := scaler_transform (scaler_fit (X p)) (X p) in
    forall name,
      (exists w b,
         fit sk name X_scaled (y p) = Ok (mkLinearModel (map Fin w) (Fin b))) /\
      ((5 <= Z.of_nat (List.length X_scaled))%Z ->
       exists scores,
         scores <> [] /\
         cross_val_score sk name X_scaled (y p)
           (Z.min 5 (Z.of_nat (List.length X_scaled)))
         = Ok (map Fin scores)).

(** A model that forecasts 104 whatever the features, with fold scores of -2;
    and estimators that return them. *)
Definition flat_model : LinearModel :=
  mkLinearModel (map Fin [0; 0; 0; 0; 0]) (Fin 104).

Definition steady_sklearn : Sklearn :=
  constant_sklearn flat_model (map Fin [-2; -2; -2; -2; -2]).

(** Estimators whose cross-validation yields no usable score. *)
Definition failing_sklearn : Sklearn := constant_sklearn flat_model [NaN].

(** A predictor whose model, scaler and stored attributes are finite numbers,
    with no zero scale, a non-zero average gap and at least one session. *)
Definition finite_predictor (self : StrengthPredictor) : Prop :=
  exists (w means scales : list R) (b cv l1 a : R),
    model self = Some (mkLinearModel (map Fin w) (Fin b)) /\
    scaler self = mkStandardScaler (map Fin means) (map Fin scales) /\
    Forall (fun s => s <> 0) scales /\
    last_cumulative_volume self = Fin cv /\
    last_1rm self = Fin l1 /\
    avg_days_between self = Fin a /\ a <> 0 /\
    last_session self <> 0%Z.

(** The number of sessions [predict_future] forecasts: [sessions_ahead] when
    given, otherwise [max(1, int(days_ahead / avg_days_between))]. *)
Definition sessions_to_forecast (self : StrengthPredictor) (days_ahead : Z)
    (sessions_ahead : option Z) : result Z :=
  match sessions_ahead with
  | Some s => Ok s
  | None =>
      n <- pyint (fdiv (of_int days_ahead) (avg_days_between self)) ;;
      Ok (Z.max 1 n)
  end.

(** ** [StrengthPredictor.predict_target_date] *)

(** What [predict_target_date] returns; the [message] texts are renderings of
    the fields kept here. *)
Inductive TargetPrediction : Type :=
| AlreadyAchieved (target_weight current_1rm : pyfloat)
| Achievable (target_weight : pyfloat) (predicted_date : Z)
    (days_from_now sessions_needed : Z) (current_1rm : pyfloat)
| LongTerm (target_weight : pyfloat) (estimated_days : Z)
| Uncertain.

(** A [for] loop that returns from the function at the first iteration whose
    body yields a value. *)
Fixpoint first_return {A B : Type} (body : A -> result (option B)) (l : list A)
    : result (option B) :=
  match l with
  | [] => Ok None
  | a :: t =>
      r <- body a ;;
      match r with
      | Some b => Ok (Some b)
      | None => first_return body t
      end
  end.

Definition no_prediction : Prediction := mkPrediction 0 0 NaN 0.

(** The body of the loop over [days] in [predict_target_date]. *)
Definition target_day (self : StrengthPredictor) (target_weight : pyfloat)
    (days : Z) : result (option TargetPrediction) :=
  sessions <- pyint (fdiv (of_int days) (avg_days_between self)) ;;
  if (sessions <? 1)%Z then Ok None
  else
    predictions <- predict_future self 30 (Some sessions) ;;
    match predictions with
    | [] => Ok None
    | _ =>
        if fge (predicted_1rm (last predictions no_prediction)) target_weight then
          Ok (Some (Achievable target_weight
                      (date (last predictions no_prediction))
                      days sessions (pyround_nd (last_1rm self) 1)))
        else Ok None
    end.

Definition predict_target_date (self : StrengthPredictor) (target_weight : pyfloat)
    : result TargetPrediction :=
  match model self with
  | None => Raise (ValueError "Model not trained. Call train() first.")
  | Some _ =>
      let current_1rm := last_1rm self in
      if fle target_weight current_1rm then
        Ok (AlreadyAchieved target_weight current_1rm)
      else
        hit <- first_return (target_day self target_weight) (range1 365) ;;
        match hit with
        | Some r => Ok r
        | None =>
            if (2 <=? Z.of_nat (List.length (training_data self)))%Z then
              let first_1rm :=
                estimated_1rm (List.hd (mkSession 0 0 0 NaN NaN NaN NaN)
                                       (training_data self)) in
              let total_days := last_days self in
              if (0 <? total_days)%Z then
                let rate_per_day :=
                  fdiv (fsub current_1rm first_1rm) (of_int total_days) in
                if fgt rate_per_day (Fin 0) then
                  let days_needed :=
                    fdiv (fsub target_weight current_1rm) rate_per_day in
                  d <- pyint days_needed ;;
                  Ok (LongTerm target_weight d)
                else Ok Uncertain
              else Ok Uncertain
            else Ok Uncertain
        end
  end.

(** A predictor as training leaves it after 14 sessions over 7 days: a model
    that forecasts 120 whatever the features, an identity scaler, a last
    estimated 1RM of 100, and one day between sessions on average. *)
Definition daily_predictor : StrengthPredictor :=
  mkStrengthPredictor
    (Some (mkLinearModel (map Fin [0; 0; 0; 0; 0]) (Fin 120)))
    (mkStandardScaler (map Fin [0; 0; 0; 0; 0]) (map Fin [1; 1; 1; 1; 1]))
    [ session 0 (ymd 2024 1 7) (Fin 2000) (Fin 95);
      session 1 (ymd 2024 1 14) (Fin 2000) (Fin 100) ]
    (ymd 2024 1 14) 7 14 (Fin 28000) (Fin 100) (Fin 1).

(** The message [_get_recommendations] gives when no sub-score is low. *)
Definition keep_up_message : string :=
  "Keep up the great work! Your training looks well-balanced.".

(** A session with [perceived_exertion >= 8]. *)
Definition high_exertion (r : Session) : bool := fge (perceived_exertion r) (Fin 8).

(** Five sessions three days apart of which only the dates and the perceived
    exertion are known. *)
Definition five_workouts : DataFrame :=
  workouts_frame
    (with_range_index
       [ ymd 2024 1 1; ymd 2024 1 4; ymd 2024 1 7; ymd 2024 1 10; ymd 2024 1 13 ]).

(** ** Notions for the training balance *)

(** The cutoff of [analyze_training_balance]: [days] days before [now]. *)
Definition cutoff_date (now : datetime) (days : Z) : datetime :=
  mkDatetime (dt_day now - days) (dt_seconds now).

(** A workout of the analysed period. *)
Definition is_recent (now : datetime) (days : Z) (w : Session) : bool :=
  datetime_leb (cutoff_date now days) (mkDatetime (workout_date w) 0).

(** The status and the recommendation of a muscle group agree with its number
    of sets and its target range. *)
Definition consistent_analysis (t : Targets) (a : MuscleAnalysis) : Prop :=
  ma_target_range a = (t_min t, t_max t) /\
  (0 <= ma_sets a)%Z /\
  match ma_status a with
  | undertrained =>
      (ma_sets a < t_min t)%Z
      /\ ma_recommendation a = AddSets (t_min t - ma_sets a)
  | overtrained =>
      (t_max t < ma_sets a)%Z
      /\ ma_recommendation a = ReduceSets (ma_sets a - t_max t)
  | optimal =>
      (t_min t <= ma_sets a <= t_max t)%Z /\ ma_recommendation a = VolumeIsGood
  end.

(** In descending order of sets. *)
Definition more_sets (a b : string * MuscleAnalysis) : Prop :=
  (ma_sets (snd b) <= ma_sets (snd a))%Z.

(** The analysis of a muscle group that has no working set. *)
Definition untrained (t : Targets) : MuscleAnalysis :=
  mkMuscleAnalysis 0 (pyround_nd (Fin 0) 0) (t_min t, t_max t) undertrained
    (AddSets (t_min t)).

(** ** The next-workout recommendation ([recommender.py]) *)

(** [Series.unique()]: the values in order of first appearance. *)
Fixpoint unique_from (seen : list string) (l : list string) : list string :=
  match l with
  | [] => []
  | x :: t =>
      if existsb (String.eqb x) seen then unique_from seen t
      else x :: unique_from (x :: seen) t
  end.

Definition unique (l : list string) : list string := unique_from [] l.

(** The sets joined with their workout's date and their exercise's muscle
    group ([merged] in [_get_days_since_trained]), reduced to the two columns
    that are read. *)
Definition merged_dates (workouts : list Session) (sets_df : list SetRecord)
    (exercises_df : list ExerciseRecord) : list (Z * string) :=
  flat_map
    (fun s =>
       flat_map
         (fun w =>
            map (fun e => (workout_date w, muscle_group e))
                (filter (fun e => (exercise_id e =? set_exercise_id s)%Z) exercises_df))
         (filter (fun w => (id w =? set_workout_id s)%Z) workouts))
    sets_df.

(** [_get_days_since_trained]: for each muscle group of [VOLUME_TARGETS], the
    whole days from its most recent workout to [today], or 999 when no set of
    it is on record. *)
Definition _get_days_since_trained (today : datetime) (workouts_df : DataFrame)
    (sets_df : list SetRecord) (exercises_df : list ExerciseRecord)
    : list (string * Z) :=
  let merged := merged_dates (rows workouts_df) sets_df exercises_df in
  map (fun '(muscle, _) =>
         let muscle_data := filter (fun '(_, g) => String.eqb g muscle) merged in
         match muscle_data with
         | [] => (muscle, 999%Z)
         | _ => (muscle, (dt_day today - list_max (map fst muscle_data))%Z)
         end)
      VOLUME_TARGETS.

(** One suggested exercise.  The [equipment] cell is copied from the
    catalogue unchanged and is left out. *)
Record Suggestion : Type := mkSuggestion {
  sg_exercise_id : Z;
  sg_name : string;
  sg_muscle_group : string;
  sg_is_compound : bool
}.

Inductive Priority : Type := high_priority | medium_priority.

(** An entry of [focus_muscles]; [focus_days_rest] is the number of days that
    its [reason] text quotes. *)
Record Focus : Type := mkFocus {
  focus_muscle : string;
  focus_priority : Priority;
  focus_days_rest : Z
}.

Inductive NextWorkout : Type :=
| FullBody (suggested_muscles : list string) (exercises : list Suggestion)
| Targeted (focus_muscles : list Focus) (suggested_muscles : list string)
    (exercises : list Suggestion) (avoid : option (list string))
| RestOrLight.

(** [frame.iloc[-1]]; [None] stands for the [IndexError] of an empty frame. *)
Definition iloc_last {A : Type} (frame : list A) : option A :=
  match rev frame with
  | [] => None
  | a :: _ => Some a
  end.

Section Sampling.

(** [DataFrame.sample] draws rows with the global random generator: the
    state of the generator goes in and comes out. *)
Variable Rng : Type.
Variable sample : Rng -> nat -> list ExerciseRecord -> list ExerciseRecord * Rng.

(** [frame.sample(1).iloc[0]]; [None] stands for the [IndexError] of an empty
    sample. *)
Definition sample_one (g : Rng) (frame : list ExerciseRecord)
    : option (ExerciseRecord * Rng) :=
  match sample g 1 frame with
  | (e :: _, g') => Some (e, g')
  | ([], _) => None
  end.

(** The [selected] list of [_get_exercise_suggestions] after the compound and
    the isolation exercise have been drawn. *)
Definition select_first (compounds isolations : list ExerciseRecord)
    (exercises_per_muscle : Z) (g : Rng) : option (list ExerciseRecord * Rng) :=
  match
    match compounds with
    | [] => Some ([], g)
    | _ =>
        match sample_one g compounds with
        | Some (e, g') => Some ([e], g')
        | None => None
        end
    end
  with
  | Some (selected, g) =>
      if (0 <? List.length isolations)%nat
         && (Z.of_nat (List.length selected) <? exercises_per_muscle)%Z
      then
        match sample_one g isolations with
        | Some (e, g') => Some (selected ++ [e], g')
        | None => None
        end
      else Some (selected, g)
  | None => None
  end.

(** The body of the loop of [_get_exercise_suggestions]: the exercises
    selected for one muscle group. *)
Definition select_for_muscle (exercises_df : list ExerciseRecord)
    (exercises_per_muscle : Z) (g : Rng) (muscle : string)
    : option (list ExerciseRecord * Rng) :=
  let muscle_exercises :=
    filter (fun e => String.eqb (muscle_group e) muscle) exercises_df in
  let compounds := filter is_compound muscle_exercises in
  let isolations := filter (fun e => negb (is_compound e)) muscle_exercises in
  match select_first compounds isolations exercises_per_muscle g with
  | Some (selected, g) =>
      let remaining := (exercises_per_muscle - Z.of_nat (List.length selected))%Z in
      if (0 <? remaining)%Z then
        let available :=
          filter (fun e => negb (existsb (Z.eqb (exercise_id e))
                                         (map exercise_id selected)))
                 muscle_exercises in
        if (0 <? List.length available)%nat then
          let '(additional, g') :=
            sample g (Nat.min (Z.to_nat remaining) (List.length available)) available in
          Some (selected ++ additional, g')
        else Some (selected, g)
      else Some (selected, g)
  | None => None
  end.

Definition suggestion_of (muscle : string) (e : ExerciseRecord) : Suggestion :=
  mkSuggestion (exercise_id e) (exercise_name e) muscle (is_compound e).

Fixpoint _get_exercise_suggestions (exercises_df : list ExerciseRecord)
    (muscle_groups : list string) (exercises_per_muscle : Z) (g : Rng)
    : option (list Suggestion * Rng) :=
  match muscle_groups with
  | [] => Some ([], g)
  | muscle :: rest =>
      match select_for_muscle exercises_df exercises_per_muscle g muscle with
      | Some (selected, g) =>
          match _get_exercise_suggestions exercises_df rest exercises_per_muscle g with
          | Some (more, g) => Some (map (suggestion_of muscle) selected ++ more, g)
          | None => None
          end
      | None => None
      end
  end.

(** The muscle groups of the sets of one workout, in order of first
    appearance. *)
Definition muscles_of_workout (workout : Session) (sets_df : list SetRecord)
    (exercises_df : list ExerciseRecord) : list string :=
  let last_workout_sets :=
    filter (fun s => (set_workout_id s =? id workout)%Z) sets_df in
  unique
    (flat_map
       (fun s =>
          map muscle_group
              (filter (fun e => (exercise_id e =? set_exercise_id s)%Z) exercises_df))
       last_workout_sets).

(** The first loop of [get_next_workout_recommendation], over the
    undertrained muscle groups. *)
Definition high_priorities (undertrained : list string)
    (days_since_trained : list (string * Z)) : list Focus :=
  flat_map
    (fun muscle =>
       let days_rest := dict_get days_since_trained muscle 999%Z in
       let min_rest := dict_get RECOVERY_DAYS muscle 2%Z in
       if (min_rest <=? days_rest)%Z then [mkFocus muscle high_priority days_rest]
       else [])
    undertrained.

(** The second loop, over [days_since_trained.items()]. *)
Definition medium_priorities (days_since_trained : list (string * Z))
    (last_muscles : list string) : list Focus :=
  flat_map
    (fun '(muscle, days) =>
       let min_rest := dict_get RECOVERY_DAYS muscle 2%Z in
       if (min_rest <=? days)%Z && negb (existsb (String.eqb muscle) last_muscles)
       then [mkFocus muscle medium_priority days]
       else [])
    days_since_trained.

Definition undertrained_muscles (muscle_groups : list (string * MuscleAnalysis))
    : list string :=
  map fst
    (filter (fun '(_, data) =>
               match ma_status data with undertrained => true | _ => false end)
            muscle_groups).

(** [get_next_workout_recommendation].  [now] is the clock as
    [analyze_training_balance] reads it and [today] as
    [_get_days_since_trained] reads it afterwards. *)
Definition get_next_workout_recommendation (now today : datetime) (g : Rng)
    (workouts_df : DataFrame) (sets_df : list SetRecord)
    (exercises_df : list ExerciseRecord) : option NextWorkout :=
  let '(balance, workouts_df) :=
    analyze_training_balance now workouts_df sets_df exercises_df 7 in
  match balance with
  | NoData _ =>
      match _get_exercise_suggestions exercises_df
              ["chest"; "back"; "legs"; "shoulders"]%string 2 g with
      | Some (exercises, _) =>
          Some (FullBody ["chest"; "back"; "legs"; "shoulders"]%string exercises)
      | None => None
      end
  | Balance _ _ muscle_groups _ _ _ =>
      let undertrained := undertrained_muscles muscle_groups in
      let workouts_df := to_datetime_workout_date workouts_df in
      match iloc_last (rows (sort_values workouts_df)) with
      | None => None
      | Some last_workout =>
          let last_muscles := muscles_of_workout last_workout sets_df exercises_df in
          let days_since_trained :=
            _get_days_since_trained today workouts_df sets_df exercises_df in
          let priority_muscles := high_priorities undertrained days_since_trained in
          let priority_muscles :=
            match priority_muscles with
            | [] => medium_priorities days_since_trained last_muscles
            | _ => priority_muscles
            end in
          match priority_muscles with
          | [] => Some RestOrLight
          | _ =>
              let suggested_muscles := map focus_muscle (firstn 3 priority_muscles) in
              match _get_exercise_suggestions exercises_df suggested_muscles 2 g with
              | Some (exercises, _) =>
                  Some (Targeted (firstn 3 priority_muscles) suggested_muscles exercises
                          (match last_muscles with
                           | [] => None
                           | _ => Some last_muscles
                           end))
              | None => None
              end
          end
      end
  end.

End Sampling.

(** What [sample(n)] guarantees on a frame of at least [n] rows: [n] of its
    rows, none drawn twice. *)
Definition draws_without_replacement {Rng : Type}
    (sample : Rng -> nat -> list ExerciseRecord -> list ExerciseRecord * Rng)
    : Prop :=
  forall g n frame, (n <= List.length frame)%nat ->
    List.length (fst (sample g n frame)) = n /\
    exists rest, Permutation (fst (sample g n frame) ++ rest) frame.

(** A generator that always draws the first rows. *)
Definition first_rows (g : unit) (n : nat) (frame : list ExerciseRecord)
    : list ExerciseRecord * unit :=
  (firstn n frame, g).

(** The exercises of the catalogue for a muscle group. *)
Definition exercises_for (exercises_df : list ExerciseRecord) (muscle : string)
    : list ExerciseRecord :=
  filter (fun e => String.eqb (muscle_group e) muscle) exercises_df.

(** A suggestion copies a catalogue exercise of its muscle group. *)
Definition from_catalogue (exercises_df : list ExerciseRecord) (s : Suggestion)
    : Prop :=
  exists e, In e (exercises_for exercises_df (sg_muscle_group s))
            /\ s = suggestion_of (sg_muscle_group s) e.

(** The working sets of a muscle group in the workouts of the last [days]
    days: the [sets] that [analyze_training_balance] reports for it. *)
Definition recent_working_sets (now : datetime) (workouts_df : DataFrame)
    (sets_df : list SetRecord) (exercises_df : list ExerciseRecord) (days : Z)
    (muscle : string) : Z :=
  Z.of_nat (List.length
    (filter (fun '(_, g) => String.eqb g muscle)
       (working_sets_with_muscles
          (map id (filter (is_recent now days) (rows workouts_df)))
          sets_df exercises_df))).

(** The days of rest that [get_next_workout_recommendation] reads for a
    muscle group. *)
Definition days_rest (today : datetime) (workouts_df : DataFrame)
    (sets_df : list SetRecord) (exercises_df : list ExerciseRecord)
    (muscle : string) : Z :=
  dict_get (_get_days_since_trained today workouts_df sets_df exercises_df)
           muscle 999%Z.

(** A muscle group with a set on record in the workouts of the frame. *)
Definition on_record (workouts_df : DataFrame) (sets_df : list SetRecord)
    (exercises_df : list ExerciseRecord) (muscle : string) : Prop :=
  exists date, In (date, muscle) (merged_dates (rows workouts_df) sets_df exercises_df).

(** The rest a muscle group needs, as [RECOVERY_DAYS.get(muscle, 2)]. *)
Definition recovery_days (muscle : string) : Z := dict_get RECOVERY_DAYS muscle 2%Z.

(** A muscle group that the first loop of [get_next_workout_recommendation]
    retains: below its minimum of working sets in the last seven days, and
    rested for its recovery days. *)
Definition needs_work (now today : datetime) (workouts_df : DataFrame)
    (sets_df : list SetRecord) (exercises_df : list ExerciseRecord)
    (muscle : string) : Prop :=
  exists t, In (muscle, t) VOLUME_TARGETS /\
    (recent_working_sets now workouts_df sets_df exercises_df 7 muscle < t_min t)%Z /\
    (recovery_days muscle <= days_rest today workouts_df sets_df exercises_df muscle)%Z.

(** A high-priority entry of [focus_muscles]. *)
Definition high_focus (now today : datetime) (workouts_df : DataFrame)
    (sets_df : list SetRecord) (exercises_df : list ExerciseRecord)
    (f : Focus) : Prop :=
  focus_priority f = high_priority /\
  focus_days_rest f
  = days_rest today workouts_df sets_df exercises_df (focus_muscle f) /\
  needs_work now today workouts_df sets_df exercises_df (focus_muscle f).

(** A medium-priority entry of [focus_muscles]: a muscle group that has
    rested for its recovery days and is not among those to avoid. *)
Definition medium_focus (today : datetime) (workouts_df : DataFrame)
    (sets_df : list SetRecord) (exercises_df : list ExerciseRecord)
    (avoid : option (list string)) (f : Focus) : Prop :=
  focus_priority f = medium_priority /\
  In (focus_muscle f) (map fst VOLUME_TARGETS) /\
  focus_days_rest f
  = days_rest today workouts_df sets_df exercises_df (focus_muscle f) /\
  (recovery_days (focus_muscle f) <= focus_days_rest f)%Z /\
  (forall last_muscles, avoid = Some last_muscles ->
                        ~ In (focus_muscle f) last_muscles).

(** What [_get_exercise_suggestions] selects for one muscle group when the
    exercise ids are distinct: as many exercises as asked for if the
    catalogue has them, no exercise twice, a compound first if there is one
    and, from two exercises on, an isolation if there is one. *)
Definition balanced_selection (exercises_df : list ExerciseRecord)
    (exercises_per_muscle : Z) (muscle : string) (block : list Suggestion) : Prop :=
  let listed := exercises_for exercises_df muscle in
  List.length block = Nat.min (Z.to_nat exercises_per_muscle) (List.length listed) /\
  NoDup (map sg_exercise_id block) /\
  Forall (fun s => sg_muscle_group s = muscle) block /\
  (existsb is_compound listed = true ->
   option_map sg_is_compound (List.hd_error block) = Some true) /\
  ((2 <= exercises_per_muscle)%Z ->
   existsb (fun e => negb (is_compound e)) listed = true ->
   existsb (fun s => negb (sg_is_compound s)) block = true).

(** A small catalogue: two chest exercises and one for every other group. *)
Definition catalogue : list ExerciseRecord :=
  [ mkExerciseRecord 1 "Barbell Bench Press" "chest" true;
    mkExerciseRecord 2 "Cable Fly" "chest" false;
    mkExerciseRecord 3 "Barbell Row" "back" true;
    mkExerciseRecord 4 "Barbell Squat" "legs" true;
    mkExerciseRecord 5 "Overhead Press" "shoulders" true;
    mkExerciseRecord 6 "Barbell Curl" "arms" false;
    mkExerciseRecord 7 "Plank" "core" false ].

(** One working set of 100 x 5 of an exercise in a workout. *)
Definition working_set (workout exercise : Z) : SetRecord :=
  mkSetRecord workout exercise (Fin 100) 5 "working".

(** A set of every exercise of [catalogue] but the plank, logged in the last
    workout of [week_of_workouts]. *)
Definition sets_without_core : list SetRecord :=
  map (working_set 2) [1; 2; 3; 4; 5; 6]%Z.

(** A set of every exercise of [catalogue], logged in the last workout of
    [week_of_workouts]. *)
Definition sets_of_every_group : list SetRecord :=
  map (working_set 2) [1; 2; 3; 4; 5; 6; 7]%Z.

(** Two readings of the clock: the day of the last workout of
    [week_of_workouts] at 20:00, and the morning after at 10:00. *)
Definition friday_evening : datetime := mkDatetime (ymd 2024 1 12) 72000.
Definition saturday_morning : datetime := mkDatetime (ymd 2024 1 13) 36000.

(** ** The 1RM calculator route ([routers/predictions.py]) *)





(** ** The z-score checks with a division that fails on a zero divisor *)

(** NumPy's division answers a zero divisor with an infinity or NaN and goes
    on, so [fdiv] is total.  To state that the detector never divides by a
    zero deviation, the two z-score checks of [anomaly_detector.py] are given
    a second time with [strict_div] in the place of the z-score's division:
    it fails, as [None], on a zero divisor. *)
Definition strict_div (a b : pyfloat) : option pyfloat :=
  if feq b (Fin 0) then None else Some (fdiv a b).

(** A loop that appends what each step emits and fails when a step does. *)
Fixpoint flat_map_strict {A B : Type} (f : A -> option (list B)) (l : list A)
    : option (list B) :=
  match l with
  | [] => Some []
  | a :: t =>
      match f a with
      | None => None
      | Some emitted =>
          match flat_map_strict f t with
          | None => None
          | Some rest => Some (emitted ++ rest)
          end
      end
  end.

Definition performance_row_strict (z_threshold : pyfloat) (row : Session)
    (rolling_mean_i rolling_std_i : pyfloat) : option (list Anomaly) :=
  if isna rolling_mean_i || isna rolling_std_i then Some []
  else if feq rolling_std_i (Fin 0) then Some []
  else
    match strict_div (fsub (estimated_1rm row) rolling_mean_i) rolling_std_i with
    | None => None
    | Some z_score =>
        let details :=
          [ ("actual_1rm"%string, DNum (pyround_nd (estimated_1rm row) 1));
            ("expected_1rm"%string, DNum (pyround_nd rolling_mean_i 1));
            ("z_score"%string, DNum (pyround_nd z_score 2)) ] in
        if flt z_score (fopp z_threshold) then
          Some [ mkAnomaly PERFORMANCE_DROP (workout_date row)
                   (if flt z_score (Fin (-3)) then High else Medium) details ]
        else if fgt z_score z_threshold then
          Some [ mkAnomaly PERFORMANCE_SPIKE (workout_date row) Low details ]
        else Some []
    end.

Definition _detect_performance_anomalies_strict (z_threshold : pyfloat)
    (df : DataFrame) : option (list Anomaly) :=
  if negb (has_estimated_1rm df) || forallb isna (column estimated_1rm df)
  then Some []
  else
    let rolling_means := rolling_mean 5 2 (column estimated_1rm df) in
    let rolling_stds := rolling_std 5 2 (column estimated_1rm df) in
    flat_map_strict
      (fun '(row, (m, s)) => performance_row_strict z_threshold row m s)
      (combine (rows df) (combine rolling_means rolling_stds)).

Definition volume_row_strict (z_threshold mean_volume std_volume : pyfloat)
    (row : Session) : option (list Anomaly) :=
  match strict_div (fsub (total_volume row) mean_volume) std_volume with
  | None => None
  | Some z_score =>
      if fgt z_score z_threshold then
        Some [ mkAnomaly VOLUME_SPIKE (workout_date row) Medium
                 [ ("volume"%string, DNum (pyround_nd (total_volume row) 0));
                   ("average_volume"%string, DNum (pyround_nd mean_volume 0));
                   ("percent_above"%string,
                     DNum (pyround_nd
                             (fmul (fsub (fdiv (total_volume row) mean_volume) (Fin 1))
                                   (Fin 100)) 1)) ] ]
      else if flt z_score (fopp z_threshold) then
        Some [ mkAnomaly VOLUME_DROP (workout_date row) Low
                 [ ("volume"%string, DNum (pyround_nd (total_volume row) 0));
                   ("average_volume"%string, DNum (pyround_nd mean_volume 0));
                   ("percent_below"%string,
                     DNum (pyround_nd
                             (fmul (fsub (Fin 1) (fdiv (total_volume row) mean_volume))
                                   (Fin 100)) 1)) ] ]
      else Some []
  end.

Definition _detect_volume_anomalies_strict (z_threshold : pyfloat)
    (df : DataFrame) : option (list Anomaly) :=
  if negb (has_total_volume df) then Some []
  else
    let mean_volume := series_mean (column total_volume df) in
    let std_volume := series_std (column total_volume df) in
    if feq std_volume (Fin 0) then Some []
    else flat_map_strict (volume_row_strict z_threshold mean_volume std_volume)
           (rows df).

Definition detect_anomalies_strict (z_threshold : pyfloat) (df : DataFrame)
    : option (list Anomaly) :=
  if (len df <? 3)%Z then Some []
  else
    let df := to_datetime_workout_date (sort_values df) in
    match _detect_performance_anomalies_strict z_threshold df with
    | None => None
    | Some performance =>
        match _detect_volume_anomalies_strict z_threshold df with
        | None => None
        | Some volume =>
            Some (sort_most_recent_first
                    (performance ++ volume
                     ++ _detect_fatigue_signals df ++ _detect_training_gaps df))
        end
    end.

(** ** Tables that hold the same sessions *)

(** A row without its index label. *)
Definition unlabelled (r : Session) : Session :=
  mkSession 0 (id r) (workout_date r) (total_volume r) (estimated_1rm r)
    (avg_rpe r) (perceived_exertion r).

(** Two lists of rows that hold the same sessions, in any order and under any
    index labels. *)
Definition same_sessions (rs rs' : list Session) : Prop :=
  Permutation (map unlabelled rs) (map unlabelled rs').

(** The frame of the unlabelled rows of a frame. *)
Definition strip (df : DataFrame) : DataFrame :=
  with_rows df (map unlabelled (rows df)).

(** [reset_index(drop=True)]: the rows as they are listed, under the default
    index 0, 1, 2, ... *)
Definition reset_index (rs : list Session) : list Session :=
  map (fun '(k, r) =>
         mkSession (Z.of_nat k) (id r) (workout_date r) (total_volume r)
           (estimated_1rm r) (avg_rpe r) (perceived_exertion r))
      (combine (seq 0 (List.length rs)) rs).

Definition result_map {A B : Type} (f : A -> B) (r : result A) : result B :=
  x <- r ;; Ok (f x).

(** What [prepare_data] returns and what [train] leaves behind, with the
    index labels of the rows they keep forgotten. *)
Definition unlabelled_prepared (p : Prepared) : Prepared :=
  mkPrepared (X p) (y p) (map unlabelled (processed_rows p)) (days_since_start p)
    (cumulative_volume p) (days_since_last p).

Definition unlabelled_training (r : StrengthPredictor * TrainingMetrics)
    : StrengthPredictor * TrainingMetrics :=
  (mkStrengthPredictor (model (fst r)) (scaler (fst r))
     (map unlabelled (training_data (fst r))) (last_date (fst r))
     (last_days (fst r)) (last_session (fst r)) (last_cumulative_volume (fst r))
     (last_1rm (fst r)) (avg_days_between (fst r)),
   snd r).

(** * Properties *)

(** ** Comparisons on reals *)

Lemma Rltb_true (x y : R) : Rltb x y = true <-> x < y.
Proof. unfold Rltb; destruct (Rlt_dec x y); split; intros; try easy; lra. Qed.

Lemma Rltb_false (x y : R) : Rltb x y = false <-> y <= x.
Proof. unfold Rltb; destruct (Rlt_dec x y); split; intros; try easy; lra. Qed.

Lemma Reqb_true (x y : R) : Reqb x y = true <-> x = y.
Proof. unfold Reqb; destruct (Req_dec_T x y); split; intros; try easy. Qed.

Lemma Reqb_false (x y : R) : Reqb x y = false <-> x <> y.
Proof. unfold Reqb; destruct (Req_dec_T x y); split; intros; try easy. Qed.

(** Case analysis on every comparison of reals in the goal. *)
Ltac rcases :=
  unfold Rltb, Rleb, Reqb in *;
  repeat match goal with
  | |- context [Rlt_dec ?x ?y] => destruct (Rlt_dec x y)
  | |- context [Rle_dec ?x ?y] => destruct (Rle_dec x y)
  | |- context [Req_dec_T ?x ?y] => destruct (Req_dec_T x y)
  | H : context [Rlt_dec ?x ?y] |- _ => destruct (Rlt_dec x y)
  | H : context [Rle_dec ?x ?y] |- _ => destruct (Rle_dec x y)
  | H : context [Req_dec_T ?x ?y] |- _ => destruct (Req_dec_T x y)
  end.

(** Case analysis on the condition of the first conditional of [H]. *)
Ltac case_if_in H :=
  match type of H with
  | context [if ?c then _ else _] => destruct c eqn:?
  end.

(** Equality of lists (of lists), entry by entry. *)
Ltac list_eq :=
  repeat match goal with
  | |- _ :: _ = _ :: _ => apply (f_equal2 cons)
  | |- [] = [] => reflexivity
  end.

Lemma fdiv_fin (x y : R) : y <> 0 -> fdiv (Fin x) (Fin y) = Fin (x / y).
Proof. intros Hy; simpl. apply Reqb_false in Hy. now rewrite Hy. Qed.

Lemma fle_fin_true (x y : R) : fle (Fin x) (Fin y) = true <-> x <= y.
Proof.
  unfold fle; simpl; rewrite orb_true_iff, Rltb_true, Reqb_true; lra.
Qed.

Lemma fle_fin_false (x y : R) : fle (Fin x) (Fin y) = false <-> y < x.
Proof.
  unfold fle; simpl; rewrite orb_false_iff, Rltb_false, Reqb_false; lra.
Qed.

Lemma fgt_not_fle (a b : pyfloat) : fgt a b = true -> fle a b = false.
Proof.
  unfold fgt, fle; destruct a, b; simpl; try easy; rcases; try easy; lra.
Qed.

(** ** The one-rep-max estimator *)

Section OneRepMax.

Lemma calculate_1rm_formulas (weight : pyfloat) (reps : Z) (formula : string) :
  fgt weight (Fin 0) = true -> (1 < reps)%Z ->
  calculate_1rm weight reps formula =
    if String.eqb formula "average" then np_mean (map snd (formulas weight reps))
    else dict_get (formulas weight reps) formula (formula_epley weight reps).
Proof.
  intros Hw Hr; unfold calculate_1rm.
  replace (reps =? 1)%Z with false by (symmetry; apply Z.eqb_neq; lia).
  replace (reps <? 1)%Z with false by (symmetry; apply Z.ltb_ge; lia).
  now rewrite (fgt_not_fle _ _ Hw).
Qed.

(** What ['average'] computes: for [weight > 0] and [reps > 1], the
    arithmetic mean of all five entries of the formulas dictionary, epley,
    brzycki, lombardi, oconner and mayhew. *)
Theorem calculate_1rm_average_all_five (weight : pyfloat) (reps : Z) :
  fgt weight (Fin 0) = true -> (1 < reps)%Z ->
  calculate_1rm weight reps "average" =
    np_mean [ formula_epley weight reps; formula_brzycki weight reps;
              formula_lombardi weight reps; formula_oconner weight reps;
              formula_mayhew weight reps ].
Proof.
  intros Hw Hr. rewrite calculate_1rm_formulas by assumption. reflexivity.
Qed.

Lemma fgt_100_0 : fgt (Fin 100) (Fin 0) = true.
Proof. simpl; apply Rltb_true; lra. Qed.

Lemma calculate_1rm_average_all_five_witness :
  calculate_1rm (Fin 100) 10 "average" =
    np_mean [ formula_epley (Fin 100) 10; formula_brzycki (Fin 100) 10;
              formula_lombardi (Fin 100) 10; formula_oconner (Fin 100) 10;
              formula_mayhew (Fin 100) 10 ].
Proof.
  apply (calculate_1rm_average_all_five (Fin 100) 10); [exact fgt_100_0 | lia].
Defined.


(** Bounds on the two transcendental factors at [reps = 2]. *)

Lemma exp_m011_upper : exp (- 0.055 * 2) <= / 1.11.
Proof.
  replace (- 0.055 * 2) with (Ropp 0.11) by lra.
  rewrite exp_Ropp. apply Rinv_le_contravar; [lra|].
  pose proof (exp_ineq1_le 0.11); lra.
Qed.

Lemma exp_m011_pos : 0 < exp (- 0.055 * 2).
Proof. apply exp_pos. Qed.

Lemma ln_2_lt_1 : ln 2 < 1.
Proof.
  rewrite <- (ln_exp 1). apply ln_increasing; [lra|].
  pose proof (exp_ineq1_le 1); pose proof (exp_ineq1 1); lra.
Qed.

Lemma Rpower_2_tenth_upper : Rpower 2 0.10 <= / 0.9.
Proof.
  unfold Rpower.
  apply Rle_trans with (exp 0.1).
  - destruct (Rle_lt_or_eq_dec (0.10 * ln 2) 0.1) as [Hlt | Heq].
    + pose proof ln_2_lt_1; lra.
    + left; now apply exp_increasing.
    + rewrite Heq; lra.
  - replace 0.1 with (Ropp (Ropp 0.1)) by lra. rewrite exp_Ropp.
    apply Rinv_le_contravar; [lra|].
    pose proof (exp_ineq1_le (Ropp 0.1)); lra.
Qed.

Lemma mayhew_factor_2_lower :
  1.11 <= 100 / (52.2 + 41.9 * exp (- 0.055 * 2)).
Proof.
  pose proof exp_m011_upper as Hu. pose proof exp_m011_pos as Hp.
  assert (H1 : / 1.11 <= 0.91) by (apply Rmult_le_reg_l with 1.11; [lra|];
    rewrite Rinv_r; lra).
  apply Rmult_le_reg_r with (52.2 + 41.9 * exp (-0.055 * 2)); [lra|].
  unfold Rdiv. rewrite Rmult_assoc, Rinv_l by lra. lra.
Qed.

(** C2, the failing input: at [weight = 100], [reps = 2] the value returned
    for ['average'] is strictly above the mean of epley, brzycki, lombardi and
    oconner, because Mayhew's larger estimate is averaged in. *)
Lemma calculate_1rm_average_not_four :
  exists x y : R,
    calculate_1rm (Fin 100) 2 "average" = Fin x /\
    spec_average (Fin 100) 2 = Fin y /\
    y < x.
Proof.
  rewrite calculate_1rm_formulas by (exact fgt_100_0 || lia).
  unfold spec_average, np_mean, formulas, fsum, of_nat.
  unfold formula_epley, formula_brzycki, formula_lombardi, formula_oconner,
    formula_mayhew.
  cbn [String.eqb Ascii.eqb Bool.eqb map snd fold_left List.length fmul fadd Z.ltb
       Z.compare Pos.compare Pos.compare_cont Z.sub Z.add Z.opp Z.pos_sub Pos.pred_double
       Z.succ_double Z.pred_double Z.double].
  rewrite !fdiv_fin by (simpl; lra).
  do 2 eexists; split; [reflexivity | split; [reflexivity |]].
  pose proof mayhew_factor_2_lower as Hm.
  pose proof Rpower_2_tenth_upper as Hl.
  assert (H09 : / 0.9 <= 1.12) by (apply Rmult_le_reg_l with 0.9; [lra|];
    rewrite Rinv_r; lra).
  simpl INR.
  assert (Hb : 36 / 35 <= 1.03) by lra.
  lra.
Qed.

(** C3: with exactly one repetition the lifted weight is the estimate, for
    every positive weight and every formula name, known or not. *)
Theorem calculate_1rm_single_rep (weight : pyfloat) (formula : string) :
  fgt weight (Fin 0) = true ->
  calculate_1rm weight 1 formula = weight.
Proof. intros _. reflexivity. Qed.

Lemma calculate_1rm_single_rep_witness :
  calculate_1rm (Fin 225) 1 "no_such_formula" = Fin 225.
Proof.
  apply (calculate_1rm_single_rep (Fin 225) "no_such_formula").
  simpl; apply Rltb_true; lra.
Defined.






End OneRepMax.

(** ** Insufficient data *)

Section InsufficientData.

Lemma prepare_data_short (df : DataFrame) :
  (len df < 2)%Z ->
  prepare_data df = Raise (ValueError "Need at least 2 data points for prediction").
Proof.
  intros H; unfold prepare_data.
  now replace (len df <? 2)%Z with true by (symmetry; apply Z.ltb_lt; lia).
Qed.

(** C1, counterexample: [train] called with a single session does not return
    a result, it raises [ValueError]. *)
Lemma train_one_session_raises :
  (len one_session < 2)%Z /\
  (forall sk : Sklearn,
     train sk one_session
     = Raise (ValueError "Need at least 2 data points for prediction")).
Proof.
  assert (H : (len one_session < 2)%Z) by (unfold len; simpl; lia).
  assert (T : forall sk, train sk one_session
              = Raise (ValueError "Need at least 2 data points for prediction")).
  { intros sk; unfold train. now rewrite (prepare_data_short _ H). }
  split; [exact H | exact T].
Qed.

(** C1, as amended: below their minimum number of sessions,
    [detect_anomalies] (3) returns the empty list, [get_health_score] (5) a
    null score with its message and [suggest_deload] (8) a verdict with
    [needs_deload] false, none of them raising; [train] (2) instead raises
    [ValueError] from [prepare_data]. *)
Theorem insufficient_data (df : DataFrame) :
  (forall z_threshold, (len df < 3)%Z -> detect_anomalies z_threshold df = []) /\
  ((len df < 5)%Z ->
     get_health_score df = Ok (NoScore "Need at least 5 workouts for health score")) /\
  (forall sets_df, (len df < 8)%Z ->
     suggest_deload df sets_df = mkDeloadAdvice false NotEnoughHistory) /\
  (forall sk, (len df < 2)%Z ->
     train sk df = Raise (ValueError "Need at least 2 data points for prediction")).
Proof.
  split; [| split; [| split]].
  - intros thr H; unfold detect_anomalies.
    now replace (len df <? 3)%Z with true by (symmetry; apply Z.ltb_lt; lia).
  - intros H; unfold get_health_score.
    now replace (len df <? 5)%Z with true by (symmetry; apply Z.ltb_lt; lia).
  - intros sets_df H; unfold suggest_deload.
    now replace (len df <? 8)%Z with true by (symmetry; apply Z.ltb_lt; lia).
  - intros sk H; unfold train. now rewrite (prepare_data_short _ H).
Qed.

Lemma insufficient_data_witness :
  detect_anomalies (Fin 2) one_session = [] /\
  get_health_score one_session
    = Ok (NoScore "Need at least 5 workouts for health score") /\
  suggest_deload one_session [] = mkDeloadAdvice false NotEnoughHistory /\
  train (mkSklearn (fun _ _ _ => Ok (mkLinearModel [] NaN)) (fun _ _ _ _ => Ok []))
        one_session
    = Raise (ValueError "Need at least 2 data points for prediction").
Proof.
  assert (H : (len one_session = 1)%Z) by reflexivity.
  destruct (insufficient_data one_session) as (Ha & Hh & Hd & Ht).
  split; [apply Ha; lia | split; [apply Hh; lia | split; [apply Hd; lia |]]].
  apply Ht; lia.
Defined.

End InsufficientData.

(** ** Rounding and clamping *)

Section Rounding.

Lemma round_half_even_cases (x : R) :
  round_half_even x = Zfloor x \/
  (round_half_even x = (Zfloor x + 1)%Z /\ IZR (Zfloor x) + 1 / 2 <= x).
Proof.
  unfold round_half_even.
  destruct (Rltb (x - IZR (Zfloor x)) (1 / 2)) eqn:E1; [now left|].
  apply Rltb_false in E1.
  destruct (Rltb (1 / 2) (x - IZR (Zfloor x))) eqn:E2.
  - right; split; [reflexivity | lra].
  - destruct (Z.even (Zfloor x)); [now left | right; split; [reflexivity | lra]].
Qed.

Lemma round_half_even_lower (a : Z) (x : R) :
  IZR a <= x -> (a <= round_half_even x)%Z.
Proof.
  intros H. pose proof (Zfloor_lub a x H) as Hf.
  destruct (round_half_even_cases x) as [-> | [-> _]]; lia.
Qed.

Lemma round_half_even_upper (b : Z) (x : R) :
  x <= IZR b -> (round_half_even x <= b)%Z.
Proof.
  intros H. pose proof (Zfloor_bound x) as [Hl Hu].
  assert (Hf : (Zfloor x <= b)%Z) by (apply le_IZR; lra).
  destruct (round_half_even_cases x) as [-> | [-> Hh]]; [exact Hf|].
  assert (Hlt : (Zfloor x < b)%Z) by (apply lt_IZR; lra).
  lia.
Qed.

Lemma round_half_even_IZR (z : Z) : round_half_even (IZR z) = z.
Proof.
  apply Z.le_antisymm.
  - apply round_half_even_upper; lra.
  - apply round_half_even_lower; lra.
Qed.

(** [min(25, max(0, v))] is a finite value of [[0, 25]] whatever [v] is, NaN
    and the infinities included. *)
Lemma clamp_0_25 (v : pyfloat) :
  exists r : R, pymin (Fin 25) (pymax (Fin 0) v) = Fin r /\ 0 <= r <= 25.
Proof.
  unfold pymin, pymax, fgt.
  destruct v as [x | | |]; simpl.
  - destruct (Rltb 0 x) eqn:E0; simpl.
    + destruct (Rltb x 25) eqn:E1.
      * apply Rltb_true in E0, E1. exists x; split; [reflexivity | lra].
      * exists 25; split; [reflexivity | lra].
    + replace (Rltb 0 25) with true by (symmetry; apply Rltb_true; lra).
      exists 0; split; [reflexivity | lra].
  - exists 25; split; [reflexivity | lra].
  - replace (Rltb 0 25) with true by (symmetry; apply Rltb_true; lra).
    exists 0; split; [reflexivity | lra].
  - replace (Rltb 0 25) with true by (symmetry; apply Rltb_true; lra).
    exists 0; split; [reflexivity | lra].
Qed.

Lemma pyround_clamped (v : pyfloat) :
  exists z : Z,
    pyround (pymin (Fin 25) (pymax (Fin 0) v)) = Ok z /\ (0 <= z <= 25)%Z.
Proof.
  destruct (clamp_0_25 v) as (r & -> & Hr).
  exists (round_half_even r); split; [reflexivity|]. split.
  - apply round_half_even_lower; simpl; lra.
  - apply round_half_even_upper; simpl; lra.
Qed.

(** The rounded value is within one half of the number. *)
Lemma round_half_even_near (x : R) :
  IZR (round_half_even x) - 1 / 2 <= x <= IZR (round_half_even x) + 1 / 2.
Proof.
  unfold round_half_even. pose proof (Zfloor_bound x) as [Hl Hu].
  destruct (Rltb (x - IZR (Zfloor x)) (1 / 2)) eqn:E1.
  - apply Rltb_true in E1. lra.
  - apply Rltb_false in E1.
    destruct (Rltb (1 / 2) (x - IZR (Zfloor x))) eqn:E2.
    + rewrite plus_IZR. lra.
    + apply Rltb_false in E2.
      destruct (Z.even (Zfloor x)); [| rewrite plus_IZR]; lra.
Qed.

Lemma round_half_even_lt (x y : R) :
  x + 2 <= y -> (round_half_even x < round_half_even y)%Z.
Proof.
  intros H. pose proof (round_half_even_near x). pose proof (round_half_even_near y).
  apply lt_IZR. lra.
Qed.

(** Rounding to one decimal keeps apart two values that differ by 1 or more. *)
Lemma pyround_nd_1_lt (x y : R) :
  x + 1 <= y -> flt (pyround_nd (Fin x) 1) (pyround_nd (Fin y) 1) = true.
Proof.
  intros H. cbn [pyround_nd flt]. apply Rltb_true.
  assert (Hlt : (round_half_even (x * 10 ^ 1) < round_half_even (y * 10 ^ 1))%Z)
    by (apply round_half_even_lt; simpl; lra).
  apply IZR_lt in Hlt. simpl in Hlt |- *. lra.
Qed.

Lemma trunc_IZR (z : Z) : trunc (IZR z) = z.
Proof.
  unfold trunc. destruct (Rltb (IZR z) 0); [| apply ZfloorZ].
  unfold Zceil. rewrite <- opp_IZR, ZfloorZ. lia.
Qed.

End Rounding.

(** ** The health score *)

Section HealthScore.

Lemma pyround_fin_in (a b : Z) (x : R) :
  IZR a <= x <= IZR b ->
  exists z : Z, pyround (Fin x) = Ok z /\ (a <= z <= b)%Z.
Proof.
  intros [Hl Hu]. exists (round_half_even x); split; [reflexivity|]. split.
  - now apply round_half_even_lower.
  - now apply round_half_even_upper.
Qed.

(** The consistency value before the variance penalty, for any mean gap. *)
Lemma consistency_base_bounds (avg_gap : pyfloat) :
  exists c : R,
    (if fle (Fin 2) avg_gap && fle avg_gap (Fin 4) then Fin 25
     else if flt avg_gap (Fin 2) then Fin 20
     else if fle avg_gap (Fin 7) then
       fsub (Fin 20) (fmul (fsub avg_gap (Fin 4)) (Fin 3))
     else pymax (Fin 0) (fsub (Fin 15) (fsub avg_gap (Fin 7)))) = Fin c
    /\ 0 <= c <= 25.
Proof.
  destruct (fle (Fin 2) avg_gap && fle avg_gap (Fin 4)) eqn:E1.
  { exists 25; split; [reflexivity | lra]. }
  destruct (flt avg_gap (Fin 2)) eqn:E2.
  { exists 20; split; [reflexivity | lra]. }
  destruct avg_gap as [a | | |].
  - simpl in E2; apply Rltb_false in E2.
    assert (H4 : 4 < a).
    { apply andb_false_iff in E1 as [E1 | E1]; apply fle_fin_false in E1; lra. }
    destruct (fle (Fin a) (Fin 7)) eqn:E3.
    + apply fle_fin_true in E3. eexists; split; [reflexivity | lra].
    + apply fle_fin_false in E3. unfold pymax, fgt; simpl.
      destruct (Rltb 0 (15 + - (a + - (7)))) eqn:E4.
      * apply Rltb_true in E4. eexists; split; [reflexivity | lra].
      * exists 0; split; [reflexivity | lra].
  - exists 0; split; [reflexivity | lra].
  - discriminate.
  - exists 0; split; [reflexivity | lra].
Qed.

(** The variance penalty takes at most 10 points and never adds any. *)
Lemma consistency_penalty_bounds (c : R) (gap_variance : pyfloat) :
  exists c' : R,
    (if fgt gap_variance (Fin 10) then
       fsub (Fin c) (pymin (Fin 10) (fdiv gap_variance (Fin 2)))
     else Fin c) = Fin c'
    /\ c - 10 <= c' <= c.
Proof.
  assert (H2 : Reqb 2 0 = false) by (apply Reqb_false; lra).
  destruct gap_variance as [v | | |]; unfold fgt, pymin; simpl.
  - destruct (Rltb 10 v) eqn:E.
    + apply Rltb_true in E. rewrite H2; simpl.
      destruct (Rltb (v / 2) 10) eqn:E2; simpl.
      * apply Rltb_true in E2. eexists; split; [reflexivity | lra].
      * eexists; split; [reflexivity | lra].
    + exists c; split; [reflexivity | lra].
  - replace (Rltb 2 0) with false by (symmetry; apply Rltb_false; lra).
    simpl. eexists; split; [reflexivity | lra].
  - exists c; split; [reflexivity | lra].
  - exists c; split; [reflexivity | lra].
Qed.

Lemma consistency_score_bounds (df : DataFrame) :
  exists z : Z, consistency_score df = Ok z /\ (0 <= z <= 25)%Z.
Proof.
  unfold consistency_score.
  generalize (series_mean (map gap_cell (days_gap (dates df)))).
  generalize (series_var (map gap_cell (days_gap (dates df)))).
  intros gap_variance avg_gap.
  destruct (consistency_base_bounds avg_gap) as (c & -> & Hc).
  destruct (consistency_penalty_bounds c gap_variance) as (c' & -> & Hc').
  simpl. eexists; split; [reflexivity|]. split; [lia|].
  apply Z.max_lub; [lia|]. apply round_half_even_upper; simpl; lra.
Qed.

Lemma progress_score_bounds (df : DataFrame) :
  exists z : Z, progress_score df = Ok z /\ (0 <= z <= 25)%Z.
Proof.
  unfold progress_score.
  destruct (has_estimated_1rm df && negb (forallb isna (column estimated_1rm df))).
  - match goal with |- context [fgt ?a ?b] => destruct (fgt a b) end.
    + apply pyround_clamped.
    + apply pyround_fin_in; simpl; lra.
  - apply pyround_fin_in; simpl; lra.
Qed.

Lemma volume_score_bounds (df : DataFrame) :
  exists z : Z, volume_score df = Ok z /\ (0 <= z <= 25)%Z.
Proof.
  unfold volume_score. destruct (has_total_volume df).
  - apply pyround_clamped.
  - apply pyround_fin_in; simpl; lra.
Qed.

(** Both counters of the streak loop stay non-negative. *)
Lemma streak_nonneg (l : list Session) (st : Z * Z) :
  (0 <= fst st)%Z -> (0 <= snd st)%Z ->
  (0 <= snd (fold_left streak_step l st))%Z.
Proof.
  revert st; induction l as [| row l IH]; intros [s m] Hs Hm; simpl in *;
    [exact Hm|].
  apply IH; destruct (fge (perceived_exertion row) (Fin 8)); simpl; lia.
Qed.

Lemma recovery_score_bounds (df : DataFrame) :
  (0 <= recovery_score df <= 25)%Z.
Proof.
  unfold recovery_score. destruct (has_perceived_exertion df); [|lia].
  assert (H : (0 <= snd (fold_left streak_step (rows df) (0, 0)))%Z)
    by (apply streak_nonneg; simpl; lia).
  destruct (fold_left streak_step (rows df) (0%Z, 0%Z)) as [s m].
  cbn [snd] in H. lia.
Qed.

(** C5: with at least five sessions [get_health_score] returns a score; the
    total is the sum of the consistency, progress, volume and recovery
    sub-scores, each sub-score lies in [[0, 25]] and the total in [[0, 100]]. *)
Theorem health_score_bounds (df : DataFrame) :
  (5 <= len df)%Z ->
  exists total rating scores recommendations,
    get_health_score df = Ok (Scored total rating scores recommendations) /\
    total = (consistency scores + progress scores + volume scores
             + recovery scores)%Z /\
    (0 <= consistency scores <= 25)%Z /\
    (0 <= progress scores <= 25)%Z /\
    (0 <= volume scores <= 25)%Z /\
    (0 <= recovery scores <= 25)%Z /\
    (0 <= total <= 100)%Z.
Proof.
  intros Hlen; unfold get_health_score.
  replace (len df <? 5)%Z with false by (symmetry; apply Z.ltb_ge; lia).
  set (sorted := to_datetime_workout_date (sort_values df)).
  destruct (consistency_score_bounds sorted) as (c & -> & Hc).
  destruct (progress_score_bounds sorted) as (p & -> & Hp).
  destruct (volume_score_bounds sorted) as (v & -> & Hv).
  pose proof (recovery_score_bounds sorted) as Hr.
  simpl. do 4 eexists. split; [reflexivity|]. simpl.
  repeat split; lia.
Qed.

Lemma health_score_bounds_witness :
  exists total rating scores recommendations,
    get_health_score five_sessions
      = Ok (Scored total rating scores recommendations) /\
    total = (consistency scores + progress scores + volume scores
             + recovery scores)%Z /\
    (0 <= consistency scores <= 25)%Z /\
    (0 <= progress scores <= 25)%Z /\
    (0 <= volume scores <= 25)%Z /\
    (0 <= recovery scores <= 25)%Z /\
    (0 <= total <= 100)%Z.
Proof.
  apply (health_score_bounds five_sessions).
  unfold len; simpl; lia.
Defined.

End HealthScore.

(** ** Series of finite values *)

Section FiniteSeries.

Lemma fold_left_fadd_fin (l : list R) (a : R) :
  fold_left fadd (map Fin l) (Fin a) = Fin (fold_left Rplus l a).
Proof.
  revert a; induction l as [| x l IH]; intros a; simpl; [reflexivity | apply IH].
Qed.

Lemma fsum_fin (l : list R) : fsum (map Fin l) = Fin (Rsum l).
Proof. apply fold_left_fadd_fin. Qed.

Lemma fold_left_Rplus_shift (l : list R) (a : R) :
  fold_left Rplus l a = a + fold_left Rplus l 0.
Proof.
  revert a; induction l as [| x l IH]; intros a; simpl; [lra|].
  rewrite (IH (a + x)), (IH (0 + x)); lra.
Qed.

Lemma Rsum_cons (x : R) (l : list R) : Rsum (x :: l) = x + Rsum l.
Proof.
  unfold Rsum; simpl. rewrite fold_left_Rplus_shift; lra.
Qed.

Lemma Rsum_nonneg (l : list R) : Forall (fun x => 0 <= x) l -> 0 <= Rsum l.
Proof.
  induction 1 as [| x l Hx _ IH]; [unfold Rsum; simpl; lra|].
  rewrite Rsum_cons; lra.
Qed.

Lemma Rsum_squares_nonneg (m : R) (l : list R) :
  0 <= Rsum (map (fun x => (x + - m) * (x + - m)) l).
Proof.
  apply Rsum_nonneg, Forall_forall. intros y Hy.
  apply in_map_iff in Hy as (x & <- & _).
  pose proof (Rle_0_sqr (x + - m)) as H; unfold Rsqr in H; exact H.
Qed.

Lemma dropna_fin (l : list R) : dropna (map Fin l) = map Fin l.
Proof.
  unfold dropna. induction l as [| x l IH]; simpl; [reflexivity | now rewrite IH].
Qed.

Lemma INR_length_neq_0 {A : Type} (l : list A) : l <> [] -> INR (List.length l) <> 0.
Proof.
  destruct l; [congruence|]. intros _. apply not_0_INR. simpl; lia.
Qed.

Lemma series_mean_fin (l : list R) :
  l <> [] ->
  series_mean (map Fin l) = Fin (Rsum l / INR (List.length l)).
Proof.
  intros Hl; unfold series_mean. rewrite dropna_fin.
  destruct l as [| x l]; [congruence|].
  cbn [map].
  change (Fin x :: map Fin l) with (map Fin (x :: l)).
  rewrite fsum_fin; unfold of_nat. rewrite length_map.
  apply fdiv_fin. apply INR_length_neq_0; congruence.
Qed.

Lemma series_var_fin (l : list R) :
  (2 <= List.length l)%nat ->
  series_var (map Fin l) = Fin (Rvar l).
Proof.
  intros Hl; unfold series_var, Rvar. rewrite dropna_fin, length_map.
  replace (List.length l <? 2)%nat with false by (symmetry; apply Nat.ltb_ge; lia).
  rewrite fsum_fin; unfold of_nat.
  rewrite fdiv_fin by (apply not_0_INR; lia).
  rewrite map_map; simpl.
  rewrite <- (map_map (fun x => (x + - (Rsum l / INR (List.length l)))
                               * (x + - (Rsum l / INR (List.length l)))) Fin).
  rewrite fsum_fin. apply fdiv_fin. apply not_0_INR; lia.
Qed.

Lemma Rvar_nonneg (l : list R) : (2 <= List.length l)%nat -> 0 <= Rvar l.
Proof.
  intros Hl; unfold Rvar.
  apply Rmult_le_pos; [apply Rsum_squares_nonneg|].
  left; apply Rinv_0_lt_compat. apply lt_0_INR; lia.
Qed.

Lemma series_std_fin (l : list R) :
  (2 <= List.length l)%nat ->
  series_std (map Fin l) = Fin (sqrt (Rvar l)).
Proof.
  intros Hl; unfold series_std. rewrite series_var_fin by assumption.
  simpl. pose proof (Rvar_nonneg l Hl).
  now replace (Rltb (Rvar l) 0) with false by (symmetry; apply Rltb_false; lra).
Qed.

End FiniteSeries.

(** ** Anomaly detection and zero standard deviation *)

Section ZeroStd.

Variable z_threshold : pyfloat.

Lemma In_insert_by_recency (a b : Anomaly) (l : list Anomaly) :
  In a (insert_by_recency b l) <-> a = b \/ In a l.
Proof.
  induction l as [| h t IH]; simpl.
  - intuition (auto; congruence).
  - destruct (anomaly_date h <=? anomaly_date b)%Z; simpl.
    + intuition (auto; congruence).
    + rewrite IH. intuition (auto; congruence).
Qed.

Lemma In_sort_most_recent_first (a : Anomaly) (l : list Anomaly) :
  In a (sort_most_recent_first l) <-> In a l.
Proof.
  unfold sort_most_recent_first.
  induction l as [| h t IH]; simpl; [tauto|].
  rewrite In_insert_by_recency, IH. intuition (auto; congruence).
Qed.

(** What the loop body of the performance check emits was computed from a
    rolling deviation that is neither missing nor zero. *)
Lemma performance_row_emits (row : Session) (m s : pyfloat) (a : Anomaly) :
  In a (performance_row z_threshold row m s) ->
  is_performance_anomaly a = true /\ is_volume_anomaly a = false /\
  anomaly_date a = workout_date row /\
  isna s = false /\ feq s (Fin 0) = false.
Proof.
  unfold performance_row.
  destruct (isna m || isna s) eqn:E1; [intros []|].
  destruct (feq s (Fin 0)) eqn:E2; [intros []|].
  apply orb_false_iff in E1 as [_ E1].
  destruct (flt _ (fopp z_threshold)).
  - intros [<- | []]; simpl; auto.
  - destruct (fgt _ z_threshold).
    + intros [<- | []]; simpl; auto.
    + intros [].
Qed.

Lemma volume_row_emits (mean_volume std_volume : pyfloat) (row : Session)
    (a : Anomaly) :
  In a (volume_row z_threshold mean_volume std_volume row) ->
  is_volume_anomaly a = true /\ is_performance_anomaly a = false.
Proof.
  unfold volume_row.
  destruct (fgt _ z_threshold).
  - intros [<- | []]; simpl; auto.
  - destruct (flt _ (fopp z_threshold)).
    + intros [<- | []]; simpl; auto.
    + intros [].
Qed.

Lemma fatigue_signals_type (df : DataFrame) (a : Anomaly) :
  In a (_detect_fatigue_signals df) -> anomaly_type a = HIGH_FATIGUE.
Proof.
  unfold _detect_fatigue_signals. intros H.
  apply in_app_or in H as [H | H].
  - case_if_in H; [|destruct H].
    apply in_flat_map in H as ([row t] & _ & H).
    unfold fatigue_row in H.
    case_if_in H; [|destruct H].
    destruct H as [<- | []]; reflexivity.
  - case_if_in H; [|destruct H].
    case_if_in H; [|destruct H].
    destruct H as [<- | []]; reflexivity.
Qed.

Lemma training_gaps_type (df : DataFrame) (a : Anomaly) :
  In a (_detect_training_gaps df) -> anomaly_type a = LONG_GAP.
Proof.
  unfold _detect_training_gaps. intros H.
  case_if_in H; [destruct H|].
  apply in_flat_map in H as ([row g] & _ & H).
  unfold gap_row in H. destruct g as [g|]; [|destruct H].
  case_if_in H; [|destruct H].
  destruct H as [<- | []]; reflexivity.
Qed.

(** The first two sentences of C6 on the two checks themselves. *)
Lemma performance_row_zero_std (row : Session) (m : pyfloat) :
  performance_row z_threshold row m (Fin 0) = [].
Proof.
  unfold performance_row. destruct (isna m || isna (Fin 0)); [reflexivity|].
  simpl. now replace (Reqb 0 0) with true by (symmetry; now apply Reqb_true).
Qed.

Lemma volume_anomalies_zero_std (df : DataFrame) :
  feq (series_std (column total_volume df)) (Fin 0) = true ->
  _detect_volume_anomalies z_threshold df = [].
Proof.
  intros H; unfold _detect_volume_anomalies.
  destruct (negb (has_total_volume df)); [reflexivity | now rewrite H].
Qed.

Lemma flat_map_strict_total {A B : Type} (f : A -> option (list B))
    (g : A -> list B) (l : list A) :
  (forall a, In a l -> f a = Some (g a)) ->
  flat_map_strict f l = Some (flat_map g l).
Proof.
  induction l as [| a t IH]; intros H; [reflexivity|].
  cbn [flat_map_strict flat_map].
  rewrite (H a) by now left.
  rewrite IH by (intros b Hb; apply H; now right).
  reflexivity.
Qed.

(** The strict performance check never fails: the division is reached only
    with a deviation that is not zero. *)
Lemma performance_row_strict_total (row : Session) (m s : pyfloat) :
  performance_row_strict z_threshold row m s
  = Some (performance_row z_threshold row m s).
Proof.
  unfold performance_row_strict, performance_row, strict_div.
  destruct (isna m || isna s); [reflexivity|].
  destruct (feq s (Fin 0)); [reflexivity|]. cbv zeta.
  destruct (flt _ (fopp z_threshold)); [reflexivity|].
  destruct (fgt _ z_threshold); reflexivity.
Qed.

Lemma detect_performance_anomalies_strict_total (df : DataFrame) :
  _detect_performance_anomalies_strict z_threshold df
  = Some (_detect_performance_anomalies z_threshold df).
Proof.
  unfold _detect_performance_anomalies_strict, _detect_performance_anomalies.
  destruct (negb (has_estimated_1rm df) || forallb isna (column estimated_1rm df));
    [reflexivity|].
  cbv zeta. apply flat_map_strict_total.
  intros [row [m s]] _. apply performance_row_strict_total.
Qed.

Lemma volume_row_strict_total (mean_volume std_volume : pyfloat) (row : Session) :
  feq std_volume (Fin 0) = false ->
  volume_row_strict z_threshold mean_volume std_volume row
  = Some (volume_row z_threshold mean_volume std_volume row).
Proof.
  intros H. unfold volume_row_strict, volume_row, strict_div. rewrite H. cbv zeta.
  destruct (fgt _ z_threshold); [reflexivity|].
  destruct (flt _ (fopp z_threshold)); reflexivity.
Qed.

Lemma detect_volume_anomalies_strict_total (df : DataFrame) :
  _detect_volume_anomalies_strict z_threshold df
  = Some (_detect_volume_anomalies z_threshold df).
Proof.
  unfold _detect_volume_anomalies_strict, _detect_volume_anomalies.
  destruct (negb (has_total_volume df)); [reflexivity|]. cbv zeta.
  destruct (feq (series_std (column total_volume df)) (Fin 0)) eqn:E;
    [reflexivity|].
  apply flat_map_strict_total. intros row _. now apply volume_row_strict_total.
Qed.

(** C6.  No division by a zero deviation is ever performed: with the
    z-score's division replaced by one that fails on a zero divisor,
    [detect_anomalies] still returns, and returns the same anomalies.  A
    session whose rolling deviation is exactly zero is skipped by the
    performance check, and the volume check emits nothing when the deviation
    of [total_volume] over the frame is zero.  Accordingly every performance
    anomaly returned was computed for a session whose 5-session rolling
    deviation is present and not zero, and a volume anomaly is returned only
    when the deviation of [total_volume] is not zero. *)
Theorem zero_std_emits_no_anomaly (df : DataFrame) :
  detect_anomalies_strict z_threshold df
  = Some (detect_anomalies z_threshold df) /\
  (forall row m,
     performance_row_strict z_threshold row m (Fin 0) = Some [] /\
     performance_row z_threshold row m (Fin 0) = []) /\
  (forall frame,
     feq (series_std (column total_volume frame)) (Fin 0) = true ->
     _detect_volume_anomalies_strict z_threshold frame = Some [] /\
     _detect_volume_anomalies z_threshold frame = []) /\
  forall a,
    In a (detect_anomalies z_threshold df) ->
    let sorted := to_datetime_workout_date (sort_values df) in
    (is_performance_anomaly a = true ->
       exists row m s,
         In (row, (m, s))
            (combine (rows sorted)
               (combine (rolling_mean 5 2 (column estimated_1rm sorted))
                        (rolling_std 5 2 (column estimated_1rm sorted)))) /\
         In a (performance_row z_threshold row m s) /\
         anomaly_date a = workout_date row /\
         feq s (Fin 0) = false) /\
    (is_volume_anomaly a = true ->
       feq (series_std (column total_volume sorted)) (Fin 0) = false /\
       exists row,
         In row (rows sorted) /\
         In a (volume_row z_threshold (series_mean (column total_volume sorted))
                 (series_std (column total_volume sorted)) row)).
Proof.
  split; [| split; [| split]].
  { unfold detect_anomalies_strict, detect_anomalies.
    destruct (len df <? 3)%Z; [reflexivity|]. cbv zeta.
    now rewrite detect_performance_anomalies_strict_total,
                detect_volume_anomalies_strict_total. }
  { intros row m. split.
    - rewrite performance_row_strict_total. f_equal.
      apply performance_row_zero_std.
    - apply performance_row_zero_std. }
  { intros frame H. split.
    - rewrite detect_volume_anomalies_strict_total. f_equal.
      now apply volume_anomalies_zero_std.
    - now apply volume_anomalies_zero_std. }
  intros a.
  unfold detect_anomalies.
  destruct (len df <? 3)%Z; [intros []|].
  intros H. cbv zeta. set (sorted := to_datetime_workout_date (sort_values df)) in *.
  apply (proj1 (In_sort_most_recent_first _ _)) in H.
  apply in_app_or in H as [H | H];
    [| apply in_app_or in H as [H | H]; [| apply in_app_or in H as [H | H]]].
  - (* found by the performance check *)
    unfold _detect_performance_anomalies in H.
    case_if_in H; [destruct H|].
    apply in_flat_map in H as ([row [m s]] & Hin & Ha).
    pose proof (performance_row_emits _ _ _ _ Ha) as (Hp & Hv & Hd & _ & Hs).
    split; [intros _ | congruence].
    exists row, m, s; auto.
  - (* found by the volume check *)
    unfold _detect_volume_anomalies in H.
    case_if_in H; [destruct H|].
    case_if_in H; [destruct H|].
    apply in_flat_map in H as (row & Hin & Ha).
    pose proof (volume_row_emits _ _ _ _ Ha) as (Hv & Hp).
    split; [congruence | intros _].
    split; [reflexivity | exists row; auto].
  - apply fatigue_signals_type in H.
    unfold is_performance_anomaly, is_volume_anomaly; rewrite H.
    split; discriminate.
  - apply training_gaps_type in H.
    unfold is_performance_anomaly, is_volume_anomaly; rewrite H.
    split; discriminate.
Qed.

End ZeroStd.

Section ZeroStdWitness.

Lemma spike_sessions_sorted :
  to_datetime_workout_date (sort_values spike_sessions)
  = to_datetime_workout_date spike_sessions.
Proof. reflexivity. Qed.

Lemma spike_volume_column :
  column total_volume (to_datetime_workout_date spike_sessions) = map Fin spike_volumes.
Proof. reflexivity. Qed.

Lemma spike_mean : series_mean (map Fin spike_volumes) = Fin 2000.
Proof.
  rewrite series_mean_fin by discriminate. f_equal.
  unfold Rsum, spike_volumes; cbn [fold_left List.length INR]. lra.
Qed.

Lemma spike_std : series_std (map Fin spike_volumes) = Fin (sqrt 6000000).
Proof.
  rewrite series_std_fin by (unfold spike_volumes; simpl; lia). do 2 f_equal.
  unfold Rvar, Rsum, spike_volumes; cbn [map fold_left List.length INR Nat.sub]. lra.
Qed.

Lemma sqrt_6000000_bounds : 0 < sqrt 6000000 < 2500.
Proof.
  split; [apply sqrt_lt_R0; lra|].
  rewrite <- (sqrt_square 2500) by lra. apply sqrt_lt_1; lra.
Qed.

Lemma zero_std_emits_no_anomaly_witness :
  detect_anomalies_strict (Fin 2) spike_sessions
  = Some (detect_anomalies (Fin 2) spike_sessions) /\
  exists a : Anomaly,
    In a (detect_anomalies (Fin 2) spike_sessions) /\
    is_volume_anomaly a = true /\
    feq (series_std
           (column total_volume
              (to_datetime_workout_date (sort_values spike_sessions))))
        (Fin 0) = false.
Proof.
  pose proof sqrt_6000000_bounds as [Hpos Hlt].
  assert (Hz : Rltb 2 ((7000 + - (2000)) / sqrt 6000000) = true).
  { apply Rltb_true. apply Rmult_lt_reg_r with (sqrt 6000000); [lra|].
    unfold Rdiv. rewrite Rmult_assoc, Rinv_l by lra. lra. }
  assert (Hin : In (mkAnomaly VOLUME_SPIKE (ymd 2024 1 16) Medium
                      [ ("volume"%string, DNum (pyround_nd (Fin 7000) 0));
                        ("average_volume"%string, DNum (pyround_nd (Fin 2000) 0));
                        ("percent_above"%string,
                          DNum (pyround_nd
                                  (fmul (fsub (fdiv (Fin 7000) (Fin 2000)) (Fin 1))
                                        (Fin 100)) 1)) ])
                   (detect_anomalies (Fin 2) spike_sessions)).
  { unfold detect_anomalies.
    replace (len spike_sessions <? 3)%Z with false by reflexivity.
    rewrite spike_sessions_sorted.
    apply In_sort_most_recent_first.
    apply in_or_app; right. apply in_or_app; left.
    unfold _detect_volume_anomalies.
    rewrite spike_volume_column, spike_mean, spike_std.
    cbn [has_total_volume to_datetime_workout_date spike_sessions negb feq].
    replace (Reqb (sqrt 6000000) 0) with false by (symmetry; apply Reqb_false; lra).
    apply in_flat_map.
    exists (session 5 (ymd 2024 1 16) (Fin 7000) NaN). split.
    - cbn [rows]. do 5 right. left. reflexivity.
    - unfold volume_row.
      cbn [total_volume session fsub fopp fadd].
      rewrite (fdiv_fin _ (sqrt 6000000)) by lra.
      unfold fgt; cbn [flt]. rewrite Hz. left. reflexivity. }
  destruct (zero_std_emits_no_anomaly (Fin 2) spike_sessions)
    as (Hstrict & _ & _ & Hall).
  split; [exact Hstrict|].
  eexists. split; [exact Hin|].
  destruct (Hall _ Hin) as [_ Hv].
  split; [reflexivity|].
  apply Hv. reflexivity.
Defined.

End ZeroStdWitness.

(** ** Forecasting *)

Section Forecast.

Variable self : StrengthPredictor.
Variable m : LinearModel.

(** One iteration is the forecast for its index appended to the list; the
    value of [future_rolling_avg] left by the previous iteration plays no part. *)
Lemma predict_future_step_spec (st : ForecastLoop) (i : Z) :
  exists carried : option pyfloat,
    predict_future_step self m st i
    = (p <- forecast_at self m i ;;
       Ok (mkForecastLoop (predictions st ++ [p]) carried)).
Proof.
  unfold predict_future_step, forecast_at, forecast_row.
  cbn [predictions future_rolling_avg]. unfold vector.
  destruct (pyint (fmul (of_int i) (avg_days_between self))) as [d | e];
    cbn [bind]; [| now exists None].
  match goal with |- context [predict m ?x] => destruct (predict m x) as [p | e] end;
    cbn [bind]; [| now exists None].
  match goal with |- context [pyint ?x] => destruct (pyint x) as [n | e] end;
    cbn [bind]; [| now exists None].
  eexists; reflexivity.
Qed.

Lemma predict_future_loop (l : list Z) (st : ForecastLoop) :
  (st' <- for_each (predict_future_step self m) st l ;; Ok (predictions st'))
  = (ps <- map_result (forecast_at self m) l ;; Ok (predictions st ++ ps)).
Proof.
  revert st; induction l as [| i l IH]; intros st; cbn [for_each map_result bind].
  - now rewrite app_nil_r.
  - destruct (predict_future_step_spec st i) as [carried ->].
    destruct (forecast_at self m i) as [p | e]; cbn [bind]; [| reflexivity].
    rewrite IH; cbn [predictions].
    destruct (map_result (forecast_at self m) l) as [ps | e]; cbn [bind];
      [| reflexivity].
    now rewrite <- app_assoc.
Qed.

End Forecast.

(** [predict_future] as a map over the future session indices. *)
Lemma predict_future_closed_form (self : StrengthPredictor) (days_ahead : Z)
    (sessions_ahead : option Z) :
  predict_future self days_ahead sessions_ahead
  = match model self with
    | None => Raise (ValueError "Model not trained. Call train() first.")
    | Some m =>
        n <- match sessions_ahead with
             | Some s => Ok s
             | None =>
                 n <- pyint (fdiv (of_int days_ahead) (avg_days_between self)) ;;
                 Ok (Z.max 1 n)
             end ;;
        map_result (forecast_at self m) (range1 n)
    end.
Proof.
  unfold predict_future. destruct (model self) as [m |]; [| reflexivity].
  match goal with |- bind ?c _ = _ => destruct c as [n | e] end; cbn [bind];
    [| reflexivity].
  rewrite predict_future_loop; cbn [predictions app].
  now destruct (map_result (forecast_at self m) (range1 n)).
Qed.

(** C10: every feature row handed to the model by [predict_future] carries the
    last training [estimated_1rm] as its [rolling_avg_1rm]: the forecasts are
    those of [forecast_at], computed from the session index alone with
    [forecast_row], whose fourth entry is [last_1rm]; and an iteration gives
    the same result whatever value the previous one left in
    [future_rolling_avg]. *)
Theorem predict_future_rolling_avg_constant (self : StrengthPredictor)
    (days_ahead : Z) (sessions_ahead : option Z) :
  (forall i : Z, nth 3 (forecast_row self i) NaN = last_1rm self) /\
  (forall (m : LinearModel) (st : ForecastLoop) (carried : option pyfloat) (i : Z),
     predict_future_step self m (mkForecastLoop (predictions st) carried) i
     = predict_future_step self m st i) /\
  predict_future self days_ahead sessions_ahead
  = match model self with
    | None => Raise (ValueError "Model not trained. Call train() first.")
    | Some m =>
        n <- match sessions_ahead with
             | Some s => Ok s
             | None =>
                 n <- pyint (fdiv (of_int days_ahead) (avg_days_between self)) ;;
                 Ok (Z.max 1 n)
             end ;;
        map_result (forecast_at self m) (range1 n)
    end.
Proof.
  split; [reflexivity | split; [reflexivity |]].
  apply predict_future_closed_form.
Qed.

(** ** The recommender and the caller's frames *)

Section CallerFrames.

(** Whatever the input, [analyze_training_balance] leaves the caller's
    workouts frame with its [workout_date] column converted. *)
Lemma analyze_training_balance_frame (now : datetime) (workouts_df : DataFrame)
    (sets_df : list SetRecord) (exercises_df : list ExerciseRecord) (days : Z) :
  snd (analyze_training_balance now workouts_df sets_df exercises_df days)
  = to_datetime_workout_date workouts_df.
Proof.
  unfold analyze_training_balance.
  now destruct (filter _ (rows (to_datetime_workout_date workouts_df))).
Qed.

(** C7, the failing input: a workouts frame whose dates are [datetime.date]
    objects is not the same frame after [analyze_training_balance]: its
    [workout_date] column then holds timestamps. *)
Lemma analyze_training_balance_mutates_input :
  let after :=
    snd (analyze_training_balance (mkDatetime (ymd 2024 1 13) 36000)
           week_of_workouts [] [] 7) in
  dates_as week_of_workouts = ObjectDates /\
  dates_as after = Datetime64 /\
  after = to_datetime_workout_date week_of_workouts /\
  after <> week_of_workouts.
Proof.
  cbv zeta. rewrite analyze_training_balance_frame.
  split; [reflexivity | split; [reflexivity | split; [reflexivity |]]].
  intros H. apply (f_equal dates_as) in H. discriminate H.
Qed.

End CallerFrames.

(** ** Deload advice *)

Section Deload.

Lemma streak_same_history :
  map workout_date (sort_by_date (rows streak_newest_first))
  = map workout_date (sort_by_date (rows streak_oldest_first)).
Proof. vm_compute. reflexivity. Qed.

Lemma streak_preconditions :
  (8 <= len streak_newest_first)%Z /\
  sessions_since_last_break
    (map workout_date (sort_by_date (rows streak_newest_first))) = 16%Z /\
  (let recent := tail 12 (sort_by_date (rows streak_newest_first)) in
   21 <= list_max (map workout_date recent) - list_min (map workout_date recent))%Z.
Proof. vm_compute. repeat split; discriminate. Qed.

(** The same history handed over oldest first gets the deload verdict. *)
Lemma suggest_deload_oldest_first :
  suggest_deload streak_oldest_first [] = mkDeloadAdvice true (WorkoutsSinceBreak 16).
Proof. vm_compute. reflexivity. Qed.

(** C9, the failing input: 17 sessions, 16 of them since the last gap of seven
    days, handed over newest first.  The frame is sorted, but the break is
    located by its index label (15) instead of its position (1), so only 2
    workouts are counted and no deload is advised. *)
Lemma suggest_deload_newest_first :
  suggest_deload streak_newest_first [] = mkDeloadAdvice false (NoDeload 14) /\
  long_breaks (sort_by_date (rows streak_newest_first)) = [15%Z].
Proof. vm_compute. split; reflexivity. Qed.

End Deload.

Section DeloadInDateOrder.

(** [long_breaks] on the rows that follow a row dated [prev]. *)
Let long_breaks_from (prev : Z) (rs : list Session) : list Z :=
  flat_map
    (fun '(r, g) =>
       match g with
       | Some d => if (7 <=? d)%Z then [label r] else []
       | None => []
       end)
    (combine rs (gaps_from prev (map workout_date rs))).

(** [len(workouts_df) - long_breaks[-1]], or the length without a break. *)
Let since_label (n : Z) (breaks : list Z) : Z :=
  match rev breaks with
  | last_break_idx :: _ => (n - last_break_idx)%Z
  | [] => n
  end.

Lemma since_label_count (rs : list Session) :
  forall (prev : Z) (k : nat) (pre : list Z),
    map label rs = map Z.of_nat (seq k (List.length rs)) ->
    since_label (Z.of_nat (k + List.length rs)) (pre ++ long_breaks_from prev rs)
    = since_break_from prev (map workout_date rs) (since_label (Z.of_nat k) pre).
Proof.
  induction rs as [| r rs IH]; intros prev k pre Hl.
  - cbn. now rewrite app_nil_r, Nat.add_0_r.
  - cbn [List.length seq map] in Hl. injection Hl as Hr Hl.
    cbn [map since_break_from].
    replace (k + List.length (r :: rs))%nat with (S k + List.length rs)%nat
      by (cbn; lia).
    unfold long_breaks_from; cbn [map gaps_from combine flat_map].
    fold (long_breaks_from (workout_date r) rs).
    rewrite app_assoc, (IH _ (S k) _ Hl). f_equal.
    destruct (7 <=? workout_date r - prev)%Z.
    + unfold since_label. rewrite rev_app_distr. cbn [rev app]. rewrite Hr. lia.
    + rewrite app_nil_r. unfold since_label.
      destruct (rev pre); lia.
Qed.

Lemma workouts_since_break_in_order (rs : list Session) :
  map label rs = map Z.of_nat (seq 0 (List.length rs)) ->
  since_label (Z.of_nat (List.length rs)) (long_breaks rs)
  = sessions_since_last_break (map workout_date rs).
Proof.
  destruct rs as [| r rs]; [reflexivity|].
  intros Hl. cbn [List.length seq map] in Hl. injection Hl as Hr Hl.
  unfold long_breaks, sessions_since_last_break.
  cbn [map days_gap combine flat_map app].
  fold (long_breaks_from (workout_date r) rs).
  pose proof (since_label_count rs (workout_date r) 1 [] Hl) as H.
  cbn [app] in H. unfold since_label at 2 in H; cbn in H.
  rewrite <- H. f_equal.
Qed.

(** On a frame handed over in date order under the default index,
    [suggest_deload] advises a deload whenever the preconditions hold and at
    least 16 sessions have elapsed since the last gap of seven days or more. *)
Lemma suggest_deload_in_date_order (df : DataFrame) (sets_df : list SetRecord) :
  sort_by_date (rows df) = rows df ->
  map label (rows df) = map Z.of_nat (seq 0 (List.length (rows df))) ->
  (8 <= len df)%Z ->
  (21 <= list_max (map workout_date (tail 12 (rows df)))
         - list_min (map workout_date (tail 12 (rows df))))%Z ->
  (16 <= sessions_since_last_break (dates df))%Z ->
  needs_deload (suggest_deload df sets_df) = true.
Proof.
  intros Hs Hl Hn Hr Hc. unfold suggest_deload.
  replace (len df <? 8)%Z with false by (symmetry; apply Z.ltb_ge; lia).
  assert (Hlen : len (to_datetime_workout_date (sort_values df))
                 = Z.of_nat (List.length (rows df))).
  { unfold len; cbn [rows to_datetime_workout_date sort_values with_rows].
    now rewrite Hs. }
  rewrite Hlen.
  cbn [rows to_datetime_workout_date sort_values with_rows has_perceived_exertion].
  rewrite Hs.
  match goal with |- context [(?a <? 21)%Z] =>
    replace (a <? 21)%Z with false by (symmetry; apply Z.ltb_ge; exact Hr) end.
  match goal with |- context [if ?c then mkDeloadAdvice true ExertionIncreasing else _] =>
    destruct c end; [reflexivity|].
  pose proof (workouts_since_break_in_order (rows df) Hl) as H.
  unfold since_label in H. rewrite H. fold (dates df).
  now replace (16 <=? sessions_since_last_break (dates df))%Z with true
    by (symmetry; apply Z.leb_le; exact Hc).
Qed.

End DeloadInDateOrder.

(** ** Standardising finite data *)

Section Standardise.

Lemma np_mean_fin (l : list R) :
  l <> [] -> np_mean (map Fin l) = Fin (Rmean l).
Proof.
  intros Hl; unfold np_mean, Rmean, of_nat.
  rewrite fsum_fin, length_map. apply fdiv_fin. now apply INR_length_neq_0.
Qed.

Lemma np_var_fin (l : list R) :
  l <> [] -> np_var (map Fin l) = Fin (Rpvar l).
Proof.
  intros Hl; unfold np_var, Rpvar.
  rewrite np_mean_fin by assumption. rewrite map_map; cbn [fsub fopp fadd fmul].
  rewrite <- (map_map (fun a => (a + - Rmean l) * (a + - Rmean l)) Fin).
  apply np_mean_fin. destruct l; [congruence | discriminate].
Qed.

Lemma Rmean_nonneg (l : list R) :
  Forall (fun x => 0 <= x) l -> 0 <= Rmean l.
Proof.
  intros H; unfold Rmean.
  destruct l as [| x l].
  - unfold Rsum; cbn. unfold Rdiv; rewrite Rmult_0_l; lra.
  - apply Rmult_le_pos; [now apply Rsum_nonneg|].
    left; apply Rinv_0_lt_compat, lt_0_INR; cbn; lia.
Qed.

Lemma Rpvar_nonneg (l : list R) : 0 <= Rpvar l.
Proof.
  unfold Rpvar. apply Rmean_nonneg, Forall_forall. intros y Hy.
  apply in_map_iff in Hy as (x & <- & _).
  pose proof (Rle_0_sqr (x + - Rmean l)) as H; unfold Rsqr in H; exact H.
Qed.

Lemma Rscale_neq_0 (l : list R) : Rscale l <> 0.
Proof. unfold Rscale; destruct (Req_dec_T (sqrt (Rpvar l)) 0); lra. Qed.

Lemma Rscale_pos (l : list R) : 0 < Rscale l.
Proof.
  unfold Rscale; destruct (Req_dec_T (sqrt (Rpvar l)) 0); [lra|].
  pose proof (sqrt_pos (Rpvar l)); lra.
Qed.

Lemma scale_fin (l : list R) :
  l <> [] ->
  handle_zeros_in_scale (fsqrt (np_var (map Fin l))) = Fin (Rscale l).
Proof.
  intros Hl. rewrite np_var_fin by assumption.
  pose proof (Rpvar_nonneg l) as Hv.
  unfold handle_zeros_in_scale, fsqrt, Rscale.
  replace (Rltb (Rpvar l) 0) with false by (symmetry; apply Rltb_false; lra).
  cbn [feq]. unfold Reqb. now destruct (Req_dec_T (sqrt (Rpvar l)) 0).
Qed.

Lemma column_of_fin (j : nat) (XR : list (list R)) :
  Forall (fun x => (j < List.length x)%nat) XR ->
  column_of j (map (map Fin) XR) = map Fin (Rcolumn j XR).
Proof.
  unfold column_of, Rcolumn. induction 1 as [| x XR Hx _ IH]; cbn [map];
    [reflexivity|].
  rewrite IH. f_equal.
  rewrite (nth_indep _ NaN (Fin 0)) by (now rewrite length_map).
  apply map_nth.
Qed.

Lemma scaler_fit_fin (XR : list (list R)) :
  XR <> [] ->
  Forall (fun x => List.length x = n_features) XR ->
  scaler_fit (map (map Fin) XR)
  = mkStandardScaler (map Fin (Rmeans XR)) (map Fin (Rscales XR)).
Proof.
  intros Hne Hlen. unfold scaler_fit, Rmeans, Rscales.
  rewrite !map_map. f_equal; apply map_ext_in; intros j Hj;
    apply in_seq in Hj; rewrite column_of_fin.
  - apply np_mean_fin. unfold Rcolumn. destruct XR; [congruence | discriminate].
  - eapply Forall_impl; [| exact Hlen]. cbn; intros x ->; lia.
  - apply scale_fin. unfold Rcolumn. destruct XR; [congruence | discriminate].
  - eapply Forall_impl; [| exact Hlen]. cbn; intros x ->; lia.
Qed.

Lemma transform_row_fin (x means scales : list R) :
  Forall (fun s => s <> 0) scales ->
  map (fun '(a, (m, s)) => fdiv (fsub a m) s)
      (combine (map Fin x) (combine (map Fin means) (map Fin scales)))
  = map Fin (map (fun '(a, (m, s)) => (a + - m) / s)
                 (combine x (combine means scales))).
Proof.
  intros Hs. revert means scales Hs.
  induction x as [| a x IH]; intros [| m means] [| s scales] Hs;
    cbn [map combine]; try reflexivity.
  inversion Hs as [| ? ? Hs0 Hs']; subst.
  cbn [fsub fopp fadd]. rewrite fdiv_fin by assumption.
  f_equal. now apply IH.
Qed.

Lemma scaler_transform_fin (means scales : list R) (XR : list (list R)) :
  Forall (fun s => s <> 0) scales ->
  scaler_transform (mkStandardScaler (map Fin means) (map Fin scales))
                   (map (map Fin) XR)
  = map (map Fin) (Rtransform means scales XR).
Proof.
  intros Hs. unfold scaler_transform, Rtransform. cbn [mean_ scale_].
  rewrite !map_map. apply map_ext. intros x. now apply transform_row_fin.
Qed.

Lemma Rscales_neq_0 (XR : list (list R)) : Forall (fun s => s <> 0) (Rscales XR).
Proof.
  unfold Rscales. apply Forall_forall. intros s Hs.
  apply in_map_iff in Hs as (j & <- & _). apply Rscale_neq_0.
Qed.

End Standardise.

(** ** Training on three sessions and forecasting *)

Section ThreeSessions.

Variables v1 v2 v3 : R.

Lemma three_sessions_sorted :
  to_datetime_workout_date (sort_values (three_sessions v1 v2 v3))
  = to_datetime_workout_date (three_sessions v1 v2 v3).
Proof. reflexivity. Qed.

Lemma rolling_mean_three :
  rolling_mean 3 1 [Fin 100; Fin 105; Fin 110] = [Fin 100; Fin 102.5; Fin 105].
Proof.
  unfold rolling_mean, rolling, window_at, observed, tail.
  cbn [List.length seq map firstn skipn Nat.sub filter is_finite Nat.ltb Nat.leb].
  change [Fin 100] with (map Fin [100]).
  change [Fin 100; Fin 105] with (map Fin [100; 105]).
  change [Fin 100; Fin 105; Fin 110] with (map Fin [100; 105; 110]).
  rewrite !series_mean_fin by discriminate.
  unfold Rsum; cbn [fold_left List.length INR].
  repeat (f_equal; try lra).
Qed.

Lemma prepare_data_three_sessions :
  prepare_data (three_sessions v1 v2 v3)
  = Ok (mkPrepared
          (map (map Fin) (three_sessions_features v1 v2 v3))
          [Fin 100; Fin 105; Fin 110]
          (rows (three_sessions v1 v2 v3))
          [0; 7; 14]%Z
          [Fin v1; Fin (v1 + v2); Fin (v1 + v2 + v3)]
          [Fin 7; Fin 7; Fin 7]).
Proof.
  unfold prepare_data.
  replace (len (three_sessions v1 v2 v3) <? 2)%Z with false by reflexivity.
  cbv zeta. rewrite three_sessions_sorted.
  cbn [has_total_volume has_estimated_1rm to_datetime_workout_date three_sessions
       frame negb].
  replace (column estimated_1rm _) with [Fin 100; Fin 105; Fin 110] by reflexivity.
  rewrite rolling_mean_three.
  simpl. unfold of_int, series_cumsum, column. simpl.
  repeat (f_equal; try lra).
Qed.

End ThreeSessions.

(** ** The least-squares fit of the three-session design *)

Section ThreeSessionFit.

(** The standardised design: three equal columns up to the scale factors
    [a1], [a2], [a4], the standardised cumulative volume [d], and a constant
    column that standardises to zero. *)
Variables a1 a2 a4 d1 d2 d3 : R.

Let design : list (list R) :=
  [ [- a1; - a2; d1; - a4; 0];
    [0; 0; d2; 0; 0];
    [a1; a2; d3; a4; 0] ].

Hypothesis a1_sqr : a1 * a1 = 3 / 2.
Hypothesis a2_sqr : a2 * a2 = 3 / 2.
Hypothesis a4_sqr : a4 * a4 = 3 / 2.
Hypothesis a1_pos : 0 < a1.
Hypothesis d_centred : d1 + d2 + d3 = 0.

Variables w1 w2 w3 w4 w5 b : R.

Hypothesis fit_ls : least_squares design [100; 105; 110] [w1; w2; w3; w4; w5] b.
Hypothesis fit_mn : minimum_norm design [w1; w2; w3; w4; w5].

(** A least-squares fit of these three points is exact. *)
Lemma three_session_fit_exact :
  b = 105 /\
  - a1 * w1 + - a2 * w2 + d1 * w3 + - a4 * w4 = -5 /\
  d2 * w3 = 0 /\
  a1 * w1 + a2 * w2 + d3 * w3 + a4 * w4 = 5.
Proof.
  destruct fit_ls as [Hsum Hcols].
  pose proof (Hcols 0%nat ltac:(unfold n_features; lia)) as H0.
  pose proof (Hcols 2%nat ltac:(unfold n_features; lia)) as H2.
  unfold residuals, Rdot, Rsum, Rcolumn, design in Hsum, H0, H2.
  cbn [map combine fold_left nth] in Hsum, H0, H2.
  assert (E : d1 * w3 + d2 * w3 + d3 * w3 = 0).
  { replace (d1 * w3 + d2 * w3 + d3 * w3) with ((d1 + d2 + d3) * w3) by ring.
    rewrite d_centred; ring. }
  assert (Hb : b = 105) by lra.
  subst b.
  set (r1 := 100 + - (0 + - a1 * w1 + - a2 * w2 + d1 * w3 + - a4 * w4 + 0 * w5 + 105)) in *.
  set (r2 := 105 + - (0 + 0 * w1 + 0 * w2 + d2 * w3 + 0 * w4 + 0 * w5 + 105)) in *.
  set (r3 := 110 + - (0 + a1 * w1 + a2 * w2 + d3 * w3 + a4 * w4 + 0 * w5 + 105)) in *.
  assert (H31 : r3 = r1).
  { assert (Hm : a1 * (r3 - r1) = 0) by lra.
    apply Rmult_integral in Hm as [Hm | Hm]; lra. }
  assert (H21 : r2 = - 2 * r1) by lra.
  assert (Hd : d2 * r1 = 0).
  { rewrite H31, H21 in H2.
    assert (Hx : (d1 + d3 - 2 * d2) * r1 = 0) by lra.
    replace (d1 + d3 - 2 * d2) with (- 3 * d2) in Hx by lra. lra. }
  assert (Hr1 : r1 = 0).
  { destruct (Req_dec d2 0) as [Hz | Hnz].
    - assert (r2 = 0) by (unfold r2; rewrite Hz; lra). lra.
    - apply Rmult_integral in Hd as [Hd | Hd]; [contradiction | exact Hd]. }
  assert (Hr2 : r2 = 0) by lra.
  assert (Hr3 : r3 = 0) by lra.
  unfold r1 in Hr1; unfold r2 in Hr2; unfold r3 in Hr3.
  repeat split; lra.
Qed.

(** The forecast grows by at least 10/3 from one future session to the next:
    [q] is the step of the standardised cumulative volume between two future
    sessions. *)
Lemma three_session_forecast_step (q : R) :
  d2 <> 0 \/ (d1 = 0 /\ d2 = 0 /\ d3 = 0) \/
  (d2 = 0 /\ d1 = - d3 /\ d3 * d3 = 3 / 2 /\ 1 <= d3 * q) ->
  10 / 3 <= a1 * w1 + a2 * w2 + q * w3.
Proof.
  intros Hcase.
  destruct three_session_fit_exact as (Hb & E1 & E2 & E3).
  destruct fit_mn as (u & Hlen & Hu).
  destruct u as [| u1 [| u2 [| u3 [| ? ?]]]]; try discriminate Hlen.
  assert (M1 : Rmean [- a1; 0; a1] = 0) by (unfold Rmean, Rsum; cbn; lra).
  assert (M2 : Rmean [- a2; 0; a2] = 0) by (unfold Rmean, Rsum; cbn; lra).
  assert (M4 : Rmean [- a4; 0; a4] = 0) by (unfold Rmean, Rsum; cbn; lra).
  assert (M3 : Rmean [d1; d2; d3] = 0).
  { unfold Rmean, Rsum; cbn.
    replace (0 + d1 + d2 + d3) with 0 by lra. lra. }
  pose proof (Hu 0%nat ltac:(unfold n_features; lia)) as U1.
  pose proof (Hu 1%nat ltac:(unfold n_features; lia)) as U2.
  pose proof (Hu 2%nat ltac:(unfold n_features; lia)) as U3.
  pose proof (Hu 3%nat ltac:(unfold n_features; lia)) as U4.
  unfold Rcolumn, design in U1, U2, U3, U4.
  cbn [map nth] in U1, U2, U3, U4.
  rewrite M1 in U1; rewrite M2 in U2; rewrite M3 in U3; rewrite M4 in U4.
  unfold Rdot, Rsum in U1, U2, U3, U4.
  cbn [map combine fold_left] in U1, U2, U3, U4.
  set (t := u3 - u1).
  assert (T1 : a1 * w1 = 3 / 2 * t).
  { rewrite U1. replace (a1 * _) with (a1 * a1 * t) by (unfold t; ring).
    now rewrite a1_sqr. }
  assert (T2 : a2 * w2 = 3 / 2 * t).
  { rewrite U2. replace (a2 * _) with (a2 * a2 * t) by (unfold t; ring).
    now rewrite a2_sqr. }
  assert (T4 : a4 * w4 = 3 / 2 * t).
  { rewrite U4. replace (a4 * _) with (a4 * a4 * t) by (unfold t; ring).
    now rewrite a4_sqr. }
  destruct Hcase as [Hd2 | [(Z1 & Z2 & Z3) | (Z2 & Z1 & Z3 & Hq)]].
  - apply Rmult_integral in E2 as [E2 | E2]; [contradiction|].
    rewrite E2 in *. lra.
  - assert (Hw3 : w3 = 0) by (rewrite U3, Z1, Z2, Z3; lra).
    rewrite Hw3 in *. lra.
  - assert (Hw3 : w3 = d3 * t).
    { rewrite U3, Z1, Z2. unfold t; ring. }
    assert (D3 : d3 * w3 = 3 / 2 * t).
    { rewrite Hw3. replace (d3 * (d3 * t)) with (d3 * d3 * t) by ring.
      now rewrite Z3. }
    assert (Ht : t = 5 / 6) by lra.
    replace (q * w3) with (d3 * q * t) by (rewrite Hw3; ring).
    assert (t <= d3 * q * t) by (rewrite Ht in *; lra).
    lra.
Qed.

End ThreeSessionFit.

Section ThreeSessionFitExists.

Variables a1 a2 a4 d1 d2 d3 : R.

Let design : list (list R) :=
  [ [- a1; - a2; d1; - a4; 0];
    [0; 0; d2; 0; 0];
    [a1; a2; d3; a4; 0] ].

Hypothesis a1_sqr : a1 * a1 = 3 / 2.
Hypothesis a2_sqr : a2 * a2 = 3 / 2.
Hypothesis a4_sqr : a4 * a4 = 3 / 2.
Hypothesis d_centred : d1 + d2 + d3 = 0.
Hypothesis d2_neq_0 : d2 <> 0.

Let t : R := 10 / 9.
Let w : list R := [a1 * t; a2 * t; 0; a4 * t; 0].

(** When the cumulative volume is not collinear with the other features the
    solution with equal weights fits the three points exactly and is of
    minimum norm. *)
Lemma three_session_fit_exists :
  least_squares design [100; 105; 110] w 105 /\ minimum_norm design w.
Proof.
  assert (R1 : a1 * (a1 * t) = 5 / 3)
    by (replace (a1 * (a1 * t)) with (a1 * a1 * t) by ring;
        rewrite a1_sqr; unfold t; lra).
  assert (R2 : a2 * (a2 * t) = 5 / 3)
    by (replace (a2 * (a2 * t)) with (a2 * a2 * t) by ring;
        rewrite a2_sqr; unfold t; lra).
  assert (R4 : a4 * (a4 * t) = 5 / 3)
    by (replace (a4 * (a4 * t)) with (a4 * a4 * t) by ring;
        rewrite a4_sqr; unfold t; lra).
  assert (Hres : residuals design [100; 105; 110] w 105 = [0; 0; 0]).
  { unfold residuals, Rdot, Rsum, design, w.
    cbn [map combine fold_left]. list_eq; lra. }
  split.
  - unfold least_squares. rewrite Hres. split.
    + unfold Rsum; cbn; lra.
    + intros j Hj. unfold n_features in Hj.
      do 5 (destruct j as [| j]; [unfold Rdot, Rsum; cbn; lra |]). lia.
  - exists [0; - (t * d3 / d2); t]. split; [reflexivity|].
    assert (M1 : Rmean [- a1; 0; a1] = 0) by (unfold Rmean, Rsum; cbn; lra).
    assert (M2 : Rmean [- a2; 0; a2] = 0) by (unfold Rmean, Rsum; cbn; lra).
    assert (M4 : Rmean [- a4; 0; a4] = 0) by (unfold Rmean, Rsum; cbn; lra).
    assert (M3 : Rmean [d1; d2; d3] = 0).
    { unfold Rmean, Rsum; cbn.
      replace (0 + d1 + d2 + d3) with 0 by lra. lra. }
    assert (M5 : Rmean [0; 0; 0] = 0) by (unfold Rmean, Rsum; cbn; lra).
    intros j Hj. unfold n_features in Hj.
    do 5 (destruct j as [| j];
          [ unfold Rcolumn, design, w; cbn [map nth];
            rewrite ?M1, ?M2, ?M3, ?M4, ?M5; unfold Rdot, Rsum;
            cbn [map combine fold_left]; try lra; field; exact d2_neq_0 |]).
    lia.
Qed.

End ThreeSessionFitExists.

(** ** Prediction and scoring on finite data *)

Section FiniteModels.

Lemma check_array_fin (XR : list (list R)) : check_array (map (map Fin) XR) = Ok tt.
Proof.
  unfold check_array.
  replace (forallb (forallb is_finite) (map (map Fin) XR)) with true; [reflexivity|].
  symmetry. apply forallb_forall. intros x Hx.
  apply in_map_iff in Hx as (r & <- & _).
  apply forallb_forall. intros a Ha.
  now apply in_map_iff in Ha as (z & <- & _).
Qed.

Lemma dot_fin (u v : list R) : dot (map Fin u) (map Fin v) = Fin (Rdot u v).
Proof.
  unfold dot, Rdot.
  replace (map (fun '(a, b) => fmul a b) (combine (map Fin u) (map Fin v)))
    with (map Fin (map (fun '(a, b) => a * b) (combine u v))).
  - apply fsum_fin.
  - revert v; induction u as [| a u IH]; intros [| c v]; cbn [map combine];
      try reflexivity.
    now rewrite IH.
Qed.

Lemma predict_fin (w : list R) (b : R) (XR : list (list R)) :
  predict (mkLinearModel (map Fin w) (Fin b)) (map (map Fin) XR)
  = Ok (map Fin (map (fun x => Rdot x w + b) XR)).
Proof.
  unfold predict. rewrite check_array_fin; cbn [bind coef_ intercept_].
  f_equal. rewrite !map_map. apply map_ext. intros x.
  now rewrite dot_fin.
Qed.

Lemma vsub_fin (u v : list R) :
  vsub (map Fin u) (map Fin v)
  = map Fin (map (fun '(a, b) => a + - b) (combine u v)).
Proof.
  unfold vsub. revert v; induction u as [| a u IH]; intros [| c v];
    cbn [map combine]; try reflexivity.
  now rewrite IH.
Qed.

Lemma sum_sq_fin (l : list R) :
  sum_sq (map Fin l) = Fin (Rsum (map (fun a => a * a) l)).
Proof.
  unfold sum_sq. rewrite map_map; cbn [fmul].
  rewrite <- (map_map (fun a => a * a) Fin). apply fsum_fin.
Qed.

Lemma Rsum_squares_self (u : list R) :
  Rsum (map (fun a => a * a) (map (fun '(a, b) => a + - b) (combine u u))) = 0.
Proof.
  induction u as [| a u IH]; [reflexivity|].
  cbn [combine map]. rewrite Rsum_cons, IH. ring.
Qed.

Lemma r2_denominator_fin (yR : list R) :
  yR <> [] ->
  sum_sq (map (fun a => fsub a (np_mean (map Fin yR))) (map Fin yR))
  = Fin (total_ss yR).
Proof.
  intros Hy. rewrite np_mean_fin by assumption.
  rewrite map_map; cbn [fsub fopp fadd].
  rewrite <- (map_map (fun a => a + - Rmean yR) Fin). apply sum_sq_fin.
Qed.

Lemma total_ss_nonneg (yR : list R) : 0 <= total_ss yR.
Proof.
  unfold total_ss. apply Rsum_nonneg, Forall_forall. intros z Hz.
  apply in_map_iff in Hz as (x & <- & _).
  pose proof (Rle_0_sqr x) as H; unfold Rsqr in H; exact H.
Qed.

(** A perfect prediction of a non-constant target scores exactly 1. *)
Lemma r2_score_perfect (yR : list R) :
  yR <> [] -> total_ss yR <> 0 ->
  r2_score (map Fin yR) (map Fin yR) = Fin 1.
Proof.
  intros Hy Hd. unfold r2_score.
  rewrite r2_denominator_fin by assumption.
  rewrite vsub_fin, sum_sq_fin, Rsum_squares_self.
  cbn [feq]. replace (Reqb (total_ss yR) 0) with false
    by (symmetry; now apply Reqb_false).
  cbn [negb]. rewrite fdiv_fin by assumption. cbn [fsub fopp fadd].
  f_equal. unfold Rdiv; rewrite Rmult_0_l; lra.
Qed.

Lemma fold_left_fadd_sum_like (l : list pyfloat) (acc : pyfloat) :
  sum_like acc -> Forall sum_like l -> sum_like (fold_left fadd l acc).
Proof.
  revert acc; induction l as [| a l IH]; intros acc Hacc Hl; [exact Hacc|].
  inversion Hl as [| ? ? Ha Hl']; subst. cbn [fold_left]. apply IH; [| exact Hl'].
  destruct acc, a; cbn in *; try tauto; lra.
Qed.

Lemma sum_sq_sum_like (v : vector) : sum_like (sum_sq v).
Proof.
  unfold sum_sq, fsum. apply fold_left_fadd_sum_like; [cbn; lra|].
  apply Forall_forall. intros z Hz. apply in_map_iff in Hz as (a & <- & _).
  destruct a as [x | | |]; cbn; try tauto.
  pose proof (Rle_0_sqr x) as H; unfold Rsqr in H; exact H.
Qed.

(** No prediction scores above 1. *)
Lemma r2_score_not_above_one (yR : list R) (pred : vector) :
  yR <> [] -> fgt (r2_score (map Fin yR) pred) (Fin 1) = false.
Proof.
  intros Hy. unfold r2_score.
  rewrite r2_denominator_fin by assumption.
  pose proof (total_ss_nonneg yR) as Hd.
  pose proof (sum_sq_sum_like (vsub (map Fin yR) pred)) as Hn.
  cbn [feq]. destruct (Reqb (total_ss yR) 0) eqn:E; cbn [negb].
  - destruct (negb _); unfold fgt; cbn; apply Rltb_false; lra.
  - apply Reqb_false in E.
    destruct (sum_sq (vsub (map Fin yR) pred)) as [r | | |]; cbn in Hn.
    + rewrite fdiv_fin by assumption. unfold fgt; cbn. apply Rltb_false.
      assert (0 <= r / total_ss yR).
      { apply Rmult_le_pos; [exact Hn|].
        left; apply Rinv_0_lt_compat; lra. }
      lra.
    + cbn [fdiv].
      replace (Rltb (total_ss yR) 0) with false by (symmetry; apply Rltb_false; lra).
      reflexivity.
    + contradiction.
    + reflexivity.
Qed.

End FiniteModels.

(** ** Model selection on a small, exactly fitted sample *)

Lemma training_set_finite (df : DataFrame) (p : Prepared) (XR : list (list R))
    (yR : list R) :
  prepare_data df = Ok p ->
  X p = map (map Fin) XR ->
  y p = map Fin yR ->
  XR <> [] ->
  Forall (fun x => List.length x = n_features) XR ->
  training_set df
  = Some (map (map Fin) (Rtransform (Rmeans XR) (Rscales XR) XR), map Fin yR).
Proof.
  intros Hp HX Hy Hne Hrows. unfold training_set. rewrite Hp, HX, Hy.
  rewrite scaler_fit_fin by assumption.
  now rewrite scaler_transform_fin by apply Rscales_neq_0.
Qed.

Section SmallSample.

Variable sk : Sklearn.
Variable df : DataFrame.
Variable p : Prepared.
Variables (XR : list (list R)) (yR w : list R) (b : R) (mr : LinearModel).

Let XS : list (list R) := Rtransform (Rmeans XR) (Rscales XR) XR.

Hypothesis prepared : prepare_data df = Ok p.
Hypothesis X_finite : X p = map (map Fin) XR.
Hypothesis y_finite : y p = map Fin yR.
Hypothesis X_rows : Forall (fun x => List.length x = n_features) XR.
Hypothesis X_small : (0 < List.length XR < 5)%nat.
Hypothesis y_varies : total_ss yR <> 0.
Hypothesis y_nonempty : yR <> [].
Hypothesis fit_linear :
  fit sk linear (map (map Fin) XS) (map Fin yR)
  = Ok (mkLinearModel (map Fin w) (Fin b)).
Hypothesis fit_ridge : fit sk ridge (map (map Fin) XS) (map Fin yR) = Ok mr.
Hypothesis fit_exact : map (fun x => Rdot x w + b) XS = yR.

Lemma candidate_score_small (name : ModelName) :
  candidate_score sk name (map (map Fin) XS) (map Fin yR)
  = (m <- fit sk name (map (map Fin) XS) (map Fin yR) ;;
     score m (map (map Fin) XS) (map Fin yR)).
Proof.
  unfold candidate_score.
  match goal with |- context [(5 <=? ?n)%Z] =>
    replace (5 <=? n)%Z with false
      by (symmetry; unfold XS, Rtransform; rewrite !length_map;
          apply Z.leb_gt; lia)
  end.
  reflexivity.
Qed.

Lemma score_linear_exact :
  score (mkLinearModel (map Fin w) (Fin b)) (map (map Fin) XS) (map Fin yR)
  = Ok (Fin 1).
Proof.
  unfold score. rewrite predict_fin; cbn [bind].
  now rewrite fit_exact, r2_score_perfect.
Qed.

Lemma score_ridge_not_above_one :
  exists s : pyfloat,
    score mr (map (map Fin) XS) (map Fin yR) = Ok s /\ fgt s (Fin 1) = false.
Proof.
  unfold score, predict. rewrite check_array_fin; cbn [bind].
  eexists; split; [reflexivity|]. now apply r2_score_not_above_one.
Qed.

(** With fewer than five samples the candidates are compared on their
    in-sample R-squared; an exact linear fit scores 1, which ridge cannot
    beat, so the linear model is kept. *)
Lemma train_selects_exact_linear_fit :
  exists metrics : TrainingMetrics,
    train sk df
    = Ok (mkStrengthPredictor
            (Some (mkLinearModel (map Fin w) (Fin b)))
            (mkStandardScaler (map Fin (Rmeans XR)) (map Fin (Rscales XR)))
            (processed_rows p)
            (list_max (map workout_date (processed_rows p)))
            (list_max (days_since_start p))
            (Z.of_nat (List.length (processed_rows p)))
            (last (cumulative_volume p) NaN)
            (last (y p) NaN)
            (series_mean (days_since_last p)),
          metrics)
    /\ model_type metrics = linear.
Proof.
  unfold train. rewrite prepared; cbn [bind]. cbv zeta.
  rewrite X_finite, y_finite.
  rewrite scaler_fit_fin; [| destruct XR; [cbn in X_small; lia | discriminate]
                           | exact X_rows].
  rewrite scaler_transform_fin by apply Rscales_neq_0.
  fold XS.
  destruct score_ridge_not_above_one as (s & Hs & Hle).
  cbn [for_each]. unfold select_step.
  rewrite !candidate_score_small, fit_linear, fit_ridge; cbn [bind].
  rewrite score_linear_exact, Hs; cbn [bind].
  replace (fgt (Fin 1) NInf) with true by reflexivity. cbn [bind].
  rewrite Hle; cbn [bind]. rewrite fit_linear; cbn [bind].
  rewrite predict_fin, score_linear_exact; cbn [bind].
  eexists; split; reflexivity.
Qed.

End SmallSample.

(** ** The worked example: three sessions, a fortnight ahead *)

Section ScaleFacts.

Lemma Rscale_sqr (l : list R) : 0 < Rpvar l -> Rscale l * Rscale l = Rpvar l.
Proof.
  intros H. unfold Rscale. destruct (Req_dec_T (sqrt (Rpvar l)) 0) as [E | _].
  - apply sqrt_eq_0 in E; lra.
  - apply sqrt_sqrt; lra.
Qed.

Lemma Rscale_constant (l : list R) : Rpvar l = 0 -> Rscale l = 1.
Proof.
  intros H. unfold Rscale. rewrite H, sqrt_0.
  destruct (Req_dec_T 0 0); [reflexivity | contradiction].
Qed.

Lemma map_Fin_inj (l l' : list R) : map Fin l = map Fin l' -> l = l'.
Proof.
  revert l'; induction l as [| a l IH]; intros [| c l'] H; try discriminate;
    [reflexivity|].
  cbn in H. injection H as Ha Hl. f_equal; auto.
Qed.

Lemma map_map_Fin_inj (X X' : list (list R)) :
  map (map Fin) X = map (map Fin) X' -> X = X'.
Proof.
  revert X'; induction X as [| x X IH]; intros [| x' X'] H; try discriminate;
    [reflexivity|].
  cbn in H. injection H as Hx HX. f_equal; [now apply map_Fin_inj | auto].
Qed.

End ScaleFacts.

Section ThreeSessionsForecast.

Variables v1 v2 v3 : R.
Hypothesis v1_nonneg : 0 <= v1.
Hypothesis v2_nonneg : 0 <= v2.

Let XR : list (list R) := three_sessions_features v1 v2 v3.
Let col1 : list R := [0; 7; 14].
Let col2 : list R := [1; 2; 3].
Let col3 : list R := [v1; v1 + v2; v1 + v2 + v3].
Let col4 : list R := [100; 102.5; 105].
Let col5 : list R := [7; 7; 7].

Let a1 : R := 7 / Rscale col1.
Let a2 : R := 1 / Rscale col2.
Let a4 : R := (5 / 2) / Rscale col4.
Let d1 : R := (v1 + - Rmean col3) / Rscale col3.
Let d2 : R := (v1 + v2 + - Rmean col3) / Rscale col3.
Let d3 : R := (v1 + v2 + v3 + - Rmean col3) / Rscale col3.

Lemma col1_stats : Rmean col1 = 7 /\ Rpvar col1 = 98 / 3.
Proof.
  assert (H : Rmean col1 = 7) by (unfold Rmean, Rsum, col1; cbn; lra).
  split; [exact H|].
  unfold Rpvar. rewrite H. unfold Rmean, Rsum, col1; cbn. lra.
Qed.

Lemma col2_stats : Rmean col2 = 2 /\ Rpvar col2 = 2 / 3.
Proof.
  assert (H : Rmean col2 = 2) by (unfold Rmean, Rsum, col2; cbn; lra).
  split; [exact H|].
  unfold Rpvar. rewrite H. unfold Rmean, Rsum, col2; cbn. lra.
Qed.

Lemma col4_stats : Rmean col4 = 102.5 /\ Rpvar col4 = 25 / 6.
Proof.
  assert (H : Rmean col4 = 102.5) by (unfold Rmean, Rsum, col4; cbn; lra).
  split; [exact H|].
  unfold Rpvar. rewrite H. unfold Rmean, Rsum, col4; cbn. lra.
Qed.

Lemma col5_stats : Rmean col5 = 7 /\ Rscale col5 = 1.
Proof.
  assert (H : Rmean col5 = 7) by (unfold Rmean, Rsum, col5; cbn; lra).
  split; [exact H|].
  apply Rscale_constant. unfold Rpvar. rewrite H.
  unfold Rmean, Rsum, col5; cbn. lra.
Qed.

Lemma col3_mean : Rmean col3 = v1 + (2 * v2 + v3) / 3.
Proof. unfold Rmean, Rsum, col3; cbn. lra. Qed.

Lemma col3_pvar :
  Rpvar col3 = 2 * (v2 * v2 + v2 * v3 + v3 * v3) / 9.
Proof.
  unfold Rpvar. rewrite col3_mean. unfold Rmean, Rsum, col3; cbn. field.
Qed.

Lemma a1_square : a1 * a1 = 3 / 2.
Proof.
  destruct col1_stats as [_ Hv].
  assert (Hs : Rscale col1 * Rscale col1 = 98 / 3)
    by (rewrite Rscale_sqr; lra).
  pose proof (Rscale_neq_0 col1) as Hn.
  unfold a1. replace (7 / Rscale col1 * (7 / Rscale col1))
    with (49 / (Rscale col1 * Rscale col1)) by (field; exact Hn).
  rewrite Hs. lra.
Qed.

Lemma a2_square : a2 * a2 = 3 / 2.
Proof.
  destruct col2_stats as [_ Hv].
  assert (Hs : Rscale col2 * Rscale col2 = 2 / 3)
    by (rewrite Rscale_sqr; lra).
  pose proof (Rscale_neq_0 col2) as Hn.
  unfold a2. replace (1 / Rscale col2 * (1 / Rscale col2))
    with (1 / (Rscale col2 * Rscale col2)) by (field; exact Hn).
  rewrite Hs. lra.
Qed.

Lemma a4_square : a4 * a4 = 3 / 2.
Proof.
  destruct col4_stats as [_ Hv].
  assert (Hs : Rscale col4 * Rscale col4 = 25 / 6)
    by (rewrite Rscale_sqr; lra).
  pose proof (Rscale_neq_0 col4) as Hn.
  unfold a4. replace (5 / 2 / Rscale col4 * (5 / 2 / Rscale col4))
    with (25 / 4 / (Rscale col4 * Rscale col4)) by (field; exact Hn).
  rewrite Hs. lra.
Qed.

Lemma a1_positive : 0 < a1.
Proof.
  unfold a1. apply Rmult_lt_0_compat; [lra|].
  apply Rinv_0_lt_compat, Rscale_pos.
Qed.

Lemma d_sum_zero : d1 + d2 + d3 = 0.
Proof.
  unfold d1, d2, d3. rewrite col3_mean.
  pose proof (Rscale_neq_0 col3) as Hn. field. exact Hn.
Qed.

(** The standardised training matrix. *)
Lemma standardised_three_sessions :
  Rtransform (Rmeans XR) (Rscales XR) XR
  = [ [- a1; - a2; d1; - a4; 0];
      [0; 0; d2; 0; 0];
      [a1; a2; d3; a4; 0] ].
Proof.
  destruct col1_stats as [M1 _]. destruct col2_stats as [M2 _].
  destruct col4_stats as [M4 _]. destruct col5_stats as [M5 S5].
  pose proof (Rscale_neq_0 col1). pose proof (Rscale_neq_0 col2).
  pose proof (Rscale_neq_0 col4).
  unfold Rtransform, Rmeans, Rscales, Rcolumn, XR, three_sessions_features,
    n_features.
  cbn [seq map nth combine].
  fold col1 col2 col3 col4 col5.
  rewrite M1, M2, M4, M5, S5.
  unfold a1, a2, a4, d1, d2, d3.
  list_eq; try (field; assumption); lra.
Qed.

(** The step of the standardised cumulative volume from one future session
    to the next: the mean volume per session over the scale of the column. *)
Let q : R := (v1 + v2 + v3) / 3 / Rscale col3.

(** The standardised cumulative-volume column is not constant in its middle
    entry, or vanishes, or is a copy of the other three columns. *)
Lemma d2_nonzero : v2 <> v3 -> d2 <> 0.
Proof.
  intros E H. apply E. pose proof (Rscale_neq_0 col3) as Hn.
  unfold d2 in H. rewrite col3_mean in H.
  assert (Hnum : v1 + v2 + - (v1 + (2 * v2 + v3) / 3) = 0).
  { apply Rmult_eq_reg_r with (/ Rscale col3);
      [| apply Rinv_neq_0_compat; exact Hn].
    rewrite Rmult_0_l. exact H. }
  lra.
Qed.

Lemma d_cases :
  d2 <> 0 \/ (d1 = 0 /\ d2 = 0 /\ d3 = 0) \/
  (d2 = 0 /\ d1 = - d3 /\ d3 * d3 = 3 / 2 /\ 1 <= d3 * q).
Proof.
  pose proof (Rscale_neq_0 col3) as Hn. pose proof (Rscale_pos col3) as Hp.
  destruct (Req_dec v2 v3) as [E | E].
  - right.
    assert (E1 : d1 = - v2 / Rscale col3)
      by (unfold d1; rewrite col3_mean, <- E; field; exact Hn).
    assert (E2 : d2 = 0)
      by (unfold d2; rewrite col3_mean, <- E; field; exact Hn).
    assert (E3 : d3 = v2 / Rscale col3)
      by (unfold d3; rewrite col3_mean, <- E; field; exact Hn).
    destruct (Req_dec v2 0) as [Z | Z].
    + left. rewrite E1, E2, E3, Z. repeat split; field; exact Hn.
    + right. assert (Hv : 0 < v2) by lra.
      assert (Hs : Rscale col3 * Rscale col3 = 2 * (v2 * v2) / 3).
      { rewrite Rscale_sqr; rewrite col3_pvar, <- E; [field | nra]. }
      split; [exact E2 | split; [rewrite E1, E3; field; exact Hn | split]].
      * rewrite E3.
        replace (v2 / Rscale col3 * (v2 / Rscale col3))
          with (v2 * v2 / (Rscale col3 * Rscale col3)) by (field; exact Hn).
        rewrite Hs. field. lra.
      * rewrite E3. unfold q. rewrite <- E.
        replace (v2 / Rscale col3 * ((v1 + v2 + v2) / 3 / Rscale col3))
          with (v2 * (v1 + 2 * v2) / 3 / (Rscale col3 * Rscale col3))
          by (field; exact Hn).
        rewrite Hs.
        replace (v2 * (v1 + 2 * v2) / 3 / (2 * (v2 * v2) / 3))
          with (1 + v1 / (2 * v2)) by (field; lra).
        assert (0 <= v1 / (2 * v2)).
        { apply Rmult_le_pos; [exact v1_nonneg|].
          left; apply Rinv_0_lt_compat; lra. }
        lra.
  - left. now apply d2_nonzero.
Qed.

(** The forecast for the future session [i], before rounding, from the
    coefficients and intercept of the fitted model. *)
Let forecast_value (w1 w2 w3 w4 b : R) (i : Z) : R :=
  a1 * (1 + IZR i) * w1 + a2 * (1 + IZR i) * w2 + (d3 + IZR i * q) * w3
  + 3 * a4 * w4 + b.

Lemma forecast_at_three_sessions (w1 w2 w3 w4 w5 b : R)
    (self : StrengthPredictor) (i : Z) :
  scaler self = mkStandardScaler (map Fin (Rmeans XR)) (map Fin (Rscales XR)) ->
  last_days self = 14%Z ->
  last_session self = 3%Z ->
  last_cumulative_volume self = Fin (v1 + v2 + v3) ->
  last_1rm self = Fin 110 ->
  avg_days_between self = Fin 7 ->
  forecast_at self (mkLinearModel (map Fin [w1; w2; w3; w4; w5]) (Fin b)) i
  = Ok (mkPrediction (last_date self + 7 * i) (3 + i)
          (pyround_nd (Fin (forecast_value w1 w2 w3 w4 b i)) 1) (7 * i)).
Proof.
  intros Hsc Hld Hls Hlc Hl1 Havg.
  destruct col1_stats as [M1 _]. destruct col2_stats as [M2 _].
  destruct col4_stats as [M4 _]. destruct col5_stats as [M5 S5].
  pose proof (Rscale_neq_0 col1). pose proof (Rscale_neq_0 col2).
  pose proof (Rscale_neq_0 col3). pose proof (Rscale_neq_0 col4).
  unfold forecast_at, forecast_row.
  rewrite Hsc, Hld, Hls, Hlc, Hl1, Havg. unfold of_int.
  rewrite (fdiv_fin _ (IZR 3)) by lra. cbn [fmul fadd fsub fopp].
  replace (IZR i * 7) with (IZR (7 * i)) by (rewrite mult_IZR; lra).
  cbn [pyint]. rewrite trunc_IZR. cbn [bind].
  replace (14 + IZR (7 * i) + - (14)) with (IZR (7 * i)) by lra.
  rewrite trunc_IZR.
  match goal with |- context [scaler_transform _ [?r]] =>
    change [r] with (map (map Fin)
      [ [14 + IZR (7 * i); IZR (3 + i);
         v1 + v2 + v3 + IZR i * ((v1 + v2 + v3) / 3); 110; 7] ])
  end.
  rewrite scaler_transform_fin by apply Rscales_neq_0.
  rewrite predict_fin. unfold Rtransform. cbn [bind map first_or_nan nth].
  match goal with |- context [pyround_nd (Fin ?x) 1] =>
    replace x with (forecast_value w1 w2 w3 w4 b i); [reflexivity|]
  end.
  unfold Rmeans, Rscales, Rcolumn, XR, three_sessions_features, n_features.
  cbn [seq map nth combine].
  fold col1 col2 col3 col4 col5.
  replace (Rmean col4) with (205 / 2) by lra.
  rewrite M1, M2, M5, S5, col3_mean.
  unfold Rdot, Rsum. cbn [combine map fold_left].
  unfold forecast_value, a1, a2, a4, d3, q. rewrite col3_mean.
  rewrite mult_IZR, plus_IZR. field. repeat split; assumption.
Qed.

Variable sk : Sklearn.

(** scikit-learn's part: on the standardised training set of the three
    sessions [LinearRegression] returns its documented solution and [Ridge]
    returns some model. *)
Hypothesis estimators :
  forall (Xs : matrix) (ys : vector),
    training_set (three_sessions v1 v2 v3) = Some (Xs, ys) ->
    linear_regression_contract sk Xs ys /\
    exists mr : LinearModel, fit sk ridge Xs ys = Ok mr.

Lemma three_sessions_training_set :
  training_set (three_sessions v1 v2 v3)
  = Some (map (map Fin) (Rtransform (Rmeans XR) (Rscales XR) XR),
          map Fin [100; 105; 110]).
Proof.
  eapply training_set_finite.
  - apply prepare_data_three_sessions.
  - reflexivity.
  - reflexivity.
  - discriminate.
  - repeat constructor.
Qed.

Lemma total_ss_three : total_ss [100; 105; 110] = 50.
Proof.
  unfold total_ss.
  assert (H : Rmean [100; 105; 110] = 105) by (unfold Rmean, Rsum; cbn; lra).
  rewrite H. unfold Rsum; cbn. lra.
Qed.

Lemma series_mean_sevens : series_mean [Fin 7; Fin 7; Fin 7] = Fin 7.
Proof.
  change [Fin 7; Fin 7; Fin 7] with (map Fin [7; 7; 7]).
  rewrite series_mean_fin by discriminate. f_equal.
  unfold Rsum; cbn. lra.
Qed.

(** C8: trained on the sessions of 2024-01-01, 2024-01-08 and 2024-01-15 with
    estimated 1RMs 100, 105 and 110 (whatever their volumes, the first two
    not negative), the predictor keeps the linear model, and
    [predict_future(days_ahead=14)] returns two forecasts whose
    [predicted_1rm] is strictly increasing and whose [days_from_now] is
    positive. *)
Theorem train_predict_future_three_sessions :
  exists (self : StrengthPredictor) (metrics : TrainingMetrics)
         (preds : list Prediction),
    train sk (three_sessions v1 v2 v3) = Ok (self, metrics) /\
    model_type metrics = linear /\
    predict_future self 14 None = Ok preds /\
    List.length preds = 2%nat /\
    increasing (map predicted_1rm preds) /\
    Forall (fun p => (0 < days_from_now p)%Z) preds.
Proof.
  destruct (estimators _ _ three_sessions_training_set)
    as [(XR' & yR' & w & b & HX & Hy & Hlen & Hfit & Hls & Hmn) [mr Hridge]].
  apply map_map_Fin_inj in HX. apply map_Fin_inj in Hy. subst XR' yR'.
  destruct w as [| c1 [| c2 [| c3 [| c4 [| c5 [| ? ?]]]]]]; try discriminate Hlen.
  rewrite standardised_three_sessions in Hls, Hmn.
  pose proof (three_session_fit_exact _ _ _ _ _ _ a1_positive d_sum_zero
                _ _ _ _ _ _ Hls) as (Hb & E1 & E2 & E3).
  pose proof (three_session_forecast_step _ _ _ _ _ _ a1_square a2_square a4_square
                a1_positive d_sum_zero _ _ _ _ _ _ Hls Hmn q d_cases) as Hstep.
  assert (Hexact : map (fun x => Rdot x [c1; c2; c3; c4; c5] + b)
                       (Rtransform (Rmeans XR) (Rscales XR) XR)
                   = [100; 105; 110]).
  { rewrite standardised_three_sessions. unfold Rdot, Rsum.
    cbn [map combine fold_left]. list_eq; lra. }
  destruct (train_selects_exact_linear_fit sk (three_sessions v1 v2 v3) _
              XR [100; 105; 110] [c1; c2; c3; c4; c5] b mr
              (prepare_data_three_sessions v1 v2 v3) eq_refl eq_refl)
    as (metrics & Htrain & Hlinear); try assumption.
  { repeat constructor. }
  { unfold XR; cbn. lia. }
  { rewrite total_ss_three; lra. }
  { discriminate. }
  cbn [processed_rows days_since_start cumulative_volume y days_since_last]
    in Htrain.
  rewrite series_mean_sevens in Htrain.
  match type of Htrain with _ = Ok (?s, _) => set (self := s) in * end.
  assert (F : forall i : Z,
             forecast_at self (mkLinearModel (map Fin [c1; c2; c3; c4; c5]) (Fin b)) i
             = Ok (mkPrediction (last_date self + 7 * i) (3 + i)
                     (pyround_nd (Fin (forecast_value c1 c2 c3 c4 b i)) 1)
                     (7 * i)))
    by (intros i; apply forecast_at_three_sessions; reflexivity).
  exists self, metrics.
  eexists. split; [exact Htrain | split; [exact Hlinear |]].
  rewrite predict_future_closed_form.
  replace (model self) with (Some (mkLinearModel (map Fin [c1; c2; c3; c4; c5]) (Fin b)))
    by reflexivity.
  replace (avg_days_between self) with (Fin 7) by reflexivity.
  unfold of_int. rewrite (fdiv_fin _ 7) by lra.
  replace (14 / 7) with (IZR 2) by lra.
  cbn [pyint bind]. rewrite trunc_IZR.
  replace (range1 (Z.max 1 2)) with [1%Z; 2%Z] by reflexivity.
  cbn [map_result]. rewrite !F. cbn [bind].
  split; [reflexivity | split; [reflexivity | split]].
  - cbn [map predicted_1rm increasing]. split; [| exact I].
    apply pyround_nd_1_lt. unfold forecast_value. lra.
  - repeat constructor; cbn [days_from_now]; lia.
Qed.

End ThreeSessionsForecast.

(** The hypothesis on the estimators can be met: with volumes 3000, 3150 and
    3300 the equal-weight model is the least-squares solution of minimum norm. *)
Lemma three_sessions_sklearn_estimators (Xs : matrix) (ys : vector) :
  training_set (three_sessions 3000 3150 3300) = Some (Xs, ys) ->
  linear_regression_contract three_sessions_sklearn Xs ys /\
  exists mr : LinearModel, fit three_sessions_sklearn ridge Xs ys = Ok mr.
Proof.
  intros H. rewrite three_sessions_training_set in H.
  set (XR := three_sessions_features 3000 3150 3300) in *.
  assert (HX : Xs = map (map Fin) (Rtransform (Rmeans XR) (Rscales XR) XR))
    by congruence.
  assert (HY : ys = map Fin [100; 105; 110]) by congruence.
  split; [| eexists; reflexivity].
  exists (Rtransform (Rmeans XR) (Rscales XR) XR), [100; 105; 110].
  eexists _, 105.
  split; [exact HX | split; [exact HY | split; [| split; [reflexivity |]]]].
  - reflexivity.
  - unfold XR. rewrite standardised_three_sessions.
    apply three_session_fit_exists.
    + apply a1_square.
    + apply a2_square.
    + apply a4_square.
    + apply d_sum_zero.
    + apply d2_nonzero. lra.
Qed.

Lemma train_predict_future_three_sessions_witness :
  exists (self : StrengthPredictor) (metrics : TrainingMetrics)
         (preds : list Prediction),
    train three_sessions_sklearn (three_sessions 3000 3150 3300)
      = Ok (self, metrics) /\
    model_type metrics = linear /\
    predict_future self 14 None = Ok preds /\
    List.length preds = 2%nat /\
    increasing (map predicted_1rm preds) /\
    Forall (fun p => (0 < days_from_now p)%Z) preds.
Proof.
  apply (train_predict_future_three_sessions 3000 3150 3300).
  - lra.
  - lra.
  - exact three_sessions_sklearn_estimators.
Defined.

(** * Further properties *)

(** ** The one-rep-max formulas *)

Section OneRepMaxFormulas.

Lemma fgt_fin_0 (w : R) : 0 < w -> fgt (Fin w) (Fin 0) = true.
Proof. intros H; unfold fgt; simpl. now apply Rltb_true. Qed.





Lemma mayhew_factor (reps : Z) :
  (2 <= reps)%Z -> 1 < 100 / (52.2 + 41.9 * exp (- 0.055 * IZR reps)).
Proof.
  intros H; apply IZR_le in H.
  assert (He : 0 < exp (- 0.055 * IZR reps) < 1).
  { split; [apply exp_pos|]. rewrite <- exp_0. apply exp_increasing. lra. }
  apply Rmult_lt_reg_r with (52.2 + 41.9 * exp (- 0.055 * IZR reps)); [lra|].
  unfold Rdiv; rewrite Rmult_assoc, Rinv_l by lra. lra.
Qed.

Lemma scaled_above (w c : R) : 0 < w -> 1 < c -> w < w * c.
Proof. intros; nra. Qed.

Lemma ordinary_weight_pos (w : R) : ordinary_weight w -> 0 < w.
Proof.
  intros [H _]. apply Rlt_le_trans with (/ 10 ^ 9); [| exact H].
  apply Rinv_0_lt_compat. apply pow_lt. lra.
Qed.

Lemma lombardi_margin (reps : Z) : (2 <= reps)%Z -> 1.02 < Rpower (IZR reps) 0.10.
Proof.
  intros H; apply IZR_le in H. unfold Rpower.
  rewrite <- (exp_ln 1.02) at 1 by lra. apply exp_increasing.
  assert (H10 : 10 * ln 1.02 < ln 2).
  { replace (10 * ln 1.02) with (ln (1.02 ^ 10)).
    - apply ln_increasing; [apply pow_lt; lra | simpl; lra].
    - rewrite <- (Rpower_pow 10 1.02) by lra. rewrite ln_Rpower. simpl; lra. }
  assert (Hln : ln 2 <= ln (IZR reps)).
  { destruct (Req_dec (IZR reps) 2) as [-> | Hne]; [lra|].
    left. apply ln_increasing; lra. }
  lra.
Qed.

Lemma mayhew_margin (reps : Z) :
  (2 <= reps)%Z -> 1.02 < 100 / (52.2 + 41.9 * exp (- 0.055 * IZR reps)).
Proof.
  intros H; apply IZR_le in H.
  assert (He : 0 < exp (- 0.055 * IZR reps) < 1).
  { split; [apply exp_pos|]. rewrite <- exp_0. apply exp_increasing. lra. }
  apply Rmult_lt_reg_r with (52.2 + 41.9 * exp (- 0.055 * IZR reps)); [lra|].
  unfold Rdiv; rewrite Rmult_assoc, Rinv_l by lra. lra.
Qed.

Lemma brzycki_margin (reps : Z) :
  (2 <= reps)%Z -> (reps < 37)%Z -> 1.02 < 36 / IZR (37 - reps).
Proof.
  intros H2 H37. rewrite minus_IZR.
  apply IZR_le in H2; apply IZR_lt in H37.
  apply Rmult_lt_reg_r with (37 - IZR reps); [lra|].
  unfold Rdiv; rewrite Rmult_assoc, Rinv_l by lra. lra.
Qed.

Lemma scaled_margin (w c : R) : 0 < w -> 1.02 < c -> w * 1.02 < w * c.
Proof. intros; nra. Qed.

(** With two or more repetitions every estimate exceeds the weight lifted by
    more than 2%: for a weight and a repetition count in the ordinary range
    and any formula name, known or not, [calculate_1rm] returns a finite
    value above [1.02 * weight].  The margin is far wider than the rounding
    of the floating-point operations. *)
Theorem calculate_1rm_exceeds_weight (w : R) (reps : Z) (formula : string) :
  ordinary_weight w -> ordinary_reps reps -> (2 <= reps)%Z ->
  exists x : R, calculate_1rm (Fin w) reps formula = Fin x /\ w * 1.02 < x.
Proof.
  intros Hrange _ Hr. pose proof (ordinary_weight_pos w Hrange) as Hw.
  rewrite calculate_1rm_formulas by (try apply fgt_fin_0; try lia; assumption).
  assert (He : w * 1.02 < w * (1 + IZR reps / 30))
    by (apply scaled_margin; [assumption | apply IZR_le in Hr; lra]).
  assert (Ho : w * 1.02 < w * (1 + IZR reps / 40))
    by (apply scaled_margin; [assumption | apply IZR_le in Hr; lra]).
  pose proof (scaled_margin w _ Hw (lombardi_margin reps Hr)) as Hl.
  pose proof (scaled_margin w _ Hw (mayhew_margin reps Hr)) as Hm.
  assert (Hb : exists b, formula_brzycki (Fin w) reps = Fin b /\ w * 1.02 < b).
  { unfold formula_brzycki. destruct (reps <? 37)%Z eqn:E.
    - apply Z.ltb_lt in E. eexists; split; [reflexivity|].
      apply scaled_margin; [assumption | now apply brzycki_margin].
    - eexists; split; [reflexivity | lra]. }
  destruct Hb as (b & Eb & Hb).
  unfold formulas; rewrite Eb.
  unfold formula_epley, formula_lombardi, formula_oconner, formula_mayhew.
  cbn [fmul].
  destruct (String.eqb formula "average").
  - unfold np_mean, fsum, of_nat; cbn [map snd fold_left fadd List.length].
    rewrite fdiv_fin by (simpl; lra).
    eexists; split; [reflexivity|]. simpl. lra.
  - cbn [dict_get].
    repeat match goal with
    | |- context [if String.eqb ?k formula then _ else _] =>
        destruct (String.eqb k formula)
    end; eexists; (split; [reflexivity|]); assumption.
Qed.

Lemma ordinary_weight_100 : ordinary_weight 100.
Proof. unfold ordinary_weight. simpl. lra. Qed.

Lemma calculate_1rm_exceeds_weight_witness :
  exists x : R, calculate_1rm (Fin 100) 5 "lombardi" = Fin x /\ 100 * 1.02 < x.
Proof.
  apply calculate_1rm_exceeds_weight;
    [exact ordinary_weight_100 | unfold ordinary_reps; lia | lia].
Defined.

(** A formula name that the dictionary does not know is not an error: the
    result is the Epley estimate, whatever the weight and the repetitions. *)
Theorem calculate_1rm_unknown_formula (weight : pyfloat) (reps : Z) (formula : string) :
  ~ In formula formula_names ->
  calculate_1rm weight reps formula = calculate_1rm weight reps "epley".
Proof.
  intros H. unfold calculate_1rm.
  destruct (reps =? 1)%Z; [reflexivity|].
  destruct ((reps <? 1)%Z || fle weight (Fin 0)); [reflexivity|].
  assert (Hne : forall k, In k formula_names -> String.eqb k formula = false).
  { intros k Hk. apply String.eqb_neq. intros ->. contradiction. }
  rewrite String.eqb_sym, (Hne "average"%string) by (simpl; tauto).
  cbn [String.eqb Ascii.eqb Bool.eqb].
  unfold formulas; cbn [dict_get].
  rewrite !Hne by (simpl; tauto).
  reflexivity.
Qed.

Lemma calculate_1rm_unknown_formula_witness :
  calculate_1rm (Fin 100) 5 "wathan" = calculate_1rm (Fin 100) 5 "epley".
Proof.
  apply calculate_1rm_unknown_formula.
  simpl. intros H.
  repeat (destruct H as [H | H]; [discriminate H|]). exact H.
Defined.

(** Epley against Brzycki, for a weight and a repetition count in the
    ordinary range: Brzycki is the lower estimate below ten repetitions, the two agree at exactly ten (four thirds
    of the weight), Brzycki is the higher one from 11 to 36, and from 37
    repetitions on it is capped at twice the weight, below Epley. *)
Theorem epley_versus_brzycki (w : R) (reps : Z) :
  ordinary_weight w -> ordinary_reps reps ->
  ((2 <= reps < 10)%Z ->
     flt (calculate_1rm (Fin w) reps "brzycki") (calculate_1rm (Fin w) reps "epley") = true) /\
  (reps = 10%Z ->
     calculate_1rm (Fin w) reps "brzycki" = Fin (w * (4 / 3)) /\
     calculate_1rm (Fin w) reps "epley" = Fin (w * (4 / 3))) /\
  ((10 < reps < 37)%Z ->
     flt (calculate_1rm (Fin w) reps "epley") (calculate_1rm (Fin w) reps "brzycki") = true) /\
  ((37 <= reps)%Z ->
     calculate_1rm (Fin w) reps "brzycki" = Fin (w * 2) /\
     flt (calculate_1rm (Fin w) reps "brzycki") (calculate_1rm (Fin w) reps "epley") = true).
Proof.
  intros Hrange _. pose proof (ordinary_weight_pos w Hrange) as Hw.
  assert (Hc : forall r, (2 <= r)%Z ->
            calculate_1rm (Fin w) r "brzycki" = formula_brzycki (Fin w) r /\
            calculate_1rm (Fin w) r "epley" = formula_epley (Fin w) r).
  { intros r Hr; split;
      (rewrite calculate_1rm_formulas by (try apply fgt_fin_0; try lia; assumption));
      reflexivity. }
  assert (Hd : forall r, (2 <= r < 37)%Z ->
            exists d, d = / IZR (37 - r) /\ 0 < d /\ d * (37 - IZR r) = 1).
  { intros r Hr. exists (/ IZR (37 - r)). rewrite minus_IZR.
    assert (0 < 37 - IZR r) by (destruct Hr as [_ Hr]; apply IZR_lt in Hr; lra).
    repeat split; [now apply Rinv_0_lt_compat | apply Rinv_l; lra]. }
  split; [| split; [| split]].
  - intros Hr. destruct (Hc reps ltac:(lia)) as [-> ->].
    unfold formula_brzycki, formula_epley.
    replace (reps <? 37)%Z with true by (symmetry; apply Z.ltb_lt; lia).
    cbn [fmul flt]. apply Rltb_true.
    destruct (Hd reps ltac:(lia)) as (d & Ed & Hd0 & Hd1).
    unfold Rdiv at 1; rewrite <- Ed.
    destruct Hr as [H2 H10]. apply IZR_le in H2; apply IZR_lt in H10.
    apply Rmult_lt_compat_l; [assumption|]. nra.
  - intros ->. destruct (Hc 10%Z ltac:(lia)) as [-> ->].
    unfold formula_brzycki, formula_epley; simpl. split; f_equal; lra.
  - intros Hr. destruct (Hc reps ltac:(lia)) as [-> ->].
    unfold formula_brzycki, formula_epley.
    replace (reps <? 37)%Z with true by (symmetry; apply Z.ltb_lt; lia).
    cbn [fmul flt]. apply Rltb_true.
    destruct (Hd reps ltac:(lia)) as (d & Ed & Hd0 & Hd1).
    unfold Rdiv at 2; rewrite <- Ed.
    destruct Hr as [H10 H37]. apply IZR_lt in H10; apply IZR_lt in H37.
    apply Rmult_lt_compat_l; [assumption|]. nra.
  - intros Hr. destruct (Hc reps ltac:(lia)) as [-> ->].
    unfold formula_brzycki, formula_epley.
    replace (reps <? 37)%Z with false by (symmetry; apply Z.ltb_ge; lia).
    split; [reflexivity|].
    cbn [fmul flt]. apply Rltb_true. apply IZR_le in Hr.
    apply Rmult_lt_compat_l; [assumption|]. lra.
Qed.

Lemma epley_versus_brzycki_witness :
  calculate_1rm (Fin 90) 10 "brzycki" = Fin (90 * (4 / 3)) /\
  calculate_1rm (Fin 90) 10 "epley" = Fin (90 * (4 / 3)).
Proof.
  apply (epley_versus_brzycki 90 10);
    [unfold ordinary_weight; simpl; lra | unfold ordinary_reps; lia | reflexivity].
Defined.

End OneRepMaxFormulas.

(** ** How far a value can lie from the mean of its sample *)

Section SampleDeviation.

Lemma Rsum_nil : Rsum [] = 0.
Proof. reflexivity. Qed.

Lemma Rsum_app (a b : list R) : Rsum (a ++ b) = Rsum a + Rsum b.
Proof.
  induction a as [| x a IH]; cbn [app].
  - rewrite Rsum_nil; lra.
  - rewrite !Rsum_cons, IH; lra.
Qed.

Lemma Rsum_map_squares_nonneg (l : list R) : 0 <= Rsum (map (fun a => a * a) l).
Proof.
  apply Rsum_nonneg, Forall_forall. intros y Hy.
  apply in_map_iff in Hy as (x & <- & _). nra.
Qed.

(** The square of a sum of [n] numbers is at most [n] times the sum of their
    squares. *)
Lemma square_of_sum (l : list R) :
  Rsum l * Rsum l <= INR (List.length l) * Rsum (map (fun a => a * a) l).
Proof.
  induction l as [| a t IH].
  - cbn [map List.length]. rewrite !Rsum_nil. simpl; lra.
  - cbn [map]. rewrite !Rsum_cons.
    change (List.length (a :: t)) with (S (List.length t)). rewrite S_INR.
    pose proof (Rsum_map_squares_nonneg t) as Hq.
    set (s := Rsum t) in *. set (q := Rsum (map (fun a => a * a) t)) in *.
    destruct t as [| b t'].
    + subst s q. cbn [map List.length]. rewrite !Rsum_nil. simpl. nra.
    + set (n := INR (List.length (b :: t'))) in *.
      assert (Hn : 1 <= n).
      { subst n. change 1 with (INR 1). apply le_INR. cbn; lia. }
      assert (H : 2 * (a * s) <= n * (a * a) + q).
      { apply Rmult_le_reg_l with n; [lra|].
        pose proof (Rle_0_sqr (n * a - s)) as Hsq; unfold Rsqr in Hsq. nra. }
      nra.
Qed.

Lemma Rsum_map_plus_const (l : list R) (c : R) :
  Rsum (map (fun y => y + c) l) = Rsum l + INR (List.length l) * c.
Proof.
  induction l as [| x l IH].
  - cbn [map List.length]. rewrite !Rsum_nil. simpl; lra.
  - cbn [map]. rewrite !Rsum_cons, IH.
    change (List.length (x :: l)) with (S (List.length l)). rewrite S_INR. lra.
Qed.

(** Samuelson's inequality: in a sample of [n] values, the squared deviation
    of a member from the mean is at most [(n - 1) / n] times the sum of all
    squared deviations. *)
Lemma squared_deviation_bound (l : list R) (x : R) :
  In x l ->
  INR (List.length l) * (Rdev l x * Rdev l x)
  <= (INR (List.length l) - 1) * Rsum (map (fun y => Rdev l y * Rdev l y) l).
Proof.
  intros Hin. apply in_split in Hin as (l1 & l2 & E).
  set (n := INR (List.length l)).
  assert (Hn : n = INR (List.length (l1 ++ l2)) + 1).
  { subst n l. rewrite !length_app. cbn [List.length].
    rewrite Nat.add_succ_r, S_INR, <- length_app. reflexivity. }
  assert (Hn0 : 0 < n).
  { rewrite Hn. pose proof (pos_INR (List.length (l1 ++ l2))). lra. }
  set (m := Rsum l / n).
  assert (Hdev : forall y, Rdev l y = y + - m) by reflexivity.
  (* the deviations sum to zero *)
  assert (H0 : Rsum (map (fun y => y + - m) l) = 0).
  { rewrite Rsum_map_plus_const. fold n. subst m. field. lra. }
  set (d := fun y : R => y + - m) in *.
  assert (Hl : Rsum (map d l) = d x + Rsum (map d (l1 ++ l2))).
  { rewrite E, !map_app. cbn [map]. rewrite !Rsum_app, Rsum_cons. lra. }
  assert (Hq : Rsum (map (fun y => Rdev l y * Rdev l y) l)
               = d x * d x + Rsum (map (fun a => a * a) (map d (l1 ++ l2)))).
  { rewrite map_map.
    change (fun y => Rdev l y * Rdev l y) with (fun y => d y * d y).
    rewrite E, !map_app. cbn [map]. rewrite !Rsum_app, Rsum_cons. lra. }
  pose proof (square_of_sum (map d (l1 ++ l2))) as CS.
  rewrite length_map in CS.
  rewrite Hq, Hdev. fold (d x).
  set (s := Rsum (map d (l1 ++ l2))) in *.
  set (q := Rsum (map (fun a => a * a) (map d (l1 ++ l2)))) in *.
  set (k := INR (List.length (l1 ++ l2))) in *.
  assert (Es : s = - d x) by lra.
  rewrite Es in CS. rewrite Hn. nra.
Qed.

(** With at most five values in the sample, no member lies more than two
    sample standard deviations from the mean. *)
Lemma within_two_deviations (l : list R) (x : R) :
  In x l -> (2 <= List.length l <= 5)%nat ->
  Rabs (Rdev l x) <= 2 * sqrt (Rvar l).
Proof.
  intros Hin Hlen.
  pose proof (squared_deviation_bound l x Hin) as HS.
  pose proof (Rvar_nonneg l ltac:(lia)) as Hv.
  pose proof (sqrt_sqrt _ Hv) as Hs. pose proof (sqrt_pos (Rvar l)) as Hs0.
  set (s := sqrt (Rvar l)) in *. set (d := Rdev l x) in *.
  set (n := INR (List.length l)) in *.
  assert (Hn : 2 <= n <= 5).
  { subst n. split.
    - replace 2 with (INR 2) by (simpl; lra). apply le_INR; lia.
    - replace 5 with (INR 5) by (simpl; lra). apply le_INR; lia. }
  assert (HV : Rsum (map (fun y => Rdev l y * Rdev l y) l) = (n - 1) * (s * s)).
  { rewrite Hs. unfold Rvar. fold n.
    rewrite minus_INR by lia. fold n. change (INR 1) with 1.
    unfold Rdev. fold n. field. lra. }
  rewrite HV in HS.
  assert (Hd : d * d <= 4 * (s * s)).
  { apply Rmult_le_reg_l with n; [lra|].
    assert ((n - 1) * (n - 1) <= 4 * n) by nra.
    assert ((n - 1) * (n - 1) * (s * s) <= 4 * n * (s * s))
      by (apply Rmult_le_compat_r; nra).
    nra. }
  unfold Rabs. destruct (Rcase_abs d); nra.
Qed.

End SampleDeviation.

(** ** Anomaly detection: what the thresholds allow *)

Section RollingWindows.

Lemma observed_fin (s : list pyfloat) : exists wR : list R, observed s = map Fin wR.
Proof.
  unfold observed. induction s as [| a s [wR IH]]; [now exists []|].
  cbn [filter]. destruct a; cbn [is_finite]; try (exists wR; exact IH).
  exists (x :: wR). cbn [map]. now rewrite IH.
Qed.

Lemma window_at_length (window : nat) (s : list pyfloat) (i : nat) :
  (List.length (window_at window s i) <= window)%nat.
Proof.
  unfold window_at, observed, tail.
  etransitivity; [apply filter_length_le|]. rewrite length_skipn. lia.
Qed.

Lemma firstn_S_nth_error {A : Type} (l : list A) (i : nat) (v : A) :
  nth_error l i = Some v -> firstn (S i) l = firstn i l ++ [v].
Proof.
  revert i; induction l as [| a l IH]; intros [| i] H; cbn in H; try discriminate.
  - injection H as ->. reflexivity.
  - cbn [firstn app]. f_equal. now apply IH.
Qed.

(** The window that ends at a row holds the row's own value when that value
    is finite. *)
Lemma window_at_current (window : nat) (s : list pyfloat) (i : nat) (x : R) :
  (0 < window)%nat -> nth_error s i = Some (Fin x) ->
  In (Fin x) (window_at window s i).
Proof.
  intros Hw Hi. unfold window_at, observed, tail.
  apply filter_In; split; [|reflexivity].
  rewrite (firstn_S_nth_error _ _ _ Hi), skipn_app, length_app. cbn [List.length].
  apply in_or_app; right.
  replace (List.length (firstn i s) + 1 - window - List.length (firstn i s))%nat
    with 0%nat by lia.
  now left.
Qed.

Lemma In_combine_positions {A B C : Type} (f : nat -> B) (g : nat -> C)
    (l : list A) (k : nat) (a : A) (b : B) (c : C) :
  In (a, (b, c))
     (combine l (combine (map f (seq k (List.length l))) (map g (seq k (List.length l))))) ->
  exists i : nat, nth_error l i = Some a /\ b = f (k + i)%nat /\ c = g (k + i)%nat.
Proof.
  revert k; induction l as [| h t IH]; intros k H; [destruct H|].
  cbn [List.length seq map combine] in H. destruct H as [H | H].
  - injection H as Ha Hb Hc. subst a b c. exists 0%nat. rewrite Nat.add_0_r. auto.
  - apply IH in H as (i & Hi & -> & ->). exists (S i).
    rewrite Nat.add_succ_r. auto.
Qed.

Lemma In_skipn_In {A : Type} (n : nat) (l : list A) (x : A) :
  In x (skipn n l) -> In x l.
Proof.
  revert l; induction n as [| n IH]; intros [| a l] H; cbn in H; auto.
  right; now apply IH.
Qed.

Lemma In_firstn_In {A : Type} (n : nat) (l : list A) (x : A) :
  In x (firstn n l) -> In x l.
Proof.
  revert l; induction n as [| n IH]; intros [| a l] H; cbn in H; try contradiction.
  destruct H as [-> | H]; [now left | right; now apply IH].
Qed.

End RollingWindows.

Section SortedFrames.

Lemma insert_by_date_perm (r : Session) (l : list Session) :
  Permutation (insert_by_date r l) (r :: l).
Proof.
  induction l as [| h t IH]; cbn [insert_by_date]; [reflexivity|].
  destruct (workout_date r <=? workout_date h)%Z; [reflexivity|].
  rewrite IH. apply perm_swap.
Qed.

Lemma sort_by_date_perm (l : list Session) : Permutation (sort_by_date l) l.
Proof.
  unfold sort_by_date. induction l as [| h t IH]; cbn [fold_right]; [reflexivity|].
  rewrite insert_by_date_perm. now constructor.
Qed.

Lemma sort_by_date_length (l : list Session) :
  List.length (sort_by_date l) = List.length l.
Proof. apply Permutation_length, sort_by_date_perm. Qed.

Lemma In_sort_by_date (r : Session) (l : list Session) :
  In r (sort_by_date l) <-> In r l.
Proof.
  split; apply Permutation_in; [| symmetry]; apply sort_by_date_perm.
Qed.

Lemma rows_sorted_frame (df : DataFrame) :
  rows (to_datetime_workout_date (sort_values df)) = sort_by_date (rows df).
Proof. reflexivity. Qed.

Lemma len_sorted_frame (df : DataFrame) :
  len (to_datetime_workout_date (sort_values df)) = len df.
Proof. unfold len. now rewrite rows_sorted_frame, sort_by_date_length. Qed.

(** Where an anomaly returned by [detect_anomalies] comes from. *)
Lemma In_detect_anomalies (z_threshold : pyfloat) (df : DataFrame) (a : Anomaly) :
  In a (detect_anomalies z_threshold df) ->
  (3 <= len df)%Z /\
  let sorted := to_datetime_workout_date (sort_values df) in
  In a (_detect_performance_anomalies z_threshold sorted) \/
  In a (_detect_volume_anomalies z_threshold sorted) \/
  In a (_detect_fatigue_signals sorted) \/
  In a (_detect_training_gaps sorted).
Proof.
  unfold detect_anomalies. destruct (len df <? 3)%Z eqn:E; [intros []|].
  apply Z.ltb_ge in E. intros H. split; [assumption|].
  apply (proj1 (In_sort_most_recent_first _ _)) in H.
  cbv zeta. rewrite !in_app_iff in H. exact H.
Qed.

End SortedFrames.

Section NonFiniteSeries.





Lemma dropna_no_nan (s : list pyfloat) : ~ In NaN (dropna s).
Proof. unfold dropna. intros H. apply filter_In in H as [_ H]. discriminate. Qed.





Lemma all_finite_fin (v : list pyfloat) :
  forallb is_finite v = true -> exists vR : list R, v = map Fin vR.
Proof.
  induction v as [| a v IH]; [now exists []|].
  cbn [forallb]. intros H. apply andb_true_iff in H as [Ha Hv].
  destruct (IH Hv) as [vR ->]. destruct a; try discriminate.
  now exists (x :: vR).
Qed.


Lemma flat_map_nil {A B : Type} (f : A -> list B) (l : list A) :
  (forall x, In x l -> f x = []) -> flat_map f l = [].
Proof.
  induction l as [| a l IH]; intros H; [reflexivity|].
  cbn [flat_map]. rewrite (H a) by now left. apply IH. intros; apply H; now right.
Qed.

End NonFiniteSeries.

Section Thresholds.

Variable z_threshold : pyfloat.

(** The threshold is two deviations or more. *)
Hypothesis two_or_more : fle (Fin 2) z_threshold = true.

Lemma within_threshold (z : R) :
  -2 <= z <= 2 ->
  flt (Fin z) (fopp z_threshold) = false /\ fgt (Fin z) z_threshold = false.
Proof.
  intros Hz. unfold fgt. destruct z_threshold as [t | | |]; try discriminate.
  - apply fle_fin_true in two_or_more. simpl.
    split; apply Rltb_false; lra.
  - now split.
Qed.

Lemma nan_within_threshold :
  flt NaN (fopp z_threshold) = false /\ fgt NaN z_threshold = false.
Proof. unfold fgt. now destruct z_threshold. Qed.

(** A z-score computed against the mean and deviation of a sample of at most
    five values to which the value belongs stays within the threshold. *)
Lemma z_score_within_threshold (l : list R) (x : R) :
  In x l -> (2 <= List.length l <= 5)%nat -> sqrt (Rvar l) <> 0 ->
  let z := fdiv (fsub (Fin x) (Fin (Rsum l / INR (List.length l)))) (Fin (sqrt (Rvar l))) in
  flt z (fopp z_threshold) = false /\ fgt z z_threshold = false.
Proof.
  intros Hin Hlen Hs z. subst z.
  cbn [fsub fopp fadd]. rewrite fdiv_fin by assumption.
  apply within_threshold.
  pose proof (within_two_deviations l x Hin Hlen) as H. unfold Rdev in H.
  pose proof (sqrt_pos (Rvar l)) as Hs0.
  set (s := sqrt (Rvar l)) in *.
  set (d := x + - (Rsum l / INR (List.length l))) in *.
  assert (Hpos : 0 < s) by lra.
  assert (Hd : -2 * s <= d <= 2 * s).
  { unfold Rabs in H. destruct (Rcase_abs d); lra. }
  split.
  - apply Rmult_le_reg_r with s; [assumption|].
    unfold Rdiv. rewrite Rmult_assoc, Rinv_l by lra. lra.
  - apply Rmult_le_reg_r with s; [assumption|].
    unfold Rdiv. rewrite Rmult_assoc, Rinv_l by lra. lra.
Qed.

(** One row of the performance check against its own rolling window. *)
Lemma performance_row_silent (s : list pyfloat) (i : nat) (row : Session) :
  nth_error s i = Some (estimated_1rm row) ->
  estimated_1rm row <> PInf -> estimated_1rm row <> NInf ->
  let w := window_at 5 s i in
  performance_row z_threshold row
    (if (List.length w <? 2)%nat then NaN else series_mean w)
    (if (List.length w <? 2)%nat then NaN else series_std w) = [].
Proof.
  intros Hi Hp Hn w. unfold performance_row.
  destruct (List.length w <? 2)%nat eqn:El; [reflexivity|].
  apply Nat.ltb_ge in El.
  pose proof (window_at_length 5 s i) as Hle. fold w in Hle.
  destruct (observed_fin (tail 5 (firstn (S i) s))) as [wR EwR].
  fold (window_at 5 s i) in EwR. fold w in EwR.
  assert (HlenR : List.length wR = List.length w) by (rewrite EwR; now rewrite length_map).
  rewrite EwR, series_mean_fin, series_std_fin
    by first [lia | destruct wR; [cbn [List.length] in HlenR; lia | discriminate]].
  cbn [isna is_nan orb].
  destruct (feq (Fin (sqrt (Rvar wR))) (Fin 0)) eqn:Es; [reflexivity|].
  simpl in Es. apply Reqb_false in Es.
  destruct (estimated_1rm row) as [x | | |] eqn:Ex; try congruence.
  - assert (Hin : In x wR).
    { pose proof (window_at_current 5 s i x ltac:(lia) Hi) as H.
      fold w in H. rewrite EwR in H.
      apply in_map_iff in H as (x' & E' & H). now injection E' as ->. }
    destruct (z_score_within_threshold wR x Hin ltac:(lia) Es) as [-> ->].
    reflexivity.
  - cbn [fsub fopp fadd fdiv].
    destruct nan_within_threshold as [-> ->]. reflexivity.
Qed.

(** On 1RM values that are finite or missing, the performance check reports
    nothing at a threshold of two deviations or more: a value cannot lie
    more than [4 / sqrt 5] sample deviations from the mean of a window of five
    that contains it. *)
Lemma performance_anomalies_silent (df : DataFrame) :
  Forall (fun r => estimated_1rm r <> PInf /\ estimated_1rm r <> NInf) (rows df) ->
  _detect_performance_anomalies z_threshold df = [].
Proof.
  intros Hfin. unfold _detect_performance_anomalies.
  destruct (negb (has_estimated_1rm df) || forallb isna (column estimated_1rm df));
    [reflexivity|].
  destruct (flat_map _ _) as [| a l] eqn:E; [reflexivity|].
  assert (Ha : In a (a :: l)) by now left.
  rewrite <- E in Ha. apply in_flat_map in Ha as ([row [m s]] & Hin & Ha).
  unfold rolling_mean, rolling_std, rolling, column in Hin.
  rewrite length_map in Hin.
  apply In_combine_positions in Hin as (i & Hi & -> & ->).
  cbn [Nat.add] in Ha.
  assert (Hrow : In row (rows df)) by (eapply nth_error_In; eassumption).
  rewrite Forall_forall in Hfin. destruct (Hfin row Hrow) as [Hp Hn].
  rewrite performance_row_silent in Ha; [destruct Ha | | assumption | assumption].
  now rewrite nth_error_map, Hi.
Qed.





Lemma gaps_from_some (prev : Z) (ds : list Z) :
  exists zs : list Z, gaps_from prev ds = map Some zs /\ List.length zs = List.length ds.
Proof.
  revert prev; induction ds as [| d t IH]; intros prev; [now exists []|].
  destruct (IH d) as (zs & E & Hl). exists ((d - prev)%Z :: zs).
  cbn [gaps_from map List.length]. now rewrite E, Hl.
Qed.

(** A gap is flagged only when it exceeds 14 days. *)
Lemma gap_row_emits (mean_gap std_gap : pyfloat) (row : Session) (gap : option Z)
    (a : Anomaly) :
  In a (gap_row mean_gap std_gap row gap) ->
  exists g : Z, gap = Some g /\ (14 < g)%Z /\
    anomaly_type a = LONG_GAP /\ severity a = Low /\
    anomaly_date a = workout_date row /\
    dict_get (details a) "days_gap" (DInt 0) = DInt g.
Proof.
  unfold gap_row. destruct gap as [g |]; [| intros []].
  destruct (fgt _ _) eqn:E; [| intros []].
  intros [<- | []]. exists g. repeat split.
  apply lt_IZR. unfold fgt, pymax, of_int in E.
  destruct (fadd mean_gap (fmul (Fin 2) std_gap)) as [x | | |];
    cbn in E; try discriminate.
  - destruct (Rltb 14 x) eqn:Ex; cbn in E.
    + apply Rltb_true in E, Ex. lra.
    + now apply Rltb_true in E.
  - now apply Rltb_true in E.
  - now apply Rltb_true in E.
Qed.

Lemma training_gaps_silent (df : DataFrame) :
  (3 <= len df < 7)%Z -> _detect_training_gaps df = [].
Proof.
  intros Hlen. unfold _detect_training_gaps, dates. cbv zeta.
  unfold len in Hlen. rewrite <- (length_map workout_date) in Hlen.
  set (ds := map workout_date (rows df)) in *.
  assert (Hrows : List.length (rows df) = List.length ds)
    by (subst ds; now rewrite length_map).
  destruct ds as [| d t]; [reflexivity|].
  cbn [days_gap map gap_cell].
  destruct (gaps_from_some d t) as (zs & E & Hzs). rewrite E.
  cbn [List.length] in Hlen.
  set (gR := map IZR zs).
  assert (EgR : map gap_cell (map Some zs) = map Fin gR).
  { subst gR. rewrite !map_map. reflexivity. }
  rewrite EgR.
  assert (Hmean : series_mean (NaN :: map Fin gR) = series_mean (map Fin gR)).
  { unfold series_mean. reflexivity. }
  assert (Hstd : series_std (NaN :: map Fin gR) = series_std (map Fin gR)).
  { unfold series_std, series_var. reflexivity. }
  rewrite Hmean, Hstd.
  assert (HgR : (2 <= List.length gR <= 5)%nat).
  { subst gR. rewrite length_map. lia. }
  assert (Hne : gR <> []) by (destruct gR; [cbn in HgR; lia | discriminate]).
  rewrite series_mean_fin, series_std_fin by (assumption || lia).
  cbn [isna is_nan orb].
  destruct (feq (Fin (sqrt (Rvar gR))) (Fin 0)) eqn:Es; [reflexivity|].
  simpl in Es. apply Reqb_false in Es.
  apply flat_map_nil. intros [row g] Hin.
  apply in_combine_r in Hin. destruct Hin as [<- | Hin]; [reflexivity|].
  apply in_map_iff in Hin as (z & <- & Hz).
  unfold gap_row.
  assert (HzR : In (IZR z) gR) by (subst gR; now apply in_map).
  pose proof (within_two_deviations gR (IZR z) HzR HgR) as Hb. unfold Rdev in Hb.
  pose proof (sqrt_pos (Rvar gR)) as Hs0.
  assert (Hz' : IZR z <= Rsum gR / INR (List.length gR) + 2 * sqrt (Rvar gR)).
  { unfold Rabs in Hb. destruct (Rcase_abs _) in Hb; lra. }
  replace (fgt _ _) with false; [reflexivity|].
  symmetry. unfold fgt, pymax, fgt, of_int. cbn [fmul fadd flt].
  destruct (Rltb 14 _) eqn:E14; cbn [flt]; apply Rltb_false; [lra|].
  apply Rltb_false in E14. lra.
Qed.

Lemma performance_anomalies_type (df : DataFrame) (a : Anomaly) :
  In a (_detect_performance_anomalies z_threshold df) ->
  is_performance_anomaly a = true /\ is_volume_anomaly a = false /\
  exists row, In row (rows df) /\ anomaly_date a = workout_date row /\
    severity_allowed (anomaly_type a) (severity a) = true.
Proof.
  unfold _detect_performance_anomalies. intros H.
  case_if_in H; [destruct H|].
  apply in_flat_map in H as ([row [m s]] & Hin & Ha).
  apply in_combine_l in Hin.
  unfold performance_row in Ha.
  destruct (isna m || isna s); [destruct Ha|].
  destruct (feq s (Fin 0)); [destruct Ha|].
  destruct (flt _ (fopp z_threshold)).
  - destruct Ha as [<- | []]. cbn.
    do 2 (split; [reflexivity|]). exists row.
    destruct (flt _ (Fin (-3))); auto.
  - destruct (fgt _ z_threshold); [| destruct Ha].
    destruct Ha as [<- | []]. cbn.
    do 2 (split; [reflexivity|]). exists row; auto.
Qed.

Lemma volume_anomalies_type (df : DataFrame) (a : Anomaly) :
  In a (_detect_volume_anomalies z_threshold df) ->
  is_volume_anomaly a = true /\ is_performance_anomaly a = false /\
  exists row, In row (rows df) /\ anomaly_date a = workout_date row /\
    severity_allowed (anomaly_type a) (severity a) = true.
Proof.
  unfold _detect_volume_anomalies. intros H.
  case_if_in H; [destruct H|].
  case_if_in H; [destruct H|].
  apply in_flat_map in H as (row & Hin & Ha).
  unfold volume_row in Ha.
  destruct (fgt _ z_threshold).
  - destruct Ha as [<- | []]. cbn.
    do 2 (split; [reflexivity|]). exists row; auto.
  - destruct (flt _ (fopp z_threshold)); [| destruct Ha].
    destruct Ha as [<- | []]. cbn.
    do 2 (split; [reflexivity|]). exists row; auto.
Qed.

(** With a threshold of two deviations or more, and 1RM values that are
    finite or missing, the performance check never reports anything: a value
    lies at most [4 / sqrt 5 < 2] sample deviations from the mean of a window
    of five that contains it.  No anomaly returned by [detect_anomalies] is
    then a performance drop or spike. *)
Theorem performance_check_silent (df : DataFrame) :
  Forall (fun r => estimated_1rm r <> PInf /\ estimated_1rm r <> NInf) (rows df) ->
  _detect_performance_anomalies z_threshold df = [] /\
  forall a : Anomaly,
    In a (detect_anomalies z_threshold df) -> is_performance_anomaly a = false.
Proof.
  intros Hfin. split; [now apply performance_anomalies_silent|].
  intros a Ha. apply In_detect_anomalies in Ha as (_ & [H | [H | [H | H]]]).
  - rewrite performance_anomalies_silent in H; [destruct H|].
    rewrite rows_sorted_frame. apply Forall_forall. intros r Hr.
    apply (proj1 (In_sort_by_date _ _)) in Hr. rewrite Forall_forall in Hfin. now apply Hfin.
  - now apply volume_anomalies_type in H.
  - apply fatigue_signals_type in H. unfold is_performance_anomaly. now rewrite H.
  - apply training_gaps_type in H. unfold is_performance_anomaly. now rewrite H.
Qed.


End Thresholds.

Lemma fle_2_2 : fle (Fin 2) (Fin 2) = true.
Proof. apply fle_fin_true; lra. Qed.

Lemma five_sessions_finite :
  Forall (fun r => estimated_1rm r <> PInf /\ estimated_1rm r <> NInf)
         (rows five_sessions).
Proof. repeat constructor; discriminate. Qed.

Lemma performance_check_silent_witness :
  _detect_performance_anomalies (Fin 2) five_sessions = [] /\
  forall a : Anomaly,
    In a (detect_anomalies (Fin 2) five_sessions) -> is_performance_anomaly a = false.
Proof.
  apply (performance_check_silent (Fin 2) fle_2_2 five_sessions five_sessions_finite).
Defined.


Section Reports.

Variable z_threshold : pyfloat.

Lemma fatigue_signals_report (df : DataFrame) (a : Anomaly) :
  In a (_detect_fatigue_signals df) ->
  exists row, In row (rows df) /\ anomaly_date a = workout_date row /\
    severity_allowed (anomaly_type a) (severity a) = true.
Proof.
  unfold _detect_fatigue_signals. intros H.
  apply in_app_or in H as [H | H].
  - case_if_in H; [|destruct H].
    apply in_flat_map in H as ([row t] & Hin & H).
    apply in_combine_l in Hin.
    unfold fatigue_row in H.
    case_if_in H; [|destruct H].
    destruct H as [<- | []]. exists row; auto.
  - case_if_in H; [|destruct H].
    case_if_in H; [|destruct H].
    destruct H as [<- | []].
    match goal with H : (_ && _ && _) = true |- _ =>
      apply andb_true_iff in H as [H _]; apply andb_true_iff in H as [H _];
      apply Nat.leb_le in H; rename H into Hlen end.
    set (recent := tail 3 (rows df)) in *.
    exists (last recent (mkSession 0 0 0 NaN NaN NaN NaN)).
    split; [| split; reflexivity].
    assert (Hin : In (last recent (mkSession 0 0 0 NaN NaN NaN NaN)) recent).
    { destruct recent as [| r rs]; [cbn in Hlen; lia|].
      destruct (exists_last (l := r :: rs) ltac:(discriminate)) as (l' & x & E).
      rewrite E, last_last. apply in_or_app; right; now left. }
    unfold recent, tail in Hin. eapply In_skipn_In; eassumption.
Qed.

Lemma training_gaps_report (df : DataFrame) (a : Anomaly) :
  In a (_detect_training_gaps df) ->
  exists (row : Session) (g : Z),
    In row (rows df) /\ (14 < g)%Z /\
    anomaly_type a = LONG_GAP /\ severity a = Low /\
    anomaly_date a = workout_date row /\
    dict_get (details a) "days_gap" (DInt 0) = DInt g.
Proof.
  unfold _detect_training_gaps. intros H.
  case_if_in H; [destruct H|].
  apply in_flat_map in H as ([row g] & Hin & Ha).
  apply in_combine_l in Hin.
  apply gap_row_emits in Ha as (g' & _ & Hg & Ht & Hs & Hd & Hk).
  exists row, g'; auto 10.
Qed.

(** Every anomaly that [detect_anomalies] returns is dated to one of the
    sessions it was given, and carries one of the severities attached to its
    type: low for a performance spike, a volume drop and a long gap, medium
    for a volume spike, medium or high for a performance drop and for
    fatigue.  The types [POSSIBLE_PR] and [UNUSUAL_RPE] are never reported. *)
Theorem detect_anomalies_reports (df : DataFrame) (a : Anomaly) :
  In a (detect_anomalies z_threshold df) ->
  (exists row, In row (rows df) /\ anomaly_date a = workout_date row) /\
  severity_allowed (anomaly_type a) (severity a) = true /\
  anomaly_type a <> POSSIBLE_PR /\ anomaly_type a <> UNUSUAL_RPE.
Proof.
  intros Ha.
  assert (H : exists row, In row (rows df) /\ anomaly_date a = workout_date row /\
                severity_allowed (anomaly_type a) (severity a) = true).
  { apply In_detect_anomalies in Ha as (_ & [H | [H | [H | H]]]).
    - apply performance_anomalies_type in H as (_ & _ & row & Hin & Hd & Hs).
      rewrite rows_sorted_frame in Hin. apply (proj1 (In_sort_by_date _ _)) in Hin.
      exists row; auto.
    - apply volume_anomalies_type in H as (_ & _ & row & Hin & Hd & Hs).
      rewrite rows_sorted_frame in Hin. apply (proj1 (In_sort_by_date _ _)) in Hin.
      exists row; auto.
    - apply fatigue_signals_report in H as (row & Hin & Hd & Hs).
      rewrite rows_sorted_frame in Hin. apply (proj1 (In_sort_by_date _ _)) in Hin.
      exists row; auto.
    - apply training_gaps_report in H as (row & g & Hin & _ & Ht & Hs & Hd & _).
      rewrite rows_sorted_frame in Hin. apply (proj1 (In_sort_by_date _ _)) in Hin.
      exists row; rewrite Ht, Hs; auto. }
  destruct H as (row & Hin & Hd & Hs).
  split; [exists row; auto|]. split; [assumption|].
  split; intros E; rewrite E in Hs; discriminate.
Qed.

(** A long gap is reported only for a history of seven sessions or more, and
    only for a gap of more than 14 days: with at most five gaps to compare,
    none exceeds their mean by more than two sample deviations. *)
Theorem long_gaps_need_seven_sessions (df : DataFrame) (a : Anomaly) :
  In a (detect_anomalies z_threshold df) -> anomaly_type a = LONG_GAP ->
  (7 <= len df)%Z /\
  exists g : Z, (14 < g)%Z /\ dict_get (details a) "days_gap" (DInt 0) = DInt g.
Proof.
  intros Ha Ht. apply In_detect_anomalies in Ha as (Hlen & [H | [H | [H | H]]]).
  - apply performance_anomalies_type in H as (H & _).
    unfold is_performance_anomaly in H. rewrite Ht in H. discriminate.
  - apply volume_anomalies_type in H as (H & _).
    unfold is_volume_anomaly in H. rewrite Ht in H. discriminate.
  - apply fatigue_signals_type in H. congruence.
  - split.
    + destruct (Z_lt_le_dec (len df) 7) as [Hlt | Hge]; [| assumption].
      rewrite training_gaps_silent in H; [destruct H|].
      rewrite len_sorted_frame. lia.
    + apply training_gaps_report in H as (row & g & _ & Hg & _ & _ & _ & Hk).
      exists g; auto.
Qed.

(** The anomalies come most recent first. *)
Lemma insert_by_recency_sorted (a : Anomaly) (l : list Anomaly) :
  Sorted not_older l -> Sorted not_older (insert_by_recency a l).
Proof.
  induction l as [| h t IH]; intros Hs; cbn [insert_by_recency].
  - repeat constructor.
  - destruct (anomaly_date h <=? anomaly_date a)%Z eqn:E.
    + apply Z.leb_le in E. constructor; [assumption|]. now constructor.
    + apply Z.leb_gt in E. inversion Hs as [| ? ? Hs' Hhd]; subst.
      constructor; [now apply IH|].
      destruct t as [| h' t']; cbn [insert_by_recency].
      * constructor. unfold not_older; lia.
      * destruct (anomaly_date h' <=? anomaly_date a)%Z.
        -- constructor. unfold not_older; lia.
        -- inversion Hhd; subst. now constructor.
Qed.

Lemma sort_most_recent_first_sorted (l : list Anomaly) :
  Sorted not_older (sort_most_recent_first l).
Proof.
  unfold sort_most_recent_first. induction l as [| a l IH]; cbn [fold_right].
  - constructor.
  - now apply insert_by_recency_sorted.
Qed.

(** [detect_anomalies] returns its findings most recent first: no anomaly in
    the list is dated after one that precedes it. *)
Theorem detect_anomalies_most_recent_first (df : DataFrame) :
  StronglySorted not_older (detect_anomalies z_threshold df).
Proof.
  apply Sorted_StronglySorted.
  - intros a b c Hab Hbc. unfold not_older in *. lia.
  - unfold detect_anomalies. destruct (len df <? 3)%Z; [constructor|].
    apply sort_most_recent_first_sorted.
Qed.

End Reports.

Section LateReturn.

Lemma detect_anomalies_includes_gaps (z_threshold : pyfloat) (df : DataFrame)
    (a : Anomaly) :
  (3 <= len df)%Z ->
  In a (_detect_training_gaps (to_datetime_workout_date (sort_values df))) ->
  In a (detect_anomalies z_threshold df).
Proof.
  intros Hlen H. unfold detect_anomalies.
  replace (len df <? 3)%Z with false by (symmetry; apply Z.ltb_ge; lia).
  apply In_sort_most_recent_first. rewrite !in_app_iff. auto.
Qed.

Lemma late_return_sorted :
  to_datetime_workout_date (sort_values late_return)
  = to_datetime_workout_date late_return.
Proof. reflexivity. Qed.

Lemma late_return_days_gap :
  days_gap (dates (to_datetime_workout_date late_return))
  = [ None; Some 1; Some 1; Some 1; Some 1; Some 1; Some 31 ]%Z.
Proof. reflexivity. Qed.

Lemma late_return_mean : series_mean (NaN :: map Fin late_return_gaps) = Fin 6.
Proof.
  change (series_mean (NaN :: map Fin late_return_gaps))
    with (series_mean (map Fin late_return_gaps)).
  rewrite series_mean_fin by discriminate. f_equal.
  unfold Rsum, late_return_gaps; cbn [fold_left List.length INR]. lra.
Qed.

Lemma late_return_std : series_std (NaN :: map Fin late_return_gaps) = Fin (sqrt 150).
Proof.
  change (series_std (NaN :: map Fin late_return_gaps))
    with (series_std (map Fin late_return_gaps)).
  rewrite series_std_fin by (unfold late_return_gaps; simpl; lia). do 2 f_equal.
  unfold Rvar, Rsum, late_return_gaps; cbn [map fold_left List.length INR Nat.sub]. lra.
Qed.

Lemma sqrt_150_bounds : 12 < sqrt 150 < 12.5.
Proof.
  split.
  - rewrite <- (sqrt_square 12) by lra. apply sqrt_lt_1; lra.
  - rewrite <- (sqrt_square 12.5) by lra. apply sqrt_lt_1; lra.
Qed.

(** The return after 31 days is reported as a long gap. *)
Lemma late_return_long_gap :
  In late_return_anomaly (detect_anomalies (Fin 2) late_return).
Proof.
  apply detect_anomalies_includes_gaps; [now vm_compute|].
  rewrite late_return_sorted. unfold _detect_training_gaps.
  rewrite late_return_days_gap.
  change (map gap_cell [None; Some 1; Some 1; Some 1; Some 1; Some 1; Some 31]%Z)
    with (NaN :: map Fin late_return_gaps).
  rewrite late_return_mean, late_return_std.
  pose proof sqrt_150_bounds as [Hpos Hlt].
  cbn [isna is_nan orb feq].
  replace (Reqb (sqrt 150) 0) with false by (symmetry; apply Reqb_false; lra).
  apply in_flat_map.
  exists (mkSession 6 6 (ymd 2024 2 6) NaN NaN NaN NaN, Some 31%Z). split.
  - cbn. do 6 right. left. reflexivity.
  - unfold gap_row, fgt, pymax, fgt, of_int. cbn [fmul fadd flt].
    replace (Rltb 14 (6 + 2 * sqrt 150)) with true by (symmetry; apply Rltb_true; lra).
    cbn [flt].
    replace (Rltb (6 + 2 * sqrt 150) 31) with true by (symmetry; apply Rltb_true; lra).
    left. reflexivity.
Qed.

End LateReturn.

Lemma detect_anomalies_reports_witness :
  (exists row, In row (rows late_return)
               /\ anomaly_date late_return_anomaly = workout_date row) /\
  severity_allowed (anomaly_type late_return_anomaly) (severity late_return_anomaly) = true /\
  anomaly_type late_return_anomaly <> POSSIBLE_PR /\
  anomaly_type late_return_anomaly <> UNUSUAL_RPE.
Proof.
  apply (detect_anomalies_reports (Fin 2) late_return late_return_anomaly).
  exact late_return_long_gap.
Defined.

Lemma long_gaps_need_seven_sessions_witness :
  (7 <= len late_return)%Z /\
  exists g : Z, (14 < g)%Z
    /\ dict_get (details late_return_anomaly) "days_gap" (DInt 0) = DInt g.
Proof.
  apply (long_gaps_need_seven_sessions (Fin 2) late_return late_return_anomaly).
  - exact late_return_long_gap.
  - reflexivity.
Defined.

(** ** The order of the rows *)

Section DateOrder.

Lemma insert_by_date_sorted (r : Session) (l : list Session) :
  Sorted date_le l -> Sorted date_le (insert_by_date r l).
Proof.
  induction l as [| h t IH]; intros Hs; cbn [insert_by_date].
  - repeat constructor.
  - destruct (workout_date r <=? workout_date h)%Z eqn:E.
    + apply Z.leb_le in E. constructor; [assumption|]. now constructor.
    + apply Z.leb_gt in E. inversion Hs as [| ? ? Hs' Hhd]; subst.
      constructor; [now apply IH|].
      destruct t as [| h' t']; cbn [insert_by_date].
      * constructor. unfold date_le; lia.
      * destruct (workout_date r <=? workout_date h')%Z.
        -- constructor. unfold date_le; lia.
        -- inversion Hhd; subst. now constructor.
Qed.

Lemma sort_by_date_sorted (l : list Session) : StronglySorted date_le (sort_by_date l).
Proof.
  apply Sorted_StronglySorted.
  - intros a b c Hab Hbc. unfold date_le in *. lia.
  - unfold sort_by_date. induction l as [| a l IH]; cbn [fold_right].
    + constructor.
    + now apply insert_by_date_sorted.
Qed.

(** Two date-ordered arrangements of the same rows coincide when no two rows
    share a date. *)
Lemma sorted_perm_unique (l1 l2 : list Session) :
  StronglySorted date_le l1 -> StronglySorted date_le l2 ->
  Permutation l1 l2 -> NoDup (map workout_date l1) -> l1 = l2.
Proof.
  revert l2; induction l1 as [| a t IH]; intros l2 H1 H2 Hp Hn.
  - apply Permutation_nil in Hp. now subst.
  - destruct l2 as [| b u].
    + symmetry in Hp. apply Permutation_nil in Hp. discriminate.
    + inversion H1 as [| ? ? H1' Ha]; subst. inversion H2 as [| ? ? H2' Hb]; subst.
      cbn [map] in Hn. inversion Hn as [| ? ? Hnot Hn']; subst.
      assert (Eab : a = b).
      { assert (Hab : In a (b :: u)) by (eapply Permutation_in; [exact Hp | now left]).
        assert (Hba : In b (a :: t))
          by (eapply Permutation_in; [symmetry; exact Hp | now left]).
        destruct Hab as [-> | Hab]; [reflexivity|].
        destruct Hba as [-> | Hba]; [reflexivity|].
        rewrite Forall_forall in Ha, Hb.
        pose proof (Ha b Hba) as L1. pose proof (Hb a Hab) as L2.
        unfold date_le in L1, L2.
        exfalso. apply Hnot. apply in_map_iff. exists b. split; [lia | assumption]. }
      subst b. f_equal. apply IH; try assumption.
      now apply Permutation_cons_inv in Hp.
Qed.

Lemma sort_by_date_perm_eq (l l' : list Session) :
  Permutation l l' -> NoDup (map workout_date l) ->
  sort_by_date l' = sort_by_date l.
Proof.
  intros Hp Hn. symmetry. apply sorted_perm_unique.
  - apply sort_by_date_sorted.
  - apply sort_by_date_sorted.
  - rewrite sort_by_date_perm, Hp. symmetry. apply sort_by_date_perm.
  - eapply Permutation_NoDup; [| exact Hn].
    apply Permutation_map. symmetry. apply sort_by_date_perm.
Qed.

(** *** Rows reordered together with their labels *)

Lemma sorted_frame_perm (df : DataFrame) (rs' : list Session) :
  Permutation (rows df) rs' -> NoDup (dates df) ->
  len (with_rows df rs') = len df /\
  to_datetime_workout_date (sort_values (with_rows df rs'))
  = to_datetime_workout_date (sort_values df).
Proof.
  intros Hp Hn. split.
  - unfold len. cbn [rows with_rows]. f_equal. symmetry. now apply Permutation_length.
  - unfold to_datetime_workout_date, sort_values, with_rows.
    cbn [rows dates_as has_total_volume has_estimated_1rm has_avg_rpe
         has_perceived_exertion].
    now rewrite (sort_by_date_perm_eq (rows df) rs' Hp Hn).
Qed.

Lemma permuted_rows (df : DataFrame) (rs' : list Session) :
  Permutation (rows df) rs' -> NoDup (dates df) ->
  (forall z_threshold,
     detect_anomalies z_threshold (with_rows df rs') = detect_anomalies z_threshold df) /\
  get_health_score (with_rows df rs') = get_health_score df /\
  prepare_data (with_rows df rs') = prepare_data df /\
  (forall sk, train sk (with_rows df rs') = train sk df) /\
  (forall sets_df,
     suggest_deload (with_rows df rs') sets_df = suggest_deload df sets_df).
Proof.
  intros Hp Hn. destruct (sorted_frame_perm df rs' Hp Hn) as [Hlen Hs].
  assert (Hprep : prepare_data (with_rows df rs') = prepare_data df).
  { unfold prepare_data. now rewrite Hlen, Hs. }
  split; [| split; [| split; [| split]]].
  - intros z. unfold detect_anomalies. now rewrite Hlen, Hs.
  - unfold get_health_score. now rewrite Hlen, Hs.
  - exact Hprep.
  - intros sk. unfold train. now rewrite Hprep.
  - intros sets_df. unfold suggest_deload. now rewrite Hlen, Hs.
Qed.

(** *** Rows under other labels *)

Lemma insert_by_date_unlabelled (r : Session) (l : list Session) :
  insert_by_date (unlabelled r) (map unlabelled l)
  = map unlabelled (insert_by_date r l).
Proof.
  induction l as [| h t IH]; [reflexivity|]. cbn [map insert_by_date].
  cbn [unlabelled workout_date].
  destruct (workout_date r <=? workout_date h)%Z; [reflexivity|].
  cbn [map]. f_equal. exact IH.
Qed.

Lemma sort_by_date_unlabelled (l : list Session) :
  sort_by_date (map unlabelled l) = map unlabelled (sort_by_date l).
Proof.
  unfold sort_by_date. induction l as [| h t IH]; [reflexivity|].
  cbn [map fold_right]. rewrite IH. apply insert_by_date_unlabelled.
Qed.

Lemma flat_map_map {A B C : Type} (f : B -> list C) (g : A -> B) (l : list A) :
  flat_map f (map g l) = flat_map (fun a => f (g a)) l.
Proof. induction l as [| a l IH]; [reflexivity|]. cbn. now rewrite IH. Qed.

Lemma combine_map_l {A B C : Type} (g : A -> B) (l : list A) (l' : list C) :
  combine (map g l) l' = map (fun '(a, c) => (g a, c)) (combine l l').
Proof.
  revert l'; induction l as [| a l IH]; intros [| c l']; try reflexivity.
  cbn. now rewrite IH.
Qed.

Lemma forallb_map {A B : Type} (p : B -> bool) (g : A -> B) (l : list A) :
  forallb p (map g l) = forallb (fun a => p (g a)) l.
Proof. induction l as [| a l IH]; [reflexivity|]. cbn. now rewrite IH. Qed.

Lemma fold_left_map {A B S : Type} (f : S -> B -> S) (g : A -> B) (l : list A) (s : S) :
  fold_left f (map g l) s = fold_left (fun s a => f s (g a)) l s.
Proof. revert s; induction l as [| a l IH]; intros s; [reflexivity|]. cbn. apply IH. Qed.

Lemma last_map {A B : Type} (g : A -> B) (l : list A) (d : A) :
  last (map g l) (g d) = g (last l d).
Proof.
  induction l as [| a l IH]; [reflexivity|].
  destruct l as [| b l]; [reflexivity|]. exact IH.
Qed.

Lemma tail_map {A B : Type} (g : A -> B) (n : nat) (l : list A) :
  tail n (map g l) = map g (tail n l).
Proof. unfold tail. now rewrite length_map, skipn_map. Qed.

Lemma strip_sorted (df : DataFrame) :
  to_datetime_workout_date (sort_values (strip df))
  = strip (to_datetime_workout_date (sort_values df)).
Proof.
  unfold strip, to_datetime_workout_date, sort_values, with_rows.
  cbn [rows dates_as has_total_volume has_estimated_1rm has_avg_rpe
       has_perceived_exertion].
  now rewrite sort_by_date_unlabelled.
Qed.

Lemma strip_len (df : DataFrame) : len (strip df) = len df.
Proof. unfold len, strip. cbn [rows with_rows]. now rewrite length_map. Qed.

Lemma strip_column (f : Session -> pyfloat) (df : DataFrame) :
  (forall r, f (unlabelled r) = f r) -> column f (strip df) = column f df.
Proof.
  intros H. unfold column, strip. cbn [rows with_rows]. rewrite map_map.
  now apply map_ext.
Qed.

Lemma strip_dates (df : DataFrame) : dates (strip df) = dates df.
Proof. unfold dates, strip. cbn [rows with_rows]. now rewrite map_map. Qed.

Lemma strip_performance (z : pyfloat) (df : DataFrame) :
  _detect_performance_anomalies z (strip df) = _detect_performance_anomalies z df.
Proof.
  unfold _detect_performance_anomalies.
  rewrite strip_column by reflexivity.
  change (has_estimated_1rm (strip df)) with (has_estimated_1rm df).
  destruct (negb (has_estimated_1rm df) || forallb isna (column estimated_1rm df));
    [reflexivity|].
  cbv zeta. change (rows (strip df)) with (map unlabelled (rows df)).
  rewrite combine_map_l, flat_map_map. apply flat_map_ext.
  now intros [row [m s0]].
Qed.

Lemma strip_volume (z : pyfloat) (df : DataFrame) :
  _detect_volume_anomalies z (strip df) = _detect_volume_anomalies z df.
Proof.
  unfold _detect_volume_anomalies.
  rewrite strip_column by reflexivity.
  change (has_total_volume (strip df)) with (has_total_volume df).
  destruct (negb (has_total_volume df)); [reflexivity|]. cbv zeta.
  destruct (feq _ (Fin 0)); [reflexivity|].
  change (rows (strip df)) with (map unlabelled (rows df)).
  rewrite flat_map_map. now apply flat_map_ext.
Qed.

Lemma strip_fatigue (df : DataFrame) :
  _detect_fatigue_signals (strip df) = _detect_fatigue_signals df.
Proof.
  unfold _detect_fatigue_signals.
  rewrite strip_column by reflexivity.
  change (has_avg_rpe (strip df)) with (has_avg_rpe df).
  change (has_estimated_1rm (strip df)) with (has_estimated_1rm df).
  change (has_perceived_exertion (strip df)) with (has_perceived_exertion df).
  change (rows (strip df)) with (map unlabelled (rows df)).
  f_equal.
  - destruct (has_avg_rpe df && has_estimated_1rm df); [| reflexivity].
    rewrite combine_map_l, flat_map_map. apply flat_map_ext. now intros [row t].
  - destruct (has_perceived_exertion df); [| reflexivity]. cbv zeta.
    rewrite tail_map, length_map, !forallb_map, map_map.
    change (mkSession 0 0 0 NaN NaN NaN NaN)
      with (unlabelled (mkSession 0 0 0 NaN NaN NaN NaN)).
    rewrite last_map. reflexivity.
Qed.

Lemma strip_gaps (df : DataFrame) :
  _detect_training_gaps (strip df) = _detect_training_gaps df.
Proof.
  unfold _detect_training_gaps. rewrite strip_dates. cbv zeta.
  destruct (isna _ || feq _ (Fin 0)); [reflexivity|].
  change (rows (strip df)) with (map unlabelled (rows df)).
  rewrite combine_map_l, flat_map_map. apply flat_map_ext. now intros [row g].
Qed.

Lemma strip_detect_anomalies (z : pyfloat) (df : DataFrame) :
  detect_anomalies z (strip df) = detect_anomalies z df.
Proof.
  unfold detect_anomalies. rewrite strip_len.
  destruct (len df <? 3)%Z; [reflexivity|]. cbv zeta.
  now rewrite strip_sorted, strip_performance, strip_volume, strip_fatigue,
              strip_gaps.
Qed.

Lemma strip_health_score (df : DataFrame) :
  get_health_score (strip df) = get_health_score df.
Proof.
  unfold get_health_score. rewrite strip_len.
  destruct (len df <? 5)%Z; [reflexivity|]. cbv zeta.
  rewrite strip_sorted.
  set (d := to_datetime_workout_date (sort_values df)).
  assert (Hc : consistency_score (strip d) = consistency_score d)
    by (unfold consistency_score; now rewrite strip_dates).
  assert (Hp : progress_score (strip d) = progress_score d).
  { unfold progress_score. rewrite strip_column by reflexivity.
    change (has_estimated_1rm (strip d)) with (has_estimated_1rm d).
    change (rows (strip d)) with (map unlabelled (rows d)).
    now rewrite length_map. }
  assert (Hv : volume_score (strip d) = volume_score d).
  { unfold volume_score. rewrite strip_column by reflexivity. reflexivity. }
  assert (Hr : recovery_score (strip d) = recovery_score d).
  { unfold recovery_score.
    change (has_perceived_exertion (strip d)) with (has_perceived_exertion d).
    change (rows (strip d)) with (map unlabelled (rows d)).
    now rewrite fold_left_map. }
  now rewrite Hc, Hp, Hv, Hr.
Qed.

Lemma strip_prepare_data (df : DataFrame) :
  prepare_data (strip df) = result_map unlabelled_prepared (prepare_data df).
Proof.
  unfold prepare_data, result_map. rewrite strip_len.
  destruct (len df <? 2)%Z; [reflexivity|]. cbv zeta.
  rewrite strip_sorted.
  set (d := to_datetime_workout_date (sort_values df)).
  rewrite strip_dates, !strip_column by reflexivity.
  change (has_total_volume (strip d)) with (has_total_volume d).
  change (has_estimated_1rm (strip d)) with (has_estimated_1rm d).
  change (rows (strip d)) with (map unlabelled (rows d)).
  rewrite length_map.
  destruct (negb (has_total_volume d)); [reflexivity|].
  destruct (negb (has_estimated_1rm d)); reflexivity.
Qed.

Lemma strip_train (sk : Sklearn) (df : DataFrame) :
  train sk (strip df) = result_map unlabelled_training (train sk df).
Proof.
  unfold train, result_map. rewrite strip_prepare_data. unfold result_map.
  destruct (prepare_data df) as [p | e]; [| reflexivity].
  cbn [bind unlabelled_prepared X y processed_rows days_since_start
       cumulative_volume days_since_last].
  rewrite map_map, length_map.
  replace (map (fun x => workout_date (unlabelled x)) (processed_rows p))
    with (map workout_date (processed_rows p)) by now apply map_ext.
  cbv zeta.
  destruct (for_each _ _ _) as [[[best_score [best |]] scores] | e];
    cbn [bind]; try reflexivity.
  destruct (fit sk best _ _) as [m | e]; cbn [bind]; [| reflexivity].
  destruct (predict m _) as [predictions | e]; cbn [bind]; [| reflexivity].
  destruct (score m _ _) as [r2 | e]; cbn [bind]; reflexivity.
Qed.

Lemma unlabelled_dates (rs : list Session) :
  map workout_date (map unlabelled rs) = map workout_date rs.
Proof. rewrite map_map. now apply map_ext. Qed.

Lemma reset_index_unlabelled (rs : list Session) :
  map unlabelled (reset_index rs) = map unlabelled rs.
Proof.
  unfold reset_index. generalize 0%nat.
  induction rs as [| r rs IH]; intros k; [reflexivity|].
  cbn [List.length seq combine map]. f_equal. apply IH.
Qed.

(** The order in which the caller lists the sessions, and the index labels
    under which they are listed, play no part in anomaly detection, the
    health score, feature preparation and training, as long as no two
    sessions share a date: two tables of the same sessions give the same
    anomalies, the same health score, and the same features, predictor and
    metrics (the rows these carry along keep their labels).  The deload
    advice reads the labels: it is the same when the rows are reordered
    together with their labels. *)
Theorem row_order_is_irrelevant (df : DataFrame) (rs' : list Session) :
  NoDup (dates df) ->
  (same_sessions (rows df) rs' ->
   (forall z_threshold,
      detect_anomalies z_threshold (with_rows df rs')
      = detect_anomalies z_threshold df) /\
   get_health_score (with_rows df rs') = get_health_score df /\
   result_map unlabelled_prepared (prepare_data (with_rows df rs'))
   = result_map unlabelled_prepared (prepare_data df) /\
   (forall sk,
      result_map unlabelled_training (train sk (with_rows df rs'))
      = result_map unlabelled_training (train sk df))) /\
  (Permutation (rows df) rs' ->
   forall sets_df,
     suggest_deload (with_rows df rs') sets_df = suggest_deload df sets_df).
Proof.
  intros Hn. split.
  - intros Hsame.
    assert (Hn' : NoDup (dates (strip df))) by now rewrite strip_dates.
    destruct (permuted_rows (strip df) (map unlabelled rs') Hsame Hn')
      as (Hd & Hh & Hp & Ht & _).
    change (with_rows (strip df) (map unlabelled rs'))
      with (strip (with_rows df rs')) in Hd, Hh, Hp, Ht.
    split; [| split; [| split]].
    + intros z. rewrite <- (strip_detect_anomalies z (with_rows df rs')),
                        <- (strip_detect_anomalies z df). apply Hd.
    + rewrite <- (strip_health_score (with_rows df rs')),
              <- (strip_health_score df). exact Hh.
    + rewrite <- !strip_prepare_data. exact Hp.
    + intros sk. rewrite <- !strip_train. apply Ht.
  - intros Hp sets_df. now apply permuted_rows.
Qed.

Lemma five_sessions_distinct_dates : NoDup (dates five_sessions).
Proof.
  vm_compute. repeat constructor; cbn; intuition discriminate.
Qed.

Lemma streak_distinct_dates : NoDup (dates streak_oldest_first).
Proof.
  vm_compute. repeat (constructor; [cbn; intuition discriminate|]). constructor.
Qed.

Lemma row_order_is_irrelevant_witness :
  ((forall z_threshold,
      detect_anomalies z_threshold
        (with_rows five_sessions (reset_index (rev (rows five_sessions))))
      = detect_anomalies z_threshold five_sessions) /\
   get_health_score (with_rows five_sessions (reset_index (rev (rows five_sessions))))
   = get_health_score five_sessions /\
   result_map unlabelled_prepared
     (prepare_data (with_rows five_sessions (reset_index (rev (rows five_sessions)))))
   = result_map unlabelled_prepared (prepare_data five_sessions) /\
   (forall sk,
      result_map unlabelled_training
        (train sk (with_rows five_sessions (reset_index (rev (rows five_sessions)))))
      = result_map unlabelled_training (train sk five_sessions))) /\
  (forall sets_df,
     suggest_deload
       (with_rows streak_oldest_first (rev (rows streak_oldest_first))) sets_df
     = suggest_deload streak_oldest_first sets_df).
Proof.
  split.
  - apply (row_order_is_irrelevant five_sessions
             (reset_index (rev (rows five_sessions))));
      [exact five_sessions_distinct_dates|].
    unfold same_sessions. rewrite reset_index_unlabelled.
    apply Permutation_map, Permutation_rev.
  - apply (row_order_is_irrelevant streak_oldest_first
             (rev (rows streak_oldest_first)));
      [exact streak_distinct_dates | apply Permutation_rev].
Defined.

End DateOrder.

(** ** Feature preparation and training *)

Section PreparedFeatures.

Lemma cumsum_from_length (acc : pyfloat) (s : list pyfloat) :
  List.length (cumsum_from acc s) = List.length s.
Proof.
  revert acc; induction s as [| x s IH]; intros acc; [reflexivity|].
  cbn [cumsum_from]. destruct (is_nan x); cbn [List.length]; now rewrite IH.
Qed.

Lemma diff_from_length (prev : pyfloat) (s : list pyfloat) :
  List.length (diff_from prev s) = List.length s.
Proof.
  revert prev; induction s as [| x s IH]; intros prev; [reflexivity|].
  cbn [diff_from List.length]. now rewrite IH.
Qed.

Lemma series_diff_length (s : list pyfloat) :
  List.length (series_diff s) = List.length s.
Proof. destruct s; [reflexivity|]. cbn. now rewrite diff_from_length. Qed.

Lemma rolling_length (window min_periods : nat) (stat : list pyfloat -> pyfloat)
    (s : list pyfloat) :
  List.length (rolling window min_periods stat s) = List.length s.
Proof. unfold rolling. now rewrite length_map, length_seq. Qed.

(** The feature matrix, column by column. *)
Lemma features_columns (a b : list Z) (c d e : list pyfloat) :
  List.length b = List.length a -> List.length c = List.length a ->
  List.length d = List.length a -> List.length e = List.length a ->
  let X := map (fun '(a, (b, (c, (d, e)))) => [of_int a; of_int b; c; d; e])
               (combine a (combine b (combine c (combine d e)))) in
  List.length X = List.length a /\
  Forall (fun x => List.length x = n_features) X /\
  column_of 0 X = map of_int a /\ column_of 1 X = map of_int b /\
  column_of 2 X = c /\ column_of 3 X = d /\ column_of 4 X = e.
Proof.
  revert b c d e; induction a as [| a0 a IH]; intros b c d e Hb Hc Hd He.
  - destruct b, c, d, e; try discriminate. cbn. repeat split; constructor.
  - destruct b as [| b0 b], c as [| c0 c], d as [| d0 d], e as [| e0 e];
      try discriminate.
    cbn [List.length] in *.
    specialize (IH b c d e ltac:(lia) ltac:(lia) ltac:(lia) ltac:(lia)).
    cbv zeta in IH. destruct IH as (H1 & H2 & H3 & H4 & H5 & H6 & H7).
    cbn [combine map column_of nth List.length].
    unfold column_of in *.
    rewrite H1, H3, H4, H5, H6, H7.
    repeat split. constructor; [reflexivity | assumption].
Qed.

Lemma list_min_sorted (d : Z) (t : list Z) :
  Forall (Z.le d) t -> list_min (d :: t) = d.
Proof.
  unfold list_min. induction 1 as [| x t Hx _ IH]; [reflexivity|].
  cbn [fold_left]. now rewrite Z.min_l by assumption.
Qed.

Lemma last_cons_default {A : Type} (d prev : A) (t : list A) :
  last (d :: t) prev = last t d.
Proof.
  revert d prev; induction t as [| x t IH]; intros d prev; [reflexivity|].
  change (last (d :: x :: t) prev) with (last (x :: t) prev).
  now rewrite (IH x prev), (IH x d).
Qed.

Lemma list_max_sorted (d : Z) (t : list Z) :
  StronglySorted Z.le (d :: t) -> list_max (d :: t) = last t d.
Proof.
  unfold list_max. revert d; induction t as [| x t IH]; intros d Hs; [reflexivity|].
  inversion Hs as [| ? ? Hs' Hd]; subst. inversion Hd; subst.
  cbn [fold_left]. rewrite Z.max_r by assumption.
  rewrite IH by assumption. symmetry. apply last_cons_default.
Qed.

Lemma sorted_dates (l : list Session) :
  StronglySorted Z.le (map workout_date (sort_by_date l)).
Proof.
  pose proof (sort_by_date_sorted l) as H.
  induction H as [| a t Hs IH Ha]; cbn [map]; constructor; [assumption|].
  rewrite Forall_forall in *. intros z Hz.
  apply in_map_iff in Hz as (r & <- & Hr). now apply Ha.
Qed.

Lemma gaps_between_shift (c prev : Z) (t : list Z) :
  gaps_between (prev - c) (map (fun d => (d - c)%Z) t) = gaps_between prev t.
Proof.
  revert prev; induction t as [| x t IH]; intros prev; [reflexivity|].
  cbn [map gaps_between]. rewrite IH. f_equal. lia.
Qed.

Lemma fillna_diff_from (v : pyfloat) (prev : Z) (t : list Z) :
  fillna v (diff_from (of_int prev) (map of_int t)) = map of_int (gaps_between prev t).
Proof.
  revert prev; induction t as [| x t IH]; intros prev; [reflexivity|].
  cbn [map diff_from gaps_between]. unfold fillna in *. cbn [map].
  rewrite IH. f_equal. unfold of_int. cbn. f_equal. rewrite minus_IZR. ring.
Qed.

Lemma gaps_between_nonneg (prev : Z) (t : list Z) :
  StronglySorted Z.le (prev :: t) -> Forall (fun g => (0 <= g)%Z) (gaps_between prev t).
Proof.
  revert prev; induction t as [| x t IH]; intros prev Hs; [constructor|].
  inversion Hs as [| ? ? Hs' Hd]; subst. inversion Hd; subst.
  cbn [gaps_between]. constructor; [lia | now apply IH].
Qed.

Lemma gaps_between_sum (prev : Z) (t : list Z) :
  Rsum (map IZR (gaps_between prev t)) = IZR (last t prev) - IZR prev.
Proof.
  revert prev; induction t as [| x t IH]; intros prev.
  - cbn [gaps_between map last]. rewrite Rsum_nil. lra.
  - cbn [gaps_between map]. rewrite Rsum_cons, IH, last_cons_default, minus_IZR. lra.
Qed.

Lemma gaps_between_length (prev : Z) (t : list Z) :
  List.length (gaps_between prev t) = List.length t.
Proof.
  revert prev; induction t as [| x t IH]; intros prev; [reflexivity|].
  cbn [gaps_between List.length]. now rewrite IH.
Qed.

(** What [prepare_data] returns, read off the date-ordered rows. *)
Lemma prepare_data_inv (df : DataFrame) (p : Prepared) :
  prepare_data df = Ok p ->
  let rs := sort_by_date (rows df) in
  let ds := map workout_date rs in
  (2 <= len df)%Z /\
  processed_rows p = rs /\
  y p = map estimated_1rm rs /\
  days_since_start p = map (fun d => (d - list_min ds)%Z) ds /\
  cumulative_volume p = series_cumsum (map total_volume rs) /\
  days_since_last p = fillna (Fin 7) (series_diff (map of_int (days_since_start p))) /\
  X p = map (fun '(a, (b, (c, (d, e)))) => [of_int a; of_int b; c; d; e])
          (combine (days_since_start p)
             (combine (map Z.of_nat (seq 1 (List.length rs)))
                (combine (cumulative_volume p)
                   (combine (rolling_mean 3 1 (map estimated_1rm rs))
                      (days_since_last p))))).
Proof.
  unfold prepare_data. destruct (len df <? 2)%Z eqn:E; [discriminate|].
  apply Z.ltb_ge in E. cbv zeta.
  destruct (negb (has_total_volume _)); [discriminate|].
  destruct (negb (has_estimated_1rm _)); [discriminate|].
  intros H. injection H as <-. cbn [processed_rows y days_since_start
    cumulative_volume days_since_last X].
  unfold dates, column. rewrite rows_sorted_frame.
  repeat split; try reflexivity; assumption.
Qed.

End PreparedFeatures.

Section PreparedColumns.

Lemma map_sub_sorted (c : Z) (l : list Z) :
  StronglySorted Z.le l -> StronglySorted Z.le (map (fun d => (d - c)%Z) l).
Proof.
  induction 1 as [| a t Hs IH Ha]; cbn [map]; constructor; [assumption|].
  rewrite Forall_forall in *. intros z Hz.
  apply in_map_iff in Hz as (x & <- & Hx). specialize (Ha x Hx). lia.
Qed.

(** The two date features of [prepare_data]: the days since the first
    session, and the days since the previous one with 7 standing in for the
    first session. *)
Lemma prepared_dates (df : DataFrame) (p : Prepared) :
  prepare_data df = Ok p ->
  exists (d0 : Z) (t : list Z),
    map workout_date (sort_by_date (rows df)) = d0 :: t /\
    StronglySorted Z.le (d0 :: t) /\
    S (List.length t) = List.length (rows df) /\
    days_since_start p = 0%Z :: map (fun d => (d - d0)%Z) t /\
    days_since_last p = Fin 7 :: map of_int (gaps_between d0 t).
Proof.
  intros Hp. pose proof (prepare_data_inv df p Hp) as H. cbv zeta in H.
  destruct H as (Hlen & _ & _ & Hdss & _ & Hdsl & _).
  pose proof (sorted_dates (rows df)) as Hs.
  assert (Hl : List.length (map workout_date (sort_by_date (rows df)))
               = List.length (rows df))
    by now rewrite length_map, sort_by_date_length.
  destruct (map workout_date (sort_by_date (rows df))) as [| d0 t] eqn:E.
  - unfold len in Hlen. cbn in Hl. lia.
  - exists d0, t. split; [reflexivity|]. split; [assumption|].
    split; [exact Hl|].
    assert (Hmin : list_min (d0 :: t) = d0).
    { apply list_min_sorted. now inversion Hs. }
    rewrite Hmin in Hdss. cbn [map] in Hdss. rewrite Z.sub_diag in Hdss.
    split; [assumption|].
    rewrite Hdsl, Hdss. cbn [map series_diff fillna is_nan].
    f_equal. fold (fillna (Fin 7) (diff_from (of_int 0) (map of_int (map (fun d => (d - d0)%Z) t)))).
    rewrite fillna_diff_from.
    rewrite <- (Z.sub_diag d0) at 1. now rewrite gaps_between_shift.
Qed.

Lemma prepared_columns (df : DataFrame) (p : Prepared) :
  prepare_data df = Ok p ->
  List.length (X p) = List.length (rows df) /\
  List.length (y p) = List.length (rows df) /\
  Forall (fun x => List.length x = n_features) (X p) /\
  column_of 0 (X p) = map of_int (days_since_start p) /\
  column_of 1 (X p) = map of_int (range1 (len df)) /\
  column_of 4 (X p) = days_since_last p /\
  (exists later, days_since_start p = 0%Z :: later) /\
  StronglySorted Z.le (days_since_start p) /\
  (exists gaps, days_since_last p = Fin 7 :: map of_int gaps
                /\ Forall (fun g => (0 <= g)%Z) gaps).
Proof.
  intros Hp. pose proof (prepare_data_inv df p Hp) as H. cbv zeta in H.
  destruct H as (Hlen & _ & Hy & Hdss & Hcv & Hdsl & HX).
  destruct (prepared_dates df p Hp) as (d0 & t & Ed & Hs & Hn & Hdss' & Hdsl').
  assert (Hrs : List.length (sort_by_date (rows df)) = List.length (rows df))
    by apply sort_by_date_length.
  assert (L1 : List.length (days_since_start p) = List.length (rows df)).
  { rewrite Hdss'. cbn [List.length]. now rewrite length_map. }
  pose proof (features_columns (days_since_start p)
                (map Z.of_nat (seq 1 (List.length (sort_by_date (rows df)))))
                (cumulative_volume p)
                (rolling_mean 3 1 (map estimated_1rm (sort_by_date (rows df))))
                (days_since_last p)) as F.
  cbv zeta in F. rewrite <- HX in F.
  destruct F as (F1 & F2 & F3 & F4 & _ & _ & F7).
  - now rewrite length_map, length_seq, Hrs, L1.
  - rewrite Hcv. unfold series_cumsum.
    now rewrite cumsum_from_length, length_map, Hrs, L1.
  - unfold rolling_mean. now rewrite rolling_length, length_map, Hrs, L1.
  - rewrite Hdsl' at 1. cbn [List.length].
    now rewrite length_map, gaps_between_length, L1.
  - split; [etransitivity; [exact F1 | exact L1]|].
    split; [now rewrite Hy, length_map|].
    split; [assumption|]. split; [assumption|].
    split.
    { rewrite F4. unfold range1, len. now rewrite Nat2Z.id, Hrs. }
    split; [assumption|].
    split; [rewrite Hdss'; eauto|].
    split.
    { rewrite Hdss'. replace 0%Z with (d0 - d0)%Z by lia.
      change ((d0 - d0)%Z :: map (fun d => (d - d0)%Z) t)
        with (map (fun d => (d - d0)%Z) (d0 :: t)).
      now apply map_sub_sorted. }
    exists (gaps_between d0 t). split; [assumption|].
    now apply gaps_between_nonneg.
Qed.


End PreparedColumns.

Section Extremes.

Lemma fold_left_max_spec (t : list Z) (acc : Z) :
  (acc <= fold_left Z.max t acc)%Z /\
  Forall (fun x => (x <= fold_left Z.max t acc)%Z) t /\
  (fold_left Z.max t acc = acc \/ In (fold_left Z.max t acc) t).
Proof.
  revert acc; induction t as [| x t IH]; intros acc; cbn [fold_left].
  - repeat split; [lia | constructor | now left].
  - destruct (IH (Z.max acc x)) as (H1 & H2 & H3).
    split; [lia|]. split.
    + constructor; [lia | assumption].
    + destruct H3 as [H3 | H3]; [rewrite H3 | right; now right].
      destruct (Z.max_spec acc x) as [[_ E] | [_ E]]; rewrite E;
        [right; now left | now left].
Qed.

Lemma fold_left_min_spec (t : list Z) (acc : Z) :
  (fold_left Z.min t acc <= acc)%Z /\
  Forall (fun x => (fold_left Z.min t acc <= x)%Z) t /\
  (fold_left Z.min t acc = acc \/ In (fold_left Z.min t acc) t).
Proof.
  revert acc; induction t as [| x t IH]; intros acc; cbn [fold_left].
  - repeat split; [lia | constructor | now left].
  - destruct (IH (Z.min acc x)) as (H1 & H2 & H3).
    split; [lia|]. split.
    + constructor; [lia | assumption].
    + destruct H3 as [H3 | H3]; [rewrite H3 | right; now right].
      destruct (Z.min_spec acc x) as [[_ E] | [_ E]]; rewrite E;
        [now left | right; now left].
Qed.

Lemma list_max_spec (l : list Z) :
  l <> [] -> In (list_max l) l /\ Forall (fun x => (x <= list_max l)%Z) l.
Proof.
  destruct l as [| d t]; [congruence|]. intros _. unfold list_max.
  destruct (fold_left_max_spec t d) as (H1 & H2 & H3). split.
  - destruct H3 as [-> | H3]; [now left | now right].
  - now constructor.
Qed.

Lemma list_min_spec (l : list Z) :
  l <> [] -> In (list_min l) l /\ Forall (fun x => (list_min l <= x)%Z) l.
Proof.
  destruct l as [| d t]; [congruence|]. intros _. unfold list_min.
  destruct (fold_left_min_spec t d) as (H1 & H2 & H3). split.
  - destruct H3 as [-> | H3]; [now left | now right].
  - now constructor.
Qed.

Lemma list_max_perm (l l' : list Z) : Permutation l l' -> list_max l = list_max l'.
Proof.
  intros Hp. destruct l as [| d t].
  - apply Permutation_nil in Hp. now subst.
  - assert (Hl : d :: t <> []) by discriminate.
    assert (Hl' : l' <> []).
    { intros ->. symmetry in Hp. apply Permutation_nil in Hp. discriminate. }
    destruct (list_max_spec _ Hl) as [I1 F1]. destruct (list_max_spec _ Hl') as [I2 F2].
    rewrite Forall_forall in F1, F2.
    pose proof (F2 _ (Permutation_in _ Hp I1)).
    pose proof (F1 _ (Permutation_in _ (Permutation_sym Hp) I2)). lia.
Qed.

Lemma list_min_perm (l l' : list Z) : Permutation l l' -> list_min l = list_min l'.
Proof.
  intros Hp. destruct l as [| d t].
  - apply Permutation_nil in Hp. now subst.
  - assert (Hl : d :: t <> []) by discriminate.
    assert (Hl' : l' <> []).
    { intros ->. symmetry in Hp. apply Permutation_nil in Hp. discriminate. }
    destruct (list_min_spec _ Hl) as [I1 F1]. destruct (list_min_spec _ Hl') as [I2 F2].
    rewrite Forall_forall in F1, F2.
    pose proof (F2 _ (Permutation_in _ Hp I1)).
    pose proof (F1 _ (Permutation_in _ (Permutation_sym Hp) I2)). lia.
Qed.

Lemma sorted_dates_perm (l : list Session) :
  Permutation (map workout_date (sort_by_date l)) (map workout_date l).
Proof. apply Permutation_map, sort_by_date_perm. Qed.

Lemma last_map_sub (c d : Z) (t : list Z) :
  last (map (fun x => (x - c)%Z) t) (d - c)%Z = (last t d - c)%Z.
Proof.
  induction t as [| x t IH]; [reflexivity|].
  cbn [map]. rewrite !last_cons_default.
  clear IH. revert x. induction t as [| z t IH]; intros x; [reflexivity|].
  cbn [map]. rewrite !last_cons_default. apply IH.
Qed.

End Extremes.

Section Training.

Variable sk : Sklearn.

(** What a successful [train] has computed. *)
Lemma train_inv (df : DataFrame) (self : StrengthPredictor) (metrics : TrainingMetrics) :
  train sk df = Ok (self, metrics) ->
  exists (p : Prepared) (s1 s2 : pyfloat) (m : LinearModel),
    prepare_data df = Ok p /\
    candidate_score sk linear (scaler_transform (scaler_fit (X p)) (X p)) (y p) = Ok s1 /\
    candidate_score sk ridge (scaler_transform (scaler_fit (X p)) (X p)) (y p) = Ok s2 /\
    best_of s1 s2 = Some (model_type metrics) /\
    fit sk (model_type metrics) (scaler_transform (scaler_fit (X p)) (X p)) (y p) = Ok m /\
    model self = Some m /\
    scaler self = scaler_fit (X p) /\
    training_data self = processed_rows p /\
    last_date self = list_max (map workout_date (processed_rows p)) /\
    last_days self = list_max (days_since_start p) /\
    last_session self = Z.of_nat (List.length (processed_rows p)) /\
    last_cumulative_volume self = last (cumulative_volume p) NaN /\
    last_1rm self = last (y p) NaN /\
    avg_days_between self = series_mean (days_since_last p) /\
    data_points metrics = Z.of_nat (List.length (X p)) /\
    model_scores metrics = [(linear, pyround_nd s1 3); (ridge, pyround_nd s2 3)].
Proof.
  unfold train. destruct (prepare_data df) as [p | e]; cbn [bind]; [| discriminate].
  cbv zeta. cbn [for_each]. unfold select_step.
  set (Xs := scaler_transform (scaler_fit (X p)) (X p)).
  destruct (candidate_score sk linear Xs (y p)) as [s1 | e] eqn:C1; cbn [bind];
    [| discriminate].
  unfold best_of.
  destruct (fgt s1 NInf) eqn:E1; cbn [bind];
    (destruct (candidate_score sk ridge Xs (y p)) as [s2 | e] eqn:C2; cbn [bind];
       [| discriminate]);
    [ destruct (fgt s2 s1) eqn:E2 | destruct (fgt s2 NInf) eqn:E2; [| discriminate] ];
    cbn [bind app];
    (match goal with |- context [fit sk ?b Xs (y p)] =>
       destruct (fit sk b Xs (y p)) as [m | e] eqn:Ef end; cbn [bind];
       [| discriminate]);
    (destruct (predict m Xs) as [pr | e]; cbn [bind]; [| discriminate]);
    (destruct (score m Xs (y p)) as [r2 | e]; cbn [bind]; [| discriminate]);
    intros H; injection H as <- <-; exists p, s1, s2, m;
    cbn [model_type data_points model_scores model scaler training_data last_date
         last_days last_session last_cumulative_volume last_1rm avg_days_between
         map];
    rewrite ?E1, ?E2; repeat split; assumption.
Qed.

(** The dates a successful [train] remembers. *)
Lemma train_dates (df : DataFrame) (self : StrengthPredictor) (metrics : TrainingMetrics) :
  train sk df = Ok (self, metrics) ->
  (2 <= len df)%Z /\
  last_session self = len df /\
  data_points metrics = len df /\
  last_date self = list_max (dates df) /\
  last_days self = (list_max (dates df) - list_min (dates df))%Z /\
  (0 <= last_days self)%Z /\
  avg_days_between self
  = Fin ((7 + IZR (last_days self)) / IZR (last_session self)).
Proof.
  intros Ht.
  destruct (train_inv df self metrics Ht)
    as (p & s1 & s2 & m & Hp & _ & _ & _ & _ & _ & _ & _ & Hld & Hls & Hn & _ & _
        & Havg & Hdp & _).
  pose proof (prepare_data_inv df p Hp) as H. cbv zeta in H.
  destruct H as (Hlen & Hrows & _).
  destruct (prepared_dates df p Hp) as (d0 & t & Ed & Hs & Hnt & Hdss & Hdsl).
  destruct (prepared_columns df p Hp) as (HX & _).
  assert (Hmax : list_max (dates df) = last t d0).
  { unfold dates. rewrite <- (list_max_perm _ _ (sorted_dates_perm (rows df))), Ed.
    now apply list_max_sorted. }
  assert (Hmin : list_min (dates df) = d0).
  { unfold dates. rewrite <- (list_min_perm _ _ (sorted_dates_perm (rows df))), Ed.
    apply list_min_sorted. now inversion Hs. }
  assert (Hlast : last_days self = (last t d0 - d0)%Z).
  { rewrite Hls, Hdss.
    replace 0%Z with (d0 - d0)%Z at 1 by lia.
    change ((d0 - d0)%Z :: map (fun d => (d - d0)%Z) t)
      with (map (fun d => (d - d0)%Z) (d0 :: t)).
    cbn [map]. rewrite list_max_sorted.
    - apply last_map_sub.
    - change ((d0 - d0)%Z :: map (fun d => (d - d0)%Z) t)
        with (map (fun d => (d - d0)%Z) (d0 :: t)).
      now apply map_sub_sorted. }
  assert (Hge : (d0 <= last t d0)%Z).
  { rewrite <- Hmax, <- Hmin.
    assert (Hne : dates df <> []).
    { unfold dates. intros E. apply (f_equal (@List.length Z)) in E.
      rewrite length_map in E. cbn in E. lia. }
    destruct (list_max_spec _ Hne) as [I1 F1]. destruct (list_min_spec _ Hne) as [I2 F2].
    rewrite Forall_forall in F2. now apply F2. }
  assert (Hsess : last_session self = len df).
  { rewrite Hn, Hrows. unfold len. now rewrite sort_by_date_length. }
  split; [assumption|]. split; [assumption|].
  split; [rewrite Hdp; unfold len; now rewrite HX|].
  split; [rewrite Hld, Hrows; unfold dates;
          now rewrite <- (list_max_perm _ _ (sorted_dates_perm (rows df)))|].
  split; [rewrite Hlast, Hmax, Hmin; reflexivity|].
  split; [lia|].
  rewrite Havg, Hdsl.
  replace (Fin 7 :: map of_int (gaps_between d0 t))
    with (map Fin (7 :: map IZR (gaps_between d0 t)))
    by (cbn [map]; now rewrite map_map).
  rewrite series_mean_fin by discriminate. f_equal.
  rewrite Rsum_cons, gaps_between_sum. cbn [List.length].
  rewrite length_map, gaps_between_length, Hnt.
  rewrite Hlast, Hsess, minus_IZR. unfold len. now rewrite INR_IZR_INZ.
Qed.

(** After a successful [train], the predictor's [avg_days_between] is
    [(7 + last_days) / last_session]: the days from the earliest to the
    latest session, plus the 7 that stands for the gap before the earliest
    one, over the number of sessions.  It is therefore positive, so
    [predict_future] never divides by zero. *)
Theorem train_average_gap (df : DataFrame) (self : StrengthPredictor)
    (metrics : TrainingMetrics) :
  train sk df = Ok (self, metrics) ->
  last_session self = len df /\
  last_date self = list_max (dates df) /\
  last_days self = (list_max (dates df) - list_min (dates df))%Z /\
  avg_days_between self
  = Fin ((7 + IZR (last_days self)) / IZR (last_session self)) /\
  fgt (avg_days_between self) (Fin 0) = true.
Proof.
  intros Ht.
  destruct (train_dates df self metrics Ht) as (Hlen & Hn & _ & Hd & Hld & H0 & Havg).
  repeat (split; [assumption|]).
  rewrite Havg. unfold fgt; cbn [flt]. apply Rltb_true.
  rewrite Hn. apply IZR_le in Hlen, H0.
  apply Rmult_lt_0_compat; [lra|]. apply Rinv_0_lt_compat. lra.
Qed.

(** Of the two candidates, [train] keeps ridge only when its score is
    strictly greater than that of the linear model (or when the linear score
    is not a number above minus infinity); on a tie the linear model stays.
    The scores it reports are the two candidates' scores rounded to three
    places, linear first. *)
Theorem train_model_selection (df : DataFrame) (self : StrengthPredictor)
    (metrics : TrainingMetrics) :
  train sk df = Ok (self, metrics) ->
  exists (p : Prepared) (s1 s2 : pyfloat),
    prepare_data df = Ok p /\
    candidate_score sk linear (scaler_transform (scaler_fit (X p)) (X p)) (y p) = Ok s1 /\
    candidate_score sk ridge (scaler_transform (scaler_fit (X p)) (X p)) (y p) = Ok s2 /\
    model_scores metrics = [(linear, pyround_nd s1 3); (ridge, pyround_nd s2 3)] /\
    (model_type metrics = linear -> fgt s1 NInf = true /\ fgt s2 s1 = false) /\
    (model_type metrics = ridge ->
       fgt s2 NInf = true /\ (fgt s1 NInf = true -> fgt s2 s1 = true)).
Proof.
  intros Ht.
  destruct (train_inv df self metrics Ht)
    as (p & s1 & s2 & m & Hp & C1 & C2 & Hb & _ & _ & _ & _ & _ & _ & _ & _ & _
        & _ & _ & Hsc).
  exists p, s1, s2. repeat (split; [assumption|]).
  unfold best_of in Hb.
  destruct (fgt s1 NInf) eqn:E1.
  - destruct (fgt s2 s1) eqn:E2; injection Hb as <-; split; intros H;
      try discriminate; auto.
    split; [| auto].
    destruct s1, s2; cbn in E1, E2 |- *; try discriminate; reflexivity.
  - destruct (fgt s2 NInf) eqn:E2; [| discriminate]. injection Hb as <-.
    split; intros H; try discriminate. split; [reflexivity | discriminate].
Qed.

(** When neither candidate's score exceeds minus infinity (both are NaN or
    minus infinity), no model is selected and [train] fails with
    [KeyError(None)], the lookup of the unset best model name. *)
Theorem train_without_usable_score (df : DataFrame) (p : Prepared) (s1 s2 : pyfloat) :
  prepare_data df = Ok p ->
  candidate_score sk linear (scaler_transform (scaler_fit (X p)) (X p)) (y p) = Ok s1 ->
  candidate_score sk ridge (scaler_transform (scaler_fit (X p)) (X p)) (y p) = Ok s2 ->
  fgt s1 NInf = false -> fgt s2 NInf = false ->
  train sk df = Raise (KeyError "None").
Proof.
  intros Hp C1 C2 E1 E2. unfold train. rewrite Hp; cbn [bind]. cbv zeta.
  cbn [for_each]. unfold select_step.
  rewrite C1; cbn [bind]. rewrite E1. cbn [bind].
  rewrite C2; cbn [bind]. rewrite E2. reflexivity.
Qed.

End Training.

Section FiniteTraining.

Lemma cumsum_from_fin (acc : R) (l : list R) :
  exists c : list R, cumsum_from (Fin acc) (map Fin l) = map Fin c.
Proof.
  revert acc; induction l as [| x l IH]; intros acc; [now exists []|].
  cbn [map cumsum_from is_nan fadd]. destruct (IH (acc + x)) as [c ->].
  now exists ((acc + x) :: c).
Qed.

Lemma rolling_mean_fin (window : nat) (l : list R) :
  (0 < window)%nat ->
  forallb is_finite (rolling_mean window 1 (map Fin l)) = true.
Proof.
  intros Hw. apply forallb_forall. intros a Ha.
  unfold rolling_mean, rolling in Ha. apply in_map_iff in Ha as (i & <- & Hi).
  apply in_seq in Hi. rewrite length_map in Hi.
  destruct (nth_error l i) as [x |] eqn:Ex;
    [| apply nth_error_None in Ex; lia].
  assert (Hin : In (Fin x) (window_at window (map Fin l) i)).
  { apply window_at_current; [assumption|]. now rewrite nth_error_map, Ex. }
  destruct (observed_fin (tail window (firstn (S i) (map Fin l)))) as [wR EwR].
  fold (window_at window (map Fin l) i) in EwR. rewrite EwR in *.
  destruct wR as [| y wR]; [destruct Hin|].
  cbn [map List.length Nat.ltb Nat.leb].
  change (Fin y :: map Fin wR) with (map Fin (y :: wR)).
  now rewrite series_mean_fin by discriminate.
Qed.

Lemma all_finite_matrix (Xs : matrix) :
  forallb (forallb is_finite) Xs = true -> exists XR, Xs = map (map Fin) XR.
Proof.
  induction Xs as [| x Xs IH]; [now exists []|].
  cbn [forallb]. intros H. apply andb_true_iff in H as [Hx HX].
  destruct (IH HX) as [XR ->]. destruct (all_finite_fin x Hx) as [xr ->].
  now exists (xr :: XR).
Qed.

Lemma forallb_finite_map_Fin (l : list R) : forallb is_finite (map Fin l) = true.
Proof. induction l; [reflexivity | assumption]. Qed.

Lemma forallb_finite_of_int (l : list Z) : forallb is_finite (map of_int l) = true.
Proof. induction l; [reflexivity | assumption]. Qed.

Lemma features_finite (a b : list Z) (c d e : list pyfloat) :
  forallb is_finite c = true -> forallb is_finite d = true ->
  forallb is_finite e = true ->
  forallb (forallb is_finite)
    (map (fun '(a, (b, (c, (d, e)))) => [of_int a; of_int b; c; d; e])
         (combine a (combine b (combine c (combine d e))))) = true.
Proof.
  revert b c d e; induction a as [| a0 a IH]; intros b c d e Hc Hd He;
    [reflexivity|].
  destruct b as [| b0 b], c as [| c0 c], d as [| d0 d], e as [| e0 e];
    try reflexivity.
  cbn [forallb] in Hc, Hd, He.
  apply andb_true_iff in Hc as [Hc0 Hc], Hd as [Hd0 Hd], He as [He0 He].
  cbn [combine map forallb]. rewrite Hc0, Hd0, He0, IH by assumption.
  reflexivity.
Qed.

(** On finite volumes and 1RM values, the features and the target are
    finite. *)
Lemma prepare_data_finite (df : DataFrame) (p : Prepared) :
  prepare_data df = Ok p ->
  Forall finite_session (rows df) ->
  exists (XR : list (list R)) (yR : list R),
    X p = map (map Fin) XR /\ y p = map Fin yR /\
    Forall (fun x => List.length x = n_features) XR /\
    List.length XR = List.length (rows df) /\
    List.length yR = List.length (rows df).
Proof.
  intros Hp Hfin.
  pose proof (prepare_data_inv df p Hp) as H. cbv zeta in H.
  destruct H as (Hlen & _ & Hy & _ & Hcv & _ & HX).
  destruct (prepared_dates df p Hp) as (d0 & t & _ & _ & _ & _ & Hdsl).
  destruct (prepared_columns df p Hp) as (LX & Ly & F & _).
  assert (Hrows : Forall finite_session (sort_by_date (rows df))).
  { apply Forall_forall. intros r Hr. apply (proj1 (In_sort_by_date _ _)) in Hr.
    rewrite Forall_forall in Hfin. now apply Hfin. }
  assert (Hvol : exists vR, map total_volume (sort_by_date (rows df)) = map Fin vR).
  { apply all_finite_fin, forallb_forall. intros a Ha.
    apply in_map_iff in Ha as (r & <- & Hr).
    rewrite Forall_forall in Hrows. now apply Hrows. }
  assert (H1rm : exists yR, map estimated_1rm (sort_by_date (rows df)) = map Fin yR).
  { apply all_finite_fin, forallb_forall. intros a Ha.
    apply in_map_iff in Ha as (r & <- & Hr).
    rewrite Forall_forall in Hrows. now apply Hrows. }
  destruct Hvol as [vR EvR]. destruct H1rm as [yR EyR].
  assert (HXfin : forallb (forallb is_finite) (X p) = true).
  { rewrite HX. apply features_finite.
    - rewrite Hcv, EvR. unfold series_cumsum.
      destruct (cumsum_from_fin 0 vR) as [c ->]. apply forallb_finite_map_Fin.
    - rewrite EyR. apply rolling_mean_fin. lia.
    - rewrite Hdsl. cbn [forallb is_finite andb]. apply forallb_finite_of_int. }
  destruct (all_finite_matrix _ HXfin) as [XR EXR].
  exists XR, yR. split; [assumption|]. split; [now rewrite Hy|].
  rewrite EXR in F, LX. rewrite length_map in LX.
  split.
  - apply Forall_forall. intros x Hx. rewrite Forall_forall in F.
    specialize (F (map Fin x) (in_map _ _ _ Hx)). now rewrite length_map in F.
  - split; [assumption|]. rewrite Hy, EyR, length_map in Ly. exact Ly.
Qed.

Lemma r2_score_fin (yR pR : list R) :
  yR <> [] -> exists r : R, r2_score (map Fin yR) (map Fin pR) = Fin r.
Proof.
  intros Hy. unfold r2_score. rewrite r2_denominator_fin by assumption.
  rewrite vsub_fin, sum_sq_fin. cbn [feq].
  destruct (Reqb (total_ss yR) 0) eqn:E; cbn [negb].
  - destruct (negb _); eexists; reflexivity.
  - apply Reqb_false in E. rewrite fdiv_fin by assumption.
    eexists; reflexivity.
Qed.

Lemma fgt_fin_ninf (r : R) : fgt (Fin r) NInf = true.
Proof. reflexivity. Qed.

Variable sk : Sklearn.

Lemma candidate_score_fin (name : ModelName) (XS : list (list R)) (yR : list R) :
  yR <> [] ->
  (exists w b,
     fit sk name (map (map Fin) XS) (map Fin yR)
     = Ok (mkLinearModel (map Fin w) (Fin b))) ->
  ((5 <= Z.of_nat (List.length (map (map Fin) XS)))%Z ->
   exists scores,
     scores <> [] /\
     cross_val_score sk name (map (map Fin) XS) (map Fin yR)
       (Z.min 5 (Z.of_nat (List.length (map (map Fin) XS))))
     = Ok (map Fin scores)) ->
  exists r : R, candidate_score sk name (map (map Fin) XS) (map Fin yR) = Ok (Fin r).
Proof.
  intros Hy (w & b & Hfit) Hcv. unfold candidate_score. cbv zeta.
  destruct (5 <=? _)%Z eqn:E.
  - apply Z.leb_le in E. destruct (Hcv E) as (scores & Hne & Hs).
    match goal with |- context [cross_val_score sk name ?a ?b ?c] =>
      assert (Hs' : cross_val_score sk name a b c = Ok (map Fin scores))
        by exact Hs;
      rewrite Hs' end.
    cbn [bind]. rewrite np_mean_fin by assumption. eexists; reflexivity.
  - rewrite Hfit.
    cbn [bind]. unfold score. rewrite predict_fin; cbn [bind].
    destruct (r2_score_fin yR (map (fun x => Rdot x w + b) XS) Hy) as [r ->].
    eexists; reflexivity.
Qed.

Lemma ordinary_session_finite (r : Session) : ordinary_session r -> finite_session r.
Proof.
  intros ((v & Hv & _) & (e & He & _) & _). unfold finite_session.
  rewrite Hv, He. now split.
Qed.

Lemma ordinary_frame_finite (df : DataFrame) :
  ordinary_frame df -> Forall finite_session (rows df).
Proof.
  intros [_ H]. eapply Forall_impl; [| exact H]. apply ordinary_session_finite.
Qed.

(** The estimators' answers, on the real matrices behind a finite training
    set. *)
Lemma estimators_answer_fin (df : DataFrame) (p : Prepared)
    (XR : list (list R)) (yR : list R) :
  estimators_answer sk df ->
  prepare_data df = Ok p ->
  X p = map (map Fin) XR -> y p = map Fin yR ->
  XR <> [] -> Forall (fun x => List.length x = n_features) XR ->
  forall name,
    let XS := Rtransform (Rmeans XR) (Rscales XR) XR in
    (exists w b,
       fit sk name (map (map Fin) XS) (map Fin yR)
       = Ok (mkLinearModel (map Fin w) (Fin b))) /\
    ((5 <= Z.of_nat (List.length (map (map Fin) XS)))%Z ->
     exists scores,
       scores <> [] /\
       cross_val_score sk name (map (map Fin) XS) (map Fin yR)
         (Z.min 5 (Z.of_nat (List.length (map (map Fin) XS))))
       = Ok (map Fin scores)).
Proof.
  intros Hest Hp EX Ey HXne Hrows name. specialize (Hest p Hp). cbv zeta in Hest.
  rewrite EX, Ey in Hest. rewrite scaler_fit_fin in Hest by assumption.
  rewrite scaler_transform_fin in Hest by apply Rscales_neq_0.
  exact (Hest name).
Qed.

Lemma prepare_data_ok (df : DataFrame) :
  (2 <= len df)%Z ->
  has_total_volume df = true -> has_estimated_1rm df = true ->
  exists p : Prepared, prepare_data df = Ok p.
Proof.
  intros Hlen Hv H1. unfold prepare_data.
  replace (len df <? 2)%Z with false by (symmetry; apply Z.ltb_ge; lia).
  cbv zeta. cbn [has_total_volume has_estimated_1rm to_datetime_workout_date
                 sort_values with_rows].
  rewrite Hv, H1. cbn [negb]. eexists; reflexivity.
Qed.

Lemma train_finite_ok (df : DataFrame) :
  estimators_answer sk df ->
  (2 <= len df)%Z ->
  has_total_volume df = true -> has_estimated_1rm df = true ->
  Forall finite_session (rows df) ->
  exists (self : StrengthPredictor) (metrics : TrainingMetrics),
    train sk df = Ok (self, metrics) /\ model self <> None.
Proof.
  intros Hest Hlen Hv H1 Hfin.
  assert (Hp : exists p, prepare_data df = Ok p).
  { unfold prepare_data.
    replace (len df <? 2)%Z with false by (symmetry; apply Z.ltb_ge; lia).
    cbv zeta. cbn [has_total_volume has_estimated_1rm to_datetime_workout_date
                   sort_values with_rows].
    rewrite Hv, H1. cbn [negb]. eexists; reflexivity. }
  destruct Hp as [p Hp].
  destruct (prepare_data_finite df p Hp Hfin) as (XR & yR & EX & Ey & Hrows & LX & Ly).
  assert (HXne : XR <> []).
  { intros ->. unfold len in Hlen. cbn in LX. lia. }
  assert (Hyne : yR <> []).
  { intros ->. unfold len in Hlen. cbn in Ly. lia. }
  pose proof (estimators_answer_fin df p XR yR Hest Hp EX Ey HXne Hrows) as Hans.
  cbv zeta in Hans.
  unfold train. rewrite Hp; cbn [bind]. cbv zeta.
  rewrite EX, Ey, scaler_fit_fin by assumption.
  rewrite scaler_transform_fin by apply Rscales_neq_0.
  set (XS := Rtransform (Rmeans XR) (Rscales XR) XR) in *.
  cbn [for_each]. unfold select_step.
  destruct (candidate_score_fin linear XS yR Hyne
              (proj1 (Hans linear)) (proj2 (Hans linear))) as [r1 ->].
  destruct (candidate_score_fin ridge XS yR Hyne
              (proj1 (Hans ridge)) (proj2 (Hans ridge))) as [r2 ->].
  cbn [bind]. rewrite fgt_fin_ninf. cbn [bind].
  destruct (fgt (Fin r2) (Fin r1)); cbn [bind];
    match goal with |- context [fit sk ?b _ _] =>
      destruct (proj1 (Hans b)) as (w & b0 & ->) end;
    cbn [bind]; unfold score; rewrite predict_fin; cbn [bind];
    do 2 eexists; (split; [reflexivity | discriminate]).
Qed.

(** With two sessions or more, volumes, 1RM values and dates in the ordinary
    range, and estimators that answer the calls made on this table with
    finite models and scores, [train] returns a trained predictor and its
    metrics: it raises nothing. *)
Theorem train_succeeds_on_finite_data (df : DataFrame) :
  estimators_answer sk df ->
  ordinary_frame df ->
  (2 <= len df)%Z ->
  has_total_volume df = true -> has_estimated_1rm df = true ->
  exists (self : StrengthPredictor) (metrics : TrainingMetrics),
    train sk df = Ok (self, metrics) /\ model self <> None.
Proof.
  intros Hest Hord Hlen Hv H1.
  apply train_finite_ok; try assumption. now apply ordinary_frame_finite.
Qed.

End FiniteTraining.

Section TrainingExamples.

Lemma steady_sklearn_answers (df : DataFrame) : estimators_answer steady_sklearn df.
Proof.
  intros p _ X_scaled name. split.
  - exists [0; 0; 0; 0; 0], 104. reflexivity.
  - intros _. exists [-2; -2; -2; -2; -2].
    split; [discriminate | reflexivity].
Qed.

Lemma five_sessions_ordinary : ordinary_frame five_sessions.
Proof.
  split; [now vm_compute|].
  repeat constructor;
    try (eexists; split; [reflexivity | rewrite Rabs_pos_eq by lra; simpl; lra]);
    now vm_compute.
Qed.

Lemma five_sessions_finite_sessions : Forall finite_session (rows five_sessions).
Proof. repeat constructor. Qed.

Lemma five_sessions_len : len five_sessions = 5%Z.
Proof. reflexivity. Qed.

Lemma five_sessions_train :
  exists (self : StrengthPredictor) (metrics : TrainingMetrics),
    train steady_sklearn five_sessions = Ok (self, metrics).
Proof.
  destruct (train_finite_ok steady_sklearn five_sessions
              (steady_sklearn_answers five_sessions))
    as (self & metrics & H & _);
    [rewrite five_sessions_len; lia | reflexivity | reflexivity
     | exact five_sessions_finite_sessions |].
  now exists self, metrics.
Qed.

End TrainingExamples.

Lemma train_succeeds_on_finite_data_witness :
  exists (self : StrengthPredictor) (metrics : TrainingMetrics),
    train steady_sklearn five_sessions = Ok (self, metrics) /\ model self <> None.
Proof.
  apply (train_succeeds_on_finite_data steady_sklearn five_sessions).
  - exact (steady_sklearn_answers five_sessions).
  - exact five_sessions_ordinary.
  - rewrite five_sessions_len; lia.
  - reflexivity.
  - reflexivity.
Defined.

Lemma train_average_gap_witness :
  exists (self : StrengthPredictor) (metrics : TrainingMetrics),
    train steady_sklearn five_sessions = Ok (self, metrics) /\
    last_session self = len five_sessions /\
    last_date self = list_max (dates five_sessions) /\
    last_days self
    = (list_max (dates five_sessions) - list_min (dates five_sessions))%Z /\
    avg_days_between self
    = Fin ((7 + IZR (last_days self)) / IZR (last_session self)) /\
    fgt (avg_days_between self) (Fin 0) = true.
Proof.
  destruct five_sessions_train as (self & metrics & H).
  exists self, metrics. split; [exact H|].
  exact (train_average_gap steady_sklearn five_sessions self metrics H).
Defined.

Lemma train_model_selection_witness :
  exists (self : StrengthPredictor) (metrics : TrainingMetrics),
    train steady_sklearn five_sessions = Ok (self, metrics) /\
    exists (p : Prepared) (s1 s2 : pyfloat),
      prepare_data five_sessions = Ok p /\
      candidate_score steady_sklearn linear
        (scaler_transform (scaler_fit (X p)) (X p)) (y p) = Ok s1 /\
      candidate_score steady_sklearn ridge
        (scaler_transform (scaler_fit (X p)) (X p)) (y p) = Ok s2 /\
      model_scores metrics = [(linear, pyround_nd s1 3); (ridge, pyround_nd s2 3)] /\
      (model_type metrics = linear -> fgt s1 NInf = true /\ fgt s2 s1 = false) /\
      (model_type metrics = ridge ->
         fgt s2 NInf = true /\ (fgt s1 NInf = true -> fgt s2 s1 = true)).
Proof.
  destruct five_sessions_train as (self & metrics & H).
  exists self, metrics. split; [exact H|].
  exact (train_model_selection steady_sklearn five_sessions self metrics H).
Defined.

Lemma failing_sklearn_score (name : ModelName) (p : Prepared) :
  prepare_data five_sessions = Ok p ->
  candidate_score failing_sklearn name
    (scaler_transform (scaler_fit (X p)) (X p)) (y p) = Ok NaN.
Proof.
  intros Hp. destruct (prepared_columns five_sessions p Hp) as (HX & _).
  assert (H5 : (5 <=? Z.of_nat (List.length (X p)))%Z = true)
    by (rewrite HX; reflexivity).
  unfold candidate_score, scaler_transform. rewrite length_map.
  match goal with |- context [(5 <=? ?n)%Z] =>
    replace (5 <=? n)%Z with true by (symmetry; exact H5) end.
  reflexivity.
Qed.

Lemma train_without_usable_score_witness :
  train failing_sklearn five_sessions = Raise (KeyError "None").
Proof.
  destruct (prepare_data_ok five_sessions) as [p Hp];
    [rewrite five_sessions_len; lia | reflexivity | reflexivity |].
  apply (train_without_usable_score failing_sklearn five_sessions p NaN NaN Hp).
  - now apply failing_sklearn_score.
  - now apply failing_sklearn_score.
  - reflexivity.
  - reflexivity.
Defined.


(** ** Forecasting *)

Section Forecasts.

Lemma map_result_inv {A B : Type} (f : A -> result B) (l : list A) (bs : list B) :
  map_result f l = Ok bs -> Forall2 (fun a b => f a = Ok b) l bs.
Proof.
  revert bs; induction l as [| a l IH]; intros bs H; cbn [map_result] in H.
  - injection H as <-. constructor.
  - destruct (f a) as [b | e] eqn:Ea; cbn [bind] in H; [| discriminate].
    destruct (map_result f l) as [bs' | e]; cbn [bind] in H; [| discriminate].
    injection H as <-. constructor; [assumption | now apply IH].
Qed.

Lemma map_result_ok {A B : Type} (f : A -> result B) (l : list A) :
  (forall a, In a l -> exists b, f a = Ok b) ->
  exists bs : list B, map_result f l = Ok bs.
Proof.
  induction l as [| a l IH]; intros H; [now exists []|].
  destruct (H a (or_introl eq_refl)) as [b Hb].
  destruct IH as [bs Hbs]; [intros x Hx; apply H; now right|].
  exists (b :: bs). cbn [map_result]. now rewrite Hb, Hbs.
Qed.

Lemma forecast_at_session (self : StrengthPredictor) (m : LinearModel) (i : Z)
    (pr : Prediction) :
  forecast_at self m i = Ok pr -> session_number pr = (last_session self + i)%Z.
Proof.
  unfold forecast_at.
  destruct (pyint _) as [d | e]; cbn [bind]; [| discriminate].
  destruct (predict _ _) as [v | e]; cbn [bind]; [| discriminate].
  destruct (pyint _) as [n | e]; cbn [bind]; [| discriminate].
  now intros H; injection H as <-.
Qed.

Lemma predict_future_as_map (self : StrengthPredictor) (days_ahead : Z)
    (sessions_ahead : option Z) :
  predict_future self days_ahead sessions_ahead
  = match model self with
    | None => Raise (ValueError "Model not trained. Call train() first.")
    | Some m =>
        n <- sessions_to_forecast self days_ahead sessions_ahead ;;
        map_result (forecast_at self m) (range1 n)
    end.
Proof. apply predict_future_closed_form. Qed.

(** [predict_future] returns one forecast per future session: as many as
    [sessions_ahead] asks for (none when that is zero or negative), otherwise
    [max(1, int(days_ahead / avg_days_between))], so at least one.  The
    forecasts are numbered consecutively from the session after the last
    training session. *)
Theorem predict_future_sessions (self : StrengthPredictor) (days_ahead : Z)
    (sessions_ahead : option Z) (preds : list Prediction) :
  predict_future self days_ahead sessions_ahead = Ok preds ->
  exists n : Z,
    sessions_to_forecast self days_ahead sessions_ahead = Ok n /\
    List.length preds = Z.to_nat n /\
    map session_number preds = map (fun i => (last_session self + i)%Z) (range1 n) /\
    (sessions_ahead = None -> preds <> []).
Proof.
  rewrite predict_future_as_map.
  destruct (model self) as [m |]; [| discriminate].
  destruct (sessions_to_forecast self days_ahead sessions_ahead) as [n | e] eqn:En;
    cbn [bind]; [| discriminate].
  intros H. apply map_result_inv in H. exists n. split; [reflexivity|].
  assert (Hlen : List.length preds = Z.to_nat n).
  { apply Forall2_length in H. unfold range1 in H.
    now rewrite length_map, length_seq in H. }
  split; [assumption|]. split.
  - clear Hlen En. induction H as [| i pr l ps Hi _ IH]; [reflexivity|].
    cbn [map]. rewrite IH. f_equal. exact (forecast_at_session _ _ _ _ Hi).
  - intros ->. cbn [sessions_to_forecast] in En.
    destruct (pyint _) as [k | e]; cbn [bind] in En; [| discriminate].
    injection En as <-. intros ->. cbn in Hlen. lia.
Qed.

Lemma last_map_Fin (c : list R) : c <> [] -> last (map Fin c) NaN = Fin (last c 0).
Proof.
  induction c as [| x c IH]; [congruence|]. intros _.
  destruct c as [| y c]; [reflexivity|].
  change (last (map Fin (x :: y :: c)) NaN) with (last (map Fin (y :: c)) NaN).
  change (last (x :: y :: c) 0) with (last (y :: c) 0).
  apply IH. discriminate.
Qed.

(** A finite predictor forecasts every session. *)
Lemma forecast_at_ok (self : StrengthPredictor) (m : LinearModel) (i : Z) :
  finite_predictor self -> model self = Some m ->
  exists pr : Prediction, forecast_at self m i = Ok pr.
Proof.
  intros (w & means & scales & b & cv & l1 & a & Hm & Hsc & Hnz & Hcv & Hl1 & Ha
          & Ha0 & Hls) Hmodel.
  rewrite Hm in Hmodel. injection Hmodel as <-.
  unfold forecast_at, forecast_row.
  rewrite Hsc, Hcv, Hl1, Ha. unfold of_int.
  rewrite (fdiv_fin _ (IZR (last_session self))) by (now apply not_0_IZR).
  cbn [fmul fadd fsub fopp pyint bind].
  match goal with
  | |- context [scaler_transform _ [[Fin ?x1; Fin ?x2; Fin ?x3; Fin ?x4; Fin ?x5]]] =>
      change [[Fin x1; Fin x2; Fin x3; Fin x4; Fin x5]]
        with (map (map Fin) [[x1; x2; x3; x4; x5]])
  end.
  rewrite scaler_transform_fin by assumption.
  rewrite predict_fin. cbn [bind]. eexists; reflexivity.
Qed.

Lemma predict_future_ok (self : StrengthPredictor) (days_ahead : Z)
    (sessions_ahead : option Z) :
  finite_predictor self ->
  exists preds : list Prediction,
    predict_future self days_ahead sessions_ahead = Ok preds.
Proof.
  intros Hf. pose proof Hf as (w & means & scales & b & cv & l1 & a & Hm & _ & _ & _
                               & _ & Ha & Ha0 & _).
  rewrite predict_future_as_map, Hm.
  assert (Hn : exists n, sessions_to_forecast self days_ahead sessions_ahead = Ok n).
  { destruct sessions_ahead as [s |]; cbn [sessions_to_forecast]; [now exists s|].
    rewrite Ha. unfold of_int. rewrite fdiv_fin by assumption.
    cbn [pyint bind]. eexists; reflexivity. }
  destruct Hn as [n ->]. cbn [bind].
  apply map_result_ok. intros i _. now apply forecast_at_ok.
Qed.

End Forecasts.

Section TrainedPredictors.

Variable sk : Sklearn.

(** Training on finite data with estimators that answer finitely leaves a
    finite predictor. *)
Lemma train_finite_predictor (df : DataFrame) (self : StrengthPredictor)
    (metrics : TrainingMetrics) :
  estimators_answer sk df ->
  train sk df = Ok (self, metrics) ->
  Forall finite_session (rows df) ->
  finite_predictor self.
Proof.
  intros Hest Ht Hfin.
  destruct (train_inv sk df self metrics Ht)
    as (p & s1 & s2 & m & Hp & _ & _ & _ & Hfit & Hm & Hsc & _ & _ & _ & Hn
        & Hlcv & Hl1 & _).
  destruct (train_dates sk df self metrics Ht) as (Hlen & Hls & _ & _ & _ & H0 & Havg).
  destruct (prepare_data_finite df p Hp Hfin) as (XR & yR & EX & Ey & Hrows & LX & Ly).
  pose proof (prepare_data_inv df p Hp) as H. cbv zeta in H.
  destruct H as (_ & _ & _ & _ & Hcv & _).
  assert (HXne : XR <> []).
  { intros ->. unfold len in Hlen. cbn in LX. lia. }
  assert (Hyne : yR <> []).
  { intros ->. unfold len in Hlen. cbn in Ly. lia. }
  rewrite EX, Ey in Hfit. rewrite EX in Hsc.
  rewrite scaler_fit_fin in Hfit, Hsc by assumption.
  rewrite scaler_transform_fin in Hfit by apply Rscales_neq_0.
  pose proof (estimators_answer_fin sk df p XR yR Hest Hp EX Ey HXne Hrows
                (model_type metrics)) as Hans.
  cbv zeta in Hans. destruct Hans as ((w & b & Ew) & _).
  rewrite Ew in Hfit. injection Hfit as <-.
  assert (Hvol : exists c, cumulative_volume p = map Fin c /\ c <> []).
  { assert (Hv : exists vR, map total_volume (sort_by_date (rows df)) = map Fin vR).
    { apply all_finite_fin, forallb_forall. intros x Hx.
      apply in_map_iff in Hx as (r & <- & Hr).
      apply (proj1 (In_sort_by_date _ _)) in Hr.
      rewrite Forall_forall in Hfin. now apply Hfin. }
    destruct Hv as [vR EvR].
    assert (Hl : List.length vR = List.length (rows df)).
    { rewrite <- (length_map Fin), <- EvR, length_map. apply sort_by_date_length. }
    rewrite Hcv, EvR. unfold series_cumsum.
    destruct (cumsum_from_fin 0 vR) as [c Ec]. exists c. split; [assumption|].
    intros ->. apply (f_equal (@List.length pyfloat)) in Ec.
    rewrite cumsum_from_length, length_map in Ec. cbn in Ec.
    unfold len in Hlen. lia. }
  destruct Hvol as (c & Ec & Hc).
  exists w, (Rmeans XR), (Rscales XR), b, (last c 0), (last yR 0),
    ((7 + IZR (last_days self)) / IZR (last_session self)).
  split; [assumption|]. split; [assumption|].
  split; [apply Rscales_neq_0|].
  split; [rewrite Hlcv, Ec; now apply last_map_Fin|].
  split; [rewrite Hl1, Ey; now apply last_map_Fin|].
  split; [assumption|].
  rewrite Hls. split; [| lia].
  apply IZR_le in Hlen, H0.
  apply Rgt_not_eq. apply Rmult_lt_0_compat; [lra|].
  apply Rinv_0_lt_compat. lra.
Qed.

Lemma train_then_predict_future_ok (df : DataFrame) (days_ahead : Z) :
  estimators_answer sk df ->
  (2 <= len df)%Z ->
  has_total_volume df = true -> has_estimated_1rm df = true ->
  Forall finite_session (rows df) ->
  exists (self : StrengthPredictor) (metrics : TrainingMetrics)
         (preds : list Prediction),
    train sk df = Ok (self, metrics) /\
    predict_future self days_ahead None = Ok preds /\
    preds <> [].
Proof.
  intros Hest Hlen Hv H1 Hfin.
  destruct (train_finite_ok sk df Hest Hlen Hv H1 Hfin)
    as (self & metrics & Ht & _).
  pose proof (train_finite_predictor df self metrics Hest Ht Hfin) as Hf.
  destruct (predict_future_ok self days_ahead None Hf) as [preds Hpred].
  exists self, metrics, preds. split; [assumption|]. split; [assumption|].
  rewrite predict_future_as_map in Hpred.
  destruct (model self) as [m |]; [| discriminate].
  cbn [sessions_to_forecast] in Hpred.
  destruct (pyint _) as [k | e]; cbn [bind] in Hpred; [| discriminate].
  apply map_result_inv, Forall2_length in Hpred.
  unfold range1 in Hpred. rewrite length_map, length_seq in Hpred.
  intros ->. cbn in Hpred. lia.
Qed.


End TrainedPredictors.


Lemma five_sessions_forecast :
  exists (self : StrengthPredictor) (preds : list Prediction),
    predict_future self 30 None = Ok preds.
Proof.
  destruct (train_then_predict_future_ok steady_sklearn five_sessions 30
              (steady_sklearn_answers five_sessions))
    as (self & metrics & preds & _ & H & _);
    [rewrite five_sessions_len; lia | reflexivity | reflexivity
     | exact five_sessions_finite_sessions |].
  now exists self, preds.
Qed.

Lemma predict_future_sessions_witness :
  exists (self : StrengthPredictor) (preds : list Prediction),
    predict_future self 30 None = Ok preds /\
    exists n : Z,
      sessions_to_forecast self 30 None = Ok n /\
      List.length preds = Z.to_nat n /\
      map session_number preds
      = map (fun i => (last_session self + i)%Z) (range1 n) /\
      (@None Z = None -> preds <> []).
Proof.
  destruct five_sessions_forecast as (self & preds & H).
  exists self, preds. split; [exact H|].
  exact (predict_future_sessions self 30 None preds H).
Defined.

(** ** Predicting the date of a target *)

Section TargetDate.

Lemma first_return_some {A B : Type} (body : A -> result (option B)) (l : list A)
    (b : B) :
  first_return body l = Ok (Some b) ->
  exists (l1 : list A) (a : A) (l2 : list A),
    l = l1 ++ a :: l2 /\ body a = Ok (Some b) /\
    Forall (fun x => body x = Ok None) l1.
Proof.
  induction l as [| a l IH]; cbn [first_return]; [discriminate|].
  destruct (body a) as [[b' |] | e] eqn:Ea; cbn [bind]; [| | discriminate].
  - intros H. injection H as ->. exists [], a, l.
    split; [reflexivity | split; [assumption | constructor]].
  - intros H. destruct (IH H) as (l1 & a' & l2 & -> & Hb & Hl1).
    exists (a :: l1), a', l2.
    split; [reflexivity | split; [assumption | now constructor]].
Qed.

Lemma first_return_none {A B : Type} (body : A -> result (option B)) (l : list A) :
  first_return body l = Ok None -> Forall (fun x => body x = Ok None) l.
Proof.
  induction l as [| a l IH]; cbn [first_return]; [constructor|].
  destruct (body a) as [[b' |] | e] eqn:Ea; cbn [bind]; try discriminate.
  intros H. constructor; [assumption | now apply IH].
Qed.

Lemma seq_split (s k : nat) (a : Z) (l1 l2 : list Z) :
  map Z.of_nat (seq s k) = l1 ++ a :: l2 ->
  a = Z.of_nat (s + List.length l1) /\ (List.length l1 < k)%nat /\
  l1 = map Z.of_nat (seq s (List.length l1)).
Proof.
  revert s k; induction l1 as [| x l1 IH]; intros s k H.
  - destruct k as [| k]; [discriminate|]. cbn [seq map app] in H.
    injection H as H _. cbn [List.length seq map].
    rewrite Nat.add_0_r. repeat split; [congruence | lia].
  - destruct k as [| k]; [discriminate|]. cbn [seq map app] in H.
    injection H as Hx H. destruct (IH _ _ H) as (Ha & Hk & Hl).
    cbn [List.length seq map]. rewrite <- Hl.
    repeat split; [rewrite Ha; f_equal; lia | lia | congruence].
Qed.

(** Splitting [range(1, n + 1)] at one of its members. *)
Lemma range1_split (n a : Z) (l1 l2 : list Z) :
  range1 n = l1 ++ a :: l2 -> (1 <= a <= n)%Z /\ l1 = range1 (a - 1).
Proof.
  unfold range1. intros H. apply seq_split in H as (Ha & Hk & Hl).
  split; [lia|]. rewrite Hl at 1. do 2 f_equal. lia.
Qed.

Lemma trunc_nonneg (x : R) : 0 <= x -> (0 <= trunc x)%Z.
Proof.
  intros Hx. unfold trunc.
  replace (Rltb x 0) with false by (symmetry; apply Rltb_false; lra).
  apply Zfloor_lub. exact Hx.
Qed.

(** The estimate of a long-term answer is not negative. *)
Lemma long_term_nonneg (target current rate : pyfloat) (d : Z) :
  fle target current = false -> fgt rate (Fin 0) = true ->
  pyint (fdiv (fsub target current) rate) = Ok d -> (0 <= d)%Z.
Proof.
  unfold fle, fgt.
  destruct target as [t | | |], current as [c | | |], rate as [r | | |];
    cbn [flt feq fsub fopp fadd fdiv pyint orb];
    intros Hle Hr Hd; try discriminate.
  all: try solve
    [ apply Rltb_true in Hr;
      replace (Rltb r 0) with false in Hd by (symmetry; apply Rltb_false; lra);
      discriminate ].
  - apply Rltb_true in Hr. apply orb_false_iff in Hle as [Hlt Heq].
    apply Rltb_false in Hlt. apply Reqb_false in Heq.
    replace (Reqb r 0) with false in Hd by (symmetry; apply Reqb_false; lra).
    cbn [pyint] in Hd. injection Hd as <-. apply trunc_nonneg.
    apply Rmult_le_pos; [lra|]. left. apply Rinv_0_lt_compat. lra.
  - cbn [pyint] in Hd. injection Hd as <-. apply trunc_nonneg. lra.
Qed.

Variable self : StrengthPredictor.
Variable target_weight : pyfloat.

(** What one day of the search establishes when it reaches the target. *)
Lemma target_day_reaches (days : Z) (r : TargetPrediction) :
  target_day self target_weight days = Ok (Some r) ->
  exists (sessions : Z) (preds : list Prediction),
    pyint (fdiv (of_int days) (avg_days_between self)) = Ok sessions /\
    (1 <= sessions)%Z /\
    predict_future self 30 (Some sessions) = Ok preds /\
    preds <> [] /\
    fge (predicted_1rm (last preds no_prediction)) target_weight = true /\
    r = Achievable target_weight (date (last preds no_prediction)) days sessions
          (pyround_nd (last_1rm self) 1).
Proof.
  unfold target_day.
  destruct (pyint _) as [s | e] eqn:Ep; cbn [bind]; [| discriminate].
  destruct (s <? 1)%Z eqn:Es; [discriminate|]. apply Z.ltb_ge in Es.
  destruct (predict_future self 30 (Some s)) as [preds | e] eqn:Ef; cbn [bind];
    [| discriminate].
  destruct preds as [| p0 ps]; [discriminate|].
  destruct (fge _ target_weight) eqn:Eg; [| discriminate].
  intros H. injection H as <-. exists s, (p0 :: ps).
  split; [reflexivity|]. split; [lia|]. split; [exact Ef|].
  split; [discriminate|]. split; [assumption | reflexivity].
Qed.

(** The outcomes of [predict_target_date] on a trained predictor.  A target
    at or below the last estimated 1RM is already achieved, whatever the model
    forecasts.  An achievable target comes with the first of the next 365
    days on which a whole number of sessions, [int(days / avg_days_between)],
    at least one, has a last forecast at or above the target; the date given
    is that forecast's date.  A long-term answer means that no such day
    exists, and its estimate is not negative. *)
Theorem predict_target_date_outcomes :
  model self <> None ->
  (fle target_weight (last_1rm self) = true ->
     predict_target_date self target_weight
     = Ok (AlreadyAchieved target_weight (last_1rm self))) /\
  (forall t predicted_date days sessions current,
     predict_target_date self target_weight
     = Ok (Achievable t predicted_date days sessions current) ->
     fle target_weight (last_1rm self) = false /\
     t = target_weight /\ current = pyround_nd (last_1rm self) 1 /\
     (1 <= days <= 365)%Z /\ (1 <= sessions)%Z /\
     pyint (fdiv (of_int days) (avg_days_between self)) = Ok sessions /\
     (exists preds,
        predict_future self 30 (Some sessions) = Ok preds /\ preds <> [] /\
        fge (predicted_1rm (last preds no_prediction)) target_weight = true /\
        predicted_date = date (last preds no_prediction)) /\
     Forall (fun d => target_day self target_weight d = Ok None) (range1 (days - 1))) /\
  (forall t estimated_days,
     predict_target_date self target_weight = Ok (LongTerm t estimated_days) ->
     t = target_weight /\ (0 <= estimated_days)%Z /\
     Forall (fun d => target_day self target_weight d = Ok None) (range1 365)).
Proof.
  intros Hm. unfold predict_target_date.
  destruct (model self) as [m |]; [clear Hm | congruence]. cbv zeta.
  split; [intros ->; reflexivity|].
  destruct (fle target_weight (last_1rm self)) eqn:Ele.
  { split; intros; discriminate. }
  destruct (first_return (target_day self target_weight) (range1 365))
    as [[r |] | e] eqn:Ef; cbn [bind].
  - apply first_return_some in Ef as (l1 & a & l2 & El & Ha & Hl1).
    apply range1_split in El as (Hrange & ->).
    apply target_day_reaches in Ha as (s & preds & Hs & Hs1 & Hp & Hne & Hge & ->).
    split; [| intros; discriminate].
    intros t pd days sessions current H. injection H as <- <- <- <- <-.
    split; [reflexivity|]. split; [reflexivity|]. split; [reflexivity|].
    split; [assumption|]. split; [assumption|]. split; [assumption|].
    split; [| assumption].
    exists preds. repeat split; assumption.
  - apply first_return_none in Ef.
    destruct (2 <=? _)%Z; [| split; intros; discriminate].
    destruct (0 <? last_days self)%Z; [| split; intros; discriminate].
    destruct (fgt _ (Fin 0)) eqn:Er; [| split; intros; discriminate].
    destruct (pyint _) as [d | e] eqn:Ed; cbn [bind];
      [| split; intros; discriminate].
    split; [intros; discriminate|].
    intros t days H. injection H as <- <-.
    split; [reflexivity|]. split; [| assumption].
    eapply long_term_nonneg; eassumption.
  - split; intros; discriminate.
Qed.

End TargetDate.

Section DailyPredictor.

Lemma daily_forecast :
  predict_future daily_predictor 30 (Some 1%Z)
  = Ok [ mkPrediction (ymd 2024 1 14 + 1) 15 (pyround_nd (Fin 120) 1) 1 ].
Proof.
  rewrite predict_future_as_map.
  cbn [model daily_predictor sessions_to_forecast bind].
  change (range1 1) with [1%Z]. cbn [map_result].
  unfold forecast_at, forecast_row.
  cbn [avg_days_between last_days last_session last_cumulative_volume last_1rm
       last_date scaler daily_predictor].
  unfold of_int. rewrite (fdiv_fin _ (IZR 14)) by lra.
  cbn [fmul fadd fsub fopp pyint bind].
  replace (1 * 1) with (IZR 1) by lra. rewrite trunc_IZR.
  replace (7 + IZR 1 + - (7)) with (IZR 1) by lra. rewrite trunc_IZR.
  match goal with
  | |- context [scaler_transform _ [[Fin ?x1; Fin ?x2; Fin ?x3; Fin ?x4; Fin ?x5]]] =>
      change [[Fin x1; Fin x2; Fin x3; Fin x4; Fin x5]]
        with (map (map Fin) [[x1; x2; x3; x4; x5]])
  end.
  rewrite scaler_transform_fin by (repeat constructor; lra).
  rewrite predict_fin. unfold Rtransform. cbn [bind map first_or_nan nth].
  match goal with |- context [pyround_nd (Fin ?v) 1] =>
    replace v with 120
      by (unfold Rdot, Rsum; cbn [map combine fold_left]; lra)
  end.
  reflexivity.
Qed.

Lemma daily_forecast_reaches :
  fge (pyround_nd (Fin 120) 1) (Fin 110) = true.
Proof.
  unfold fge, pyround_nd.
  replace (120 * 10 ^ 1) with (IZR 1200) by (simpl; lra).
  rewrite round_half_even_IZR. apply fle_fin_true. simpl; lra.
Qed.

Lemma daily_target_day :
  target_day daily_predictor (Fin 110) 1
  = Ok (Some (Achievable (Fin 110) (ymd 2024 1 14 + 1) 1 1 (pyround_nd (Fin 100) 1))).
Proof.
  unfold target_day. cbn [avg_days_between daily_predictor].
  unfold of_int. rewrite fdiv_fin by lra.
  replace (1 / 1) with (IZR 1) by lra. cbn [pyint bind]. rewrite trunc_IZR.
  cbn [Z.ltb Z.compare Pos.compare Pos.compare_cont].
  rewrite daily_forecast. cbn [bind last predicted_1rm date].
  rewrite daily_forecast_reaches. reflexivity.
Qed.

Lemma daily_target :
  predict_target_date daily_predictor (Fin 110)
  = Ok (Achievable (Fin 110) (ymd 2024 1 14 + 1) 1 1 (pyround_nd (Fin 100) 1)).
Proof.
  unfold predict_target_date. cbn [model last_1rm daily_predictor]. cbv zeta.
  replace (fle (Fin 110) (Fin 100)) with false
    by (symmetry; apply fle_fin_false; lra).
  change (range1 365) with (1%Z :: map Z.of_nat (seq 2 364)).
  cbn [first_return]. rewrite daily_target_day. reflexivity.
Qed.

End DailyPredictor.

Lemma predict_target_date_outcomes_witness :
  predict_target_date daily_predictor (Fin 110)
  = Ok (Achievable (Fin 110) (ymd 2024 1 14 + 1) 1 1 (pyround_nd (Fin 100) 1)) /\
  fle (Fin 110) (last_1rm daily_predictor) = false /\
  (1 <= 1 <= 365)%Z /\
  pyint (fdiv (of_int 1) (avg_days_between daily_predictor)) = Ok 1%Z /\
  exists preds,
    predict_future daily_predictor 30 (Some 1%Z) = Ok preds /\ preds <> [] /\
    fge (predicted_1rm (last preds no_prediction)) (Fin 110) = true /\
    (ymd 2024 1 14 + 1)%Z = date (last preds no_prediction).
Proof.
  assert (Hm : model daily_predictor <> None) by discriminate.
  destruct (predict_target_date_outcomes daily_predictor (Fin 110) Hm) as (_ & Ha & _).
  destruct (Ha _ _ _ _ _ daily_target) as (H1 & _ & _ & H2 & _ & H3 & H4 & _).
  split; [exact daily_target|]. repeat (split; [assumption|]). exact H4.
Defined.

(** ** The health score: neutral values, recovery and recommendations *)

Section HealthDetails.

(** Python rounds a half to the even neighbour: [round(12.5)] is 12. *)
Lemma round_half_even_12_5 : round_half_even 12.5 = 12%Z.
Proof.
  unfold round_half_even.
  assert (Hf : Zfloor 12.5 = 12%Z) by (apply Zfloor_eq; simpl; lra).
  rewrite Hf.
  replace (Rltb (12.5 - 12) (1 / 2)) with false by (symmetry; apply Rltb_false; lra).
  replace (Rltb (1 / 2) (12.5 - 12)) with false by (symmetry; apply Rltb_false; lra).
  reflexivity.
Qed.

Lemma streak_all_low (l : list Session) (s m : Z) :
  Forall (fun r => high_exertion r = false) l ->
  snd (fold_left streak_step l (s, m)) = m.
Proof.
  intros H. revert s. induction H as [| r l Hr _ IH]; intros s; [reflexivity|].
  cbn [fold_left streak_step]. unfold high_exertion in Hr. rewrite Hr. apply IH.
Qed.

Lemma streak_monotone (l : list Session) (s m : Z) :
  (0 <= s)%Z -> (m <= snd (fold_left streak_step l (s, m)))%Z.
Proof.
  revert s m; induction l as [| r l IH]; intros s m Hs; [cbn; lia|].
  cbn [fold_left streak_step]. destruct (fge (perceived_exertion r) (Fin 8)).
  - etransitivity; [| apply IH; lia]. lia.
  - apply IH. lia.
Qed.

Lemma streak_some_high (l : list Session) (s m : Z) :
  (0 <= s)%Z -> (0 <= m)%Z ->
  Exists (fun r => high_exertion r = true) l ->
  (1 <= snd (fold_left streak_step l (s, m)))%Z.
Proof.
  intros Hs Hm H. revert s m Hs Hm.
  induction H as [r l Hr | r l _ IH]; intros s m Hs Hm;
    cbn [fold_left streak_step].
  - unfold high_exertion in Hr. rewrite Hr.
    etransitivity; [| apply streak_monotone; lia]. lia.
  - destruct (fge (perceived_exertion r) (Fin 8)); apply IH; lia.
Qed.

Lemma recovery_score_full (df : DataFrame) :
  has_perceived_exertion df = true ->
  (recovery_score df = 25%Z <-> Forall (fun r => high_exertion r = false) (rows df)).
Proof.
  intros Hc. unfold recovery_score. rewrite Hc.
  destruct (fold_left streak_step (rows df) (0%Z, 0%Z)) as [s m] eqn:E.
  assert (Em : m = snd (fold_left streak_step (rows df) (0%Z, 0%Z))) by now rewrite E.
  split.
  - intros H. apply Forall_forall. intros r Hr.
    destruct (high_exertion r) eqn:Eh; [| reflexivity]. exfalso.
    assert (Hex : Exists (fun r => high_exertion r = true) (rows df))
      by (apply Exists_exists; eauto).
    pose proof (streak_some_high _ 0 0 ltac:(lia) ltac:(lia) Hex). lia.
  - intros H. rewrite (streak_all_low _ 0 0 H) in Em. subst m. reflexivity.
Qed.

Lemma get_health_score_inv (df : DataFrame) (total : Z) (rating : string)
    (scores : Scores) (recs : list string) :
  get_health_score df = Ok (Scored total rating scores recs) ->
  let sorted := to_datetime_workout_date (sort_values df) in
  (5 <= len df)%Z /\
  consistency_score sorted = Ok (consistency scores) /\
  progress_score sorted = Ok (progress scores) /\
  volume_score sorted = Ok (volume scores) /\
  recovery scores = recovery_score sorted /\
  total = (consistency scores + progress scores + volume scores + recovery scores)%Z /\
  rating = rating_of total /\
  recs = _get_recommendations scores.
Proof.
  unfold get_health_score. destruct (len df <? 5)%Z eqn:E; [discriminate|].
  apply Z.ltb_ge in E. cbv zeta.
  destruct (consistency_score _) as [c | e]; cbn [bind]; [| discriminate].
  destruct (progress_score _) as [p | e]; cbn [bind]; [| discriminate].
  destruct (volume_score _) as [v | e]; cbn [bind]; [| discriminate].
  intros H. injection H as <- <- <- <-. cbn. repeat split; try reflexivity; assumption.
Qed.

(** The recovery sub-score is the full 25 exactly when no session has a
    perceived exertion of 8 or more; a single such session already costs
    points.  (Without a [perceived_exertion] column it is always 25.) *)
Theorem recovery_full_marks (df : DataFrame) (total : Z) (rating : string)
    (scores : Scores) (recs : list string) :
  get_health_score df = Ok (Scored total rating scores recs) ->
  (has_perceived_exertion df = false -> recovery scores = 25%Z) /\
  (has_perceived_exertion df = true ->
     (recovery scores = 25%Z <-> Forall (fun r => high_exertion r = false) (rows df)) /\
     (Exists (fun r => high_exertion r = true) (rows df) -> (recovery scores <= 22)%Z)).
Proof.
  intros H. apply get_health_score_inv in H. cbv zeta in H.
  destruct H as (_ & _ & _ & _ & Hr & _).
  set (sorted := to_datetime_workout_date (sort_values df)) in *.
  assert (Hcol : has_perceived_exertion sorted = has_perceived_exertion df)
    by reflexivity.
  assert (Hperm : Permutation (rows sorted) (rows df))
    by (subst sorted; rewrite rows_sorted_frame; apply sort_by_date_perm).
  split.
  - intros Hc. rewrite Hr. unfold recovery_score. now rewrite Hcol, Hc.
  - intros Hc. rewrite <- Hcol in Hc. split.
    + rewrite Hr, (recovery_score_full sorted Hc). split; intros HF.
      * eapply Permutation_Forall; eassumption.
      * eapply Permutation_Forall; [symmetry|]; eassumption.
    + intros Hex. rewrite Hr. unfold recovery_score. rewrite Hc.
      assert (Hex' : Exists (fun r => high_exertion r = true) (rows sorted)).
      { apply Exists_exists in Hex as (r & Hin & Hh). apply Exists_exists.
        exists r. split; [| assumption].
        eapply Permutation_in; [symmetry|]; eassumption. }
      pose proof (streak_some_high _ 0 0 ltac:(lia) ltac:(lia) Hex') as Hs.
      destruct (fold_left streak_step (rows sorted) (0%Z, 0%Z)) as [s m].
      cbn [snd] in Hs. lia.
Qed.

(** Without lifting data the score rests on neutral values: with no
    [estimated_1rm] column the progress sub-score is 12, and with no
    [total_volume] column the volume sub-score is 12 ([round(12.5)] is 12);
    a table with neither column therefore scores at most 74 and is never
    rated Excellent. *)
Theorem health_score_neutral_values (df : DataFrame) (total : Z) (rating : string)
    (scores : Scores) (recs : list string) :
  get_health_score df = Ok (Scored total rating scores recs) ->
  (has_estimated_1rm df = false -> progress scores = 12%Z) /\
  (has_total_volume df = false -> volume scores = 12%Z) /\
  (has_estimated_1rm df = false -> has_total_volume df = false ->
     (total <= 74)%Z /\ rating <> "Excellent"%string).
Proof.
  intros H. pose proof (get_health_score_inv _ _ _ _ _ H) as Hi. cbv zeta in Hi.
  destruct Hi as (_ & Hc & Hp & Hv & Hr & Ht & Hrating & _).
  set (sorted := to_datetime_workout_date (sort_values df)) in *.
  assert (P : has_estimated_1rm df = false -> progress scores = 12%Z).
  { intros E. unfold progress_score in Hp.
    replace (has_estimated_1rm sorted) with false in Hp by (symmetry; exact E).
    cbn [andb pyround] in Hp. rewrite round_half_even_12_5 in Hp. congruence. }
  assert (V : has_total_volume df = false -> volume scores = 12%Z).
  { intros E. unfold volume_score in Hv.
    replace (has_total_volume sorted) with false in Hv by (symmetry; exact E).
    cbn [pyround] in Hv. rewrite round_half_even_12_5 in Hv. congruence. }
  split; [assumption|]. split; [assumption|].
  intros E1 E2. specialize (P E1). specialize (V E2).
  destruct (consistency_score_bounds sorted) as (c & Hc' & Hcb).
  pose proof (recovery_score_bounds sorted) as Hrb.
  assert (c = consistency scores) by congruence. subst c.
  assert (Hle : (total <= 74)%Z) by lia.
  split; [assumption|].
  rewrite Hrating. unfold rating_of.
  replace (80 <=? total)%Z with false by (symmetry; apply Z.leb_gt; lia).
  destruct (60 <=? total)%Z; [discriminate|].
  destruct (40 <=? total)%Z; discriminate.
Qed.

(** The recommendations are never empty: one message per sub-score below its
    mark (consistency 15, progress 10, recovery 15, volume 10), at most four,
    and the single keep-it-up message exactly when no sub-score is below its
    mark. *)
Theorem recommendations_never_empty (scores : Scores) :
  _get_recommendations scores <> [] /\
  (List.length (_get_recommendations scores) <= 4)%nat /\
  (_get_recommendations scores = [keep_up_message] <->
     (15 <= consistency scores /\ 10 <= progress scores /\
      15 <= recovery scores /\ 10 <= volume scores)%Z) /\
  (~ (15 <= consistency scores /\ 10 <= progress scores /\
      15 <= recovery scores /\ 10 <= volume scores)%Z ->
     ~ In keep_up_message (_get_recommendations scores)).
Proof.
  unfold _get_recommendations, keep_up_message.
  destruct (consistency scores <? 15)%Z eqn:E1;
    destruct (progress scores <? 10)%Z eqn:E2;
    destruct (recovery scores <? 15)%Z eqn:E3;
    destruct (volume scores <? 10)%Z eqn:E4;
    cbn [app List.length];
    rewrite ?Z.ltb_lt, ?Z.ltb_ge in *;
    (split; [discriminate|]); (split; [lia|]);
    (split; [split; [intros H; try discriminate H; lia | intros H; try reflexivity; lia]|]);
    intros Hn Hin; cbn [In] in Hin;
    try (apply Hn; lia);
    repeat (destruct Hin as [Hin | Hin]; [discriminate Hin|]); exact Hin.
Qed.

End HealthDetails.

Section HealthExamples.

Lemma get_health_score_scored (df : DataFrame) :
  (5 <= len df)%Z ->
  exists total rating scores recs,
    get_health_score df = Ok (Scored total rating scores recs).
Proof.
  intros Hlen. unfold get_health_score.
  replace (len df <? 5)%Z with false by (symmetry; apply Z.ltb_ge; lia).
  set (sorted := to_datetime_workout_date (sort_values df)).
  destruct (consistency_score_bounds sorted) as (c & -> & _).
  destruct (progress_score_bounds sorted) as (p & -> & _).
  destruct (volume_score_bounds sorted) as (v & -> & _).
  cbn [bind]. do 4 eexists. reflexivity.
Qed.

Lemma five_workouts_scored :
  exists total rating scores recs,
    get_health_score five_workouts = Ok (Scored total rating scores recs).
Proof. apply get_health_score_scored. now vm_compute. Qed.

End HealthExamples.

Lemma recovery_full_marks_witness :
  exists total rating scores recs,
    get_health_score five_workouts = Ok (Scored total rating scores recs) /\
    (has_perceived_exertion five_workouts = false -> recovery scores = 25%Z) /\
    (has_perceived_exertion five_workouts = true ->
       (recovery scores = 25%Z
        <-> Forall (fun r => high_exertion r = false) (rows five_workouts)) /\
       (Exists (fun r => high_exertion r = true) (rows five_workouts)
        -> (recovery scores <= 22)%Z)).
Proof.
  destruct five_workouts_scored as (total & rating & scores & recs & H).
  exists total, rating, scores, recs. split; [exact H|].
  exact (recovery_full_marks five_workouts total rating scores recs H).
Defined.

Lemma health_score_neutral_values_witness :
  exists total rating scores recs,
    get_health_score five_workouts = Ok (Scored total rating scores recs) /\
    (has_estimated_1rm five_workouts = false -> progress scores = 12%Z) /\
    (has_total_volume five_workouts = false -> volume scores = 12%Z) /\
    (has_estimated_1rm five_workouts = false ->
     has_total_volume five_workouts = false ->
       (total <= 74)%Z /\ rating <> "Excellent"%string).
Proof.
  destruct five_workouts_scored as (total & rating & scores & recs & H).
  exists total, rating, scores, recs. split; [exact H|].
  exact (health_score_neutral_values five_workouts total rating scores recs H).
Defined.

(** ** Deload advice on a table in date order *)

Section DeloadCount.

Lemma since_break_from_bounds (prev : Z) (ds : list Z) (count : Z) :
  (1 <= count)%Z ->
  (1 <= since_break_from prev ds count <= count + Z.of_nat (List.length ds))%Z.
Proof.
  revert prev count; induction ds as [| d t IH]; intros prev count Hc.
  - cbn. lia.
  - cbn [since_break_from List.length].
    destruct (7 <=? d - prev)%Z.
    + specialize (IH d 1%Z ltac:(lia)). lia.
    + specialize (IH d (count + 1)%Z ltac:(lia)). lia.
Qed.

Lemma sessions_since_last_break_bounds (ds : list Z) :
  ds <> [] ->
  (1 <= sessions_since_last_break ds <= Z.of_nat (List.length ds))%Z.
Proof.
  destruct ds as [| d t]; [congruence|]. intros _.
  cbn [sessions_since_last_break List.length].
  pose proof (since_break_from_bounds d t 1 ltac:(lia)). lia.
Qed.

(** On a table handed over in date order under the default index, no two
    sessions sharing a date, with at least 8 sessions of which the last 12
    span 21 days or more, the advice is
    either the exertion verdict or decided by the number [k] of sessions
    since the last gap of seven days or more: a deload with [k] reported when
    [k >= 16], otherwise no deload and [16 - k] workouts to go, a number from
    1 to 15.  Without a [perceived_exertion] column it is the latter. *)
Theorem suggest_deload_counts_sessions (df : DataFrame) (sets_df : list SetRecord) :
  sort_by_date (rows df) = rows df ->
  NoDup (dates df) ->
  map label (rows df) = map Z.of_nat (seq 0 (List.length (rows df))) ->
  (8 <= len df)%Z ->
  (21 <= list_max (map workout_date (tail 12 (rows df)))
         - list_min (map workout_date (tail 12 (rows df))))%Z ->
  let k := sessions_since_last_break (dates df) in
  (1 <= k <= len df)%Z /\
  (suggest_deload df sets_df = mkDeloadAdvice true ExertionIncreasing \/
   suggest_deload df sets_df
   = if (16 <=? k)%Z then mkDeloadAdvice true (WorkoutsSinceBreak k)
     else mkDeloadAdvice false (NoDeload (16 - k))) /\
  (has_perceived_exertion df = false ->
   suggest_deload df sets_df
   = if (16 <=? k)%Z then mkDeloadAdvice true (WorkoutsSinceBreak k)
     else mkDeloadAdvice false (NoDeload (16 - k))).
Proof.
  intros Hs Hdistinct Hl Hn Hr k.
  assert (Hk : (1 <= k <= len df)%Z).
  { subst k. unfold len, dates. rewrite <- (length_map workout_date).
    apply sessions_since_last_break_bounds.
    intros E. apply (f_equal (@List.length Z)) in E.
    rewrite length_map in E. unfold len in Hn. cbn in E. lia. }
  split; [assumption|].
  assert (Hlen : len (to_datetime_workout_date (sort_values df))
                 = Z.of_nat (List.length (rows df))).
  { unfold len; cbn [rows to_datetime_workout_date sort_values with_rows].
    now rewrite Hs. }
  pose proof (workouts_since_break_in_order (rows df) Hl) as Hw. cbv zeta in Hw.
  fold (dates df) in Hw. fold k in Hw.
  unfold suggest_deload.
  replace (len df <? 8)%Z with false by (symmetry; apply Z.ltb_ge; lia).
  rewrite Hlen.
  cbn [rows to_datetime_workout_date sort_values with_rows has_perceived_exertion].
  rewrite Hs.
  match goal with |- context [(?a <? 21)%Z] =>
    replace (a <? 21)%Z with false by (symmetry; apply Z.ltb_ge; exact Hr) end.
  rewrite Hw.
  split.
  - match goal with
    | |- context [if ?c then mkDeloadAdvice true ExertionIncreasing else _] =>
        destruct c end; [now left | now right].
  - intros ->. reflexivity.
Qed.

End DeloadCount.

Lemma suggest_deload_counts_sessions_witness :
  (1 <= sessions_since_last_break (dates streak_oldest_first)
     <= len streak_oldest_first)%Z /\
  (suggest_deload streak_oldest_first [] = mkDeloadAdvice true ExertionIncreasing \/
   suggest_deload streak_oldest_first []
   = if (16 <=? sessions_since_last_break (dates streak_oldest_first))%Z
     then mkDeloadAdvice true
            (WorkoutsSinceBreak (sessions_since_last_break (dates streak_oldest_first)))
     else mkDeloadAdvice false
            (NoDeload (16 - sessions_since_last_break (dates streak_oldest_first)))) /\
  (has_perceived_exertion streak_oldest_first = false ->
   suggest_deload streak_oldest_first []
   = if (16 <=? sessions_since_last_break (dates streak_oldest_first))%Z
     then mkDeloadAdvice true
            (WorkoutsSinceBreak (sessions_since_last_break (dates streak_oldest_first)))
     else mkDeloadAdvice false
            (NoDeload (16 - sessions_since_last_break (dates streak_oldest_first)))).
Proof.
  apply (suggest_deload_counts_sessions streak_oldest_first []).
  - now vm_compute.
  - exact streak_distinct_dates.
  - now vm_compute.
  - now vm_compute.
  - now vm_compute.
Defined.

(** ** The training balance *)

Section BalanceScore.

Lemma targets_well_formed (muscle : string) :
  let t := dict_get VOLUME_TARGETS muscle (mkTargets 8 16 12) in
  (0 < t_min t <= t_optimal t)%Z /\ (t_optimal t <= t_max t)%Z.
Proof.
  unfold VOLUME_TARGETS. cbn [dict_get].
  repeat match goal with
  | |- context [if String.eqb ?k muscle then _ else _] =>
      destruct (String.eqb k muscle)
  end; cbn; lia.
Qed.

(** The score of one muscle group lies between 0 and 100. *)
Lemma muscle_score_range (t : Targets) (sets : Z) :
  (0 < t_min t <= t_optimal t)%Z -> (t_optimal t <= t_max t)%Z -> (0 <= sets)%Z ->
  0 <= muscle_score t sets <= 100.
Proof.
  intros [Hmin Hopt] Hmax Hsets. unfold muscle_score.
  destruct ((t_min t <=? sets) && (sets <=? t_max t))%Z eqn:E.
  - apply andb_true_iff in E as [E1 E2]. apply Z.leb_le in E1, E2.
    destruct (0 <? Z.max (t_optimal t - t_min t) (t_max t - t_optimal t))%Z eqn:Ed;
      [| lra].
    apply Z.ltb_lt in Ed.
    set (d := Z.abs (sets - t_optimal t)) in *.
    set (m := Z.max (t_optimal t - t_min t) (t_max t - t_optimal t)) in *.
    assert (Hd : (0 <= d <= m)%Z) by (subst d m; lia).
    destruct Hd as [Hd0 Hdm]. apply IZR_le in Hd0, Hdm. apply IZR_lt in Ed.
    assert (Hq : 0 <= IZR d / IZR m <= 1).
    { split.
      - apply Rmult_le_pos; [assumption|]. left. now apply Rinv_0_lt_compat.
      - apply Rmult_le_reg_r with (IZR m); [assumption|].
        unfold Rdiv. rewrite Rmult_assoc, Rinv_l by lra. lra. }
    lra.
  - destruct (sets <? t_min t)%Z eqn:E1.
    + apply Z.ltb_lt in E1. apply IZR_lt in E1, Hmin. apply IZR_le in Hsets.
      assert (Hq : 0 <= IZR sets / IZR (t_min t) <= 1).
      { split.
        - apply Rmult_le_pos; [assumption|]. left. now apply Rinv_0_lt_compat.
        - apply Rmult_le_reg_r with (IZR (t_min t)); [assumption|].
          unfold Rdiv. rewrite Rmult_assoc, Rinv_l by lra. lra. }
      unfold Rmax. destruct (Rle_dec _ _); lra.
    + apply Z.ltb_ge in E1.
      assert (E2 : (t_max t < sets)%Z).
      { apply andb_false_iff in E as [E | E];
          [apply Z.leb_gt in E | apply Z.leb_gt in E]; lia. }
      assert (H70 : (70 - (sets - t_max t) * 5 <= 70)%Z) by lia.
      apply IZR_le in H70.
      unfold Rmax. destruct (Rle_dec _ _); lra.
Qed.

Lemma total_score_range (analysis : list (string * MuscleAnalysis)) (acc : R) :
  Forall (fun a => (0 <= ma_sets (snd a))%Z) analysis ->
  acc
  <= fold_left
       (fun acc '(muscle, data) =>
          acc + muscle_score (dict_get VOLUME_TARGETS muscle (mkTargets 8 16 12))
                             (ma_sets data))
       analysis acc
  <= acc + 100 * INR (List.length analysis).
Proof.
  intros H. revert acc. induction H as [| [muscle data] l Ha _ IH]; intros acc.
  - cbn. lra.
  - cbn [fold_left]. change (List.length ((muscle, data) :: l)) with (S (List.length l)).
    rewrite S_INR.
    destruct (targets_well_formed muscle) as [H1 H2].
    pose proof (muscle_score_range _ (ma_sets data) H1 H2 Ha) as Hm.
    match goal with |- context [fold_left ?f l ?a] => specialize (IH a) end.
    lra.
Qed.

Lemma balance_score_range (analysis : list (string * MuscleAnalysis)) :
  Forall (fun a => (0 <= ma_sets (snd a))%Z) analysis ->
  (0 <= balance_score (_calculate_balance_score analysis) <= 100)%Z.
Proof.
  intros H. unfold _calculate_balance_score. cbv zeta. cbn [balance_score].
  destruct (0 <? Z.of_nat (List.length analysis) * 100)%Z eqn:E; [| lia].
  apply Z.ltb_lt in E.
  pose proof (total_score_range analysis 0 H) as Ht.
  match type of Ht with _ <= ?T <= _ => set (total := T) in * end.
  rewrite mult_IZR, <- INR_IZR_INZ.
  assert (Hn : 0 < INR (List.length analysis)).
  { apply lt_0_INR. lia. }
  set (n := INR (List.length analysis)) in *.
  assert (Hq : 0 <= total / (n * 100) * 100 <= 100).
  { replace (total / (n * 100) * 100) with (total / n) by (field; lra).
    split.
    - apply Rmult_le_pos; [lra|]. left. now apply Rinv_0_lt_compat.
    - apply Rmult_le_reg_r with n; [assumption|].
      unfold Rdiv. rewrite Rmult_assoc, Rinv_l by lra. lra. }
  split.
  - apply round_half_even_lower. simpl; lra.
  - apply round_half_even_upper. simpl; lra.
Qed.

End BalanceScore.

Section BalanceOrder.

Lemma insert_by_sets_perm (a : string * MuscleAnalysis) (l : list (string * MuscleAnalysis)) :
  Permutation (insert_by_sets a l) (a :: l).
Proof.
  induction l as [| h t IH]; cbn [insert_by_sets]; [reflexivity|].
  destruct (ma_sets (snd h) <=? ma_sets (snd a))%Z; [reflexivity|].
  rewrite IH. apply perm_swap.
Qed.

Lemma sort_by_sets_desc_perm (l : list (string * MuscleAnalysis)) :
  Permutation (sort_by_sets_desc l) l.
Proof.
  unfold sort_by_sets_desc. induction l as [| h t IH]; cbn [fold_right]; [reflexivity|].
  rewrite insert_by_sets_perm. now constructor.
Qed.

Lemma insert_by_sets_sorted (a : string * MuscleAnalysis)
    (l : list (string * MuscleAnalysis)) :
  Sorted more_sets l -> Sorted more_sets (insert_by_sets a l).
Proof.
  induction l as [| h t IH]; intros Hs; cbn [insert_by_sets].
  - repeat constructor.
  - destruct (ma_sets (snd h) <=? ma_sets (snd a))%Z eqn:E.
    + apply Z.leb_le in E. constructor; [assumption|]. now constructor.
    + apply Z.leb_gt in E. inversion Hs as [| ? ? Hs' Hhd]; subst.
      constructor; [now apply IH|].
      destruct t as [| h' t']; cbn [insert_by_sets].
      * constructor. unfold more_sets; lia.
      * destruct (ma_sets (snd h') <=? ma_sets (snd a))%Z.
        -- constructor. unfold more_sets; lia.
        -- inversion Hhd; subst. now constructor.
Qed.

Lemma sort_by_sets_desc_sorted (l : list (string * MuscleAnalysis)) :
  StronglySorted more_sets (sort_by_sets_desc l).
Proof.
  apply Sorted_StronglySorted.
  - intros a b c Hab Hbc. unfold more_sets in *. lia.
  - unfold sort_by_sets_desc. induction l as [| a l IH]; cbn [fold_right].
    + constructor.
    + now apply insert_by_sets_sorted.
Qed.

Lemma sorted_head_most (l : list (string * MuscleAnalysis)) (x y : string * MuscleAnalysis) :
  StronglySorted more_sets l -> List.hd_error l = Some x -> In y l ->
  (ma_sets (snd y) <= ma_sets (snd x))%Z.
Proof.
  intros Hs Hh Hy. destruct l as [| a t]; [discriminate|].
  injection Hh as ->. inversion Hs as [| ? ? _ Ha]; subst.
  destruct Hy as [-> | Hy]; [lia|].
  rewrite Forall_forall in Ha. now apply Ha.
Qed.

Lemma sorted_last_least (l : list (string * MuscleAnalysis)) (x y : string * MuscleAnalysis) :
  StronglySorted more_sets l -> List.hd_error (rev l) = Some x -> In y l ->
  (ma_sets (snd x) <= ma_sets (snd y))%Z.
Proof.
  intros Hs. revert x y. induction Hs as [| a t Hs IH Ha]; intros x y Hh Hy;
    [destruct Hy|].
  cbn [rev] in Hh.
  destruct (rev t) as [| r rt] eqn:Er.
  - cbn in Hh. injection Hh as <-.
    assert (t = []) by (apply (f_equal (@rev _)) in Er; now rewrite rev_involutive in Er).
    subst t. destruct Hy as [-> | []]. lia.
  - cbn [app List.hd_error] in Hh. injection Hh as <-.
    assert (Hr : In r t).
    { apply in_rev. rewrite Er. now left. }
    destruct Hy as [<- | Hy].
    + rewrite Forall_forall in Ha. now apply Ha.
    + apply IH; [| assumption]. reflexivity.
Qed.

End BalanceOrder.

Section BalanceReport.

Lemma filter_nil_inv {A : Type} (f : A -> bool) (l : list A) :
  filter f l = [] -> Forall (fun x => f x = false) l.
Proof.
  induction l as [| a l IH]; [constructor|]. cbn [filter].
  destruct (f a) eqn:E; [discriminate|]. intros H. constructor; auto.
Qed.

Lemma Forall2_map_r {A B : Type} (P : A -> B -> Prop) (f : A -> B) (l : list A) :
  (forall x, P x (f x)) -> Forall2 P l (map f l).
Proof. intros H. induction l; cbn [map]; constructor; auto. Qed.

Lemma analyze_muscle_consistent (working_sets : list (SetRecord * string))
    (muscle : string) (t : Targets) :
  consistent_analysis t (analyze_muscle working_sets muscle t).
Proof.
  unfold analyze_muscle. cbv zeta.
  set (sets := Z.of_nat (List.length _)).
  assert (H0 : (0 <= sets)%Z) by (subst sets; lia).
  destruct (sets <? t_min t)%Z eqn:E1.
  - apply Z.ltb_lt in E1. unfold consistent_analysis; cbn. auto.
  - apply Z.ltb_ge in E1. destruct (t_max t <? sets)%Z eqn:E2.
    + apply Z.ltb_lt in E2. unfold consistent_analysis; cbn. auto.
    + apply Z.ltb_ge in E2. unfold consistent_analysis; cbn. auto.
Qed.

(** What [analyze_training_balance] reports.  With no workout in the period
    it reports that there is no data.  Otherwise it counts the workouts of the
    period and analyses the six muscle groups of [VOLUME_TARGETS], in that
    order: each with its target range, a status that agrees with its number
    of working sets, and the matching recommendation; the most trained group
    has at least as many sets as any other, the least trained at most as
    many; and the balance score lies between 0 and 100. *)
Theorem training_balance_report (now : datetime) (workouts_df : DataFrame)
    (sets_df : list SetRecord) (exercises_df : list ExerciseRecord) (days : Z) :
  match fst (analyze_training_balance now workouts_df sets_df exercises_df days) with
  | NoData d =>
      d = days /\ Forall (fun w => is_recent now days w = false) (rows workouts_df)
  | Balance period_days total_workouts muscle_groups most_trained least_trained
      overall_balance =>
      period_days = days /\
      total_workouts
      = Z.of_nat (List.length (filter (is_recent now days) (rows workouts_df))) /\
      (1 <= total_workouts <= len workouts_df)%Z /\
      Forall2 (fun mt ma => fst ma = fst mt /\ consistent_analysis (snd mt) (snd ma))
        VOLUME_TARGETS muscle_groups /\
      (exists most least,
         most_trained = Some (fst most) /\ least_trained = Some (fst least) /\
         In most muscle_groups /\ In least muscle_groups /\
         Forall (fun x => (ma_sets (snd least) <= ma_sets (snd x)
                           <= ma_sets (snd most))%Z) muscle_groups) /\
      (0 <= balance_score overall_balance <= 100)%Z
  end.
Proof.
  unfold analyze_training_balance. cbv zeta.
  change (filter _ (rows (to_datetime_workout_date workouts_df)))
    with (filter (is_recent now days) (rows workouts_df)).
  destruct (filter (is_recent now days) (rows workouts_df)) as [| r rs] eqn:Ef;
    cbn [fst].
  - split; [reflexivity|]. now apply filter_nil_inv.
  - set (ws := working_sets_with_muscles _ sets_df exercises_df).
    set (analysis := map (fun '(muscle, targets) =>
                            (muscle, analyze_muscle ws muscle targets)) VOLUME_TARGETS).
    assert (Hcons : Forall2 (fun mt ma => fst ma = fst mt
                                          /\ consistent_analysis (snd mt) (snd ma))
                      VOLUME_TARGETS analysis).
    { subst analysis. apply Forall2_map_r. intros [muscle t]. cbn [fst snd].
      split; [reflexivity | apply analyze_muscle_consistent]. }
    assert (Hsets : Forall (fun a => (0 <= ma_sets (snd a))%Z) analysis).
    { apply Forall_forall. intros a Ha.
      subst analysis. apply in_map_iff in Ha as ([muscle t] & <- & _). cbn [snd].
      now destruct (analyze_muscle_consistent ws muscle t) as (_ & H & _). }
    split; [reflexivity|]. split; [reflexivity|].
    split.
    { unfold len.
      pose proof (filter_length_le (is_recent now days) (rows workouts_df)) as H.
      rewrite Ef in H. cbn [List.length] in H |- *. lia. }
    split; [assumption|].
    split; [| now apply balance_score_range].
    pose proof (sort_by_sets_desc_perm analysis) as Hp.
    pose proof (sort_by_sets_desc_sorted analysis) as Hs.
    set (sorted := sort_by_sets_desc analysis) in *.
    assert (Hlen : List.length sorted = 6%nat).
    { rewrite (Permutation_length Hp). subst analysis. now rewrite length_map. }
    destruct sorted as [| most st] eqn:Es; [discriminate|].
    destruct (rev (most :: st)) as [| least rt] eqn:Er.
    { apply (f_equal (@List.length _)) in Er. rewrite length_rev in Er. discriminate. }
    exists most, least. cbn [List.hd_error option_map].
    split; [reflexivity|]. split; [reflexivity|].
    assert (Hleast : In least (most :: st)).
    { apply in_rev. rewrite Er. now left. }
    split; [eapply Permutation_in; [exact Hp | now left]|].
    split; [eapply Permutation_in; [exact Hp | exact Hleast]|].
    apply Forall_forall. intros x Hx.
    assert (Hx' : In x (most :: st))
      by (eapply Permutation_in; [symmetry; exact Hp | exact Hx]).
    split.
    + apply (sorted_last_least (most :: st)); [assumption | now rewrite Er | assumption].
    + apply (sorted_head_most (most :: st)); [assumption | reflexivity | assumption].
Qed.

Lemma muscle_score_zero (t : Targets) : (0 < t_min t)%Z -> muscle_score t 0 = 0.
Proof.
  intros H. unfold muscle_score.
  replace (t_min t <=? 0)%Z with false by (symmetry; apply Z.leb_gt; lia).
  cbn [andb].
  replace (0 <? t_min t)%Z with true by (symmetry; apply Z.ltb_lt; lia).
  unfold Rmax, Rdiv. rewrite Rmult_0_l, Rmult_0_r.
  destruct (Rle_dec 0 0); reflexivity.
Qed.

Lemma balance_score_untrained :
  _calculate_balance_score (map (fun '(m, t) => (m, untrained t)) VOLUME_TARGETS)
  = mkBalanceScore 0 "Needs Work".
Proof.
  unfold _calculate_balance_score, VOLUME_TARGETS. cbv zeta.
  cbn [map fold_left dict_get String.eqb Ascii.eqb Bool.eqb untrained ma_sets
       List.length].
  rewrite !muscle_score_zero by (cbn; lia).
  replace ((0 + 0 + 0 + 0 + 0 + 0 + 0) / IZR (Z.of_nat 6 * 100) * 100) with (IZR 0)
    by (cbn; lra).
  rewrite round_half_even_IZR. reflexivity.
Qed.

(** With workouts in the period but an empty set table, every muscle group
    is undertrained with no sets, the groups tie, so the most trained is
    reported as chest and the least trained as core (first and last of the
    targets), and the balance score is 0, rated Needs Work. *)
Theorem training_balance_without_sets (now : datetime) (workouts_df : DataFrame)
    (exercises_df : list ExerciseRecord) (days : Z) :
  filter (is_recent now days) (rows workouts_df) <> [] ->
  fst (analyze_training_balance now workouts_df [] exercises_df days)
  = Balance days
      (Z.of_nat (List.length (filter (is_recent now days) (rows workouts_df))))
      (map (fun '(m, t) => (m, untrained t)) VOLUME_TARGETS)
      (Some "chest"%string) (Some "core"%string)
      (mkBalanceScore 0 "Needs Work").
Proof.
  intros Hne. unfold analyze_training_balance. cbv zeta.
  change (filter _ (rows (to_datetime_workout_date workouts_df)))
    with (filter (is_recent now days) (rows workouts_df)).
  destruct (filter (is_recent now days) (rows workouts_df)) as [| r rs] eqn:Ef;
    [congruence|].
  cbn [fst]. unfold working_sets_with_muscles. cbn [filter flat_map].
  assert (Ha : map (fun '(muscle, targets) => (muscle, analyze_muscle [] muscle targets))
                   VOLUME_TARGETS
               = map (fun '(m, t) => (m, untrained t)) VOLUME_TARGETS).
  { reflexivity. }
  rewrite Ha, balance_score_untrained. reflexivity.
Qed.

End BalanceReport.

Lemma training_balance_without_sets_witness :
  fst (analyze_training_balance (mkDatetime (ymd 2024 1 13) 36000) week_of_workouts
         [] [] 7)
  = Balance 7
      (Z.of_nat (List.length
         (filter (is_recent (mkDatetime (ymd 2024 1 13) 36000) 7)
                 (rows week_of_workouts))))
      (map (fun '(m, t) => (m, untrained t)) VOLUME_TARGETS)
      (Some "chest"%string) (Some "core"%string)
      (mkBalanceScore 0 "Needs Work").
Proof.
  apply (training_balance_without_sets (mkDatetime (ymd 2024 1 13) 36000)
           week_of_workouts [] 7).
  now vm_compute.
Defined.

(** * Exercise suggestions *)

Section DistinctKeys.

Context {A B : Type} (f : A -> B).

Lemma NoDup_map_injective (l : list A) (x y : A) :
  NoDup (map f l) -> In x l -> In y l -> f x = f y -> x = y.
Proof.
  induction l as [| a l IH]; cbn [map]; intros Hn Hx Hy E; [contradiction|].
  inversion Hn as [| ? ? Hna Hnl]; subst.
  destruct Hx as [-> | Hx], Hy as [-> | Hy].
  - reflexivity.
  - exfalso. apply Hna. rewrite E. now apply in_map.
  - exfalso. apply Hna. rewrite <- E. now apply in_map.
  - now apply IH.
Qed.

Lemma NoDup_map_filter (p : A -> bool) (l : list A) :
  NoDup (map f l) -> NoDup (map f (filter p l)).
Proof.
  induction l as [| a l IH]; cbn [map filter]; intros Hn; [constructor|].
  inversion Hn as [| ? ? Hna Hnl]; subst.
  destruct (p a); cbn [map]; [| now apply IH].
  constructor; [| now apply IH].
  intros Hin. apply Hna. apply in_map_iff in Hin as (x & E & Hx).
  apply filter_In in Hx as (Hx & _). rewrite <- E. now apply in_map.
Qed.

Lemma NoDup_map_incl (l sel : list A) :
  NoDup (map f l) -> NoDup sel -> incl sel l -> NoDup (map f sel).
Proof.
  intros Hn Hs Hi. induction Hs as [| a sel Ha Hs IH]; cbn [map]; [constructor|].
  constructor.
  - intros Hin. apply in_map_iff in Hin as (x & E & Hx).
    assert (x = a).
    { apply (NoDup_map_injective l); [assumption | apply Hi; now right
                                      | apply Hi; now left | assumption]. }
    subst x. contradiction.
  - apply IH. intros x Hx. apply Hi. now right.
Qed.

End DistinctKeys.

Lemma available_length (l sel : list ExerciseRecord) :
  NoDup (map exercise_id l) -> NoDup sel -> incl sel l ->
  List.length
    (filter (fun e => negb (existsb (Z.eqb (exercise_id e)) (map exercise_id sel))) l)
  = (List.length l - List.length sel)%nat.
Proof.
  intros Hn Hs Hi.
  set (p := fun e => existsb (Z.eqb (exercise_id e)) (map exercise_id sel)).
  pose proof (filter_length p l) as Hlen.
  assert (Hp : Permutation (filter p l) sel).
  { apply NoDup_Permutation.
    - apply NoDup_filter. now apply NoDup_map_inv in Hn.
    - assumption.
    - intros x. rewrite filter_In. unfold p. split.
      + intros (Hx & Hex). apply existsb_exists in Hex as (i & Hi' & E).
        apply Z.eqb_eq in E. apply in_map_iff in Hi' as (y & Ey & Hy).
        assert (x = y).
        { apply (NoDup_map_injective exercise_id l); [assumption | assumption
                                                      | now apply Hi | congruence]. }
        now subst.
      + intros Hx. split; [now apply Hi|].
        apply existsb_exists. exists (exercise_id x).
        split; [now apply in_map | apply Z.eqb_refl]. }
  apply Permutation_length in Hp.
  change (fun e => negb (existsb (Z.eqb (exercise_id e)) (map exercise_id sel)))
    with (fun e => negb (p e)).
  lia.
Qed.

Section Suggestions.

Variable Rng : Type.
Variable sample : Rng -> nat -> list ExerciseRecord -> list ExerciseRecord * Rng.
Hypothesis sample_draws : draws_without_replacement sample.

Lemma sample_incl (g : Rng) (n : nat) (frame : list ExerciseRecord) :
  (n <= List.length frame)%nat -> incl (fst (sample g n frame)) frame.
Proof.
  intros H e He. destruct (sample_draws g n frame H) as (_ & rest & Hp).
  eapply Permutation_in; [exact Hp|]. apply in_or_app. now left.
Qed.

Lemma sample_NoDup (g : Rng) (n : nat) (frame : list ExerciseRecord) :
  (n <= List.length frame)%nat -> NoDup frame -> NoDup (fst (sample g n frame)).
Proof.
  intros H Hn. destruct (sample_draws g n frame H) as (_ & rest & Hp).
  apply (NoDup_app_remove_r _ rest).
  eapply Permutation_NoDup; [symmetry; exact Hp | exact Hn].
Qed.

Lemma sample_one_some (g : Rng) (frame : list ExerciseRecord) :
  frame <> [] ->
  exists e g', sample_one Rng sample g frame = Some (e, g') /\ In e frame.
Proof.
  intros Hne.
  assert (H : (1 <= List.length frame)%nat)
    by (destruct frame; [congruence | cbn; lia]).
  unfold sample_one. pose proof (sample_incl g 1%nat frame H) as Hi.
  destruct (sample_draws g 1%nat frame H) as (Hl & _).
  destruct (sample g 1 frame) as [[| e l] g']; cbn [fst] in *; [discriminate|].
  exists e, g'. split; [reflexivity|]. apply Hi. now left.
Qed.

Lemma select_first_cases (compounds isolations : list ExerciseRecord) (k : Z) (g : Rng) :
  exists sel g',
    select_first Rng sample compounds isolations k g = Some (sel, g') /\
    match compounds, isolations with
    | [], [] => sel = []
    | [], _ :: _ =>
        if (0 <? k)%Z then exists i, sel = [i] /\ In i isolations else sel = []
    | _ :: _, [] => exists c, sel = [c] /\ In c compounds
    | _ :: _, _ :: _ =>
        exists c, In c compounds /\
          if (1 <? k)%Z then exists i, sel = [c; i] /\ In i isolations
          else sel = [c]
    end.
Proof.
  unfold select_first.
  destruct compounds as [| c0 cs].
  - destruct isolations as [| i0 is_].
    + exists [], g. split; reflexivity.
    + cbn [List.length Nat.ltb Nat.leb andb Z.of_nat].
      destruct (0 <? k)%Z eqn:Ek.
      * destruct (sample_one_some g (i0 :: is_)) as (i & g' & E & Hi); [discriminate|].
        rewrite E. exists [i], g'. split; [reflexivity|]. now exists i.
      * exists [], g. split; reflexivity.
  - destruct (sample_one_some g (c0 :: cs)) as (c & g1 & E & Hc); [discriminate|].
    rewrite E.
    destruct isolations as [| i0 is_].
    + exists [c], g1. split; [reflexivity|]. now exists c.
    + cbn [List.length Nat.ltb Nat.leb andb Z.of_nat Pos.of_succ_nat].
      change (Z.pos 1) with 1%Z.
      destruct (1 <? k)%Z eqn:Ek.
      * destruct (sample_one_some g1 (i0 :: is_)) as (i & g' & E' & Hi); [discriminate|].
        rewrite E'. exists [c; i], g'. split; [reflexivity|].
        exists c. split; [assumption|]. now exists i.
      * exists [c], g1. split; [reflexivity|]. now exists c.
Qed.

Lemma select_first_facts (mex : list ExerciseRecord) (k : Z) (g : Rng) :
  exists sel g',
    select_first Rng sample (filter is_compound mex)
      (filter (fun e => negb (is_compound e)) mex) k g = Some (sel, g') /\
    incl sel mex /\
    ((1 <= k)%Z -> (Z.of_nat (List.length sel) <= k)%Z) /\
    (NoDup (map exercise_id mex) -> NoDup (map exercise_id sel)) /\
    (filter is_compound mex <> [] ->
     exists c rest, sel = c :: rest /\ is_compound c = true) /\
    ((2 <= k)%Z -> filter (fun e => negb (is_compound e)) mex <> [] ->
     exists i, In i sel /\ is_compound i = false).
Proof.
  destruct (select_first_cases (filter is_compound mex)
              (filter (fun e => negb (is_compound e)) mex) k g)
    as (sel & g' & E & Hcase).
  exists sel, g'. split; [exact E|].
  assert (Hc : forall c, In c (filter is_compound mex) ->
                         In c mex /\ is_compound c = true)
    by (intros c Hc; now apply filter_In in Hc).
  assert (Hi : forall i, In i (filter (fun e => negb (is_compound e)) mex) ->
                         In i mex /\ is_compound i = false).
  { intros i Hi. apply filter_In in Hi as (Hi & Hb). split; [assumption|].
    now destruct (is_compound i). }
  destruct (filter is_compound mex) as [| c0 cs] eqn:Ec;
    destruct (filter (fun e => negb (is_compound e)) mex) as [| i0 is_] eqn:Ei.
  - subst sel.
    split; [easy|]. split; [cbn; lia|]. split; [intros _; constructor|].
    split; [congruence|]. intros _ Hne. congruence.
  - destruct (0 <? k)%Z eqn:Ek.
    + destruct Hcase as (i & -> & Hin). destruct (Hi i Hin) as (Him & Hib).
      split; [intros x [<- | []]; assumption|].
      split; [cbn; lia|].
      split; [intros _; repeat constructor; intros []|].
      split; [congruence|].
      intros _ _. exists i. split; [now left | assumption].
    + subst sel. apply Z.ltb_ge in Ek.
      split; [easy|]. split; [cbn; lia|].
      split; [intros _; constructor|].
      split; [congruence|]. intros Hk. lia.
  - destruct Hcase as (c & -> & Hin). destruct (Hc c Hin) as (Hcm & Hcb).
    split; [intros x [<- | []]; assumption|].
    split; [cbn; lia|].
    split; [intros _; repeat constructor; intros []|].
    split; [intros _; now exists c, []|].
    intros _ Hne. congruence.
  - destruct Hcase as (c & Hin & Hcase). destruct (Hc c Hin) as (Hcm & Hcb).
    destruct (1 <? k)%Z eqn:Ek.
    + destruct Hcase as (i & -> & Hini). destruct (Hi i Hini) as (Him & Hib).
      apply Z.ltb_lt in Ek.
      split; [intros x [<- | [<- | []]]; assumption|].
      split; [cbn; lia|].
      split.
      { intros Hn. apply (NoDup_map_incl exercise_id mex); [assumption| |].
        - constructor; [| repeat constructor; intros []].
          intros [-> | []]. congruence.
        - intros x [<- | [<- | []]]; assumption. }
      split; [intros _; now exists c, [i]|].
      intros _ _. exists i. split; [right; now left | assumption].
    + subst sel. apply Z.ltb_ge in Ek.
      split; [intros x [<- | []]; assumption|].
      split; [cbn; lia|].
      split; [intros _; repeat constructor; intros []|].
      split; [intros _; now exists c, []|].
      intros Hk. lia.
Qed.

Lemma select_for_muscle_facts (exercises_df : list ExerciseRecord) (k : Z) (g : Rng)
    (muscle : string) :
  exists sel g',
    select_for_muscle Rng sample exercises_df k g muscle = Some (sel, g') /\
    incl sel (exercises_for exercises_df muscle) /\
    (NoDup (map exercise_id exercises_df) -> (1 <= k)%Z ->
     List.length sel
     = Nat.min (Z.to_nat k) (List.length (exercises_for exercises_df muscle)) /\
     NoDup (map exercise_id sel) /\
     (filter is_compound (exercises_for exercises_df muscle) <> [] ->
      exists c rest, sel = c :: rest /\ is_compound c = true) /\
     ((2 <= k)%Z ->
      filter (fun e => negb (is_compound e)) (exercises_for exercises_df muscle) <> [] ->
      exists i, In i sel /\ is_compound i = false)).
Proof.
  unfold select_for_muscle. cbv zeta.
  change (filter (fun e => String.eqb (muscle_group e) muscle) exercises_df)
    with (exercises_for exercises_df muscle).
  set (mex := exercises_for exercises_df muscle).
  destruct (select_first_facts mex k g) as (sel & g1 & E & Hincl & Hle & Hnd & Hc & Hi).
  rewrite E.
  set (available := filter _ mex).
  assert (Hav : incl available mex) by (intros x Hx; now apply filter_In in Hx).
  destruct (0 <? k - Z.of_nat (List.length sel))%Z eqn:Er.
  - apply Z.ltb_lt in Er.
    destruct (0 <? List.length available)%nat eqn:Ea.
    + apply Nat.ltb_lt in Ea.
      set (n := Nat.min (Z.to_nat (k - Z.of_nat (List.length sel)))
                        (List.length available)).
      assert (Hn : (n <= List.length available)%nat) by (subst n; lia).
      pose proof (sample_incl g1 n available Hn) as Hsi.
      destruct (sample_draws g1 n available Hn) as (Hsl & _).
      pose proof (sample_NoDup g1 n available Hn) as Hsn.
      destruct (sample g1 n available) as [additional g2]. cbn [fst] in *.
      exists (sel ++ additional), g2. split; [reflexivity|].
      split.
      { intros x Hx. apply in_app_or in Hx as [Hx | Hx];
          [now apply Hincl | apply Hav; now apply Hsi]. }
      intros Hids Hk.
      assert (Hmex : NoDup (map exercise_id mex)) by now apply NoDup_map_filter.
      specialize (Hnd Hmex).
      assert (Hsel : NoDup sel) by now apply NoDup_map_inv in Hnd.
      assert (Hal : List.length available
                    = (List.length mex - List.length sel)%nat)
        by now apply available_length.
      assert (Hlen : (List.length sel <= List.length mex)%nat)
        by (apply NoDup_incl_length; assumption).
      split; [rewrite length_app, Hsl; subst n; lia|].
      split.
      { rewrite map_app. apply NoDup_app.
        - assumption.
        - apply (NoDup_map_incl exercise_id mex); [assumption | |].
          + apply Hsn. apply NoDup_filter. now apply NoDup_map_inv in Hmex.
          + intros x Hx. apply Hav. now apply Hsi.
        - intros i Hi1 Hi2. apply in_map_iff in Hi2 as (x & <- & Hx).
          apply Hsi in Hx. apply filter_In in Hx as (_ & Hx).
          apply negb_true_iff in Hx.
          assert (existsb (Z.eqb (exercise_id x)) (map exercise_id sel) = true).
          { apply existsb_exists. exists (exercise_id x).
            split; [assumption | apply Z.eqb_refl]. }
          congruence. }
      split.
      { intros Hne. destruct (Hc Hne) as (c & rest & -> & Hcb).
        now exists c, (rest ++ additional). }
      intros H2 Hne. destruct (Hi H2 Hne) as (i & Hin & Hib).
      exists i. split; [apply in_or_app; now left | assumption].
    + apply Nat.ltb_ge in Ea.
      exists sel, g1. split; [reflexivity|]. split; [assumption|].
      intros Hids Hk.
      assert (Hmex : NoDup (map exercise_id mex)) by now apply NoDup_map_filter.
      specialize (Hnd Hmex).
      assert (Hsel : NoDup sel) by now apply NoDup_map_inv in Hnd.
      assert (Hal : List.length available
                    = (List.length mex - List.length sel)%nat)
        by now apply available_length.
      assert (Hlen : (List.length sel <= List.length mex)%nat)
        by (apply NoDup_incl_length; assumption).
      split; [lia|]. split; [assumption|]. split; assumption.
  - apply Z.ltb_ge in Er.
    exists sel, g1. split; [reflexivity|]. split; [assumption|].
    intros Hids Hk.
    assert (Hmex : NoDup (map exercise_id mex)) by now apply NoDup_map_filter.
    specialize (Hnd Hmex). specialize (Hle Hk).
    assert (Hsel : NoDup sel) by now apply NoDup_map_inv in Hnd.
    assert (Hlen : (List.length sel <= List.length mex)%nat)
      by (apply NoDup_incl_length; assumption).
    split; [lia|]. split; [assumption|]. split; assumption.
Qed.

Lemma suggestions_blocks (exercises_df : list ExerciseRecord)
    (muscle_groups : list string) (k : Z) (g : Rng) :
  exists blocks g',
    _get_exercise_suggestions Rng sample exercises_df muscle_groups k g
    = Some (List.concat blocks, g') /\
    Forall2
      (fun muscle block =>
         exists sel,
           block = map (suggestion_of muscle) sel /\
           incl sel (exercises_for exercises_df muscle) /\
           (NoDup (map exercise_id exercises_df) -> (1 <= k)%Z ->
            List.length sel
            = Nat.min (Z.to_nat k) (List.length (exercises_for exercises_df muscle)) /\
            NoDup (map exercise_id sel) /\
            (filter is_compound (exercises_for exercises_df muscle) <> [] ->
             exists c rest, sel = c :: rest /\ is_compound c = true) /\
            ((2 <= k)%Z ->
             filter (fun e => negb (is_compound e))
                    (exercises_for exercises_df muscle) <> [] ->
             exists i, In i sel /\ is_compound i = false)))
      muscle_groups blocks.
Proof.
  revert g. induction muscle_groups as [| muscle rest IH]; intros g.
  - exists [], g. split; [reflexivity | constructor].
  - cbn [_get_exercise_suggestions].
    destruct (select_for_muscle_facts exercises_df k g muscle)
      as (sel & g1 & E & Hincl & Hfacts).
    rewrite E.
    destruct (IH g1) as (blocks & g2 & E' & Hall). rewrite E'.
    exists (map (suggestion_of muscle) sel :: blocks), g2.
    split; [reflexivity|]. constructor; [| assumption].
    exists sel. split; [reflexivity|]. split; assumption.
Qed.

Lemma suggestions_listed (exercises_df : list ExerciseRecord)
    (muscle_groups : list string) (k : Z) (g : Rng) :
  exists suggestions g',
    _get_exercise_suggestions Rng sample exercises_df muscle_groups k g
    = Some (suggestions, g') /\
    Forall (fun s => In (sg_muscle_group s) muscle_groups
                     /\ from_catalogue exercises_df s) suggestions.
Proof.
  destruct (suggestions_blocks exercises_df muscle_groups k g)
    as (blocks & g' & E & Hall).
  exists (List.concat blocks), g'. split; [exact E|].
  clear E. induction Hall as [| muscle block ms bs (sel & -> & Hincl & _) Hall IH];
    cbn [List.concat]; [constructor|].
  apply Forall_app. split.
  - apply Forall_forall. intros s Hs. apply in_map_iff in Hs as (e & <- & He).
    cbn [suggestion_of sg_muscle_group]. split; [now left|].
    exists e. split; [now apply Hincl | reflexivity].
  - eapply Forall_impl; [| exact IH]. cbn beta. intros s (Hin & Hfrom).
    split; [now right | assumption].
Qed.

(** When [sample] draws without replacement, the suggestion routine
    never fails, and every suggestion it returns is for one of the muscle
    groups asked for and copies the id, name and compound flag of a
    catalogue exercise of that muscle group. *)
Theorem exercise_suggestions_from_catalogue (exercises_df : list ExerciseRecord)
    (muscle_groups : list string) (exercises_per_muscle : Z) (g : Rng) :
  exists suggestions g',
    _get_exercise_suggestions Rng sample exercises_df muscle_groups
      exercises_per_muscle g = Some (suggestions, g') /\
    Forall (fun s => In (sg_muscle_group s) muscle_groups
                     /\ from_catalogue exercises_df s) suggestions.
Proof. apply suggestions_listed. Qed.

Lemma existsb_filter_nonempty {A : Type} (p : A -> bool) (l : list A) :
  existsb p l = true -> filter p l <> [].
Proof.
  intros H E. apply existsb_exists in H as (x & Hx & Hp).
  assert (Hin : In x (filter p l)) by (apply filter_In; now split).
  rewrite E in Hin. contradiction.
Qed.

(** With distinct exercise ids in the catalogue and at least one
    exercise asked per muscle group, the suggestions are one block per muscle
    group, in the order asked: as many exercises as asked for, or all the
    group has if it has fewer; no exercise twice; a compound exercise first
    if the group has one; and, from two exercises on, an isolation exercise
    if the group has one. *)
Theorem exercise_suggestions_balanced (exercises_df : list ExerciseRecord)
    (muscle_groups : list string) (exercises_per_muscle : Z) (g : Rng) :
  NoDup (map exercise_id exercises_df) ->
  (1 <= exercises_per_muscle)%Z ->
  exists blocks g',
    _get_exercise_suggestions Rng sample exercises_df muscle_groups
      exercises_per_muscle g = Some (List.concat blocks, g') /\
    Forall2 (balanced_selection exercises_df exercises_per_muscle)
            muscle_groups blocks.
Proof.
  intros Hids Hk.
  destruct (suggestions_blocks exercises_df muscle_groups exercises_per_muscle g)
    as (blocks & g' & E & Hall).
  exists blocks, g'. split; [exact E|].
  clear E. induction Hall as [| muscle block ms bs (sel & -> & Hincl & Hfacts) Hall IH];
    constructor; [| assumption].
  destruct (Hfacts Hids Hk) as (Hlen & Hnd & Hc & Hi).
  unfold balanced_selection. cbv zeta.
  split; [now rewrite length_map|].
  split.
  { rewrite map_map. cbn [suggestion_of sg_exercise_id]. exact Hnd. }
  split.
  { apply Forall_forall. intros s Hs. now apply in_map_iff in Hs as (e & <- & _). }
  split.
  - intros Hex. apply existsb_filter_nonempty in Hex.
    destruct (Hc Hex) as (c & rest & -> & Hcb). cbn. now rewrite Hcb.
  - intros H2 Hex. apply existsb_filter_nonempty in Hex.
    destruct (Hi H2 Hex) as (i & Hin & Hib).
    apply existsb_exists. exists (suggestion_of muscle i).
    split; [now apply in_map|]. cbn. now rewrite Hib.
Qed.

End Suggestions.

Lemma first_rows_draws : draws_without_replacement first_rows.
Proof.
  intros g n frame Hn. unfold first_rows. cbn [fst]. split.
  - rewrite length_firstn. lia.
  - exists (skipn n frame). now rewrite firstn_skipn.
Qed.

Lemma exercise_suggestions_from_catalogue_witness :
  exists suggestions g',
    _get_exercise_suggestions unit first_rows catalogue
      ["chest"; "core"]%string 2 tt = Some (suggestions, g') /\
    Forall (fun s => In (sg_muscle_group s) ["chest"; "core"]%string
                     /\ from_catalogue catalogue s) suggestions.
Proof.
  exact (exercise_suggestions_from_catalogue unit first_rows first_rows_draws
           catalogue ["chest"; "core"]%string 2 tt).
Defined.

Lemma catalogue_ids : NoDup (map exercise_id catalogue).
Proof.
  cbn. repeat (constructor; [cbn; intuition discriminate|]). constructor.
Qed.

Lemma exercise_suggestions_balanced_witness :
  exists blocks g',
    _get_exercise_suggestions unit first_rows catalogue
      ["chest"; "core"]%string 2 tt = Some (List.concat blocks, g') /\
    Forall2 (balanced_selection catalogue 2) ["chest"; "core"]%string blocks.
Proof.
  apply (exercise_suggestions_balanced unit first_rows first_rows_draws
           catalogue ["chest"; "core"]%string 2 tt).
  - exact catalogue_ids.
  - lia.
Defined.

(** * The next-workout recommendation *)

Section JoinedTables.

Lemma unique_from_In (seen l : list string) (x : string) :
  In x (unique_from seen l) <-> In x l /\ ~ In x seen.
Proof.
  revert seen. induction l as [| a l IH]; intros seen; cbn [unique_from].
  - cbn. tauto.
  - destruct (existsb (String.eqb a) seen) eqn:E.
    + apply existsb_exists in E as (y & Hy & Ey). apply String.eqb_eq in Ey. subst y.
      rewrite IH. cbn [In]. split.
      * intros (H1 & H2). split; [now right | assumption].
      * intros ([-> | H1] & H2); [contradiction | now split].
    + assert (Ha : ~ In a seen).
      { intros Hin.
        assert (existsb (String.eqb a) seen = true)
          by (apply existsb_exists; exists a; split;
              [assumption | apply String.eqb_refl]).
        congruence. }
      cbn [In]. rewrite IH. cbn [In]. split.
      * intros [<- | (H1 & H2)]; [split; [now left | assumption]|].
        split; [now right | tauto].
      * intros ([<- | H1] & H2); [now left|].
        destruct (string_dec a x) as [-> | Hne]; [now left | right].
        split; [assumption|]. intros [E' | H]; [congruence | contradiction].
Qed.

Lemma unique_In (l : list string) (x : string) : In x (unique l) <-> In x l.
Proof. unfold unique. rewrite unique_from_In. cbn. tauto. Qed.

Lemma NoDup_unique_from (seen l : list string) : NoDup (unique_from seen l).
Proof.
  revert seen. induction l as [| a l IH]; intros seen; cbn [unique_from];
    [constructor|].
  destruct (existsb (String.eqb a) seen); [apply IH|].
  constructor; [| apply IH].
  rewrite unique_from_In. cbn [In]. tauto.
Qed.

Lemma In_merged_dates (workouts : list Session) (sets_df : list SetRecord)
    (exercises_df : list ExerciseRecord) (d : Z) (m : string) :
  In (d, m) (merged_dates workouts sets_df exercises_df) <->
  exists s w e,
    In s sets_df /\ In w workouts /\ id w = set_workout_id s /\
    In e exercises_df /\ exercise_id e = set_exercise_id s /\
    d = workout_date w /\ m = muscle_group e.
Proof.
  unfold merged_dates. rewrite in_flat_map. split.
  - intros (s & Hs & H). apply in_flat_map in H as (w & Hw & H).
    apply filter_In in Hw as (Hw & Ew). apply Z.eqb_eq in Ew.
    apply in_map_iff in H as (e & E & He).
    apply filter_In in He as (He & Ee). apply Z.eqb_eq in Ee.
    injection E as E1 E2. exists s, w, e. repeat split; auto.
  - intros (s & w & e & Hs & Hw & Ew & He & Ee & -> & ->).
    exists s. split; [assumption|]. apply in_flat_map. exists w. split.
    + apply filter_In. split; [assumption | now apply Z.eqb_eq].
    + apply in_map_iff. exists e. split; [reflexivity|].
      apply filter_In. split; [assumption | now apply Z.eqb_eq].
Qed.

Lemma muscles_of_workout_on_record (workouts_df : DataFrame)
    (sets_df : list SetRecord) (exercises_df : list ExerciseRecord)
    (workout : Session) (m : string) :
  In workout (rows workouts_df) ->
  In m (muscles_of_workout workout sets_df exercises_df) ->
  on_record workouts_df sets_df exercises_df m.
Proof.
  intros Hw Hm. unfold muscles_of_workout in Hm. cbv zeta in Hm.
  apply (proj1 (unique_In _ _)) in Hm. apply in_flat_map in Hm as (s & Hs & Hm).
  apply filter_In in Hs as (Hs & Es). apply Z.eqb_eq in Es.
  apply in_map_iff in Hm as (e & <- & He).
  apply filter_In in He as (He & Ee). apply Z.eqb_eq in Ee.
  exists (workout_date workout). apply In_merged_dates.
  exists s, workout, e. repeat split; auto.
Qed.

Lemma working_sets_on_record (workouts_df : DataFrame) (recent : list Session)
    (sets_df : list SetRecord) (exercises_df : list ExerciseRecord)
    (s : SetRecord) (m : string) :
  incl recent (rows workouts_df) ->
  In (s, m) (working_sets_with_muscles (map id recent) sets_df exercises_df) ->
  on_record workouts_df sets_df exercises_df m.
Proof.
  intros Hincl H. unfold working_sets_with_muscles in H. cbv zeta in H.
  apply filter_In in H as (H & _). apply in_flat_map in H as (s' & Hs & H).
  apply filter_In in Hs as (Hs & Ex). apply existsb_exists in Ex as (i & Hi & Ei).
  apply Z.eqb_eq in Ei. apply in_map_iff in Hi as (w & <- & Hw).
  apply in_map_iff in H as (e & E & He). injection E as <- <-.
  apply filter_In in He as (He & Ee). apply Z.eqb_eq in Ee.
  exists (workout_date w). apply In_merged_dates.
  exists s', w, e. repeat split; auto.
Qed.

Lemma recent_working_sets_never (now : datetime) (workouts_df : DataFrame)
    (sets_df : list SetRecord) (exercises_df : list ExerciseRecord) (m : string) :
  ~ on_record workouts_df sets_df exercises_df m ->
  recent_working_sets now workouts_df sets_df exercises_df 7 m = 0%Z.
Proof.
  intros Hn. unfold recent_working_sets.
  destruct (filter _ (working_sets_with_muscles _ sets_df exercises_df))
    as [| [s g] l] eqn:E; [reflexivity|].
  exfalso. apply Hn.
  assert (Hin : In (s, g) ((s, g) :: l)) by now left.
  rewrite <- E in Hin. apply filter_In in Hin as (Hin & Eg).
  apply String.eqb_eq in Eg. subst g.
  eapply working_sets_on_record; [| exact Hin].
  intros w Hw. now apply filter_In in Hw.
Qed.

Lemma dict_get_computed {A B : Type} (F : string -> B) (f : string * A -> string * B)
    (l : list (string * A)) (m : string) (d : B) :
  (forall k a, f (k, a) = (k, F k)) ->
  In m (map fst l) -> dict_get (map f l) m d = F m.
Proof.
  intros Hf. induction l as [| [k a] l IH]; cbn [map fst In]; [contradiction|].
  intros Hin. rewrite Hf. cbn [dict_get].
  destruct (String.eqb k m) eqn:E.
  - apply String.eqb_eq in E. now subst.
  - apply String.eqb_neq in E. destruct Hin as [-> | Hin]; [congruence | auto].
Qed.

Lemma days_rest_eq (today : datetime) (workouts_df : DataFrame)
    (sets_df : list SetRecord) (exercises_df : list ExerciseRecord) (m : string) :
  In m (map fst VOLUME_TARGETS) ->
  days_rest today workouts_df sets_df exercises_df m
  = match filter (fun '(_, g) => String.eqb g m)
                 (merged_dates (rows workouts_df) sets_df exercises_df) with
    | [] => 999%Z
    | muscle_data => (dt_day today - list_max (map fst muscle_data))%Z
    end.
Proof.
  intros Hin. unfold days_rest, _get_days_since_trained. cbv zeta.
  apply (dict_get_computed
           (fun m => match filter (fun '(_, g) => String.eqb g m)
                                  (merged_dates (rows workouts_df) sets_df exercises_df)
                     with
                     | [] => 999%Z
                     | muscle_data => (dt_day today - list_max (map fst muscle_data))%Z
                     end)); [| exact Hin].
  intros k a.
  now destruct (filter (fun '(_, g) => String.eqb g k)
                       (merged_dates (rows workouts_df) sets_df exercises_df)).
Qed.

Lemma days_rest_never (today : datetime) (workouts_df : DataFrame)
    (sets_df : list SetRecord) (exercises_df : list ExerciseRecord) (m : string) :
  In m (map fst VOLUME_TARGETS) ->
  ~ on_record workouts_df sets_df exercises_df m ->
  days_rest today workouts_df sets_df exercises_df m = 999%Z.
Proof.
  intros Hin Hn. rewrite days_rest_eq by assumption.
  destruct (filter _ (merged_dates (rows workouts_df) sets_df exercises_df))
    as [| [d g] l] eqn:E; [reflexivity|].
  exfalso. apply Hn. exists d.
  assert (H : In (d, g) ((d, g) :: l)) by now left.
  rewrite <- E in H. apply filter_In in H as (H & Eg).
  apply String.eqb_eq in Eg. now subst g.
Qed.

Lemma days_rest_on_record (today : datetime) (workouts_df : DataFrame)
    (sets_df : list SetRecord) (exercises_df : list ExerciseRecord) (m : string) :
  In m (map fst VOLUME_TARGETS) ->
  on_record workouts_df sets_df exercises_df m ->
  exists date,
    In (date, m) (merged_dates (rows workouts_df) sets_df exercises_df) /\
    days_rest today workouts_df sets_df exercises_df m = (dt_day today - date)%Z.
Proof.
  intros Hin (d & Hd). rewrite days_rest_eq by assumption.
  set (muscle_data := filter _ _).
  assert (Hmd : In (d, m) muscle_data).
  { apply filter_In. split; [assumption | apply String.eqb_refl]. }
  assert (Hne : map fst muscle_data <> []).
  { intros E. apply (in_map fst) in Hmd. now rewrite E in Hmd. }
  destruct (list_max_spec _ Hne) as (Hmax & _).
  apply in_map_iff in Hmax as ([d' g'] & Ed & Hd').
  cbn [fst] in Ed. apply filter_In in Hd' as (Hd' & Eg).
  apply String.eqb_eq in Eg. subst g'.
  exists d'. split; [assumption|].
  destruct muscle_data; [contradiction|]. now rewrite <- Ed.
Qed.

End JoinedTables.

Section Priorities.

Lemma NoDup_firstn {A : Type} (n : nat) (l : list A) : NoDup l -> NoDup (firstn n l).
Proof.
  intros H. rewrite <- (firstn_skipn n l) in H. now apply NoDup_app_remove_r in H.
Qed.

Lemma In_firstn_or_full {A : Type} (n : nat) (l : list A) (x : A) :
  In x l -> In x (firstn n l) \/ List.length (firstn n l) = n.
Proof.
  intros H. destruct (Nat.le_gt_cases (List.length l) n) as [Hle | Hgt].
  - left. now rewrite firstn_all2.
  - right. apply firstn_length_le. lia.
Qed.

Lemma recovery_days_bounds (m : string) : (1 <= recovery_days m <= 2)%Z.
Proof.
  unfold recovery_days, RECOVERY_DAYS. cbn [dict_get].
  repeat match goal with
         | |- context [if ?b then _ else _] => destruct b
         end; lia.
Qed.

Lemma volume_targets_keys : NoDup (map fst VOLUME_TARGETS).
Proof.
  cbn. repeat (constructor; [cbn; intuition discriminate|]). constructor.
Qed.

Lemma volume_targets_min (m : string) (t : Targets) :
  In (m, t) VOLUME_TARGETS -> (0 < t_min t)%Z.
Proof.
  unfold VOLUME_TARGETS. cbn [In].
  intros H. repeat (destruct H as [H | H]; [injection H as _ <-; cbn; lia|]).
  contradiction.
Qed.

Lemma In_high_priorities (und : list string) (days : list (string * Z)) (f : Focus) :
  In f (high_priorities und days) <->
  In (focus_muscle f) und /\
  f = mkFocus (focus_muscle f) high_priority (dict_get days (focus_muscle f) 999%Z) /\
  (recovery_days (focus_muscle f) <= dict_get days (focus_muscle f) 999)%Z.
Proof.
  unfold high_priorities. rewrite in_flat_map. cbv zeta. split.
  - intros (m & Hm & H).
    change (dict_get RECOVERY_DAYS m 2%Z) with (recovery_days m) in H.
    destruct (recovery_days m <=? dict_get days m 999)%Z eqn:E; [| contradiction].
    destruct H as [<- | []]. cbn [focus_muscle]. apply Z.leb_le in E. auto.
  - intros (Hm & Ef & Hle). exists (focus_muscle f). split; [assumption|].
    change (dict_get RECOVERY_DAYS (focus_muscle f) 2%Z)
      with (recovery_days (focus_muscle f)).
    apply Z.leb_le in Hle. rewrite Hle. left. now symmetry.
Qed.

Lemma high_priorities_muscles (und : list string) (days : list (string * Z)) :
  map focus_muscle (high_priorities und days)
  = filter (fun m => (recovery_days m <=? dict_get days m 999)%Z) und.
Proof.
  unfold high_priorities. induction und as [| m und IH]; [reflexivity|].
  cbn [flat_map filter]. cbv zeta.
  change (dict_get RECOVERY_DAYS m 2%Z) with (recovery_days m).
  rewrite map_app, IH.
  now destruct (recovery_days m <=? dict_get days m 999)%Z.
Qed.

Lemma In_medium_priorities (days : list (string * Z)) (last_muscles : list string)
    (f : Focus) :
  In f (medium_priorities days last_muscles) <->
  In (focus_muscle f, focus_days_rest f) days /\
  focus_priority f = medium_priority /\
  (recovery_days (focus_muscle f) <= focus_days_rest f)%Z /\
  ~ In (focus_muscle f) last_muscles.
Proof.
  unfold medium_priorities. rewrite in_flat_map. split.
  - intros ([m d] & Hmd & H). cbv zeta in H.
    change (dict_get RECOVERY_DAYS m 2%Z) with (recovery_days m) in H.
    destruct (recovery_days m <=? d)%Z eqn:E; [| contradiction].
    destruct (existsb (String.eqb m) last_muscles) eqn:Ex; [contradiction|].
    destruct H as [<- | []]. cbn [focus_muscle focus_days_rest focus_priority].
    apply Z.leb_le in E. repeat split; auto.
    intros Hin.
    assert (existsb (String.eqb m) last_muscles = true)
      by (apply existsb_exists; exists m; split;
          [assumption | apply String.eqb_refl]).
    congruence.
  - intros (Hin & Hp & Hle & Hn). exists (focus_muscle f, focus_days_rest f).
    split; [assumption|]. cbv zeta.
    change (dict_get RECOVERY_DAYS (focus_muscle f) 2%Z)
      with (recovery_days (focus_muscle f)).
    apply Z.leb_le in Hle. rewrite Hle.
    destruct (existsb (String.eqb (focus_muscle f)) last_muscles) eqn:Ex.
    + exfalso. apply Hn. apply existsb_exists in Ex as (y & Hy & Ey).
      apply String.eqb_eq in Ey. now subst.
    + left. destruct f; cbn in *. now subst.
Qed.

Lemma medium_priorities_muscles (days : list (string * Z)) (last_muscles : list string) :
  NoDup (map fst days) ->
  NoDup (map focus_muscle (medium_priorities days last_muscles)).
Proof.
  unfold medium_priorities.
  induction days as [| [m d] days IH]; cbn [map fst flat_map]; intros Hn;
    [constructor|].
  inversion Hn as [| ? ? Hm Hn']; subst. rewrite map_app. cbv zeta.
  destruct ((dict_get RECOVERY_DAYS m 2 <=? d)%Z
            && negb (existsb (String.eqb m) last_muscles));
    cbn [map app focus_muscle]; [| now apply IH].
  constructor; [| now apply IH].
  intros Hin. apply Hm. apply in_map_iff in Hin as (f & <- & Hf).
  apply (proj1 (In_medium_priorities days last_muscles f)) in Hf as (Hf & _).
  now apply (in_map fst) in Hf.
Qed.

Lemma days_since_trained_keys (today : datetime) (workouts_df : DataFrame)
    (sets_df : list SetRecord) (exercises_df : list ExerciseRecord) :
  map fst (_get_days_since_trained today workouts_df sets_df exercises_df)
  = map fst VOLUME_TARGETS.
Proof.
  unfold _get_days_since_trained. cbv zeta. rewrite map_map.
  apply map_ext. intros [m t].
  now destruct (filter (fun '(_, g) => String.eqb g m)
                       (merged_dates (rows workouts_df) sets_df exercises_df)).
Qed.

Lemma In_days_since_trained (today : datetime) (workouts_df : DataFrame)
    (sets_df : list SetRecord) (exercises_df : list ExerciseRecord)
    (m : string) (d : Z) :
  In (m, d) (_get_days_since_trained today workouts_df sets_df exercises_df) <->
  In m (map fst VOLUME_TARGETS) /\
  d = days_rest today workouts_df sets_df exercises_df m.
Proof.
  split.
  - intros H.
    assert (Hk : In m (map fst VOLUME_TARGETS)).
    { rewrite <- (days_since_trained_keys today workouts_df sets_df exercises_df).
      now apply (in_map fst) in H. }
    split; [assumption|]. rewrite days_rest_eq by assumption.
    unfold _get_days_since_trained in H. cbv zeta in H.
    apply in_map_iff in H as ([k t] & E & _).
    destruct (filter (fun '(_, g) => String.eqb g k)
                     (merged_dates (rows workouts_df) sets_df exercises_df)) eqn:Ef;
      injection E as -> <-; now rewrite Ef.
  - intros (Hk & ->). rewrite days_rest_eq by assumption.
    apply in_map_iff in Hk as ([k t] & <- & Hk). cbn [fst].
    unfold _get_days_since_trained. cbv zeta. apply in_map_iff.
    exists (k, t). split; [| assumption].
    now destruct (filter (fun '(_, g) => String.eqb g k)
                         (merged_dates (rows workouts_df) sets_df exercises_df)).
Qed.

Lemma analyze_muscle_undertrained (ws : list (SetRecord * string)) (m : string)
    (t : Targets) :
  ma_status (analyze_muscle ws m t) = undertrained <->
  (Z.of_nat (List.length (filter (fun '(_, g) => String.eqb g m) ws)) < t_min t)%Z.
Proof.
  unfold analyze_muscle. cbv zeta.
  set (sets := Z.of_nat (List.length _)).
  destruct (sets <? t_min t)%Z eqn:E1; cbn [ma_status].
  - apply Z.ltb_lt in E1. tauto.
  - apply Z.ltb_ge in E1.
    destruct (t_max t <? sets)%Z; cbn [ma_status];
      (split; [discriminate | lia]).
Qed.

Lemma In_undertrained_muscles (ws : list (SetRecord * string)) (m : string) :
  In m (undertrained_muscles
          (map (fun '(muscle, targets) => (muscle, analyze_muscle ws muscle targets))
               VOLUME_TARGETS)) <->
  exists t, In (m, t) VOLUME_TARGETS /\
    (Z.of_nat (List.length (filter (fun '(_, g) => String.eqb g m) ws)) < t_min t)%Z.
Proof.
  unfold undertrained_muscles. rewrite in_map_iff. split.
  - intros ([k a] & <- & H). cbn [fst]. apply filter_In in H as (H & Hs).
    apply in_map_iff in H as ([k' t] & E & Hk). injection E as -> <-.
    exists t. split; [assumption|]. apply analyze_muscle_undertrained.
    now destruct (ma_status (analyze_muscle ws k t)).
  - intros (t & Hin & Hlt). exists (m, analyze_muscle ws m t). split; [reflexivity|].
    apply filter_In. split.
    + apply in_map_iff. now exists (m, t).
    + apply analyze_muscle_undertrained in Hlt. now rewrite Hlt.
Qed.

Lemma undertrained_muscles_distinct (ws : list (SetRecord * string)) :
  NoDup (undertrained_muscles
           (map (fun '(muscle, targets) => (muscle, analyze_muscle ws muscle targets))
                VOLUME_TARGETS)).
Proof.
  unfold undertrained_muscles. apply NoDup_map_filter.
  rewrite map_map.
  replace (map (fun x => fst (let '(muscle, targets) := x in
                              (muscle, analyze_muscle ws muscle targets)))
               VOLUME_TARGETS)
    with (map fst VOLUME_TARGETS)
    by (apply map_ext; now intros [k t]).
  apply volume_targets_keys.
Qed.

Lemma iloc_last_sorted (l : list Session) :
  l <> [] -> exists last, iloc_last (sort_by_date l) = Some last /\ In last l.
Proof.
  intros Hne. unfold iloc_last.
  destruct (rev (sort_by_date l)) as [| a t] eqn:E.
  - apply (f_equal (@List.length _)) in E.
    rewrite length_rev, sort_by_date_length in E.
    destruct l; [congruence | discriminate].
  - exists a. split; [reflexivity|].
    apply (proj1 (In_sort_by_date a l)). apply in_rev. rewrite E. now left.
Qed.

End Priorities.

Section NextWorkout.

Variable Rng : Type.
Variable sample : Rng -> nat -> list ExerciseRecord -> list ExerciseRecord * Rng.
Hypothesis sample_draws : draws_without_replacement sample.

Variables (now today : datetime) (g : Rng) (workouts_df : DataFrame).
Variables (sets_df : list SetRecord) (exercises_df : list ExerciseRecord).

Lemma next_workout_no_data :
  filter (is_recent now 7) (rows workouts_df) = [] ->
  get_next_workout_recommendation Rng sample now today g workouts_df sets_df
    exercises_df
  = match _get_exercise_suggestions Rng sample exercises_df
            ["chest"; "back"; "legs"; "shoulders"]%string 2 g with
    | Some (exercises, _) =>
        Some (FullBody ["chest"; "back"; "legs"; "shoulders"]%string exercises)
    | None => None
    end.
Proof.
  intros Ef. unfold get_next_workout_recommendation, analyze_training_balance.
  cbv zeta.
  change (filter _ (rows (to_datetime_workout_date workouts_df)))
    with (filter (is_recent now 7) (rows workouts_df)).
  now rewrite Ef.
Qed.

Lemma next_workout_recent (last : Session) :
  filter (is_recent now 7) (rows workouts_df) <> [] ->
  iloc_last (sort_by_date (rows workouts_df)) = Some last ->
  get_next_workout_recommendation Rng sample now today g workouts_df sets_df
    exercises_df
  = let ws :=
      working_sets_with_muscles
        (map id (filter (is_recent now 7) (rows workouts_df))) sets_df exercises_df in
    let und :=
      undertrained_muscles
        (map (fun '(muscle, targets) => (muscle, analyze_muscle ws muscle targets))
             VOLUME_TARGETS) in
    let last_muscles := muscles_of_workout last sets_df exercises_df in
    let days := _get_days_since_trained today workouts_df sets_df exercises_df in
    let pr :=
      match high_priorities und days with
      | [] => medium_priorities days last_muscles
      | _ => high_priorities und days
      end in
    match pr with
    | [] => Some RestOrLight
    | _ =>
        match _get_exercise_suggestions Rng sample exercises_df
                (map focus_muscle (firstn 3 pr)) 2 g with
        | Some (exercises, _) =>
            Some (Targeted (firstn 3 pr) (map focus_muscle (firstn 3 pr)) exercises
                    (match last_muscles with
                     | [] => None
                     | _ => Some last_muscles
                     end))
        | None => None
        end
    end.
Proof.
  intros Hne El. unfold get_next_workout_recommendation, analyze_training_balance.
  cbv zeta.
  change (filter _ (rows (to_datetime_workout_date workouts_df)))
    with (filter (is_recent now 7) (rows workouts_df)).
  destruct (filter (is_recent now 7) (rows workouts_df)) as [| r rs]; [congruence|].
  change (rows (sort_values (to_datetime_workout_date
                               (to_datetime_workout_date workouts_df))))
    with (sort_by_date (rows workouts_df)).
  rewrite El. reflexivity.
Qed.

Lemma priority_muscles_spec :
  filter (is_recent now 7) (rows workouts_df) <> [] ->
  exists last pr,
    iloc_last (sort_by_date (rows workouts_df)) = Some last /\
    In last (rows workouts_df) /\
    get_next_workout_recommendation Rng sample now today g workouts_df sets_df
      exercises_df
    = match pr with
      | [] => Some RestOrLight
      | _ =>
          match _get_exercise_suggestions Rng sample exercises_df
                  (map focus_muscle (firstn 3 pr)) 2 g with
          | Some (exercises, _) =>
              Some (Targeted (firstn 3 pr) (map focus_muscle (firstn 3 pr)) exercises
                      (match muscles_of_workout last sets_df exercises_df with
                       | [] => None
                       | _ => Some (muscles_of_workout last sets_df exercises_df)
                       end))
          | None => None
          end
      end /\
    NoDup (map focus_muscle pr) /\
    ((pr <> [] /\
      Forall (high_focus now today workouts_df sets_df exercises_df) pr /\
      forall m, needs_work now today workouts_df sets_df exercises_df m ->
                In m (map focus_muscle pr))
     \/
     ((forall m, ~ needs_work now today workouts_df sets_df exercises_df m) /\
      forall f,
        In f pr <->
        focus_priority f = medium_priority /\
        In (focus_muscle f) (map fst VOLUME_TARGETS) /\
        focus_days_rest f
        = days_rest today workouts_df sets_df exercises_df (focus_muscle f) /\
        (recovery_days (focus_muscle f) <= focus_days_rest f)%Z /\
        ~ In (focus_muscle f) (muscles_of_workout last sets_df exercises_df))).
Proof.
  intros Hne.
  destruct (iloc_last_sorted (rows workouts_df)) as (last & El & Hlast).
  { intros E. rewrite E in Hne. now apply Hne. }
  rewrite (next_workout_recent last Hne El). cbv zeta.
  set (ws := working_sets_with_muscles _ sets_df exercises_df).
  set (und := undertrained_muscles _).
  set (days := _get_days_since_trained today workouts_df sets_df exercises_df).
  set (last_muscles := muscles_of_workout last sets_df exercises_df).
  assert (Hhigh : forall m,
             needs_work now today workouts_df sets_df exercises_df m <->
             In (mkFocus m high_priority (dict_get days m 999%Z))
                (high_priorities und days)).
  { intros m. rewrite In_high_priorities. cbn [focus_muscle].
    subst und. rewrite In_undertrained_muscles. unfold needs_work.
    change (dict_get days m 999%Z)
      with (days_rest today workouts_df sets_df exercises_df m).
    change (Z.of_nat (List.length (filter (fun '(_, g0) => String.eqb g0 m) ws)))
      with (recent_working_sets now workouts_df sets_df exercises_df 7 m).
    split.
    - intros (t & Hin & Hlt & Hle). split; [now exists t|]. now split.
    - intros ((t & Hin & Hlt) & _ & Hle). now exists t. }
  exists last.
  exists (match high_priorities und days with
          | [] => medium_priorities days last_muscles
          | _ => high_priorities und days
          end).
  split; [exact El|]. split; [exact Hlast|]. split; [reflexivity|].
  destruct (high_priorities und days) as [| f0 high] eqn:Eh.
  - split.
    { apply medium_priorities_muscles. subst days.
      rewrite days_since_trained_keys. apply volume_targets_keys. }
    right. split.
    + intros m Hm. apply (proj1 (Hhigh _)) in Hm. contradiction.
    + intros f. rewrite In_medium_priorities. subst days.
      rewrite In_days_since_trained. tauto.
  - rewrite <- Eh in Hhigh |- *. split.
    { rewrite high_priorities_muscles. apply NoDup_filter. subst und.
      apply undertrained_muscles_distinct. }
    left. split; [rewrite Eh; discriminate|]. split.
    + apply Forall_forall. intros f Hf.
      pose proof Hf as Hf'. apply In_high_priorities in Hf' as (_ & Ef & _).
      rewrite Ef in Hf. apply (proj2 (Hhigh _)) in Hf.
      unfold high_focus. rewrite Ef at 1 2. cbn [focus_priority focus_days_rest].
      split; [reflexivity|]. split; [reflexivity | exact Hf].
    + intros m Hm. apply (proj1 (Hhigh _)) in Hm.
      now apply (in_map focus_muscle) in Hm.
Qed.

Lemma days_rest_cases (m : string) :
  In m (map fst VOLUME_TARGETS) ->
  on_record workouts_df sets_df exercises_df m \/
  days_rest today workouts_df sets_df exercises_df m = 999%Z.
Proof.
  intros Hin. rewrite days_rest_eq by assumption.
  destruct (filter _ (merged_dates (rows workouts_df) sets_df exercises_df))
    as [| [d g0] l] eqn:E; [now right | left].
  exists d.
  assert (H : In (d, g0) ((d, g0) :: l)) by now left.
  rewrite <- E in H. apply filter_In in H as (H & Eg).
  apply String.eqb_eq in Eg. now subst g0.
Qed.

Lemma never_trained_needs_work (m : string) :
  In m (map fst VOLUME_TARGETS) ->
  ~ on_record workouts_df sets_df exercises_df m ->
  needs_work now today workouts_df sets_df exercises_df m.
Proof.
  intros Hin Hn. apply in_map_iff in Hin as ([k t] & E & Hin).
  cbn [fst] in E. subst k. exists t. split; [assumption|].
  rewrite recent_working_sets_never by assumption.
  rewrite days_rest_never
    by (assumption || (apply in_map_iff; now exists (m, t))).
  pose proof (volume_targets_min m t Hin).
  pose proof (recovery_days_bounds m). lia.
Qed.

(** When [sample] draws without replacement, the recommender answers
    for every input, and its answer is full_body, for chest, back, legs and
    shoulders, exactly when the frame has no workout dated within the last
    seven days. *)
Theorem next_workout_always_answers :
  exists r,
    get_next_workout_recommendation Rng sample now today g workouts_df sets_df
      exercises_df = Some r /\
    match r with
    | FullBody suggested _ =>
        filter (is_recent now 7) (rows workouts_df) = [] /\
        suggested = ["chest"; "back"; "legs"; "shoulders"]%string
    | _ => filter (is_recent now 7) (rows workouts_df) <> []
    end.
Proof.
  destruct (filter (is_recent now 7) (rows workouts_df)) as [| r rs] eqn:Ef.
  - rewrite (next_workout_no_data Ef).
    destruct (suggestions_blocks Rng sample sample_draws exercises_df
                ["chest"; "back"; "legs"; "shoulders"]%string 2 g)
      as (blocks & g' & E & _).
    rewrite E. eexists. split; [reflexivity|]. now split.
  - assert (Hne : filter (is_recent now 7) (rows workouts_df) <> [])
      by (rewrite Ef; discriminate).
    destruct (priority_muscles_spec Hne) as (last & pr & _ & _ & E & _).
    rewrite E. destruct pr as [| f0 pr].
    + exists RestOrLight. split; [reflexivity | discriminate].
    + destruct (suggestions_blocks Rng sample sample_draws exercises_df
                  (map focus_muscle (firstn 3 (f0 :: pr))) 2 g)
        as (blocks & g' & E' & _).
      rewrite E'. eexists. split; [reflexivity | discriminate].
Qed.

(** A targeted recommendation names one to three distinct focus muscle
    groups, suggests exercises of the catalogue for exactly those groups, and
    its focus entries are either all of high priority (below the minimum of
    working sets of the last seven days and rested for the recovery days) or
    all of medium priority (rested for the recovery days and not in the avoid
    list), the latter only when no muscle group qualifies for high
    priority. *)
Theorem targeted_focus_muscles (focus : list Focus) (suggested : list string)
    (exercises : list Suggestion) (avoid : option (list string)) :
  get_next_workout_recommendation Rng sample now today g workouts_df sets_df
    exercises_df = Some (Targeted focus suggested exercises avoid) ->
  (1 <= List.length focus <= 3)%nat /\
  suggested = map focus_muscle focus /\
  NoDup suggested /\
  Forall (fun s => In (sg_muscle_group s) suggested
                   /\ from_catalogue exercises_df s) exercises /\
  (Forall (high_focus now today workouts_df sets_df exercises_df) focus \/
   Forall (medium_focus today workouts_df sets_df exercises_df avoid) focus /\
   forall m, ~ needs_work now today workouts_df sets_df exercises_df m).
Proof.
  intros H.
  destruct (filter (is_recent now 7) (rows workouts_df)) as [| r rs] eqn:Ef.
  { rewrite (next_workout_no_data Ef) in H.
    destruct (_get_exercise_suggestions Rng sample exercises_df _ 2 g)
      as [[ex g']|]; discriminate. }
  assert (Hne : filter (is_recent now 7) (rows workouts_df) <> [])
    by (rewrite Ef; discriminate).
  destruct (priority_muscles_spec Hne)
    as (last & pr & El & Hlast & E & Hnd & Hcases).
  rewrite E in H. destruct pr as [| f0 pr']; [discriminate|].
  remember (firstn 3 (f0 :: pr')) as fc eqn:Efc in *.
  destruct (suggestions_listed Rng sample sample_draws exercises_df
              (map focus_muscle fc) 2 g)
    as (sugs & g' & Es & Hs).
  rewrite Es in H. injection H as <- <- <- <-.
  split; [rewrite Efc, length_firstn; cbn [List.length]; lia|].
  split; [reflexivity|].
  split; [rewrite Efc, <- firstn_map; now apply NoDup_firstn|].
  split; [exact Hs|].
  destruct Hcases as [(_ & Hhigh & _) | (Hnone & Hmed)].
  - left. apply Forall_forall. intros f Hf. rewrite Efc in Hf.
    apply In_firstn_In in Hf. revert f Hf. now apply Forall_forall.
  - right. split; [| exact Hnone].
    apply Forall_forall. intros f Hf. rewrite Efc in Hf.
    apply In_firstn_In in Hf.
    apply (proj1 (Hmed f)) in Hf as (Hp & Hk & Hd & Hle & Hnin).
    unfold medium_focus. repeat (split; [assumption|]).
    intros last_muscles Hl.
    destruct (muscles_of_workout last sets_df exercises_df); [discriminate|].
    now injection Hl as <-.
Qed.

(** When no two workouts share a date, the recommender answers
    rest_or_light only when every one of the six muscle groups has a set on
    record and either was trained less than its recovery days ago, or was
    trained in the most recent workout and reached its minimum of working
    sets in the last seven days. *)
Theorem rest_or_light_means_trained :
  NoDup (dates workouts_df) ->
  get_next_workout_recommendation Rng sample now today g workouts_df sets_df
    exercises_df = Some RestOrLight ->
  forall m t, In (m, t) VOLUME_TARGETS ->
    on_record workouts_df sets_df exercises_df m /\
    ((days_rest today workouts_df sets_df exercises_df m < recovery_days m)%Z \/
     (t_min t <= recent_working_sets now workouts_df sets_df exercises_df 7 m)%Z /\
     exists last,
       iloc_last (sort_by_date (rows workouts_df)) = Some last /\
       In m (muscles_of_workout last sets_df exercises_df)).
Proof.
  intros Hdistinct H m t Hin.
  assert (Hk : In m (map fst VOLUME_TARGETS))
    by (apply in_map_iff; now exists (m, t)).
  destruct (filter (is_recent now 7) (rows workouts_df)) as [| r rs] eqn:Ef.
  { rewrite (next_workout_no_data Ef) in H.
    destruct (_get_exercise_suggestions Rng sample exercises_df _ 2 g)
      as [[ex g']|]; discriminate. }
  assert (Hne : filter (is_recent now 7) (rows workouts_df) <> [])
    by (rewrite Ef; discriminate).
  destruct (priority_muscles_spec Hne)
    as (last & pr & El & Hlast & E & _ & Hcases).
  rewrite E in H. destruct pr as [| f0 pr'].
  2:{ destruct (_get_exercise_suggestions Rng sample exercises_df _ 2 g)
        as [[ex g']|]; discriminate. }
  destruct Hcases as [(Hpr & _) | (Hnone & Hmed)]; [congruence|].
  destruct (Z_lt_le_dec (days_rest today workouts_df sets_df exercises_df m)
                        (recovery_days m)) as [Hlt | Hle].
  - split; [| now left].
    destruct (days_rest_cases m Hk) as [Hon | E9]; [assumption|].
    pose proof (recovery_days_bounds m). lia.
  - destruct (in_dec string_dec m (muscles_of_workout last sets_df exercises_df))
      as [Hm | Hm].
    + split; [now apply (muscles_of_workout_on_record workouts_df _ _ last)|].
      right. split; [| now exists last].
      destruct (Z_lt_le_dec
                  (recent_working_sets now workouts_df sets_df exercises_df 7 m)
                  (t_min t)) as [Hu | Hu]; [| assumption].
      exfalso. apply (Hnone m). now exists t.
    + exfalso.
      apply (proj2 (Hmed (mkFocus m medium_priority
                            (days_rest today workouts_df sets_df exercises_df m)))).
      cbn [focus_muscle focus_priority focus_days_rest]. now repeat split.
Qed.

(** With a workout in the last seven days, a muscle group that is
    below its minimum of working sets and has rested for its recovery days
    (in particular one of the six groups that has no set on record at all)
    makes the recommendation targeted with high-priority focus entries only,
    and the group is among the suggested ones unless three groups are. *)
Theorem muscle_needing_work_is_targeted (m : string) :
  filter (is_recent now 7) (rows workouts_df) <> [] ->
  needs_work now today workouts_df sets_df exercises_df m \/
  (In m (map fst VOLUME_TARGETS) /\ ~ on_record workouts_df sets_df exercises_df m) ->
  exists focus suggested exercises avoid,
    get_next_workout_recommendation Rng sample now today g workouts_df sets_df
      exercises_df = Some (Targeted focus suggested exercises avoid) /\
    Forall (high_focus now today workouts_df sets_df exercises_df) focus /\
    (In m suggested \/ List.length focus = 3%nat).
Proof.
  intros Hne Hm.
  assert (Hnw : needs_work now today workouts_df sets_df exercises_df m).
  { destruct Hm as [Hm | (Hk & Hn)]; [assumption|].
    now apply never_trained_needs_work. }
  destruct (priority_muscles_spec Hne)
    as (last & pr & _ & _ & E & _ & Hcases).
  destruct Hcases as [(Hpr & Hhigh & Hall) | (Hnone & _)];
    [| now destruct (Hnone m)].
  destruct pr as [| f0 pr']; [congruence|].
  destruct (suggestions_blocks Rng sample sample_draws exercises_df
              (map focus_muscle (firstn 3 (f0 :: pr'))) 2 g)
    as (blocks & g' & Es & _).
  rewrite Es in E.
  eexists _, _, _, _. split; [exact E|]. split.
  - apply Forall_forall. intros f Hf. apply In_firstn_In in Hf.
    revert f Hf. now apply Forall_forall.
  - rewrite <- firstn_map.
    destruct (In_firstn_or_full 3 (map focus_muscle (f0 :: pr')) m (Hall m Hnw))
      as [Hin | Hlen]; [now left | right].
    now rewrite firstn_map, length_map in Hlen.
Qed.

End NextWorkout.

Lemma next_workout_always_answers_witness :
  exists r,
    get_next_workout_recommendation unit first_rows saturday_morning
      saturday_morning tt week_of_workouts sets_without_core catalogue = Some r /\
    match r with
    | FullBody suggested _ =>
        filter (is_recent saturday_morning 7) (rows week_of_workouts) = [] /\
        suggested = ["chest"; "back"; "legs"; "shoulders"]%string
    | _ => filter (is_recent saturday_morning 7) (rows week_of_workouts) <> []
    end.
Proof.
  exact (next_workout_always_answers unit first_rows first_rows_draws
           saturday_morning saturday_morning tt week_of_workouts
           sets_without_core catalogue).
Defined.

Lemma targeted_focus_muscles_witness :
  (1 <= List.length [ mkFocus "arms" high_priority 1;
                      mkFocus "core" high_priority 999 ] <= 3)%nat /\
  ["arms"; "core"]%string
  = map focus_muscle [ mkFocus "arms" high_priority 1;
                       mkFocus "core" high_priority 999 ] /\
  NoDup ["arms"; "core"]%string /\
  Forall (fun s => In (sg_muscle_group s) ["arms"; "core"]%string
                   /\ from_catalogue catalogue s)
         [ mkSuggestion 6 "Barbell Curl" "arms" false;
           mkSuggestion 7 "Plank" "core" false ] /\
  (Forall (high_focus saturday_morning saturday_morning week_of_workouts
             sets_without_core catalogue)
          [ mkFocus "arms" high_priority 1; mkFocus "core" high_priority 999 ] \/
   Forall (medium_focus saturday_morning week_of_workouts sets_without_core
             catalogue
             (Some ["chest"; "back"; "legs"; "shoulders"; "arms"]%string))
          [ mkFocus "arms" high_priority 1; mkFocus "core" high_priority 999 ] /\
   forall m, ~ needs_work saturday_morning saturday_morning week_of_workouts
                 sets_without_core catalogue m).
Proof.
  apply (targeted_focus_muscles unit first_rows first_rows_draws
           saturday_morning saturday_morning tt week_of_workouts
           sets_without_core catalogue).
  reflexivity.
Defined.

Lemma week_of_workouts_distinct_dates : NoDup (dates week_of_workouts).
Proof.
  vm_compute. repeat (constructor; [cbn; intuition discriminate|]). constructor.
Qed.

Lemma rest_or_light_means_trained_witness :
  on_record week_of_workouts sets_of_every_group catalogue "core" /\
  ((days_rest friday_evening week_of_workouts sets_of_every_group catalogue "core"
    < recovery_days "core")%Z \/
   (t_min (mkTargets 4 12 8)
    <= recent_working_sets friday_evening week_of_workouts
         sets_of_every_group catalogue 7 "core")%Z /\
   exists last,
     iloc_last (sort_by_date (rows week_of_workouts)) = Some last /\
     In "core"%string (muscles_of_workout last sets_of_every_group catalogue)).
Proof.
  apply (rest_or_light_means_trained unit first_rows friday_evening
           friday_evening tt week_of_workouts sets_of_every_group catalogue).
  - exact week_of_workouts_distinct_dates.
  - reflexivity.
  - cbn. tauto.
Defined.

Lemma muscle_needing_work_is_targeted_witness :
  exists focus suggested exercises avoid,
    get_next_workout_recommendation unit first_rows saturday_morning
      saturday_morning tt week_of_workouts sets_without_core catalogue
    = Some (Targeted focus suggested exercises avoid) /\
    Forall (high_focus saturday_morning saturday_morning week_of_workouts
              sets_without_core catalogue) focus /\
    (In "core"%string suggested \/ List.length focus = 3%nat).
Proof.
  apply (muscle_needing_work_is_targeted unit first_rows first_rows_draws
           saturday_morning saturday_morning tt week_of_workouts
           sets_without_core catalogue "core").
  - now vm_compute.
  - left. exists (mkTargets 4 12 8). split; [cbn; tauto|].
    split; now vm_compute.
Defined.

(** * The 1RM calculator route *)

Section Calculator.

Lemma round_half_even_mono (x y : R) :
  x <= y -> (round_half_even x <= round_half_even y)%Z.
Proof.
  intros Hxy. pose proof (Zfloor_bound x) as [Hxl Hxu].
  destruct (Rle_lt_dec (IZR (Zfloor x) + 1) y) as [Hy | Hy].
  - assert (H1 : (Zfloor x + 1 <= round_half_even y)%Z)
      by (apply round_half_even_lower; rewrite plus_IZR; exact Hy).
    destruct (round_half_even_cases x) as [-> | [-> _]]; lia.
  - assert (Ef : Zfloor y = Zfloor x).
    { apply Zfloor_eq. lra. }
    unfold round_half_even. rewrite Ef.
    destruct (Rltb (x - IZR (Zfloor x)) (1 / 2)) eqn:E1.
    + repeat match goal with
             | |- context [if ?b then _ else _] => destruct b
             end; lia.
    + apply Rltb_false in E1.
      destruct (Rltb (y - IZR (Zfloor x)) (1 / 2)) eqn:E2;
        [apply Rltb_true in E2; lra|].
      destruct (Rltb (1 / 2) (x - IZR (Zfloor x))) eqn:E3.
      * apply Rltb_true in E3.
        replace (Rltb (1 / 2) (y - IZR (Zfloor x))) with true
          by (symmetry; apply Rltb_true; lra).
        lia.
      * destruct (Rltb (1 / 2) (y - IZR (Zfloor x))); destruct (Z.even (Zfloor x)); lia.
Qed.

(** Rounding to one decimal, on reals. *)
Lemma round_1_mono (x y : R) :
  x <= y ->
  IZR (round_half_even (x * 10 ^ 1)) / 10 ^ 1 <= IZR (round_half_even (y * 10 ^ 1)) / 10 ^ 1.
Proof.
  intros H.
  assert (Hm : (round_half_even (x * 10 ^ 1) <= round_half_even (y * 10 ^ 1))%Z)
    by (apply round_half_even_mono; simpl; lra).
  apply IZR_le in Hm. simpl in Hm |- *. lra.
Qed.


Lemma rounded_formula_above (w c : R) :
  0 < w -> 1 < c ->
  exists x, pyround_nd (fmul (Fin w) (Fin c)) 1 = Fin x /\
            IZR (round_half_even (w * 10 ^ 1)) / 10 ^ 1 <= x.
Proof.
  intros Hw Hc. cbn [fmul pyround_nd]. eexists. split; [reflexivity|].
  apply round_1_mono. nra.
Qed.



End Calculator.

